(** * ele778: a feed-forward network and an LVQ classifier

    A shallow embedding of [network.py] and [lvq.py].

    Numbers.  The Python code computes with numpy arrays of floats.  The
    embedding is parametric in the arithmetic: a [Scalar] packs the carrier
    and the operations the code uses, so that every definition below runs
    both on binary64 floats ([Float64], what the program computes with) and
    on the integers ([ZScalar], an exact ring).  No algebraic law is
    assumed of the arithmetic: sums and products are stated with the
    operations of the [Scalar], in the order the code applies them.  Facts
    about the position of a minimum take the laws of the comparisons as a
    hypothesis ([OrderLaws]); these laws are proved for binary64, NaN
    included, and for the integers.

    numpy.  The code is Python 2, and the arrays behave as those of numpy
    before 1.24: [np.array] of arrays of different shapes gives an array of
    objects, or raises (see [pack]).  Shapes that numpy would broadcast are
    outside the model: an elementwise operation on arrays of different
    shapes is reported as a [ValueError].  [np.dot] accumulates from 0.0,
    left to right; an optimized BLAS may fuse or reorder the additions, and
    the last bit of a sum of more than one product is not claimed.

    Errors.  Python exceptions are values of [exn]; fallible code lives in
    the [result] monad.

    Missing modules.  [lib.activation], [lib.cost], [lib.regularization],
    [lib.lvq.distance], [lib.lvq.weight_init] and the random generators are
    not part of the sources; the strategy objects and constructors they
    provide are parameters of the model. *)

From Stdlib Require Import String ZArith Bool Lia Arith List.
From Stdlib Require Import Floats.PrimFloat Uint63.
From Stdlib Require Floats.SpecFloat Floats.FloatOps Floats.FloatAxioms.
From Stdlib Require Import Permutation.
Import ListNotations.

Set Implicit Arguments.
Set Warnings "-inexact-float".
Local Open Scope string_scope.
Local Open Scope list_scope.
Local Open Scope Z_scope.

(** ** Exceptions and the error monad *)

Inductive exn : Type :=
| Exception (msg : string)
| TypeError
| ValueError
| IndexError
| KeyError (key : string)
| IOError
| UnboundLocalError
| ZeroDivisionError
| OverflowError.

Inductive result (A : Type) : Type :=
| Ok (a : A)
| Raise (e : exn).

Arguments Ok {A} a.
Arguments Raise {A} e.

Definition bind {A B : Type} (c : result A) (k : A -> result B) : result B :=
  match c with
  | Ok a => k a
  | Raise e => Raise e
  end.

Notation "x <- c ;; k" := (bind c (fun x => k))
  (at level 61, c at next level, right associativity).
Notation "' p <- c ;; k" := (bind c (fun x => let p := x in k))
  (at level 61, p pattern, c at next level, right associativity).

(** ** Scalars *)

Record Scalar : Type := {
  num :> Type;
  of_Z : Z -> num;              (* a Python int used in float arithmetic *)
  add : num -> num -> num;
  sub : num -> num -> num;
  mul : num -> num -> num;
  div : num -> num -> num;
  opp : num -> num;
  sqrt : num -> num;
  ltb : num -> num -> bool;
  leb : num -> num -> bool;
  eqb : num -> num -> bool;
  one_percent : num              (* the literal 0.01 *)
}.

(** [isnan(x)]: a NaN is the one value that does not equal itself. *)
Definition is_nan (K : Scalar) (x : K) : bool := negb (eqb K x x).

(** The laws of the comparisons that the position of a minimum rests on.
    They hold for binary64 with its NaN ([Float64_order]) and for the
    integers ([ZScalar_order]). *)
Record OrderLaws (K : Scalar) : Prop := {
  leb_refl : forall x : K, is_nan K x = false -> leb K x x = true;
  leb_nan : forall x y : K,
      is_nan K x = true \/ is_nan K y = true -> leb K x y = false;
  not_leb : forall x y : K,
      is_nan K x = false -> is_nan K y = false ->
      leb K x y = false -> ltb K y x = true;
  ltb_leb : forall x y : K, ltb K x y = true -> leb K x y = true;
  ltb_leb_trans : forall x y z : K,
      ltb K x y = true -> leb K y z = true -> ltb K x z = true;
  ltb_not_leb : forall x y : K, ltb K x y = true -> leb K y x = false
}.

(** binary64, the arithmetic of the program *)
Definition float_of_Z (z : Z) : float :=
  match z with
  | Z0 => PrimFloat.of_uint63 0%uint63
  | Zpos _ => PrimFloat.of_uint63 (Uint63.of_Z z)
  | Zneg p => PrimFloat.opp (PrimFloat.of_uint63 (Uint63.of_Z (Zpos p)))
  end.

Definition Float64 : Scalar := {|
  num := float;
  of_Z := float_of_Z;
  add := PrimFloat.add;
  sub := PrimFloat.sub;
  mul := PrimFloat.mul;
  div := PrimFloat.div;
  opp := PrimFloat.opp;
  sqrt := PrimFloat.sqrt;
  ltb := PrimFloat.ltb;
  leb := PrimFloat.leb;
  eqb := PrimFloat.eqb;
  one_percent := 0x1.47ae147ae147bp-7%float
|}.

(** The comparison of binary64 values orders their keys: the sign class,
    then exponent and mantissa, reversed for negative numbers.  The two
    zeros share a key. *)
Definition sf_key (s : SpecFloat.spec_float) : Z * Z * Z :=
  match s with
  | SpecFloat.S754_zero _ => (0, 0, 0)
  | SpecFloat.S754_infinity false => (2, 0, 0)
  | SpecFloat.S754_infinity true => (-2, 0, 0)
  | SpecFloat.S754_nan => (0, 0, 0)
  | SpecFloat.S754_finite false m e => (1, e, Zpos m)
  | SpecFloat.S754_finite true m e => (-1, - e, Zneg m)
  end.

Definition key_lt (a b : Z * Z * Z) : Prop :=
  fst (fst a) < fst (fst b) \/
  (fst (fst a) = fst (fst b) /\
   (snd (fst a) < snd (fst b) \/
    (snd (fst a) = snd (fst b) /\ snd a < snd b))).

(** the integers, an exact ring *)
Definition ZScalar : Scalar := {|
  num := Z;
  of_Z := fun z => z;
  add := Z.add;
  sub := Z.sub;
  mul := Z.mul;
  div := Z.div;
  opp := Z.opp;
  sqrt := Z.sqrt;
  ltb := Z.ltb;
  leb := Z.leb;
  eqb := Z.eqb;
  one_percent := 0
|}.

(** ** Python and numpy helpers *)

Section Lists.
Variable A : Type.

(** [l[i]] for a Python index: negative indices count from the end. *)
Definition py_index (n : nat) (i : Z) : result nat :=
  if 0 <=? i then
    if i <? Z.of_nat n then Ok (Z.to_nat i) else Raise IndexError
  else
    if - Z.of_nat n <=? i then Ok (Z.to_nat (Z.of_nat n + i))
    else Raise IndexError.

Definition getitem (l : list A) (i : Z) : result A :=
  k <- py_index (length l) i ;;
  match nth_error l k with
  | Some a => Ok a
  | None => Raise IndexError
  end.

Fixpoint update_nth (l : list A) (k : nat) (v : A) : list A :=
  match l, k with
  | [], _ => []
  | _ :: t, O => v :: t
  | a :: t, S k' => a :: update_nth t k' v
  end.

(** [l[i] = v] *)
Definition setitem (l : list A) (i : Z) (v : A) : result (list A) :=
  k <- py_index (length l) i ;;
  Ok (update_nth l k v).
End Lists.

(** An index of a numpy array is converted to a 64-bit C integer before
    any bound is checked: one that does not fit is refused with
    [OverflowError].  An array has fewer than 2^63 entries along an axis, so
    an index in range always fits. *)
Definition fits_intp (i : Z) : bool := (- 2 ^ 63 <=? i) && (i <? 2 ^ 63).

Definition np_index (n : nat) (i : Z) : result nat :=
  match py_index n i with
  | Ok k => Ok k
  | Raise _ => if fits_intp i then Raise IndexError else Raise OverflowError
  end.

(** [a % b] for a numpy integer [a]: the sign follows the divisor, and a zero
    divisor gives zero (with a warning) instead of raising. *)
Definition np_mod (a b : Z) : Z := if b =? 0 then 0 else a mod b.

Section Argmin.
Variable K : Scalar.

(** numpy's scan for the position of the minimum: [best] sits at [best_i],
    the next element to look at has index [i].  An element [d] replaces the
    current best unless [d >= best]; so a tie keeps the earlier position,
    and a NaN, for which no comparison holds, replaces the best and ends
    the scan. *)
Fixpoint argmin_scan (best_i : nat) (best : K) (i : nat) (l : list K) : nat :=
  match l with
  | [] => best_i
  | d :: t =>
      if leb K best d then argmin_scan best_i best (S i) t
      else if is_nan K d then i
      else argmin_scan i d (S i) t
  end.

(** [np.argmin(d)]: raises on an empty sequence; a NaN in front is the
    answer at once. *)
Definition np_argmin (d : list K) : result nat :=
  match d with
  | [] => Raise ValueError
  | d0 :: t => if is_nan K d0 then Ok 0%nat else Ok (argmin_scan 0 d0 1 t)
  end.

(** What [np.argmin] is documented to find in the values [f w] of the
    items [w] of [ws]: position [k] holds the first NaN if there is one, and
    otherwise the first of the least values. *)
Definition first_argmin (A : Type) (f : A -> K) (ws : list A) (k : nat) : Prop :=
  exists w, nth_error ws k = Some w /\
    if is_nan K (f w)
    then forall j wj, (j < k)%nat -> nth_error ws j = Some wj ->
           is_nan K (f wj) = false
    else (forall j wj, nth_error ws j = Some wj -> leb K (f w) (f wj) = true) /\
         (forall j wj, (j < k)%nat -> nth_error ws j = Some wj ->
            ltb K (f w) (f wj) = true).
End Argmin.

(** ** lvq.py *)

Module Lvq.
Section LVQ.
Variable K : Scalar.

(** a one-dimensional numpy array *)
Definition vec : Type := list K.

(** [x - w] and [w + u] on arrays of the same length. Broadcasting of a
    length-one operand is not modelled: every length mismatch raises. *)
Fixpoint zip_with (f : K -> K -> K) (u v : vec) : result vec :=
  match u, v with
  | [], [] => Ok []
  | a :: u', b :: v' => r <- zip_with f u' v' ;; Ok (f a b :: r)
  | _, _ => Raise ValueError
  end.

Definition vsub : vec -> vec -> result vec := zip_with (sub K).
Definition vadd : vec -> vec -> result vec := zip_with (add K).
Definition vscale (c : K) (v : vec) : vec := map (mul K c) v.

(** a training or evaluation example: features and integer class *)
Definition example : Type := (vec * Z)%type.

(** The strategy objects of [lib.lvq]: callables carrying their name. *)
Record DistanceFunction : Type := {
  dist_type : string;
  dist_call : vec -> vec -> K
}.

Record WeightInitFunction : Type := {
  winit_type : string;
  winit_call : Z -> Z -> Z -> list example -> result (list vec)
}.

(** [DistanceFunction(func=...)] and [WeightInitFunction(func=...)] *)
Variable new_DistanceFunction : string -> result DistanceFunction.
Variable new_WeightInitFunction : string -> result WeightInitFunction.

(** The attributes the methods compute with.  [learn_time], the running
    time that [train] stores (lines 63 and 96) and no method reads, is not
    among them. *)
Record LVQ : Type := {
  input_size : Z;
  output_size : Z;
  ppc : Z;
  distance : DistanceFunction;
  weight_init : WeightInitFunction;
  weights : option (list vec);      (* [None] until the first [train] *)
  verbose : Z;
  init : bool
}.

Definition set_weights (m : LVQ) (ws : list vec) : LVQ :=
  {| input_size := input_size m; output_size := output_size m;
     ppc := ppc m; distance := distance m; weight_init := weight_init m;
     weights := Some ws; verbose := verbose m; init := init m |}.

Definition set_init (m : LVQ) (b : bool) : LVQ :=
  {| input_size := input_size m; output_size := output_size m;
     ppc := ppc m; distance := distance m; weight_init := weight_init m;
     weights := weights m; verbose := verbose m; init := b |}.

(** [LVQ.__init__] *)
Definition LVQ_init (input_size output_size prototypes_per_class : Z)
    (dist_function init_function : string) (verbose : Z) : result LVQ :=
  d <- new_DistanceFunction dist_function ;;
  w <- new_WeightInitFunction init_function ;;
  Ok {| input_size := input_size; output_size := output_size;
        ppc := prototypes_per_class; distance := d; weight_init := w;
        weights := None; verbose := verbose; init := false |}.

(** [for w in self.weights]: iterating over [None] is a [TypeError]. *)
Definition iter_weights (m : LVQ) : result (list vec) :=
  match weights m with
  | Some ws => Ok ws
  | None => Raise TypeError
  end.

(** the list [d] of distances from [x] to every prototype *)
Definition distances (m : LVQ) (ws : list vec) (x : vec) : list K :=
  map (fun w => dist_call (distance m) x w) ws.

(** [LVQ.feedforward] *)
Definition feedforward (m : LVQ) (x : vec) : result Z :=
  ws <- iter_weights m ;;
  bmu <- np_argmin K (distances m ws x) ;;
  Ok (np_mod (Z.of_nat bmu) (output_size m)).

(** [np.zeros(shape=(dim, dim))], cells counted in [Z] *)
Definition np_zeros (dim : Z) : result (list (list Z)) :=
  if dim <? 0 then Raise ValueError
  else Ok (repeat (repeat 0 (Z.to_nat dim)) (Z.to_nat dim)).

(** [mat[y][a] += 1.0], on the numpy array [mat] *)
Definition incr_cell (mat : list (list Z)) (y a : Z) : result (list (list Z)) :=
  r <- np_index (length mat) y ;;
  match nth_error mat r with
  | None => Raise IndexError
  | Some row =>
      c <- np_index (length row) a ;;
      match nth_error row c with
      | None => Raise IndexError
      | Some n => Ok (update_nth mat r (update_nth row c (n + 1)))
      end
  end.

Fixpoint confusion_loop (m : LVQ) (mat : list (list Z)) (data : list example)
  : result (list (list Z)) :=
  match data with
  | [] => Ok mat
  | (x, y) :: rest =>
      a <- feedforward m x ;;
      mat' <- incr_cell mat y a ;;
      confusion_loop m mat' rest
  end.

(** [LVQ.get_confusion] *)
Definition get_confusion (m : LVQ) (data : list example) : result (list (list Z)) :=
  mat <- np_zeros (output_size m) ;;
  confusion_loop m mat data.

Fixpoint accuracy_loop (m : LVQ) (count : Z) (data : list example) : result Z :=
  match data with
  | [] => Ok count
  | (x, y) :: rest =>
      a <- feedforward m x ;;
      accuracy_loop m (if a =? y then count + 1 else count) rest
  end.

(** [LVQ.eval_accuracy]: the number of correctly classified examples *)
Definition eval_accuracy (m : LVQ) (data : list example) : result Z :=
  accuracy_loop m 0 data.

(** [LVQ.eval_error_rate]: [1.0 - float(count) / len(data)] *)
Definition eval_error_rate (m : LVQ) (data : list example) : result K :=
  count <- eval_accuracy m data ;;
  match data with
  | [] => Raise ZeroDivisionError
  | _ => Ok (sub K (of_Z K 1)
               (div K (of_Z K count) (of_Z K (Z.of_nat (length data)))))
  end.

(** One pass of the body of [for x, y in tr_d] in [LVQ.train]; returns the
    model and the sign [s] of the update. *)
Definition train_example (m : LVQ) (eta : K) (ex : example) : result (LVQ * Z) :=
  let '(x, y) := ex in
  ws <- iter_weights m ;;
  bmu <- np_argmin K (distances m ws x) ;;
  let s := if np_mod (Z.of_nat bmu) (output_size m) =? y then 1 else -1 in
  match nth_error ws bmu with
  | None => Raise IndexError
  | Some w =>
      dx <- vsub x w ;;
      w' <- vadd w (vscale (mul K (of_Z K s) eta) dx) ;;
      Ok (set_weights m (update_nth ws bmu w'), s)
  end.

(** [for x, y in tr_d: ...]; [s] keeps its last value across the loop. *)
Fixpoint train_sweep (m : LVQ) (eta : K) (s : option Z) (tr_d : list example)
  : result (LVQ * option Z) :=
  match tr_d with
  | [] => Ok (m, s)
  | ex :: rest =>
      '(m', s') <- train_example m eta ex ;;
      train_sweep m' eta (Some s') rest
  end.

(** [eta / (1 + s * eta) if eta < 1 else 1] *)
Definition decay (eta : K) (s : option Z) : result K :=
  if ltb K eta (of_Z K 1) then
    match s with
    | None => Raise UnboundLocalError
    | Some s =>
        let d := add K (of_Z K 1) (mul K (of_Z K s) eta) in
        if eqb K d (of_Z K 0) then Raise ZeroDivisionError
        else Ok (div K eta d)
    end
  else Ok (of_Z K 1).

(** [if va_d:] holds for a non-empty list only. *)
Definition truthy (va_d : option (list example)) : option (list example) :=
  match va_d with
  | Some (_ :: _) => va_d
  | _ => None
  end.

(** The epoch loop of [LVQ.train], [n] epochs to go.  The learning rate is
    a float throughout and what [log] is handed is not evaluated here: the
    integer the decay can leave, and the [ValueError] its report then
    raises, are in [LvqLog.train_epochs], and a run of that model that
    returns is a run of this one. *)
Fixpoint train_epochs (n : nat) (tr_d : list example) (eta_decay : bool)
    (va_d : option (list example)) (estop : bool)
    (m : LVQ) (eta : K) (s : option Z) (tr_err va_err : list K)
  : result (LVQ * (list K * list K)) :=
  match n with
  | O => Ok (m, (tr_err, va_err))
  | S n' =>
      '(m1, s1) <- train_sweep m eta s tr_d ;;
      eta1 <- (if eta_decay then decay eta s1 else Ok eta) ;;
      e <- eval_error_rate m1 tr_d ;;
      let tr_err1 := tr_err ++ [e] in
      match truthy va_d with
      | Some va =>
          ev <- eval_error_rate m1 va ;;
          let va_err1 := va_err ++ [ev] in
          if estop && ltb K ev (one_percent K)
          then Ok (m1, (tr_err1, va_err1))
          else train_epochs n' tr_d eta_decay va_d estop m1 eta1 s1 tr_err1 va_err1
      | None =>
          train_epochs n' tr_d eta_decay va_d estop m1 eta1 s1 tr_err1 va_err
      end
  end.

(** [LVQ.train] *)
Definition train (m : LVQ) (tr_d : list example) (eta : K) (epochs : Z)
    (eta_decay : bool) (va_d : option (list example)) (estop : bool)
  : result (LVQ * (list K * list K)) :=
  m0 <- (if init m then Ok m
         else
           ws <- winit_call (weight_init m) (input_size m) (output_size m)
                   (ppc m) tr_d ;;
           Ok (set_init (set_weights m ws) true)) ;;
  train_epochs (Z.to_nat epochs) tr_d eta_decay va_d estop m0 eta None [] [].

(** ** Reading a confusion matrix *)

Definition cell (mat : list (list Z)) (i j : nat) : Z := nth j (nth i mat []) 0.

Definition row_sum (mat : list (list Z)) (i : nat) : Z :=
  fold_right Z.add 0 (nth i mat []).

Definition trace (mat : list (list Z)) : Z :=
  fold_right Z.add 0 (map (fun i => cell mat i i) (seq 0 (length mat))).

(** a [dim] by [dim] matrix *)
Definition square (dim : nat) (mat : list (list Z)) : Prop :=
  length mat = dim /\ Forall (fun row => length row = dim) mat.

(** the number of examples of [data] whose true label is [c] *)
Definition count_label (data : list example) (c : Z) : Z :=
  Z.of_nat (length (filter (fun ex => snd ex =? c) data)).

(** the number of examples of [data] whose predicted class is their label *)
Definition count_correct (m : LVQ) (data : list example) : Z :=
  Z.of_nat (length (filter (fun ex =>
    match feedforward m (fst ex) with
    | Ok a => a =? snd ex
    | Raise _ => false
    end) data)).

End LVQ.
End Lvq.

(** ** network.py *)

Module Net.
Section Network.
Variable K : Scalar.

(** A two-dimensional numpy array as the list of its rows; a column vector
    of shape (n, 1) is a list of n one-element rows. *)
Definition mat : Type := list (list K).

Definition nrows (m : mat) : nat := length m.
Definition ncols (m : mat) : nat :=
  match m with
  | [] => O
  | r :: _ => length r
  end.

(** [m.transpose()] *)
Definition transpose (m : mat) : mat :=
  map (fun j => map (fun r => nth j r (of_Z K 0)) m) (seq 0 (ncols m)).

(** the sum of the products of two sequences, accumulated left to right *)
Fixpoint dot_acc (acc : K) (u v : list K) : K :=
  match u, v with
  | a :: u', b :: v' => dot_acc (add K acc (mul K a b)) u' v'
  | _, _ => acc
  end.

(** The accumulator of [np.dot] starts at 0.0, so a single product that is
    minus zero comes out as plus zero. *)
Definition dot_vec (u v : list K) : K := dot_acc (of_Z K 0) u v.

(** [np.dot(A, B)]: the row length of [A] must be the row count of [B]. *)
Definition np_dot (A B : mat) : result mat :=
  if forallb (fun r => Nat.eqb (length r) (nrows B)) A
  then Ok (map (fun r => map (fun c => dot_vec r c) (transpose B)) A)
  else Raise ValueError.

(** Elementwise operations on arrays of the same shape.  Broadcasting is
    not modelled: every shape mismatch raises. *)
Fixpoint row_zip (f : K -> K -> K) (u v : list K) : result (list K) :=
  match u, v with
  | [], [] => Ok []
  | a :: u', b :: v' => r <- row_zip f u' v' ;; Ok (f a b :: r)
  | _, _ => Raise ValueError
  end.

Fixpoint mat_zip (f : K -> K -> K) (A B : mat) : result mat :=
  match A, B with
  | [], [] => Ok []
  | r :: A', s :: B' =>
      t <- row_zip f r s ;;
      C <- mat_zip f A' B' ;;
      Ok (t :: C)
  | _, _ => Raise ValueError
  end.

Definition mat_add : mat -> mat -> result mat := mat_zip (add K).
Definition mat_sub : mat -> mat -> result mat := mat_zip (sub K).
Definition mat_mul : mat -> mat -> result mat := mat_zip (mul K).

(** [c * A] for a scalar [c] *)
Definition scale (c : K) (A : mat) : mat := map (map (mul K c)) A.

(** [np.array(l, copy=True)] on a sequence of two-dimensional arrays.
    numpy (before 1.24) reads off the longest shape prefix the arrays
    share.  When they share their whole shape the result is one dense
    array of three dimensions.  When already their row counts differ it is
    a one-dimensional array of objects, each object one of the arrays.
    When they share the row count but not the column count, numpy sets out
    to fill an array of rows and fails on the first array it copies:
    [ValueError] (could not broadcast input array).  The arrays themselves
    stay the items of the list in every case; what is kept is how they were
    packed. *)
Inductive packing : Type :=
| Dense
| Objects.

Definition same_shape (A B : mat) : bool :=
  Nat.eqb (nrows A) (nrows B) && Nat.eqb (ncols A) (ncols B).

Definition pack (l : list mat) : result packing :=
  match l with
  | [] => Ok Dense
  | m0 :: t =>
      if forallb (same_shape m0) t then Ok Dense
      else if forallb (fun m => Nat.eqb (nrows m) (nrows m0)) t
      then Raise ValueError
      else Ok Objects
  end.

(** [np.multiply(arr, 0)] on the packed arrays: every entry times 0 *)
Definition zeros_like (l : list mat) : list mat :=
  map (map (map (fun x => mul K x (of_Z K 0)))) l.

(** [arr[i] = v] on packed arrays: an array of objects takes any array as
    its item; a dense array copies [v] into the slot, which has a shape of
    its own.  (A [v] of another shape that numpy could broadcast into the
    slot is outside the model, as all broadcasting is.) *)
Definition store (p : packing) (l : list mat) (i : Z) (v : mat)
  : result (list mat) :=
  k <- py_index (length l) i ;;
  match p, nth_error l k with
  | Dense, Some slot =>
      if same_shape slot v then Ok (update_nth l k v) else Raise ValueError
  | _, _ => Ok (update_nth l k v)
  end.

(** [np.add(l1, l2)] on two per-layer sequences of arrays *)
Fixpoint layers_add (l1 l2 : list mat) : result (list mat) :=
  match l1, l2 with
  | [], [] => Ok []
  | A :: l1', B :: l2' =>
      C <- mat_add A B ;;
      r <- layers_add l1' l2' ;;
      Ok (C :: r)
  | _, _ => Raise ValueError
  end.

(** [np.argmax] of the flattened sequence: the first maximum, or the first
    NaN.  An element [d] replaces the current best unless [d <= best]. *)
Fixpoint argmax_scan (best_i : nat) (best : K) (i : nat) (l : list K) : nat :=
  match l with
  | [] => best_i
  | d :: t =>
      if leb K d best then argmax_scan best_i best (S i) t
      else if is_nan K d then i
      else argmax_scan i d (S i) t
  end.

Definition np_argmax (m : mat) : result Z :=
  match concat m with
  | [] => Raise ValueError
  | d0 :: t =>
      if is_nan K d0 then Ok 0 else Ok (Z.of_nat (argmax_scan 0 d0 1 t))
  end.

(** A label is a class index or a (one-hot) vector. *)
Inductive label : Type :=
| LInt (c : Z)
| LVec (v : mat).

Definition example : Type := (mat * label)%type.

(** The strategy objects of [lib]: callables carrying their name in
    [.type]. *)
Record ActivationFunction : Type := {
  act_type : string;
  act_call : mat -> mat;
  act_derivative : mat -> mat
}.

Record CostFunction : Type := {
  cost_type : string;
  cost_derivative : mat -> label -> mat
}.

Record RegularizationFunction : Type := {
  reg_type : string;
  reg_derivative : mat -> K -> nat -> mat
}.

(** the constructors [ActivationFunction(func=...)], [CostFunction(func=...)]
    and [RegularizationFunction(func=...)] *)
Variable new_ActivationFunction : string -> result ActivationFunction.
Variable new_CostFunction : string -> result CostFunction.
Variable new_RegularizationFunction : string -> result RegularizationFunction.

(** the state of numpy's global generator and [np.random.randn(r, c)] *)
Variable np_rng : Type.
Variable randn : np_rng -> nat -> nat -> mat * np_rng.

(** the state of Python's [random] module and [random.shuffle] *)
Variable py_rng : Type.
Variable shuffle : py_rng -> list example -> list example * py_rng.

(** The attributes the methods compute with.  [learn_time], the running
    time that [train] stores (lines 140 and 202) and no method reads, is not
    among them. *)
Record Network : Type := {
  n_layers : nat;
  struct : list nat;
  regularization : RegularizationFunction;
  activation : ActivationFunction;
  cost : CostFunction;
  eta : K;
  alpha : K;
  lambda_ : K;
  a : list mat;
  z : list mat;
  biases : list mat;
  weights : list mat
}.

Definition set_cache (n : Network) (a_list z_list : list mat) : Network :=
  {| n_layers := n_layers n; struct := struct n;
     regularization := regularization n; activation := activation n;
     cost := cost n; eta := eta n; alpha := alpha n; lambda_ := lambda_ n;
     a := a_list; z := z_list; biases := biases n; weights := weights n |}.

Definition set_params (n : Network) (bs ws : list mat) : Network :=
  {| n_layers := n_layers n; struct := struct n;
     regularization := regularization n; activation := activation n;
     cost := cost n; eta := eta n; alpha := alpha n; lambda_ := lambda_ n;
     a := a n; z := z n; biases := bs; weights := ws |}.

(** [[ np.random.randn(r, c) for (r, c) in shapes ]] *)
Fixpoint randn_list (g : np_rng) (shapes : list (nat * nat)) : list mat * np_rng :=
  match shapes with
  | [] => ([], g)
  | (r, c) :: rest =>
      let '(m, g1) := randn g r c in
      let '(ms, g2) := randn_list g1 rest in
      (m :: ms, g2)
  end.

(** [m / np.sqrt(x)] *)
Definition div_sqrt (m : mat) (x : nat) : mat :=
  map (map (fun v => div K v (sqrt K (of_Z K (Z.of_nat x))))) m.

(** [[ np.random.randn(y, x) / np.sqrt(x) for x, y in pairs ]] *)
Fixpoint randn_weights (g : np_rng) (pairs : list (nat * nat)) : list mat * np_rng :=
  match pairs with
  | [] => ([], g)
  | (x, y) :: rest =>
      let '(m, g1) := randn g y x in
      let '(ms, g2) := randn_weights g1 rest in
      (div_sqrt m x :: ms, g2)
  end.

(** The error the spec calls [IncompatibleCostActivation]: the exception
    [__init__] raises for cross-entropy next to another activation. *)
Definition IncompatibleCostActivation : exn :=
  Exception "cross-entropy can only be used with a sigmoid activation".

(** [Network.__init__] *)
Definition Network_init (struct : list nat)
    (activation cost regularization : string)
    (learning_rate momentum lambda_ : K) (g : np_rng)
  : result (Network * np_rng) :=
  if String.eqb cost "cross-entropy" && negb (String.eqb activation "sigmoid")
  then Raise (Exception "cross-entropy can only be used with a sigmoid activation")
  else
    reg <- new_RegularizationFunction regularization ;;
    act <- new_ActivationFunction activation ;;
    c <- new_CostFunction cost ;;
    let '(a0, g1) := randn_list g (map (fun layer => (layer, 1%nat)) struct) in
    let '(z0, g2) := randn_list g1 (map (fun layer => (layer, 1%nat)) struct) in
    let '(bs, g3) := randn_list g2 (map (fun y => (y, 1%nat)) (tl struct)) in
    let '(ws, g4) := randn_weights g3 (combine (removelast struct) (tl struct)) in
    Ok ({| n_layers := length struct; struct := struct;
           regularization := reg; activation := act; cost := c;
           eta := learning_rate; alpha := momentum; lambda_ := lambda_;
           a := a0; z := z0; biases := bs; weights := ws |}, g4).

(** The loop of [feedforward]: [act] is the current activation, [a_list]
    and [z_list] are built by appending. *)
Fixpoint forward_loop (f : ActivationFunction) (bw : list (mat * mat))
    (act : mat) (a_list z_list : list mat) : result (list mat * list mat) :=
  match bw with
  | [] => Ok (a_list, z_list)
  | (b, w) :: rest =>
      wa <- np_dot w act ;;
      z <- mat_add wa b ;;
      let act' := act_call f z in
      forward_loop f rest act' (a_list ++ [act']) (z_list ++ [z])
  end.

(** [Network.feedforward]: stores the cache in the instance and returns
    the last activation. *)
Definition feedforward (n : Network) (X : mat) : result (Network * mat) :=
  '(a_list, z_list) <-
     forward_loop (activation n) (combine (biases n) (weights n)) X [X] [] ;;
  let n' := set_cache n a_list z_list in
  out <- getitem (a n') (-1) ;;
  Ok (n', out).

(** [Network.__call__]: the value [feedforward] returns *)
Definition call (n : Network) (X : mat) : result mat :=
  '(_, out) <- feedforward n X ;;
  Ok out.

(** One round of the loop [for l in xrange(2, self.n_layers)] of
    [backpropagation]. *)
Definition backprop_step (n : Network) (pb pw : packing) (l : Z)
    (st : mat * list mat * list mat) : result (mat * list mat * list mat) :=
  let '(delta, nabla_bC, nabla_wC) := st in
  w <- getitem (weights n) (- l + 1) ;;
  wd <- np_dot (transpose w) delta ;;
  zl <- getitem (z n) (- l) ;;
  delta' <- mat_mul wd (act_derivative (activation n) zl) ;;
  nabla_bC' <- store pb nabla_bC (- l) delta' ;;
  al <- getitem (a n) (- l - 1) ;;
  g <- np_dot delta' (transpose al) ;;
  nabla_wC' <- store pw nabla_wC (- l) g ;;
  Ok (delta', nabla_bC', nabla_wC').

Fixpoint backprop_loop (n : Network) (pb pw : packing) (ls : list nat)
    (st : mat * list mat * list mat) : result (mat * list mat * list mat) :=
  match ls with
  | [] => Ok st
  | l :: rest =>
      st' <- backprop_step n pb pw (Z.of_nat l) st ;;
      backprop_loop n pb pw rest st'
  end.

(** [Network.backpropagation]: returns the instance (its cache is
    overwritten) and the pair [(nabla_bC, nabla_wC)]; [pb] and [pw] are the
    ways the biases and the weights were packed. *)
Definition backpropagation (n : Network) (X : mat) (y : label)
  : result (Network * (list mat * list mat)) :=
  pb <- pack (biases n) ;;
  let nabla_bC := zeros_like (biases n) in
  pw <- pack (weights n) ;;
  let nabla_wC := zeros_like (weights n) in
  '(n1, _) <- feedforward n X ;;
  a_last <- getitem (a n1) (-1) ;;
  delta <-
    (if String.eqb (cost_type (cost n1)) "cross-entropy"
     then Ok (cost_derivative (cost n1) a_last y)
     else
       let cd := cost_derivative (cost n1) a_last y in
       z_last <- getitem (z n1) (-1) ;;
       mat_mul cd (act_derivative (activation n1) z_last)) ;;
  nabla_bC1 <- store pb nabla_bC (-1) delta ;;
  a_prev <- getitem (a n1) (-2) ;;
  g <- np_dot delta (transpose a_prev) ;;
  nabla_wC1 <- store pw nabla_wC (-1) g ;;
  '(_, nabla_bC2, nabla_wC2) <-
     backprop_loop n1 pb pw (seq 2 (n_layers n1 - 2))
       (delta, nabla_bC1, nabla_wC1) ;;
  Ok (n1, (nabla_bC2, nabla_wC2)).

(** [Network.eval_accuracy]: the number of examples whose label is the
    position of the largest output. *)
Fixpoint accuracy_loop (n : Network) (count : Z) (data : list example)
  : result (Network * Z) :=
  match data with
  | [] => Ok (n, count)
  | (x, y) :: rest =>
      y' <- match y with
            | LVec v => np_argmax v
            | LInt c => Ok c
            end ;;
      '(n1, out) <- feedforward n x ;;
      k <- np_argmax out ;;
      accuracy_loop n1 (if k =? y' then count + 1 else count) rest
  end.

Definition eval_accuracy (n : Network) (data : list example)
  : result (Network * Z) :=
  accuracy_loop n 0 data.

(** [float(count) / len(data)] *)
Definition ratio (count : Z) (data : list example) : result K :=
  match data with
  | [] => Raise ZeroDivisionError
  | _ => Ok (div K (of_Z K count) (of_Z K (Z.of_nat (length data))))
  end.

(** [Network.eval_error_rate] *)
Definition eval_error_rate (n : Network) (data : list example)
  : result (Network * K) :=
  '(n1, count) <- eval_accuracy n data ;;
  r <- ratio count data ;;
  Ok (n1, sub K (of_Z K 1) r).

(** [Network.eval_cost]: the stub returns 0. *)
Definition eval_cost (n : Network) (data : list example) : K := of_Z K 0.

(** ** The mini-batch loop of [train] *)

(** [zip] over [batch_size] references to the one [iter(tr_d)]: every position of a tuple pulls the
    next item from the one shared iterator [it]; the zip ends, dropping the
    tuple under construction, as soon as the iterator is exhausted. *)
Fixpoint pull (k : nat) (it : list example) : option (list example * list example) :=
  match k with
  | O => Some ([], it)
  | S k' =>
      match it with
      | [] => None
      | x :: it' =>
          match pull k' it' with
          | Some (t, r) => Some (x :: t, r)
          | None => None
          end
      end
  end.

Fixpoint zip_shared (fuel k : nat) (it : list example) : list (list example) :=
  match fuel with
  | O => []
  | S fuel' =>
      match pull k it with
      | None => []
      | Some (t, r) => t :: zip_shared fuel' k r
      end
  end.

(** [[iter(tr_d)] * batch_size] is empty for [batch_size <= 0], and [zip()]
    of nothing is the empty list.  Otherwise every tuple consumes at least
    one item, so [length tr_d] rounds exhaust the iterator. *)
Definition mini_batches (tr_d : list example) (batch_size : Z) : list (list example) :=
  if batch_size <=? 0 then []
  else zip_shared (length tr_d) (Z.to_nat batch_size) tr_d.

(** [for x, y in mini_batch: ...]: sums the gradients of the examples. *)
Fixpoint accumulate (n : Network) (nabla_bC nabla_wC : list mat)
    (mini_batch : list example) : result (Network * (list mat * list mat)) :=
  match mini_batch with
  | [] => Ok (n, (nabla_bC, nabla_wC))
  | (x, y) :: rest =>
      '(n1, (nabla_bC_i, nabla_wC_i)) <- backpropagation n x y ;;
      nabla_bC' <- layers_add nabla_bC nabla_bC_i ;;
      nabla_wC' <- layers_add nabla_wC nabla_wC_i ;;
      accumulate n1 nabla_bC' nabla_wC' rest
  end.

(** [[ b - self.eta * nb for b, nb in zip(self.biases, nabla_bC) ]] *)
Fixpoint update_biases (eta : K) (bnb : list (mat * mat)) : result (list mat) :=
  match bnb with
  | [] => Ok []
  | (b, nb) :: rest =>
      b' <- mat_sub b (scale eta nb) ;;
      r <- update_biases eta rest ;;
      Ok (b' :: r)
  end.

(** [[ w - self.eta * (nw + self.regularization.derivative(w, self.lambda_,
    len(tr_d))) for w, nw in zip(self.weights, nabla_wC) ]] *)
Fixpoint update_weights (n : Network) (size : nat) (wnw : list (mat * mat))
  : result (list mat) :=
  match wnw with
  | [] => Ok []
  | (w, nw) :: rest =>
      g <- mat_add nw (reg_derivative (regularization n) w (lambda_ n) size) ;;
      w' <- mat_sub w (scale (eta n) g) ;;
      r <- update_weights n size rest ;;
      Ok (w' :: r)
  end.

(** the body of [for mini_batch in ...]; the accumulators are packed like
    the gradients they are added to *)
Definition train_batch (n : Network) (size : nat) (mini_batch : list example)
  : result Network :=
  pb <- pack (biases n) ;;
  let nabla_bC := zeros_like (biases n) in
  pw <- pack (weights n) ;;
  let nabla_wC := zeros_like (weights n) in
  '(n1, (nabla_bC', nabla_wC')) <- accumulate n nabla_bC nabla_wC mini_batch ;;
  bs <- update_biases (eta n1) (combine (biases n1) nabla_bC') ;;
  let n2 := set_params n1 bs (weights n1) in
  ws <- update_weights n2 size (combine (weights n2) nabla_wC') ;;
  Ok (set_params n2 (biases n2) ws).

Fixpoint train_batches (n : Network) (size : nat) (bl : list (list example))
  : result Network :=
  match bl with
  | [] => Ok n
  | mb :: rest =>
      n1 <- train_batch n size mb ;;
      train_batches n1 size rest
  end.

(** The monitoring dictionary and its lookup [monitoring[key]]. *)
Definition dict : Type := list (string * bool).

Fixpoint lookup (d : dict) (key : string) : result bool :=
  match d with
  | [] => Raise (KeyError key)
  | (k, v) :: rest => if String.eqb k key then Ok v else lookup rest key
  end.

(** [if va_d:] holds for a non-empty list only. *)
Definition truthy (va_d : option (list example)) : option (list example) :=
  match va_d with
  | Some (_ :: _) => va_d
  | _ => None
  end.

(** the six histories returned by [train] *)
Record history : Type := {
  tr_acc : list K; tr_err : list K; tr_cost : list K;
  va_acc : list K; va_err : list K; va_cost : list K
}.

Definition empty_history : history :=
  {| tr_acc := []; tr_err := []; tr_cost := [];
     va_acc := []; va_err := []; va_cost := [] |}.

(** [if monitoring['accuracy']: ...]: each figure is evaluated once for the
    printed line and once more for the history. *)
Definition monitor_accuracy (n : Network) (tr_d : list example)
    (va_d : option (list example)) (h : history) : result (Network * history) :=
  '(n1, _) <- eval_accuracy n tr_d ;;
  '(n2, c) <- eval_accuracy n1 tr_d ;;
  r <- ratio c tr_d ;;
  let h1 := {| tr_acc := tr_acc h ++ [r]; tr_err := tr_err h;
               tr_cost := tr_cost h; va_acc := va_acc h;
               va_err := va_err h; va_cost := va_cost h |} in
  match truthy va_d with
  | Some va =>
      '(n3, _) <- eval_accuracy n2 va ;;
      '(n4, cv) <- eval_accuracy n3 va ;;
      rv <- ratio cv va ;;
      Ok (n4, {| tr_acc := tr_acc h1; tr_err := tr_err h1;
                 tr_cost := tr_cost h1; va_acc := va_acc h1 ++ [rv];
                 va_err := va_err h1; va_cost := va_cost h1 |})
  | None => Ok (n2, h1)
  end.

Definition monitor_error (n : Network) (tr_d : list example)
    (va_d : option (list example)) (h : history) : result (Network * history) :=
  '(n1, _) <- eval_error_rate n tr_d ;;
  '(n2, e) <- eval_error_rate n1 tr_d ;;
  let h1 := {| tr_acc := tr_acc h; tr_err := tr_err h ++ [e];
               tr_cost := tr_cost h; va_acc := va_acc h;
               va_err := va_err h; va_cost := va_cost h |} in
  match truthy va_d with
  | Some va =>
      '(n3, _) <- eval_error_rate n2 va ;;
      '(n4, ev) <- eval_error_rate n3 va ;;
      Ok (n4, {| tr_acc := tr_acc h1; tr_err := tr_err h1;
                 tr_cost := tr_cost h1; va_acc := va_acc h1;
                 va_err := va_err h1 ++ [ev]; va_cost := va_cost h1 |})
  | None => Ok (n2, h1)
  end.

Definition monitor_cost (n : Network) (tr_d : list example)
    (va_d : option (list example)) (h : history) : history :=
  let h1 := {| tr_acc := tr_acc h; tr_err := tr_err h;
               tr_cost := tr_cost h ++ [eval_cost n tr_d]; va_acc := va_acc h;
               va_err := va_err h; va_cost := va_cost h |} in
  match truthy va_d with
  | Some va =>
      {| tr_acc := tr_acc h1; tr_err := tr_err h1;
         tr_cost := tr_cost h1; va_acc := va_acc h1;
         va_err := va_err h1; va_cost := va_cost h1 ++ [eval_cost n va] |}
  | None => h1
  end.

(** One epoch of [train]: the shuffle, the mini-batches, the monitoring.
    The shuffle is in place, so the permuted list is handed on. *)
Definition train_epoch (batch_size : Z) (va_d : option (list example))
    (monitoring : dict)
    (st : Network * list example * py_rng * history)
  : result (Network * list example * py_rng * history) :=
  let '(n, tr_d, g, h) := st in
  let '(tr_d1, g1) := shuffle g tr_d in
  n1 <- train_batches n (length tr_d1) (mini_batches tr_d1 batch_size) ;;
  m_acc <- lookup monitoring "accuracy" ;;
  '(n2, h2) <- (if m_acc then monitor_accuracy n1 tr_d1 va_d h else Ok (n1, h)) ;;
  m_err <- lookup monitoring "error" ;;
  '(n3, h3) <- (if m_err then monitor_error n2 tr_d1 va_d h2 else Ok (n2, h2)) ;;
  m_cost <- lookup monitoring "cost" ;;
  let h4 := if m_cost then monitor_cost n3 tr_d1 va_d h3 else h3 in
  Ok (n3, tr_d1, g1, h4).

Fixpoint train_epochs (epochs : nat) (batch_size : Z)
    (va_d : option (list example)) (monitoring : dict)
    (st : Network * list example * py_rng * history)
  : result (Network * list example * py_rng * history) :=
  match epochs with
  | O => Ok st
  | S e =>
      st' <- train_epoch batch_size va_d monitoring st ;;
      train_epochs e batch_size va_d monitoring st'
  end.

(** [Network.train] *)
Definition train (n : Network) (tr_d : list example) (epochs batch_size : Z)
    (va_d : option (list example)) (monitoring : dict) (g : py_rng)
  : result (Network * list example * py_rng * history) :=
  train_epochs (Z.to_nat epochs) batch_size va_d monitoring
    (n, tr_d, g, empty_history).

(** the default [monitoring] argument *)
Definition default_monitoring : dict :=
  [("accuracy", true); ("error", true); ("cost", true)].

(** ** Persistence *)

(** the values a saved document holds, and the document as a dictionary *)
Inductive yaml : Type :=
| YStr (s : string)
| YNum (x : K)
| YInts (l : list nat)
| YArrays (l : list mat).

Definition document : Type := list (string * yaml).

(** the files: what [yaml.load] reads back from each path *)
Definition filesystem : Type := string -> option document.

Definition write_file (fs : filesystem) (path : string) (d : document) : filesystem :=
  fun p => if String.eqb p path then Some d else fs p.

(** [data[key]] *)
Fixpoint field (d : document) (key : string) : result yaml :=
  match d with
  | [] => Raise (KeyError key)
  | (k, v) :: rest => if String.eqb k key then Ok v else field rest key
  end.

(** [Network.save]; [w.tolist()] turns an array into the nested lists that
    already represent it here. *)
Definition save (n : Network) (filename : string) (fs : filesystem) : filesystem :=
  let data :=
    [ ("struct", YInts (struct n));
      ("activation", YStr (act_type (activation n)));
      ("cost", YStr (cost_type (cost n)));
      ("eta", YNum (eta n));
      ("weights", YArrays (weights n));
      ("biases", YArrays (biases n)) ] in
  write_file fs filename data.

(** A field of another kind than the one [save] writes is reported as a
    [TypeError]. *)
Definition as_ints (v : yaml) : result (list nat) :=
  match v with YInts l => Ok l | _ => Raise TypeError end.
Definition as_str (v : yaml) : result string :=
  match v with YStr s => Ok s | _ => Raise TypeError end.
Definition as_num (v : yaml) : result K :=
  match v with YNum x => Ok x | _ => Raise TypeError end.
Definition as_arrays (v : yaml) : result (list mat) :=
  match v with YArrays l => Ok l | _ => Raise TypeError end.

(** [Network.load]; [np.array(w)] turns nested lists back into the array
    they represent.  [n_layers], the regularization and the cache are not
    assigned. *)
Definition load (n : Network) (filename : string) (fs : filesystem) : result Network :=
  match fs filename with
  | None => Raise IOError
  | Some data =>
      v <- field data "struct" ;;
      st <- as_ints v ;;
      v <- field data "activation" ;;
      an <- as_str v ;;
      act <- new_ActivationFunction an ;;
      v <- field data "cost" ;;
      cn <- as_str v ;;
      c <- new_CostFunction cn ;;
      v <- field data "eta" ;;
      e <- as_num v ;;
      v <- field data "biases" ;;
      b <- as_arrays v ;;
      v <- field data "weights" ;;
      w <- as_arrays v ;;
      Ok {| n_layers := n_layers n; struct := st;
            regularization := regularization n; activation := act;
            cost := c; eta := e; alpha := alpha n; lambda_ := lambda_ n;
            a := a n; z := z n; biases := b; weights := w |}
  end.

(** ** Shapes and the gradients as the spec states them *)

(** [m] has [r] rows of [c] entries.  An array without rows carries no
    column count here, so layers of size zero are left out below. *)
Definition has_shape (r c : nat) (m : mat) : bool :=
  Nat.eqb (length m) r && forallb (fun row => Nat.eqb (length row) c) m.

(** biases of shape (units[l], 1) and weights of shape (units[l], units[l-1])
    for every layer transition of [sizes] *)
Fixpoint shapes_ok (sizes : list nat) (bs ws : list mat) : bool :=
  match sizes, bs, ws with
  | [_], [], [] => true
  | s0 :: ((s1 :: _) as rest), b :: bs', w :: ws' =>
      has_shape s1 1 b && has_shape s1 s0 w && shapes_ok rest bs' ws'
  | _, _, _ => false
  end.

(** the shapes of the bias arrays and of the weight arrays that [sizes]
    declares, layer by layer *)
Fixpoint bias_dims (sizes : list nat) : list (nat * nat) :=
  match sizes with
  | _ :: ((s1 :: _) as rest) => (s1, 1%nat) :: bias_dims rest
  | _ => []
  end.

Fixpoint weight_dims (sizes : list nat) : list (nat * nat) :=
  match sizes with
  | s0 :: ((s1 :: _) as rest) => (s1, s0) :: weight_dims rest
  | _ => []
  end.

(** one array per entry of [dims], of that shape *)
Definition shaped (dims : list (nat * nat)) (l : list mat) : Prop :=
  Forall2 (fun d m => has_shape (fst d) (snd d) m = true) dims l.

(** an example the network can be trained on: an input column of the input
    size, and a label for which [cost.derivative] keeps the shape of the
    output *)
Definition good_example (n : Network) (ex : example) : Prop :=
  has_shape (hd 0%nat (struct n)) 1 (fst ex) = true /\
  forall r a_last, has_shape r 1 a_last = true ->
    has_shape r 1 (cost_derivative (cost n) a_last (snd ex)) = true.

(** column vectors of the heights [sizes], one per entry *)
Definition columns (sizes : list nat) (l : list mat) : Prop :=
  Forall2 (fun s m => has_shape s 1 m = true) sizes l.

(** A network as the constructor leaves it: at least two layers, none
    empty, [n_layers] in step with [struct], parameters shaped as [struct]
    declares.  ([load] does not assign [n_layers]: a network loaded from a
    file of another depth is not of this kind.) *)
Definition initialized (n : Network) : Prop :=
  n_layers n = length (struct n) /\
  (2 <= length (struct n))%nat /\
  forallb (Nat.ltb 0) (struct n) = true /\
  shapes_ok (struct n) (biases n) (weights n) = true.

(** numpy can pack the arrays of [l] into one array *)
Definition packs (l : list mat) : Prop := exists p, pack l = Ok p.

(** an array function that keeps the shape of its argument *)
Definition keeps_shape (f : mat -> mat) : Prop :=
  forall r c m, has_shape r c m = true -> has_shape r c (f m) = true.

(** *** The steps of the backward pass, as relations between arrays *)

(** the output-layer error: [cost.derivative(a_last, y)], multiplied
    elementwise by [activation.derivative(z_last)] unless the cost is
    cross-entropy *)
Definition output_delta (n : Network) (a_last z_last : mat) (y : label)
    (delta : mat) : Prop :=
  if String.eqb (cost_type (cost n)) "cross-entropy"
  then delta = cost_derivative (cost n) a_last y
  else mat_mul (cost_derivative (cost n) a_last y)
               (act_derivative (activation n) z_last) = Ok delta.

(** the error of an earlier layer: (W_next transposed times delta_next),
    multiplied elementwise by [activation.derivative(z_l)] *)
Definition hidden_delta (n : Network) (W_next delta_next z_l delta : mat) : Prop :=
  exists wd,
    np_dot (transpose W_next) delta_next = Ok wd /\
    mat_mul wd (act_derivative (activation n) z_l) = Ok delta.

(** the weight gradient: the outer product delta times a_prev transposed *)
Definition weight_gradient (delta a_prev g : mat) : Prop :=
  np_dot delta (transpose a_prev) = Ok g.

(** The steps taken for the cache [a_list] (the input and one activation
    per layer) and [z_list] (one pre-activation per layer); layers are
    counted from 0, so layer [l] maps [a_list[l]] to [z_list[l]]. *)
Definition backprop_spec (n : Network) (y : label)
    (a_list z_list nabla_b nabla_w : list mat) : Prop :=
  let L := length (weights n) in
  length nabla_b = L /\ length nabla_w = L /\
  (exists a_last z_last delta,
      nth_error a_list L = Some a_last /\
      nth_error z_list (L - 1) = Some z_last /\
      nth_error nabla_b (L - 1) = Some delta /\
      output_delta n a_last z_last y delta) /\
  (forall l, (S l < L)%nat ->
     exists W_next delta_next z_l delta,
       nth_error (weights n) (S l) = Some W_next /\
       nth_error nabla_b (S l) = Some delta_next /\
       nth_error z_list l = Some z_l /\
       nth_error nabla_b l = Some delta /\
       hidden_delta n W_next delta_next z_l delta) /\
  (forall l, (l < L)%nat ->
     exists delta a_prev g,
       nth_error nabla_b l = Some delta /\
       nth_error a_list l = Some a_prev /\
       nth_error nabla_w l = Some g /\
       weight_gradient delta a_prev g).

(** The facts established so far while the loop walks from the last layer
    down to layer [from]: the spec's equations for the layers [from] and
    above, with [delta] the error of layer [from]. *)
Definition grads_from (n : Network) (y : label) (a_list z_list : list mat)
    (from : nat) (st : mat * list mat * list mat) : Prop :=
  let '(delta, nabla_b, nabla_w) := st in
  let L := length (weights n) in
  length nabla_b = L /\ length nabla_w = L /\ (from < L)%nat /\
  nth_error nabla_b from = Some delta /\
  (exists a_last z_last delta_L,
      nth_error a_list L = Some a_last /\
      nth_error z_list (L - 1) = Some z_last /\
      nth_error nabla_b (L - 1) = Some delta_L /\
      output_delta n a_last z_last y delta_L) /\
  (forall l, (from <= l)%nat -> (S l < L)%nat ->
     exists W_next delta_next z_l delta_l,
       nth_error (weights n) (S l) = Some W_next /\
       nth_error nabla_b (S l) = Some delta_next /\
       nth_error z_list l = Some z_l /\
       nth_error nabla_b l = Some delta_l /\
       hidden_delta n W_next delta_next z_l delta_l) /\
  (forall l, (from <= l)%nat -> (l < L)%nat ->
     exists delta_l a_prev g,
       nth_error nabla_b l = Some delta_l /\
       nth_error a_list l = Some a_prev /\
       nth_error nabla_w l = Some g /\
       weight_gradient delta_l a_prev g).

(** [n'] is [n] up to the forward cache *)
Definition same_model (n n' : Network) : Prop := n' = set_cache n (a n') (z n').

(** the gradients of the examples of a mini-batch, added one after the
    other to [acc], as [accumulate] does *)
Fixpoint sum_gradients (acc : list mat) (gs : list (list mat)) : result (list mat) :=
  match gs with
  | [] => Ok acc
  | g :: rest => acc' <- layers_add acc g ;; sum_gradients acc' rest
  end.

(** ** The gradients and the update as the spec states them

    Stated entry by entry, with the operations of the [Scalar] and the
    strategy objects only. *)

(** entry (i, j) of an array *)
Definition cell (m : mat) (i j : nat) : K := nth j (nth i m []) (of_Z K 0).

(** the sum s0 + x_1 + ... + x_k, added in this order *)
Definition sum_from (s0 : K) (xs : list K) : K := fold_left (add K) xs s0.

(** The gradients for the cache [a_list] (the input, then the activation of
    every layer) and [z_list] (the pre-activation of every layer); layers
    are counted from 0 and layer [l] has [size (S l)] units.  [delta l], the
    error of layer [l], is the bias gradient of that layer.  For the last
    layer it is cost.derivative(a_last, y), multiplied entry by entry by
    activation.derivative(z_last) unless the cost is cross-entropy; for an
    earlier layer it is (W_{l+1} transposed times delta_{l+1}), each entry
    a sum of products accumulated from zero, multiplied entry by entry by
    activation.derivative(z_l).  The weight gradient of layer [l] is
    delta_l times a_{l-1} transposed: entry (i, j) is the sum, from zero, of
    the one product delta_l[i] * a_{l-1}[j]. *)
Definition gradients_as_stated (n : Network) (y : label)
    (a_list z_list nabla_b nabla_w : list mat) : Prop :=
  let L := length (weights n) in
  let size := fun l => nth l (struct n) 0%nat in
  let act := fun l => nth l a_list [] in
  let pre := fun l => nth l z_list [] in
  let delta := fun l => nth l nabla_b [] in
  let W := fun l => nth l (weights n) [] in
  length nabla_b = L /\ length nabla_w = L /\
  (forall l, (l < L)%nat ->
     has_shape (size (S l)) 1 (delta l) = true /\
     has_shape (size (S l)) (size l) (nth l nabla_w []) = true) /\
  (forall i, (i < size L)%nat ->
     cell (delta (L - 1)%nat) i 0 =
     if String.eqb (cost_type (cost n)) "cross-entropy"
     then cell (cost_derivative (cost n) (act L) y) i 0
     else mul K (cell (cost_derivative (cost n) (act L) y) i 0)
                (cell (act_derivative (activation n) (pre (L - 1)%nat)) i 0)) /\
  (forall l i, (S l < L)%nat -> (i < size (S l))%nat ->
     cell (delta l) i 0 =
     mul K (sum_from (of_Z K 0)
              (map (fun k => mul K (cell (W (S l)) k i) (cell (delta (S l)) k 0))
                   (seq 0 (size (S (S l))))))
           (cell (act_derivative (activation n) (pre l)) i 0)) /\
  (forall l i j, (l < L)%nat -> (i < size (S l))%nat -> (j < size l)%nat ->
     cell (nth l nabla_w []) i j =
     sum_from (of_Z K 0) [mul K (cell (delta l) i 0) (cell (act l) j 0)]).





End Network.

Arguments LInt {K} c.
Arguments LVec {K} v.
Arguments row_zip [K] f u v.
Arguments dot_acc [K] acc u v.
Arguments dot_vec [K] u v.

End Net.

(** ** Instances for concrete runs *)

(** Modelled from the spec: the [euclidean] distance of [lib.lvq.distance],
    which is not part of the sources: sqrt(sum((x_i - w_i)^2)). *)
Definition euclidean (K : Scalar) (x w : list K) : K :=
  sqrt K (fold_left
            (fun acc p => add K acc (mul K (sub K (fst p) (snd p))
                                           (sub K (fst p) (snd p))))
            (combine x w) (of_Z K 0)).

Definition euclidean_distance (K : Scalar) : Lvq.DistanceFunction K :=
  {| Lvq.dist_type := "euclidean"; Lvq.dist_call := euclidean K |}.

(** an initializer that hands out the given prototypes *)
Definition fixed_init (K : Scalar) (ws : list (list K)) : Lvq.WeightInitFunction K :=
  {| Lvq.winit_type := "fixed";
     Lvq.winit_call := fun _ _ _ _ => Ok ws |}.

(** an LVQ model with [output_size] classes, one prototype per class, holding
    the prototypes [ws] *)
Definition lvq_with (K : Scalar) (input_size output_size : Z) (ws : list (list K))
  : Lvq.LVQ K :=
  {| Lvq.input_size := input_size; Lvq.output_size := output_size;
     Lvq.ppc := 1; Lvq.distance := euclidean_distance K;
     Lvq.weight_init := fixed_init K ws;
     Lvq.weights := Some ws; Lvq.verbose := 3; Lvq.init := true |}.

(** the same model before its first [train] *)
Definition lvq_fresh (K : Scalar) (input_size output_size : Z) (ws : list (list K))
  : Lvq.LVQ K :=
  {| Lvq.input_size := input_size; Lvq.output_size := output_size;
     Lvq.ppc := 1; Lvq.distance := euclidean_distance K;
     Lvq.weight_init := fixed_init K ws;
     Lvq.weights := None; Lvq.verbose := 3; Lvq.init := false |}.

(** ** A small strategy library for concrete runs

    The modules of [lib] are not part of the sources.  For concrete runs the
    names the spec lists are resolved to computable functions over any
    [Scalar]; the logistic function needs an exponential, which a [Scalar]
    does not provide, so the activation registered as "sigmoid" is the
    algebraic sigmoid (1 + z / (1 + |z|)) / 2. *)

Module Lib.
Section Lib.
Variable K : Scalar.

Definition absK (v : K) : K := if ltb K v (of_Z K 0) then opp K v else v.

Definition soft_sigmoid (v : K) : K :=
  div K (add K (of_Z K 1) (div K v (add K (of_Z K 1) (absK v)))) (of_Z K 2).

Definition soft_sigmoid_prime (v : K) : K :=
  div K (of_Z K 1)
    (mul K (of_Z K 2)
       (mul K (add K (of_Z K 1) (absK v)) (add K (of_Z K 1) (absK v)))).

Definition sigmoid_activation : Net.ActivationFunction K :=
  {| Net.act_type := "sigmoid";
     Net.act_call := map (map soft_sigmoid);
     Net.act_derivative := map (map soft_sigmoid_prime) |}.

Definition new_activation (func : string) : result (Net.ActivationFunction K) :=
  if String.eqb func "sigmoid" then Ok sigmoid_activation
  else Raise (Exception "unsupported activation").

(** Modelled from the spec: the derivative (a - y) of the [quadratic] cost
    and, next to a sigmoid, of [cross-entropy]; [lib.cost] is not part of
    the sources.  A class index is subtracted from every entry. *)
Definition a_minus_y (a : Net.mat K) (y : Net.label K) : Net.mat K :=
  match y with
  | Net.LInt c => map (map (fun v => sub K v (of_Z K c))) a
  | Net.LVec v =>
      map (fun rs => map (fun p => sub K (fst p) (snd p))
                       (combine (fst rs) (snd rs)))
          (combine a v)
  end.

Definition new_cost (func : string) : result (Net.CostFunction K) :=
  if String.eqb func "quadratic" || String.eqb func "cross-entropy"
  then Ok {| Net.cost_type := func; Net.cost_derivative := a_minus_y |}
  else Raise (Exception "unsupported cost").

(** Modelled from the spec: the penalties of [lib.regularization], which is
    not part of the sources: [none] adds nothing to the weight gradient, [L2]
    adds (lambda / n) * w. *)
Definition no_penalty (w : Net.mat K) (lambda_ : K) (n : nat) : Net.mat K :=
  map (map (fun _ => of_Z K 0)) w.

Definition l2_penalty (w : Net.mat K) (lambda_ : K) (n : nat) : Net.mat K :=
  map (map (mul K (div K lambda_ (of_Z K (Z.of_nat n))))) w.

Definition new_regularization (func : string)
  : result (Net.RegularizationFunction K) :=
  if String.eqb func "none"
  then Ok {| Net.reg_type := func; Net.reg_derivative := no_penalty |}
  else if String.eqb func "L2"
  then Ok {| Net.reg_type := func; Net.reg_derivative := l2_penalty |}
  else Raise (Exception "unsupported regularization").

(** Modelled from the spec: the [average] initialization of
    [lib.lvq.weight_init], which is not part of the sources: every prototype
    of a class starts at the mean of the training examples of that class;
    prototype [i] belongs to class [i mod output_size]. *)
Definition class_mean (input_size c : Z) (tr_d : list (list K * Z)) : list K :=
  let xs := map fst (filter (fun ex => snd ex =? c) tr_d) in
  let total :=
    fold_left (fun acc x => map (fun p => add K (fst p) (snd p)) (combine acc x))
      xs (repeat (of_Z K 0) (Z.to_nat input_size)) in
  map (fun v => div K v (of_Z K (Z.of_nat (length xs)))) total.

Definition average_init : Lvq.WeightInitFunction K :=
  {| Lvq.winit_type := "average";
     Lvq.winit_call := fun input_size output_size ppc tr_d =>
       Ok (map (fun i => class_mean input_size (Z.of_nat i mod output_size) tr_d)
               (seq 0 (Z.to_nat (output_size * ppc)))) |}.

Definition new_distance (func : string) : result (Lvq.DistanceFunction K) :=
  if String.eqb func "euclidean" then Ok (euclidean_distance K)
  else Raise (Exception "unsupported distance").

Definition new_weight_init (func : string) : result (Lvq.WeightInitFunction K) :=
  if String.eqb func "average" then Ok average_init
  else Raise (Exception "unsupported initialization").

Definition LVQ_init := Lvq.LVQ_init new_distance new_weight_init.

(** a counter in place of numpy's generator: the array drawn at state [g]
    holds g + i - j at row i, column j *)
Definition randn (g : Z) (r c : nat) : Net.mat K * Z :=
  (map (fun i => map (fun j => of_Z K (g + Z.of_nat i - Z.of_nat j)) (seq 0 c))
       (seq 0 r),
   g + 1).

(** list reversal in place of [random.shuffle] *)
Definition shuffle (g : unit) (l : list (Net.example K))
  : list (Net.example K) * unit := (rev l, g).

Definition Network_init :=
  Net.Network_init new_activation new_cost new_regularization randn.

Definition train := @Net.train K unit shuffle.

Definition load := @Net.load K new_activation new_cost.

(** the network [Network_init] builds, or one without layers when it fails *)
Definition network_of (r : result (Net.Network K * Z)) : Net.Network K :=
  match r with
  | Ok (n, _) => n
  | Raise _ =>
      {| Net.n_layers := 0; Net.struct := [];
         Net.regularization := {| Net.reg_type := "none";
                                  Net.reg_derivative := no_penalty |};
         Net.activation := sigmoid_activation;
         Net.cost := {| Net.cost_type := "quadratic";
                        Net.cost_derivative := a_minus_y |};
         Net.eta := of_Z K 0; Net.alpha := of_Z K 0; Net.lambda_ := of_Z K 0;
         Net.a := []; Net.z := []; Net.biases := []; Net.weights := [] |}
  end.

(** a 2-3-1 network with sigmoid activation, quadratic cost, no
    regularization and learning rate 3, drawn from generator state 0 *)
Definition net231 : Net.Network K :=
  network_of (Network_init [2; 3; 1]%nat "sigmoid" "quadratic" "none"
                (of_Z K 3) (of_Z K 0) (of_Z K 1) 0).




(** four labelled points of the plane, classes 0 and 1 *)
Definition xor : list (Net.example K) :=
  [ ([[of_Z K 0]; [of_Z K 0]], Net.LInt 0);
    ([[of_Z K 1]; [of_Z K 1]], Net.LInt 0);
    ([[of_Z K 1]; [of_Z K 0]], Net.LInt 1);
    ([[of_Z K 0]; [of_Z K 1]], Net.LInt 1) ].

End Lib.
End Lib.

(** ** Words for the further facts on lvq.py *)

Module LvqTerms.
Section Terms.
Variable K : Scalar.

(** as many prototypes, each of the dimension it had *)
Definition same_layout (ws ws' : list (Lvq.vec K)) : Prop :=
  Forall2 (fun w w' => length w' = length w) ws ws'.

(** the fields [train] never assigns *)
Definition same_settings (m m' : Lvq.LVQ K) : Prop :=
  Lvq.input_size m' = Lvq.input_size m /\
  Lvq.output_size m' = Lvq.output_size m /\
  Lvq.ppc m' = Lvq.ppc m /\
  Lvq.distance m' = Lvq.distance m /\
  Lvq.weight_init m' = Lvq.weight_init m /\
  Lvq.verbose m' = Lvq.verbose m.

(** a label [y] as the row of the confusion matrix it is counted in: a
    negative label counts from the last row *)
Definition wrap_label (dim : Z) (ex : Lvq.example K) : Lvq.example K :=
  (fst ex, if snd ex <? 0 then dim + snd ex else snd ex).

End Terms.
End LvqTerms.

(** ** Words for the further facts on network.py *)

Module NetTerms.
Section Terms.
Variable K : Scalar.

(** the histories of two stretches of training, one after the other *)
Definition history_app (h1 h2 : Net.history K) : Net.history K :=
  {| Net.tr_acc := Net.tr_acc h1 ++ Net.tr_acc h2;
     Net.tr_err := Net.tr_err h1 ++ Net.tr_err h2;
     Net.tr_cost := Net.tr_cost h1 ++ Net.tr_cost h2;
     Net.va_acc := Net.va_acc h1 ++ Net.va_acc h2;
     Net.va_err := Net.va_err h1 ++ Net.va_err h2;
     Net.va_cost := Net.va_cost h1 ++ Net.va_cost h2 |}.

(** [if va_d:] as a boolean *)
Definition validated (va_d : option (list (Net.example K))) : bool :=
  match Net.truthy va_d with
  | Some _ => true
  | None => false
  end.

(** the column of height [cnt] with a one in row [k] and zeros elsewhere *)
Definition one_hot (cnt k : nat) : Net.mat K :=
  map (fun i => [if Nat.eqb i k then of_Z K 1 else of_Z K 0]) (seq 0 cnt).

(** an example with its class index written as a one-hot column *)
Definition as_one_hot (cnt : nat) (ex : Net.example K) : Net.example K :=
  match snd ex with
  | Net.LInt c => (fst ex, Net.LVec (one_hot cnt (Z.to_nat c)))
  | Net.LVec _ => ex
  end.

(** an example [eval_accuracy] can score: an input column of the input
    size, and a label that is a class index or a non-empty array *)
Definition scorable (n : Net.Network K) (ex : Net.example K) : Prop :=
  Net.has_shape (hd 0%nat (Net.struct n)) 1 (fst ex) = true /\
  match snd ex with
  | Net.LInt _ => True
  | Net.LVec v => concat v <> []
  end.

(** [n] with another momentum *)
Definition set_alpha (n : Net.Network K) (v : K) : Net.Network K :=
  {| Net.n_layers := Net.n_layers n; Net.struct := Net.struct n;
     Net.regularization := Net.regularization n;
     Net.activation := Net.activation n; Net.cost := Net.cost n;
     Net.eta := Net.eta n; Net.alpha := v; Net.lambda_ := Net.lambda_ n;
     Net.a := Net.a n; Net.z := Net.z n;
     Net.biases := Net.biases n; Net.weights := Net.weights n |}.

End Terms.
End NetTerms.

(** ** lvq.py: [train] with what it prints

    [LVQ.train] reports its progress through [LVQ.log].  The arguments of a
    [log] call are evaluated whatever the verbosity, and the format of the
    learning rate, "{:.3}", takes a float but refuses an integer.  Here the
    learning rate is therefore a float or an integer, and the lines printed
    are kept.  What was printed before an exception is not kept.  The number
    formats of [str.format] are parameters. *)

Module LvqLog.
Section Log.
Variable K : Scalar.

(** "{:2d}" of an epoch number, "{:.3}" and "{:.3%}" of a float *)
Variable format_2d : Z -> string.
Variable format_3g : K -> string.
Variable format_3pct : K -> string.

(** a learning rate: a Python float or a Python int *)
Inductive rate : Type :=
| RFloat (x : K)
| RInt (z : Z).

(** the rate as a factor of a float array *)
Definition rate_value (eta : rate) : K :=
  match eta with
  | RFloat x => x
  | RInt z => of_Z K z
  end.

(** [s * eta]: a product of integers when [eta] is one *)
Definition signed (s : Z) (eta : rate) : K :=
  match eta with
  | RFloat x => mul K (of_Z K s) x
  | RInt z => of_Z K (s * z)
  end.

(** [LVQ.verbose_level] *)
Definition verbose_level (m : Lvq.LVQ K) (level : Z) : Lvq.LVQ K :=
  {| Lvq.input_size := Lvq.input_size m; Lvq.output_size := Lvq.output_size m;
     Lvq.ppc := Lvq.ppc m; Lvq.distance := Lvq.distance m;
     Lvq.weight_init := Lvq.weight_init m; Lvq.weights := Lvq.weights m;
     Lvq.verbose := level; Lvq.init := Lvq.init m |}.

(** [LVQ.log]: [out] holds the lines printed so far *)
Definition log (m : Lvq.LVQ K) (lvl : Z) (msg : string) (out : list string)
  : list string :=
  if lvl <? Lvq.verbose m then out ++ [msg] else out.

(** [" * eta                       : {:.3}".format(eta)] *)
Definition format_rate (eta : rate) : result string :=
  match eta with
  | RFloat x => Ok (" * eta                       : " ++ format_3g x)%string
  | RInt _ => Raise ValueError
  end.

(** The body of [for x, y in tr_d], for a rate of either kind. *)
Definition train_example (m : Lvq.LVQ K) (eta : rate) (ex : Lvq.example K)
  : result (Lvq.LVQ K * Z) :=
  let '(x, y) := ex in
  ws <- Lvq.iter_weights m ;;
  bmu <- np_argmin K (Lvq.distances m ws x) ;;
  let s := if np_mod (Z.of_nat bmu) (Lvq.output_size m) =? y then 1 else -1 in
  match nth_error ws bmu with
  | None => Raise IndexError
  | Some w =>
      dx <- Lvq.vsub x w ;;
      w' <- Lvq.vadd w (Lvq.vscale (signed s eta) dx) ;;
      Ok (Lvq.set_weights m (update_nth ws bmu w'), s)
  end.

Fixpoint train_sweep (m : Lvq.LVQ K) (eta : rate) (s : option Z)
    (tr_d : list (Lvq.example K)) : result (Lvq.LVQ K * option Z) :=
  match tr_d with
  | [] => Ok (m, s)
  | ex :: rest =>
      '(m', s') <- train_example m eta ex ;;
      train_sweep m' eta (Some s') rest
  end.

(** [eta / (1 + s * eta) if eta < 1 else 1]; between integers the division
    is the floor division of Python 2 *)
Definition decay (eta : rate) (s : option Z) : result rate :=
  match eta with
  | RFloat x =>
      if ltb K x (of_Z K 1) then
        match s with
        | None => Raise UnboundLocalError
        | Some s =>
            let d := add K (of_Z K 1) (mul K (of_Z K s) x) in
            if eqb K d (of_Z K 0) then Raise ZeroDivisionError
            else Ok (RFloat (div K x d))
        end
      else Ok (RInt 1)
  | RInt z =>
      if z <? 1 then
        match s with
        | None => Raise UnboundLocalError
        | Some s =>
            if 1 + s * z =? 0 then Raise ZeroDivisionError
            else Ok (RInt (z / (1 + s * z)))
        end
      else Ok (RInt 1)
  end.

(** The epoch loop of [LVQ.train]: epoch number [i], [n] epochs to go. *)
Fixpoint train_epochs (n : nat) (i : Z) (tr_d : list (Lvq.example K))
    (eta_decay : bool) (va_d : option (list (Lvq.example K))) (estop : bool)
    (m : Lvq.LVQ K) (eta : rate) (s : option Z) (tr_err va_err : list K)
    (out : list string)
  : result (Lvq.LVQ K * (list K * list K) * list string) :=
  match n with
  | O => Ok (m, (tr_err, va_err), out)
  | S n' =>
      let out0 :=
        log m 1 ("Epoch " ++ format_2d i ++ " training done.")%string out in
      '(m1, s1) <- train_sweep m eta s tr_d ;;
      '(eta1, out1) <-
         (if eta_decay then
            line <- format_rate eta ;;
            eta' <- decay eta s1 ;;
            Ok (eta', log m1 1 line out0)
          else Ok (eta, out0)) ;;
      e <- Lvq.eval_error_rate m1 tr_d ;;
      let tr_err1 := tr_err ++ [e] in
      let out2 :=
        log m1 2 (" * Training set error rate   : " ++ format_3pct e)%string
          out1 in
      match Lvq.truthy va_d with
      | Some va =>
          ev <- Lvq.eval_error_rate m1 va ;;
          let va_err1 := va_err ++ [ev] in
          let out3 :=
            log m1 2
              (" * Validation set error rate : " ++ format_3pct ev)%string
              out2 in
          if estop && ltb K ev (one_percent K)
          then Ok (m1, (tr_err1, va_err1), out3)
          else train_epochs n' (i + 1) tr_d eta_decay va_d estop m1 eta1 s1
                 tr_err1 va_err1 out3
      | None =>
          train_epochs n' (i + 1) tr_d eta_decay va_d estop m1 eta1 s1
            tr_err1 va_err out2
      end
  end.

(** [LVQ.train] *)
Definition train (m : Lvq.LVQ K) (tr_d : list (Lvq.example K)) (eta : rate)
    (epochs : Z) (eta_decay : bool) (va_d : option (list (Lvq.example K)))
    (estop : bool) (out : list string)
  : result (Lvq.LVQ K * (list K * list K) * list string) :=
  m0 <- (if Lvq.init m then Ok m
         else
           ws <- Lvq.winit_call (Lvq.weight_init m) (Lvq.input_size m)
                   (Lvq.output_size m) (Lvq.ppc m) tr_d ;;
           Ok (Lvq.set_init (Lvq.set_weights m ws) true)) ;;
  train_epochs (Z.to_nat epochs) 0 tr_d eta_decay va_d estop m0 eta None
    [] [] out.

End Log.

Arguments RFloat {K} x.
Arguments RInt {K} z.

(** a stand-in for the number formats in concrete runs: every number is
    printed as a hash sign *)
Definition hash (A : Type) (x : A) : string := "#".

End LvqLog.

(** * Facts *)

(** ** The error monad *)

Lemma bind_Ok_inv {A B : Type} (c : result A) (k : A -> result B) (b : B) :
  bind c k = Ok b -> exists a, c = Ok a /\ k a = Ok b.
Proof.
  destruct c as [a|e]; simpl; intros H; [exists a; auto | discriminate].
Qed.

(** ** The laws of the comparisons *)

Lemma ZScalar_order : OrderLaws ZScalar.
Proof.
  assert (N : forall x : Z, is_nan ZScalar x = false)
    by (intros x; unfold is_nan; simpl; now rewrite Z.eqb_refl).
  split; simpl; intros.
  - apply Z.leb_refl.
  - destruct H as [H|H]; rewrite N in H; discriminate.
  - apply Z.ltb_lt. apply Z.leb_gt in H1. exact H1.
  - apply Z.leb_le. apply Z.ltb_lt in H. lia.
  - apply Z.ltb_lt. apply Z.ltb_lt in H. apply Z.leb_le in H0. lia.
  - apply Z.leb_gt. apply Z.ltb_lt in H. exact H.
Qed.

(** binary64: the comparison of two values that are not NaN is the
    comparison of their keys. *)
Lemma SFcompare_key (x y : SpecFloat.spec_float) :
  x <> SpecFloat.S754_nan -> y <> SpecFloat.S754_nan ->
  exists c, SpecFloat.SFcompare x y = Some c /\
    match c with
    | Lt => key_lt (sf_key x) (sf_key y)
    | Eq => sf_key x = sf_key y
    | Gt => key_lt (sf_key y) (sf_key x)
    end.
Proof.
  intros Hx Hy.
  destruct x as [sx|sx| |sx mx ex]; [| |congruence|];
  destruct y as [sy|sy| |sy my ey]; try congruence;
  try (destruct sx); try (destruct sy); cbn [SpecFloat.SFcompare sf_key];
  try (eexists; split; [reflexivity|]; unfold key_lt; cbn; try reflexivity; lia).
  - change (Pos.compare_cont Eq mx my) with (Pos.compare mx my).
    destruct (Z.compare_spec ex ey) as [E|E|E];
      [destruct (Pos.compare_spec mx my) as [F|F|F]| |];
      eexists; (split; [reflexivity|]); unfold key_lt; cbn; subst;
      try reflexivity; lia.
  - change (Pos.compare_cont Eq mx my) with (Pos.compare mx my).
    destruct (Z.compare_spec ex ey) as [E|E|E];
      [destruct (Pos.compare_spec mx my) as [F|F|F]| |];
      eexists; (split; [reflexivity|]); unfold key_lt; cbn; subst;
      try reflexivity; lia.
Qed.

Lemma SFcompare_nan_r (x : SpecFloat.spec_float) :
  SpecFloat.SFcompare x SpecFloat.S754_nan = None.
Proof. destruct x; reflexivity. Qed.

Lemma float_is_nan_false (x : float) :
  is_nan Float64 x = false <-> FloatOps.Prim2SF x <> SpecFloat.S754_nan.
Proof.
  unfold is_nan. simpl. rewrite FloatAxioms.eqb_spec. unfold SpecFloat.SFeqb.
  split.
  - intros H E. rewrite E in H. discriminate.
  - intros H. destruct (SFcompare_key H H) as (c & -> & Hc).
    destruct c; [reflexivity| |]; unfold key_lt in Hc; lia.
Qed.

Lemma float_is_nan_true (x : float) :
  is_nan Float64 x = true <-> FloatOps.Prim2SF x = SpecFloat.S754_nan.
Proof.
  split.
  - intros H. destruct (FloatOps.Prim2SF x) eqn:E; try reflexivity;
      assert (F : is_nan Float64 x = false)
        by (apply float_is_nan_false; rewrite E; discriminate);
      congruence.
  - intros E. destruct (is_nan Float64 x) eqn:F; [reflexivity|].
    apply float_is_nan_false in F. congruence.
Qed.

Lemma float_leb_nan (x y : float) :
  is_nan Float64 x = true \/ is_nan Float64 y = true ->
  PrimFloat.leb x y = false.
Proof.
  rewrite FloatAxioms.leb_spec. unfold SpecFloat.SFleb.
  intros [H|H]; apply float_is_nan_true in H; rewrite H.
  - reflexivity.
  - now rewrite SFcompare_nan_r.
Qed.

Lemma float_ltb_nan (x y : float) :
  is_nan Float64 x = true \/ is_nan Float64 y = true ->
  PrimFloat.ltb x y = false.
Proof.
  rewrite FloatAxioms.ltb_spec. unfold SpecFloat.SFltb.
  intros [H|H]; apply float_is_nan_true in H; rewrite H.
  - reflexivity.
  - now rewrite SFcompare_nan_r.
Qed.

Lemma float_ltb_numbers (x y : float) :
  PrimFloat.ltb x y = true ->
  FloatOps.Prim2SF x <> SpecFloat.S754_nan /\
  FloatOps.Prim2SF y <> SpecFloat.S754_nan.
Proof.
  intros H. split; apply float_is_nan_false.
  - destruct (is_nan Float64 x) eqn:E; [|reflexivity].
    rewrite float_ltb_nan in H; auto.
  - destruct (is_nan Float64 y) eqn:E; [|reflexivity].
    rewrite float_ltb_nan in H; auto.
Qed.

(** The laws hold for binary64, NaN, infinities and the two zeros
    included. *)
Lemma Float64_order : OrderLaws Float64.
Proof.
  split; simpl.
  - intros x H. apply float_is_nan_false in H.
    rewrite FloatAxioms.leb_spec. unfold SpecFloat.SFleb.
    destruct (SFcompare_key H H) as (c & -> & Hc).
    destruct c; [reflexivity|reflexivity|]. unfold key_lt in Hc; lia.
  - apply float_leb_nan.
  - intros x y Hx Hy. apply float_is_nan_false in Hx, Hy.
    rewrite FloatAxioms.leb_spec, FloatAxioms.ltb_spec.
    unfold SpecFloat.SFleb, SpecFloat.SFltb.
    destruct (SFcompare_key Hx Hy) as (c & -> & Hc).
    destruct (SFcompare_key Hy Hx) as (c' & -> & Hc').
    destruct c; try discriminate. intros _.
    destruct c'; [| reflexivity |]; unfold key_lt in *.
    + rewrite Hc' in Hc. lia.
    + lia.
  - intros x y.
    rewrite FloatAxioms.leb_spec, FloatAxioms.ltb_spec.
    unfold SpecFloat.SFleb, SpecFloat.SFltb.
    destruct (SpecFloat.SFcompare (FloatOps.Prim2SF x) (FloatOps.Prim2SF y))
      as [[| |]|]; congruence.
  - intros x y z H1 H2.
    destruct (float_ltb_numbers H1) as [Hx Hy].
    assert (Hz : FloatOps.Prim2SF z <> SpecFloat.S754_nan).
    { apply float_is_nan_false.
      destruct (is_nan Float64 z) eqn:E; [|reflexivity].
      rewrite float_leb_nan in H2; auto. }
    rewrite FloatAxioms.ltb_spec in *. rewrite FloatAxioms.leb_spec in H2.
    unfold SpecFloat.SFleb, SpecFloat.SFltb in *.
    destruct (SFcompare_key Hx Hy) as (c1 & E1 & Hc1). rewrite E1 in H1.
    destruct (SFcompare_key Hy Hz) as (c2 & E2 & Hc2). rewrite E2 in H2.
    destruct (SFcompare_key Hx Hz) as (c3 & -> & Hc3).
    destruct c1; try discriminate.
    destruct c2; try discriminate; destruct c3; try reflexivity;
      unfold key_lt in *;
      destruct (sf_key (FloatOps.Prim2SF x)) as [[a1 a2] a3];
      destruct (sf_key (FloatOps.Prim2SF y)) as [[b1 b2] b3];
      destruct (sf_key (FloatOps.Prim2SF z)) as [[c1 c2] c3];
      cbn [fst snd] in *;
      try (injection Hc2 as ? ? ?); try (injection Hc3 as ? ? ?); lia.
  - intros x y H.
    destruct (float_ltb_numbers H) as [Hx Hy].
    rewrite FloatAxioms.ltb_spec in H. rewrite FloatAxioms.leb_spec.
    unfold SpecFloat.SFleb, SpecFloat.SFltb in *.
    destruct (SFcompare_key Hx Hy) as (c1 & E1 & Hc1). rewrite E1 in H.
    destruct (SFcompare_key Hy Hx) as (c2 & -> & Hc2).
    destruct c1; try discriminate.
    destruct c2; try reflexivity; unfold key_lt in *.
    + rewrite Hc2 in Hc1. lia.
    + lia.
Qed.

(** ** Indexing *)

Section ListFacts.
Variable A : Type.

Lemma update_nth_length (l : list A) k v : length (update_nth l k v) = length l.
Proof.
  revert k; induction l as [|a t IH]; intros [|k]; simpl; auto.
Qed.

Lemma nth_error_update_nth_eq (l : list A) k v :
  (k < length l)%nat -> nth_error (update_nth l k v) k = Some v.
Proof.
  revert k; induction l as [|a t IH]; intros [|k]; simpl; intros H;
    try lia; auto.
  apply IH; lia.
Qed.

Lemma nth_error_update_nth_neq (l : list A) k j v :
  j <> k -> nth_error (update_nth l k v) j = nth_error l j.
Proof.
  revert k j; induction l as [|a t IH]; intros [|k] [|j]; simpl; intros H;
    try congruence; auto.
Qed.

Lemma py_index_bound n i k : py_index n i = Ok k -> (k < n)%nat.
Proof.
  unfold py_index.
  destruct (0 <=? i) eqn:E0.
  - destruct (i <? Z.of_nat n) eqn:E1; [|discriminate].
    intros H; injection H as <-.
    apply Z.leb_le in E0. apply Z.ltb_lt in E1. lia.
  - destruct (- Z.of_nat n <=? i) eqn:E1; [|discriminate].
    intros H; injection H as <-.
    apply Z.leb_gt in E0. apply Z.leb_le in E1. lia.
Qed.

Lemma py_index_nonneg n i :
  0 <= i < Z.of_nat n -> py_index n i = Ok (Z.to_nat i).
Proof.
  intros [H0 H1]. unfold py_index.
  apply Z.leb_le in H0. apply Z.ltb_lt in H1. now rewrite H0, H1.
Qed.
End ListFacts.

Lemma np_index_Ok (n : nat) (i : Z) (k : nat) :
  np_index n i = Ok k <-> py_index n i = Ok k.
Proof.
  unfold np_index. destruct (py_index n i) as [k'|e]; [tauto|].
  destruct (fits_intp i); split; discriminate.
Qed.

Lemma np_index_Raise (n : nat) (i : Z) (e : exn) :
  py_index n i = Raise e ->
  np_index n i = if fits_intp i then Raise IndexError else Raise OverflowError.
Proof. unfold np_index. now intros ->. Qed.

Lemma np_index_nonneg (n : nat) (i : Z) :
  0 <= i < Z.of_nat n -> np_index n i = Ok (Z.to_nat i).
Proof. intros H. apply np_index_Ok. now apply py_index_nonneg. Qed.

Lemma np_mod_range a b : 0 < b -> 0 <= np_mod a b < b.
Proof.
  intros Hb. unfold np_mod.
  destruct (b =? 0) eqn:E; [apply Z.eqb_eq in E; lia|].
  apply Z.mod_pos_bound; lia.
Qed.

(** ** The position of the minimum *)

Lemma argmin_scan_bound (K : Scalar) (l : list K) : forall best_i best i,
  (best_i < i)%nat -> (argmin_scan K best_i best i l < i + length l)%nat.
Proof.
  induction l as [|d l IH]; intros best_i best i H; cbn [argmin_scan length].
  - lia.
  - destruct (leb K best d).
    + specialize (IH best_i best (S i)). lia.
    + destruct (is_nan K d); [lia|].
      specialize (IH i d (S i)). lia.
Qed.

Lemma np_argmin_bound (K : Scalar) (d : list K) (k : nat) :
  np_argmin K d = Ok k -> (k < length d)%nat.
Proof.
  destruct d as [|d0 t]; [discriminate|]. cbn [np_argmin length].
  destruct (is_nan K d0); intros H; injection H as <-; [lia|].
  pose proof (@argmin_scan_bound K t 0%nat d0 1%nat). lia.
Qed.

Lemma np_argmin_returns (K : Scalar) (d : list K) :
  d <> [] -> exists k, np_argmin K d = Ok k.
Proof.
  destruct d as [|d0 t]; [congruence|]. intros _. cbn [np_argmin].
  destruct (is_nan K d0); eauto.
Qed.

Section ArgminFacts.
Variable K : Scalar.
Hypothesis HO : OrderLaws K.
Variable A : Type.
Variable f : A -> K.

Lemma leb_number (x y : K) : leb K x y = true -> is_nan K y = false.
Proof.
  intros H. destruct (is_nan K y) eqn:E; [|reflexivity].
  rewrite (leb_nan HO) in H; [discriminate | now right].
Qed.

(** The invariant of the scan: [wb], at [best_i], is the first of the
    least of the items [pre] seen so far, none of which is a NaN. *)
Lemma argmin_scan_spec (l : list A) : forall (pre : list A) best_i wb,
  nth_error pre best_i = Some wb ->
  is_nan K (f wb) = false ->
  (forall j wj, nth_error pre j = Some wj -> leb K (f wb) (f wj) = true) ->
  (forall j wj, (j < best_i)%nat -> nth_error pre j = Some wj ->
     ltb K (f wb) (f wj) = true) ->
  first_argmin K f (pre ++ l)
    (argmin_scan K best_i (f wb) (length pre) (map f l)).
Proof.
  induction l as [|w t IH]; intros pre best_i wb Hb Hn Hmin Hfst;
    cbn [map argmin_scan].
  - rewrite app_nil_r. exists wb. split; [exact Hb|]. rewrite Hn. auto.
  - assert (Hlen : length (pre ++ [w]) = S (length pre))
      by (rewrite length_app; simpl; lia).
    assert (Hbi : (best_i < length pre)%nat)
      by (apply nth_error_Some; congruence).
    replace (pre ++ w :: t) with ((pre ++ [w]) ++ t)
      by (now rewrite <- app_assoc).
    destruct (leb K (f wb) (f w)) eqn:E.
    + rewrite <- Hlen. apply IH; auto.
      * rewrite nth_error_app1 by lia. exact Hb.
      * intros j wj Hj.
        destruct (Nat.lt_ge_cases j (length pre)) as [Hlt|Hge].
        -- rewrite nth_error_app1 in Hj by lia. eauto.
        -- rewrite nth_error_app2 in Hj by lia.
           destruct (j - length pre)%nat as [|[|?]]; simpl in Hj;
             try discriminate.
           injection Hj as <-. exact E.
      * intros j wj Hlt Hj. rewrite nth_error_app1 in Hj by lia. eauto.
    + destruct (is_nan K (f w)) eqn:En.
      * exists w. split.
        -- rewrite <- app_assoc. rewrite nth_error_app2 by lia.
           now rewrite Nat.sub_diag.
        -- rewrite En. intros j wj Hlt Hj.
           rewrite <- app_assoc in Hj. rewrite nth_error_app1 in Hj by lia.
           eapply leb_number. eapply Hmin. exact Hj.
      * pose proof (not_leb HO _ _ Hn En E) as Hlt.
        rewrite <- Hlen. apply IH; auto.
        -- rewrite nth_error_app2 by lia. now rewrite Nat.sub_diag.
        -- intros j wj Hj.
           destruct (Nat.lt_ge_cases j (length pre)) as [Hl|Hge].
           ++ rewrite nth_error_app1 in Hj by lia.
              apply (ltb_leb HO). eapply (ltb_leb_trans HO); eauto.
           ++ rewrite nth_error_app2 in Hj by lia.
              destruct (j - length pre)%nat as [|[|?]]; simpl in Hj;
                try discriminate.
              injection Hj as <-. now apply (leb_refl HO).
        -- intros j wj Hl Hj. rewrite nth_error_app1 in Hj by lia.
           eapply (ltb_leb_trans HO); eauto.
Qed.

(** [np.argmin] of the values of a non-empty list returns, and what it
    returns is the first NaN or else the first of the least. *)
Lemma np_argmin_first (ws : list A) :
  ws <> [] ->
  exists k, np_argmin K (map f ws) = Ok k /\ first_argmin K f ws k.
Proof.
  destruct ws as [|w0 t]; [congruence|]. intros _. cbn [map np_argmin].
  destruct (is_nan K (f w0)) eqn:En.
  - exists 0%nat. split; [reflexivity|]. exists w0. split; [reflexivity|].
    rewrite En. intros j wj Hj. lia.
  - eexists. split; [reflexivity|].
    apply (@argmin_scan_spec t [w0] 0%nat w0); auto.
    + intros [|[|j]] wj Hj; simpl in Hj; try discriminate.
      injection Hj as <-. now apply (leb_refl HO).
    + intros j wj Hj. lia.
Qed.

(** There is one such position. *)
Lemma first_argmin_unique (ws : list A) (k k' : nat) :
  first_argmin K f ws k -> first_argmin K f ws k' -> k = k'.
Proof.
  assert (G : forall k k', (k < k')%nat ->
            first_argmin K f ws k -> first_argmin K f ws k' -> False).
  { clear k k'. intros k k' Hlt (w & Hw & H) (w' & Hw' & H').
    destruct (is_nan K (f w')) eqn:En'.
    - destruct (is_nan K (f w)) eqn:En.
      + rewrite (H' k w Hlt Hw) in En. discriminate.
      + rewrite (H' k w Hlt Hw) in En. clear En.
        destruct H as [Hmin _]. apply Hmin in Hw'.
        apply leb_number in Hw'. congruence.
    - destruct H' as [Hmin' Hfst'].
      pose proof (Hfst' k w Hlt Hw) as L.
      destruct (is_nan K (f w)) eqn:En.
      + apply Hmin' in Hw. apply leb_number in Hw. congruence.
      + destruct H as [Hmin _]. apply Hmin in Hw'.
        rewrite (ltb_not_leb HO _ _ L) in Hw'. discriminate. }
  intros H H'.
  destruct (Nat.lt_trichotomy k k') as [L|[E|L]]; [|exact E|];
    exfalso; eauto.
Qed.

End ArgminFacts.

(** ** lvq.py: classification and the competitive update *)

Module LvqFacts.
Import Lvq.

Section Classify.
Variable K : Scalar.

Lemma zip_with_Ok (f : K -> K -> K) (u v : vec K) :
  length u = length v ->
  exists r, zip_with f u v = Ok r /\ length r = length u /\
    forall i a b, nth_error u i = Some a -> nth_error v i = Some b ->
      nth_error r i = Some (f a b).
Proof.
  revert v; induction u as [|a u IH]; intros [|b v] H; simpl in *; try lia.
  - exists []. repeat split; auto. intros [|i]; discriminate.
  - destruct (IH v) as (r & Hr & Hl & Hn); [lia|].
    rewrite Hr. simpl. exists (f a b :: r). repeat split; simpl; auto.
    intros [|i] a' b' Ha Hb; simpl in *.
    + congruence.
    + eauto.
Qed.

Hypothesis HO : OrderLaws K.

(** The best-matching unit: [np.argmin] over the distances the loop
    collects is the first NaN distance, or else the first least one. *)
Lemma best_matching_unit (m : LVQ K) (ws : list (vec K)) (x : vec K) :
  ws <> [] ->
  exists bmu,
    np_argmin K (distances m ws x) = Ok bmu /\
    first_argmin K (dist_call (distance m) x) ws bmu.
Proof.
  intros Hne. unfold distances.
  apply (np_argmin_first HO (dist_call (distance m) x) Hne).
Qed.

(** C4: on a model that holds at least one prototype, [feedforward] (the
    classifier) returns the position [bmu] that [np.argmin] finds among the
    distances from [x] to the prototypes, taken modulo [output_size].  That
    position is the first one whose distance is the least; a distance that
    is NaN counts as the least, as numpy has it, so with NaN distances it
    is the first of those.  There is exactly one such position, so the
    class is fixed by the distances; and the answer reads the prototypes,
    the distance and [output_size] only, so two calls on the same
    prototypes and input agree. *)
Theorem classify_first_argmin (m : LVQ K) (ws : list (vec K)) (x : vec K) :
  weights m = Some ws -> ws <> [] -> output_size m <> 0 ->
  exists bmu,
    feedforward m x = Ok (Z.of_nat bmu mod output_size m) /\
    first_argmin K (dist_call (distance m) x) ws bmu /\
    (forall k, first_argmin K (dist_call (distance m) x) ws k -> k = bmu) /\
    (forall m' : LVQ K,
        weights m' = weights m -> output_size m' = output_size m ->
        distance m' = distance m -> feedforward m' x = feedforward m x).
Proof.
  intros Hw Hne Hpos.
  destruct (@best_matching_unit m ws x Hne) as (k & Hk & Hmin).
  exists k. split; [|split; [|split]].
  - unfold feedforward, iter_weights. rewrite Hw. simpl. rewrite Hk. simpl.
    unfold np_mod. destruct (output_size m =? 0) eqn:E; auto.
    apply Z.eqb_eq in E. lia.
  - exact Hmin.
  - intros k' Hk'. eapply (first_argmin_unique HO); eauto.
  - intros m' H1 H2 H3. unfold feedforward, iter_weights, distances.
    rewrite H1, H2, H3. reflexivity.
Qed.

(** The body of the training loop, taken apart. *)
Lemma train_example_spec (m : LVQ K) (ws : list (vec K)) (eta : K)
    (x : vec K) (y : Z) :
  weights m = Some ws -> ws <> [] -> output_size m <> 0 ->
  Forall (fun w => length w = length x) ws ->
  exists bmu w w' ws' s,
    train_example m eta (x, y) = Ok (set_weights m ws', s) /\
    first_argmin K (dist_call (distance m) x) ws bmu /\
    nth_error ws bmu = Some w /\
    s = (if Z.of_nat bmu mod output_size m =? y then 1 else -1) /\
    length w' = length w /\
    (forall i xi wi, nth_error x i = Some xi -> nth_error w i = Some wi ->
       nth_error w' i
       = Some (add K wi (mul K (mul K (of_Z K s) eta) (sub K xi wi)))) /\
    length ws' = length ws /\
    nth_error ws' bmu = Some w' /\
    (forall j, j <> bmu -> nth_error ws' j = nth_error ws j).
Proof.
  intros Hw Hne Hpos Hlen.
  destruct (@best_matching_unit m ws x Hne) as (k & Hk & Hmin).
  assert (Hkl : (k < length ws)%nat).
  { destruct Hmin as (w & Hw' & _). apply nth_error_Some. congruence. }
  destruct (nth_error ws k) as [w|] eqn:Ew;
    [|apply nth_error_None in Ew; lia].
  assert (Hwl : length w = length x).
  { rewrite Forall_forall in Hlen. apply Hlen. eapply nth_error_In; eauto. }
  destruct (zip_with_Ok (sub K) x w) as (dx & Hdx & Hdl & Hdn); [lia|].
  set (s := if Z.of_nat k mod output_size m =? y then 1 else -1).
  assert (Hs : (if np_mod (Z.of_nat k) (output_size m) =? y then 1 else -1) = s).
  { unfold np_mod, s. destruct (output_size m =? 0) eqn:E; auto.
    apply Z.eqb_eq in E. lia. }
  destruct (zip_with_Ok (add K) w (vscale (mul K (of_Z K s) eta) dx))
    as (w' & Hw' & Hwl' & Hwn).
  { unfold vscale. rewrite length_map. lia. }
  exists k, w, w', (update_nth ws k w'), s.
  split; [|split; [|split; [|split; [|split; [|split; [|split; [|split]]]]]]].
  - unfold train_example, iter_weights. rewrite Hw. simpl. rewrite Hk. simpl.
    rewrite Ew. unfold vsub. rewrite Hdx. simpl.
    rewrite Hs. unfold vadd. rewrite Hw'. reflexivity.
  - exact Hmin.
  - exact Ew.
  - reflexivity.
  - exact Hwl'.
  - intros i xi wi Hxi Hwi. apply Hwn; [exact Hwi|].
    unfold vscale. rewrite nth_error_map, (Hdn i xi wi Hxi Hwi). reflexivity.
  - apply update_nth_length.
  - now apply nth_error_update_nth_eq.
  - intros j Hj. now apply nth_error_update_nth_neq.
Qed.

End Classify.

(** C4, at a concrete input with a tie, on binary64 floats: the prototypes
    0 and 2 are both at distance 1 from the input 1. *)
Lemma classify_first_argmin_witness :
  exists bmu,
    feedforward (lvq_with Float64 1 2 [[0]; [2]]%float) [1%float]
    = Ok (Z.of_nat bmu mod 2) /\
    first_argmin Float64 (euclidean Float64 [1%float]) [[0]; [2]]%float bmu /\
    (forall k,
        first_argmin Float64 (euclidean Float64 [1%float]) [[0]; [2]]%float k ->
        k = bmu) /\
    (forall m' : LVQ Float64,
        weights m' = Some [[0]; [2]]%float -> output_size m' = 2 ->
        distance m' = euclidean_distance Float64 ->
        feedforward m' [1%float]
        = feedforward (lvq_with Float64 1 2 [[0]; [2]]%float) [1%float]).
Proof.
  apply (@classify_first_argmin Float64 Float64_order
           (lvq_with Float64 1 2 [[0]; [2]]%float) [[0]; [2]]%float
           [1%float] eq_refl).
  - discriminate.
  - discriminate.
Defined.

End LvqFacts.

Module LvqUpdate.
Import Lvq.

(** C3: one training example updates exactly the best-matching prototype,
    the one [np.argmin] finds among the distances from [x]: the first at
    the least distance (a NaN distance counting as the least).  With [s] one
    when its class, its index modulo [output_size], is [y], and minus one
    otherwise, every coordinate w_i of that prototype becomes
    w_i + (s * eta) * (x_i - w_i), computed in this order: a move towards
    [x] by eta * (x - w), or away from it.  Every other prototype is
    unchanged.  No law of arithmetic is assumed, so this holds on binary64.
    On binary64 floats, with prototypes [[0,0],[1,1]], the example
    ((0.1, 0.1), 0) and eta = 0.5, the class-0 prototype lands at
    (0.05, 0.05) and the other one stays, both for the loop body alone and
    for a one-epoch [train] that starts from these prototypes; and the
    example ((0.75, 0.5), 0) pushes the class-1 prototype away, from (1, 1)
    to (1.125, 1.25). *)
Theorem bmu_update_rule :
  (forall (K : Scalar), OrderLaws K ->
   forall (m : LVQ K) (ws : list (vec K)) (eta : K) (x : vec K) (y : Z),
     weights m = Some ws -> ws <> [] -> output_size m <> 0 ->
     Forall (fun w => length w = length x) ws ->
     exists bmu w w' ws' s,
       train_example m eta (x, y) = Ok (set_weights m ws', s) /\
       first_argmin K (dist_call (distance m) x) ws bmu /\
       nth_error ws bmu = Some w /\
       s = (if Z.of_nat bmu mod output_size m =? y then 1 else -1) /\
       length w' = length w /\
       (forall i xi wi, nth_error x i = Some xi -> nth_error w i = Some wi ->
          nth_error w' i
          = Some (add K wi (mul K (mul K (of_Z K s) eta) (sub K xi wi)))) /\
       length ws' = length ws /\
       nth_error ws' bmu = Some w' /\
       (forall j, j <> bmu -> nth_error ws' j = nth_error ws j)) /\
  (exists m' : LVQ Float64,
     train_example (lvq_with Float64 2 2 [[0; 0]; [1; 1]]%float) 0.5%float
       ([0.1; 0.1]%float, 0) = Ok (m', 1) /\
     weights m' = Some [[0.05; 0.05]; [1; 1]]%float) /\
  (exists (m' : LVQ Float64) (hist : list float * list float),
     train (lvq_fresh Float64 2 2 [[0; 0]; [1; 1]]%float)
       [([0.1; 0.1]%float, 0)] 0.5%float 1 false None true = Ok (m', hist) /\
     weights m' = Some [[0.05; 0.05]; [1; 1]]%float) /\
  (exists m' : LVQ Float64,
     train_example (lvq_with Float64 2 2 [[0; 0]; [1; 1]]%float) 0.5%float
       ([0.75; 0.5]%float, 0) = Ok (m', -1) /\
     weights m' = Some [[0; 0]; [1.125; 1.25]]%float).
Proof.
  split; [|split; [|split]].
  - intros K HO m ws eta x y. now apply LvqFacts.train_example_spec.
  - eexists. split; vm_compute; reflexivity.
  - do 2 eexists. split; vm_compute; reflexivity.
  - eexists. split; vm_compute; reflexivity.
Qed.

(** C3, at a concrete input on binary64 floats: prototypes (0, 0) and
    (1, 1), the example ((0.75, 0.5), 0), eta = 0.5; the best-matching
    prototype is the second one, of the other class. *)
Lemma bmu_update_rule_witness :
  exists bmu w w' ws' s,
    train_example (lvq_with Float64 2 2 [[0; 0]; [1; 1]]%float) 0.5%float
      ([0.75; 0.5]%float, 0)
    = Ok (set_weights (lvq_with Float64 2 2 [[0; 0]; [1; 1]]%float) ws', s) /\
    first_argmin Float64 (euclidean Float64 [0.75; 0.5]%float)
      [[0; 0]; [1; 1]]%float bmu /\
    nth_error [[0; 0]; [1; 1]]%float bmu = Some w /\
    s = (if Z.of_nat bmu mod 2 =? 0 then 1 else -1) /\
    length w' = length w /\
    (forall i xi wi,
       nth_error [0.75; 0.5]%float i = Some xi -> nth_error w i = Some wi ->
       nth_error w' i
       = Some (PrimFloat.add wi
                 (PrimFloat.mul (PrimFloat.mul (float_of_Z s) 0.5)
                    (PrimFloat.sub xi wi)))) /\
    length ws' = 2%nat /\
    nth_error ws' bmu = Some w' /\
    (forall j, j <> bmu -> nth_error ws' j = nth_error [[0; 0]; [1; 1]]%float j).
Proof.
  apply (proj1 bmu_update_rule Float64 Float64_order
           (lvq_with Float64 2 2 [[0; 0]; [1; 1]]%float)
           [[0; 0]; [1; 1]]%float 0.5%float [0.75; 0.5]%float 0).
  - reflexivity.
  - discriminate.
  - discriminate.
  - repeat constructor.
Defined.

End LvqUpdate.

(** ** lvq.py: confusion matrix and accuracy *)

Module LvqEval.
Import Lvq.

Lemma nth_as_nth_error (A : Type) (l : list A) (i : nat) (d : A) :
  nth i l d = match nth_error l i with Some x => x | None => d end.
Proof.
  revert i; induction l as [|a t IH]; intros [|i]; simpl; auto.
Qed.

Lemma sum_update_nth (row : list Z) (c : nat) (n v : Z) :
  nth_error row c = Some n ->
  fold_right Z.add 0 (update_nth row c v) = fold_right Z.add 0 row - n + v.
Proof.
  revert c; induction row as [|a t IH]; intros [|c] H; simpl in *;
    try discriminate.
  - injection H as ->. lia.
  - rewrite (IH c H). lia.
Qed.

(** Changing a summand at one position [r] of a range changes the sum by
    the difference. *)
Lemma sum_seq_point (f g : nat -> Z) (d : Z) (r : nat) : forall n s,
  (s <= r < s + n)%nat ->
  (forall i, i <> r -> g i = f i) -> g r = f r + d ->
  fold_right Z.add 0 (map g (seq s n))
  = fold_right Z.add 0 (map f (seq s n)) + d.
Proof.
  induction n as [|n IH]; intros s Hr Hne Hr'; simpl; [lia|].
  destruct (Nat.eq_dec s r) as [->|Hs].
  - rewrite Hr'.
    assert (E : map g (seq (S r) n) = map f (seq (S r) n)).
    { apply map_ext_in. intros i Hi. apply in_seq in Hi. apply Hne. lia. }
    rewrite E. lia.
  - rewrite (Hne s Hs). rewrite (IH (S s)); auto; lia.
Qed.

Lemma sum_seq_same (f g : nat -> Z) : forall n s,
  (forall i, (s <= i < s + n)%nat -> g i = f i) ->
  fold_right Z.add 0 (map g (seq s n)) = fold_right Z.add 0 (map f (seq s n)).
Proof.
  intros n s H. f_equal. apply map_ext_in. intros i Hi.
  apply in_seq in Hi. now apply H.
Qed.

Lemma square_zeros (dim : nat) : square dim (repeat (repeat 0 dim) dim).
Proof.
  split; [apply repeat_length|].
  apply Forall_forall. intros row Hr. apply repeat_spec in Hr. subst.
  apply repeat_length.
Qed.

Lemma row_sum_zeros (dim i : nat) : row_sum (repeat (repeat 0 dim) dim) i = 0.
Proof.
  unfold row_sum. rewrite nth_as_nth_error.
  destruct (nth_error (repeat (repeat 0 dim) dim) i) as [row|] eqn:E; auto.
  apply nth_error_In, repeat_spec in E. subst.
  induction dim; simpl; auto.
Qed.

Lemma trace_zeros (dim : nat) : trace (repeat (repeat 0 dim) dim) = 0.
Proof.
  unfold trace.
  assert (H : forall l : list nat,
             fold_right Z.add 0
               (map (fun i => cell (repeat (repeat 0 dim) dim) i i) l) = 0).
  { induction l as [|i l IH]; simpl; auto. rewrite IH.
    unfold cell. rewrite (nth_as_nth_error (repeat (repeat 0 dim) dim)).
    destruct (nth_error (repeat (repeat 0 dim) dim) i) as [row|] eqn:E.
    - apply nth_error_In, repeat_spec in E. subst.
      rewrite nth_as_nth_error.
      destruct (nth_error (repeat 0 dim) i) as [v|] eqn:E'; auto.
      apply nth_error_In, repeat_spec in E'. subst. reflexivity.
    - destruct i; reflexivity. }
  apply H.
Qed.

(** The effect of [mat[y][a] += 1.0] on a square matrix, for indices in
    range. *)
Lemma incr_cell_spec (dim : nat) (mat : list (list Z)) (y a : Z) :
  square dim mat -> 0 <= y < Z.of_nat dim -> 0 <= a < Z.of_nat dim ->
  exists mat',
    incr_cell mat y a = Ok mat' /\ square dim mat' /\
    (forall i, row_sum mat' i
               = row_sum mat i + (if Z.of_nat i =? y then 1 else 0)) /\
    trace mat' = trace mat + (if a =? y then 1 else 0).
Proof.
  intros [Hlen Hrows] Hy Ha.
  unfold incr_cell.
  rewrite np_index_nonneg by lia. simpl.
  destruct (nth_error mat (Z.to_nat y)) as [row|] eqn:Erow;
    [|apply nth_error_None in Erow; lia].
  assert (Hrl : length row = dim).
  { rewrite Forall_forall in Hrows. apply Hrows. eapply nth_error_In; eauto. }
  rewrite np_index_nonneg by lia. simpl.
  destruct (nth_error row (Z.to_nat a)) as [n|] eqn:En;
    [|apply nth_error_None in En; lia].
  set (row' := update_nth row (Z.to_nat a) (n + 1)).
  set (mat' := update_nth mat (Z.to_nat y) row').
  exists mat'. split; [reflexivity|].
  assert (Hnth : forall i, nth i mat' [] =
                   if Nat.eqb i (Z.to_nat y) then row' else nth i mat []).
  { intros i. rewrite !nth_as_nth_error. unfold mat'.
    destruct (Nat.eqb_spec i (Z.to_nat y)) as [->|Hi].
    - rewrite nth_error_update_nth_eq; auto. lia.
    - rewrite nth_error_update_nth_neq; auto. }
  split; [|split].
  - split.
    + unfold mat'. rewrite update_nth_length. exact Hlen.
    + apply Forall_forall. intros r Hr.
      apply In_nth_error in Hr. destruct Hr as [i Hi].
      unfold mat' in Hi.
      destruct (Nat.eq_dec i (Z.to_nat y)) as [->|Hne].
      * rewrite nth_error_update_nth_eq in Hi by lia.
        injection Hi as <-. unfold row'. rewrite update_nth_length. exact Hrl.
      * rewrite nth_error_update_nth_neq in Hi by auto.
        rewrite Forall_forall in Hrows. apply Hrows.
        eapply nth_error_In; eauto.
  - intros i. unfold row_sum. rewrite Hnth.
    destruct (Nat.eqb_spec i (Z.to_nat y)) as [->|Hi].
    + unfold row'. rewrite (sum_update_nth _ _ _ En).
      rewrite nth_as_nth_error, Erow.
      rewrite Z2Nat.id by lia. rewrite Z.eqb_refl. lia.
    + destruct (Z.eqb_spec (Z.of_nat i) y) as [E|E]; [|lia].
      exfalso. apply Hi. subst y. now rewrite Nat2Z.id.
  - unfold trace.
    replace (length mat') with (length mat)
      by (unfold mat'; now rewrite update_nth_length).
    destruct (Z.eqb_spec a y) as [->|Hay].
    + apply sum_seq_point with (r := Z.to_nat y).
      * lia.
      * intros i Hi. unfold cell. rewrite Hnth.
        destruct (Nat.eqb_spec i (Z.to_nat y)); [contradiction|reflexivity].
      * unfold cell. rewrite Hnth, Nat.eqb_refl.
        unfold row'. rewrite !nth_as_nth_error.
        rewrite nth_error_update_nth_eq by lia.
        rewrite Erow, En. reflexivity.
    + rewrite Z.add_0_r. apply sum_seq_same. intros i Hi.
      unfold cell. rewrite Hnth.
      destruct (Nat.eqb_spec i (Z.to_nat y)) as [->|Hne]; auto.
      unfold row'. rewrite !nth_as_nth_error.
      rewrite nth_error_update_nth_neq.
      * rewrite Erow. reflexivity.
      * intros E. apply Hay. apply Z2Nat.inj in E; lia.
Qed.

Section Confusion.
Variable K : Scalar.
Variable m : LVQ K.
Variable ws : list (vec K).
Hypothesis Hws : weights m = Some ws.
Hypothesis Hne : ws <> [].
Hypothesis Hdim : 0 < output_size m.

Lemma feedforward_in_range (x : vec K) :
  exists a, feedforward m x = Ok a /\ 0 <= a < output_size m.
Proof.
  unfold feedforward, iter_weights. rewrite Hws. simpl.
  destruct (distances m ws x) as [|d0 t] eqn:E.
  - unfold distances in E. destruct ws; [congruence | discriminate].
  - destruct (@np_argmin_returns K (d0 :: t)) as [k Hk]; [discriminate|].
    rewrite Hk. cbn [bind]. eexists. split; [reflexivity|].
    now apply np_mod_range.
Qed.

Lemma count_label_cons (x : vec K) (y : Z) (data : list (example K)) (c : Z) :
  count_label ((x, y) :: data) c
  = (if y =? c then 1 else 0) + count_label data c.
Proof.
  unfold count_label. cbn [filter snd]. destruct (y =? c); cbn [length]; lia.
Qed.

Lemma confusion_loop_spec (data : list (example K)) : forall mat,
  square (Z.to_nat (output_size m)) mat ->
  Forall (fun ex => 0 <= snd ex < output_size m) data ->
  exists mat',
    confusion_loop m mat data = Ok mat' /\
    square (Z.to_nat (output_size m)) mat' /\
    (forall i, 0 <= i < output_size m ->
       row_sum mat' (Z.to_nat i) = row_sum mat (Z.to_nat i) + count_label data i) /\
    trace mat' = trace mat + count_correct m data.
Proof.
  induction data as [|[x y] data IH]; intros mat Hsq Hlab.
  - exists mat. simpl. repeat split; try apply Hsq.
    + intros i Hi. unfold count_label. simpl. lia.
    + unfold count_correct. simpl. lia.
  - inversion Hlab as [|ex l Hy Hrest]; subst. simpl in Hy.
    destruct (feedforward_in_range x) as (a & Ha & Hrange).
    destruct (@incr_cell_spec (Z.to_nat (output_size m)) mat y a)
      as (mat1 & H1 & Hsq1 & Hrow1 & Htr1); auto; try lia.
    destruct (IH mat1 Hsq1 Hrest) as (mat' & H' & Hsq' & Hrow' & Htr').
    exists mat'. split; [|split; [|split]].
    + simpl. rewrite Ha. simpl. rewrite H1. simpl. exact H'.
    + exact Hsq'.
    + intros i Hi. rewrite (Hrow' i Hi), Hrow1, count_label_cons.
      rewrite Z2Nat.id by lia.
      rewrite (Z.eqb_sym i y). lia.
    + rewrite Htr', Htr1. unfold count_correct. simpl. rewrite Ha.
      destruct (a =? y); simpl length; lia.
Qed.

Lemma accuracy_loop_spec (data : list (example K)) : forall count,
  accuracy_loop m count data = Ok (count + count_correct m data).
Proof.
  induction data as [|[x y] data IH]; intros count.
  - simpl. unfold count_correct. simpl. f_equal. lia.
  - simpl. destruct (feedforward_in_range x) as (a & Ha & _).
    rewrite Ha. simpl. rewrite IH. unfold count_correct. simpl. rewrite Ha.
    destruct (a =? y); simpl length; f_equal; lia.
Qed.

(** C8: on an initialized model and a dataset whose labels are class
    indices, [get_confusion] returns an [output_size] by [output_size]
    matrix whose row [i] sums to the number of examples of true label [i];
    its trace is what [eval_accuracy] returns, the number of examples whose
    predicted class is their label, so trace over dataset size is the
    accuracy. *)
Theorem confusion_rows_and_trace (data : list (example K)) :
  Forall (fun ex => 0 <= snd ex < output_size m) data ->
  exists mat acc,
    get_confusion m data = Ok mat /\
    eval_accuracy m data = Ok acc /\
    length mat = Z.to_nat (output_size m) /\
    Forall (fun row => length row = Z.to_nat (output_size m)) mat /\
    (forall i, 0 <= i < output_size m ->
       row_sum mat (Z.to_nat i) = count_label data i) /\
    acc = count_correct m data /\
    trace mat = acc /\
    div K (of_Z K (trace mat)) (of_Z K (Z.of_nat (length data)))
    = div K (of_Z K acc) (of_Z K (Z.of_nat (length data))).
Proof.
  intros Hlab.
  destruct (@confusion_loop_spec data
              (repeat (repeat 0 (Z.to_nat (output_size m)))
                 (Z.to_nat (output_size m))))
    as (mat & Hmat & [Hlen Hrows] & Hrow & Htr); auto.
  { apply square_zeros. }
  rewrite trace_zeros in Htr.
  exists mat, (count_correct m data).
  split; [|split; [|split; [|split; [|split; [|split; [|split]]]]]]; auto.
  - unfold get_confusion, np_zeros.
    destruct (output_size m <? 0) eqn:E; [apply Z.ltb_lt in E; lia|].
    simpl. exact Hmat.
  - unfold eval_accuracy. rewrite accuracy_loop_spec. reflexivity.
  - intros i Hi. rewrite (Hrow i Hi), row_sum_zeros. lia.
  - now rewrite Htr.
Qed.

End Confusion.

(** C8, at a concrete input: two integer prototypes and three examples. *)
Lemma confusion_rows_and_trace_witness :
  exists mat acc,
    get_confusion (lvq_with ZScalar 1 2 [[0]; [4]])
      [([1], 0); ([3], 1); ([1], 1)] = Ok mat /\
    eval_accuracy (lvq_with ZScalar 1 2 [[0]; [4]])
      [([1], 0); ([3], 1); ([1], 1)] = Ok acc /\
    length mat = 2%nat /\
    Forall (fun row => length row = 2%nat) mat /\
    (forall i, 0 <= i < 2 ->
       row_sum mat (Z.to_nat i)
       = count_label (K := ZScalar) [([1], 0); ([3], 1); ([1], 1)] i) /\
    acc = count_correct (lvq_with ZScalar 1 2 [[0]; [4]])
            [([1], 0); ([3], 1); ([1], 1)] /\
    trace mat = acc /\
    (Z.div (trace mat) 3 = Z.div acc 3).
Proof.
  apply (@confusion_rows_and_trace ZScalar (lvq_with ZScalar 1 2 [[0]; [4]])
           [[0]; [4]] eq_refl).
  - discriminate.
  - reflexivity.
  - repeat constructor; simpl; lia.
Defined.

End LvqEval.

(** ** lvq.py: early stopping *)

Module LvqStop.
Import Lvq.

Section EarlyStop.
Variable K : Scalar.
Variable tr_d : list (example K).
Variable eta_decay : bool.
Variable va : list (example K).
Hypothesis Hva : va <> [].

Lemma truthy_Some : truthy (Some va) = Some va.
Proof. destruct va; [congruence | reflexivity]. Qed.

(** What the epoch loop appends to the two histories when early stopping is
    on: as many training as validation figures, at most one per epoch, and
    a validation figure below the threshold only in the last place. *)
Lemma train_epochs_stop (n : nat) : forall m eta s tr_err va_err m' tr_err' va_err',
  train_epochs n tr_d eta_decay (Some va) true m eta s tr_err va_err
    = Ok (m', (tr_err', va_err')) ->
  exists t v,
    tr_err' = tr_err ++ t /\ va_err' = va_err ++ v /\
    length t = length v /\ (length v <= n)%nat /\
    forall k e, nth_error v k = Some e ->
      ltb K e (one_percent K) = true -> length v = S k.
Proof.
  induction n as [|n IH]; intros m eta s tr_err va_err m' tr_err' va_err' H.
  - simpl in H. injection H as <- <- <-.
    exists [], []. rewrite !app_nil_r. repeat split; auto.
    intros [|k] e; discriminate.
  - cbn [train_epochs] in H. rewrite truthy_Some in H.
    apply bind_Ok_inv in H. destruct H as ([m1 s1] & _ & H).
    apply bind_Ok_inv in H. destruct H as (eta1 & _ & H).
    apply bind_Ok_inv in H. destruct H as (e & _ & H).
    apply bind_Ok_inv in H. destruct H as (ev & _ & H).
    simpl in H.
    destruct (ltb K ev (one_percent K)) eqn:Elt.
    + injection H as <- <- <-.
      exists [e], [ev]. repeat split; simpl; auto; try lia.
      intros [|[|k]] e' He'; simpl in He'; try discriminate. auto.
    + apply IH in H. destruct H as (t & v & -> & -> & Hl & Hn & Hlast).
      exists (e :: t), (ev :: v).
      rewrite <- !app_assoc. simpl.
      repeat split; auto; try lia.
      intros [|k] e' He' Hlt; simpl in He'.
      * injection He' as <-. congruence.
      * f_equal. eauto.
Qed.

(** C9: with a validation set and early stopping on, if the validation
    error rate recorded for epoch number [k] (counted from one) is below the
    one-percent threshold, then it is the last entry: [train] ran exactly
    [k] epochs, and both returned histories have length [k] (so at most [k]).
    As a below-threshold entry is always the last one, it is also the first
    such epoch. *)
Theorem early_stop_after_first_low_error (m : LVQ K) (eta : K) (epochs : Z)
    (m' : LVQ K) (tr_err va_err : list K) (k : nat) (e : K) :
  train m tr_d eta epochs eta_decay (Some va) true = Ok (m', (tr_err, va_err)) ->
  nth_error va_err (k - 1) = Some e -> (1 <= k)%nat ->
  ltb K e (one_percent K) = true ->
  length va_err = k /\ length tr_err = k /\
  (length tr_err <= k)%nat /\ (length va_err <= k)%nat /\
  (k <= Z.to_nat epochs)%nat /\
  (forall j e', (j < k - 1)%nat -> nth_error va_err j = Some e' ->
     ltb K e' (one_percent K) = false).
Proof.
  intros H He Hk Hlt. unfold train in H.
  apply bind_Ok_inv in H. destruct H as (m0 & _ & H).
  apply train_epochs_stop in H.
  destruct H as (t & v & Ht & Hv & Hl & Hn & Hlast).
  simpl in Ht, Hv. subst t v.
  pose proof (Hlast _ _ He Hlt) as Hlen.
  assert (Hvk : length va_err = k) by lia.
  repeat split; try lia.
  intros j e' Hj He'.
  destruct (ltb K e' (one_percent K)) eqn:E; auto.
  pose proof (Hlast _ _ He' E). lia.
Qed.

End EarlyStop.

(** C9, at a concrete run on binary64 floats: the validation example is
    misclassified after the first epoch and classified correctly after the
    second, and [train] stops there although five epochs were asked for. *)
Lemma early_stop_after_first_low_error_witness :
  exists (m' : LVQ Float64) (tr_err va_err : list float),
    train (lvq_fresh Float64 2 2 [[0; 0]; [1; 1]]%float)
      [([0.45; 0.45]%float, 0)] 0.5%float 5 false
      (Some [([0.65; 0.65]%float, 0)]) true = Ok (m', (tr_err, va_err)) /\
    length va_err = 2%nat /\ length tr_err = 2%nat /\
    (length tr_err <= 2)%nat /\ (length va_err <= 2)%nat /\
    (2 <= Z.to_nat 5)%nat /\
    (forall j e', (j < 2 - 1)%nat -> nth_error va_err j = Some e' ->
       ltb Float64 e' (one_percent Float64) = false).
Proof.
  eexists. exists [0%float; 0%float], [1%float; 0%float].
  split; [vm_compute; reflexivity|].
  eapply (@early_stop_after_first_low_error Float64
            [([0.45; 0.45]%float, 0)] false
            [([0.65; 0.65]%float, 0)] ltac:(discriminate)
            (lvq_fresh Float64 2 2 [[0; 0]; [1; 1]]%float) 0.5%float 5
            _ [0%float; 0%float] [1%float; 0%float] 2%nat 0%float).
  - vm_compute. reflexivity.
  - reflexivity.
  - lia.
  - vm_compute. reflexivity.
Defined.

End LvqStop.

(** ** network.py: construction and persistence *)

Module NetBasics.
Import Net.

Section Construction.
Variable K : Scalar.
Variable new_ActivationFunction : string -> result (ActivationFunction K).
Variable new_CostFunction : string -> result (CostFunction K).
Variable new_RegularizationFunction : string -> result (RegularizationFunction K).
Variable np_rng : Type.
Variable randn : np_rng -> nat -> nat -> mat K * np_rng.

Let init := Network_init new_ActivationFunction new_CostFunction
              new_RegularizationFunction randn.

(** What [__init__] builds once the three strategy names are resolved. *)
Lemma Network_init_Ok (st : list nat) (an cn rn : string) (lr mom lam : K)
    (g : np_rng) act c reg :
  (String.eqb cn "cross-entropy" && negb (String.eqb an "sigmoid"))%bool = false ->
  new_ActivationFunction an = Ok act ->
  new_CostFunction cn = Ok c ->
  new_RegularizationFunction rn = Ok reg ->
  exists n g',
    init st an cn rn lr mom lam g = Ok (n, g') /\
    n_layers n = length st /\ struct n = st /\
    activation n = act /\ cost n = c /\ regularization n = reg /\
    eta n = lr /\
    biases n = fst (randn_list randn
                      (snd (randn_list randn
                              (snd (randn_list randn g
                                      (map (fun l => (l, 1%nat)) st)))
                              (map (fun l => (l, 1%nat)) st)))
                      (map (fun y => (y, 1%nat)) (tl st))) /\
    weights n = fst (randn_weights randn
                       (snd (randn_list randn
                               (snd (randn_list randn
                                       (snd (randn_list randn g
                                               (map (fun l => (l, 1%nat)) st)))
                                       (map (fun l => (l, 1%nat)) st)))
                               (map (fun y => (y, 1%nat)) (tl st))))
                       (combine (removelast st) (tl st))).
Proof.
  intros Hchk Ha Hc Hr. unfold init, Network_init.
  rewrite Hchk, Hr, Ha, Hc. simpl.
  destruct (randn_list randn g (map (fun l => (l, 1%nat)) st)) as [a0 g1].
  cbn [fst snd].
  destruct (randn_list randn g1 (map (fun l => (l, 1%nat)) st)) as [z0 g2].
  cbn [fst snd].
  destruct (randn_list randn g2 (map (fun y => (y, 1%nat)) (tl st))) as [bs g3].
  cbn [fst snd].
  destruct (randn_weights randn g3 (combine (removelast st) (tl st))) as [ws g4].
  do 2 eexists. split; [reflexivity|]. simpl. repeat split.
Qed.

(** C6: with cost "cross-entropy", every activation name other than
    "sigmoid" makes [__init__] fail with the incompatibility error, before
    any strategy is resolved; with "sigmoid" construction succeeds as soon as
    the three strategy names are supported. *)
Theorem cross_entropy_needs_sigmoid :
  (forall (st : list nat) (an rn : string) (lr mom lam : K) (g : np_rng),
      an <> "sigmoid" ->
      init st an "cross-entropy" rn lr mom lam g
      = Raise IncompatibleCostActivation) /\
  (forall (st : list nat) (rn : string) (lr mom lam : K) (g : np_rng) act c reg,
      new_ActivationFunction "sigmoid" = Ok act ->
      new_CostFunction "cross-entropy" = Ok c ->
      new_RegularizationFunction rn = Ok reg ->
      exists n g',
        init st "sigmoid" "cross-entropy" rn lr mom lam g = Ok (n, g') /\
        struct n = st /\ activation n = act /\ cost n = c /\
        regularization n = reg).
Proof.
  split.
  - intros st an rn lr mom lam g Han. unfold init, Network_init.
    apply String.eqb_neq in Han. rewrite Han. reflexivity.
  - intros st rn lr mom lam g act c reg Ha Hc Hr.
    destruct (@Network_init_Ok st "sigmoid" "cross-entropy" rn lr mom lam g
                act c reg eq_refl Ha Hc Hr)
      as (n & g' & H & _ & Hs & Hact & Hcost & Hreg & _).
    exists n, g'. auto.
Qed.

End Construction.

(** C6, at a concrete input: "tanh" is refused, "sigmoid" is accepted. *)
Lemma cross_entropy_needs_sigmoid_witness :
  Lib.Network_init ZScalar [2; 3; 1]%nat "tanh" "cross-entropy" "L2" 3 0 1 0
  = Raise IncompatibleCostActivation /\
  exists n g',
    Lib.Network_init ZScalar [2; 3; 1]%nat "sigmoid" "cross-entropy" "L2" 3 0 1 0
    = Ok (n, g') /\
    struct n = [2; 3; 1]%nat /\
    activation n = Lib.sigmoid_activation ZScalar /\
    cost n = {| cost_type := "cross-entropy";
                cost_derivative := Lib.a_minus_y (K := ZScalar) |} /\
    regularization n = {| reg_type := "L2";
                          reg_derivative := Lib.l2_penalty (K := ZScalar) |}.
Proof.
  split.
  - apply (proj1 (cross_entropy_needs_sigmoid
                    (Lib.new_activation ZScalar) (Lib.new_cost ZScalar)
                    (Lib.new_regularization ZScalar) (Lib.randn ZScalar))).
    discriminate.
  - apply (proj2 (cross_entropy_needs_sigmoid
                    (Lib.new_activation ZScalar) (Lib.new_cost ZScalar)
                    (Lib.new_regularization ZScalar) (Lib.randn ZScalar)));
      reflexivity.
Defined.

Section Persistence.
Variable K : Scalar.
Variable new_ActivationFunction : string -> result (ActivationFunction K).
Variable new_CostFunction : string -> result (CostFunction K).

Let load := @load K new_ActivationFunction new_CostFunction.

(** [feedforward] reads the parameters and the activation only. *)
Lemma feedforward_params_only (n n' : Network K) (X : mat K) :
  biases n' = biases n -> weights n' = weights n ->
  activation n' = activation n ->
  call n' X = call n X.
Proof.
  intros Hb Hw Ha. unfold call, feedforward. rewrite Hb, Hw, Ha.
  destruct (forward_loop (activation n) (combine (biases n) (weights n)) X [X] [])
    as [[a_list z_list]|e]; simpl; [|reflexivity].
  destruct (getitem a_list (-1)); reflexivity.
Qed.

(** C5: [save] followed by [load] of the same path, into the same or any
    other instance, restores the architecture, the activation and the cost
    (resolved again from their names), the learning rate and all weights and
    biases, so calling the network on any input gives the same result as
    before.  The strategy objects of the saved network are the ones their
    names resolve to. *)
Theorem save_load_round_trip (n n0 : Network K) (filename : string)
    (fs : filesystem K) :
  new_ActivationFunction (act_type (activation n)) = Ok (activation n) ->
  new_CostFunction (cost_type (cost n)) = Ok (cost n) ->
  exists n',
    load n0 filename (save n filename fs) = Ok n' /\
    struct n' = struct n /\
    activation n' = activation n /\
    cost n' = cost n /\
    eta n' = eta n /\
    weights n' = weights n /\
    biases n' = biases n /\
    (forall X, call n' X = call n X).
Proof.
  intros Ha Hc. unfold load, Net.load, save, write_file.
  rewrite String.eqb_refl. simpl. rewrite Ha. simpl. rewrite Hc. simpl.
  eexists. split; [reflexivity|]. simpl. repeat split.
  intros X. now apply feedforward_params_only.
Qed.

End Persistence.

(** C5, at a concrete input: a freshly built 2-3-1 network saved to and
    loaded from "conf.save.gz". *)
Lemma save_load_round_trip_witness :
  exists n',
    Lib.load (Lib.net231 ZScalar) "conf.save.gz"
      (save (Lib.net231 ZScalar) "conf.save.gz" (fun _ => None)) = Ok n' /\
    struct n' = struct (Lib.net231 ZScalar) /\
    activation n' = activation (Lib.net231 ZScalar) /\
    cost n' = cost (Lib.net231 ZScalar) /\
    eta n' = eta (Lib.net231 ZScalar) /\
    weights n' = weights (Lib.net231 ZScalar) /\
    biases n' = biases (Lib.net231 ZScalar) /\
    (forall X, call n' X = call (Lib.net231 ZScalar) X).
Proof.
  apply (@save_load_round_trip ZScalar (Lib.new_activation ZScalar)
           (Lib.new_cost ZScalar)); reflexivity.
Defined.

End NetBasics.

(** ** network.py: indices from the end *)

Section NegativeIndex.
Variable A : Type.

Lemma py_index_neg (n : nat) (i : Z) :
  - Z.of_nat n <= i < 0 -> py_index n i = Ok (Z.to_nat (Z.of_nat n + i)).
Proof.
  intros [H0 H1]. unfold py_index.
  destruct (0 <=? i) eqn:E; [apply Z.leb_le in E; lia|].
  apply Z.leb_le in H0. now rewrite H0.
Qed.

Lemma py_index_neg_inv (n : nat) (i : Z) (k : nat) :
  i < 0 -> py_index n i = Ok k ->
  - Z.of_nat n <= i /\ k = Z.to_nat (Z.of_nat n + i).
Proof.
  intros Hi. unfold py_index.
  destruct (0 <=? i) eqn:E; [apply Z.leb_le in E; lia|].
  destruct (- Z.of_nat n <=? i) eqn:E1; [|discriminate].
  apply Z.leb_le in E1. intros H. injection H as <-. auto.
Qed.

(** [l[-j]] is the element at position [length l - j]. *)
Lemma getitem_neg (l : list A) (j : nat) (v : A) :
  (1 <= j)%nat ->
  (getitem l (- Z.of_nat j) = Ok v <->
   (j <= length l)%nat /\ nth_error l (length l - j) = Some v).
Proof.
  intros Hj. unfold getitem. split.
  - intros H. apply bind_Ok_inv in H. destruct H as (k & Hk & H).
    apply py_index_neg_inv in Hk; [|lia]. destruct Hk as [Hb ->].
    replace (Z.to_nat (Z.of_nat (length l) + - Z.of_nat j))
      with (length l - j)%nat in H by lia.
    destruct (nth_error l (length l - j)); [|discriminate].
    injection H as ->. split; [lia|reflexivity].
  - intros [Hb Hn]. rewrite py_index_neg by lia. simpl.
    replace (Z.to_nat (Z.of_nat (length l) + - Z.of_nat j))
      with (length l - j)%nat by lia.
    now rewrite Hn.
Qed.

(** [l[-j] = v] overwrites position [length l - j]. *)
Lemma setitem_neg (l l' : list A) (j : nat) (v : A) :
  (1 <= j)%nat ->
  (setitem l (- Z.of_nat j) v = Ok l' <->
   (j <= length l)%nat /\ l' = update_nth l (length l - j) v).
Proof.
  intros Hj. unfold setitem. split.
  - intros H. apply bind_Ok_inv in H. destruct H as (k & Hk & H).
    apply py_index_neg_inv in Hk; [|lia]. destruct Hk as [Hb ->].
    replace (Z.to_nat (Z.of_nat (length l) + - Z.of_nat j))
      with (length l - j)%nat in H by lia.
    injection H as <-. split; [lia|reflexivity].
  - intros [Hb ->]. rewrite py_index_neg by lia. simpl.
    replace (Z.to_nat (Z.of_nat (length l) + - Z.of_nat j))
      with (length l - j)%nat by lia.
    reflexivity.
Qed.

End NegativeIndex.

(** ** network.py: shapes *)

Module NetShapes.
Import Net.

Section Shapes.
Variable K : Scalar.

Lemma has_shape_spec (r c : nat) (m : mat K) :
  has_shape r c m = true <->
  length m = r /\ Forall (fun row => length row = c) m.
Proof.
  unfold has_shape. rewrite andb_true_iff, Nat.eqb_eq, forallb_forall, Forall_forall.
  split; intros [H1 H2]; split; auto; intros row Hr.
  - apply Nat.eqb_eq. auto.
  - apply Nat.eqb_eq. auto.
Qed.

Lemma ncols_shape (r c : nat) (m : mat K) :
  has_shape r c m = true -> (0 < r)%nat -> ncols m = c.
Proof.
  intros H Hr. apply has_shape_spec in H. destruct H as [Hl Hf].
  destruct m as [|row m]; simpl in *; [lia|].
  now inversion Hf.
Qed.

Lemma transpose_shape (r c : nat) (m : mat K) :
  has_shape r c m = true -> (0 < r)%nat -> has_shape c r (transpose m) = true.
Proof.
  intros H Hr. pose proof (@ncols_shape r c m H Hr) as Hc.
  apply has_shape_spec in H. destruct H as [Hl Hf].
  apply has_shape_spec. unfold transpose. rewrite Hc. split.
  - now rewrite length_map, length_seq.
  - apply Forall_forall. intros row Hrow.
    apply in_map_iff in Hrow. destruct Hrow as (j & <- & _).
    now rewrite length_map.
Qed.

Lemma np_dot_shape (r k c : nat) (A B : mat K) :
  has_shape r k A = true -> has_shape k c B = true -> (0 < k)%nat ->
  exists C, np_dot A B = Ok C /\ has_shape r c C = true.
Proof.
  intros HA HB Hk.
  pose proof (@transpose_shape k c B HB Hk) as HT.
  apply has_shape_spec in HA, HB, HT.
  destruct HA as [HAl HAf], HB as [HBl HBf], HT as [HTl HTf].
  unfold np_dot, nrows.
  assert (E : forallb (fun r0 : list K => Nat.eqb (length r0) (length B)) A = true).
  { apply forallb_forall. intros row Hrow. apply Nat.eqb_eq.
    rewrite Forall_forall in HAf. rewrite (HAf row Hrow). lia. }
  rewrite E. eexists. split; [reflexivity|].
  apply has_shape_spec. split.
  - now rewrite length_map.
  - apply Forall_forall. intros row Hrow.
    apply in_map_iff in Hrow. destruct Hrow as (a & <- & _).
    now rewrite length_map.
Qed.

Lemma row_zip_Ok (f : K -> K -> K) (u v : list K) :
  length u = length v ->
  exists w, row_zip f u v = Ok w /\ length w = length u.
Proof.
  revert v; induction u as [|a u IH]; intros [|b v] H; simpl in *; try lia.
  - exists []. auto.
  - destruct (IH v) as (w & Hw & Hl); [lia|].
    rewrite Hw. simpl. exists (f a b :: w). simpl. auto.
Qed.

Lemma mat_zip_shape (f : K -> K -> K) (r c : nat) (A B : mat K) :
  has_shape r c A = true -> has_shape r c B = true ->
  exists C, mat_zip f A B = Ok C /\ has_shape r c C = true.
Proof.
  intros HA HB. apply has_shape_spec in HA, HB.
  destruct HA as [HAl HAf], HB as [HBl HBf].
  assert (G : forall A B : mat K,
             length A = length B ->
             Forall (fun row => length row = c) A ->
             Forall (fun row => length row = c) B ->
             exists C, mat_zip f A B = Ok C /\ length C = length A /\
                       Forall (fun row => length row = c) C).
  { clear. induction A as [|u A IH]; intros [|v B] Hl HAf HBf;
      simpl in *; try discriminate.
    - exists []. repeat split; auto.
    - inversion HAf as [|? ? Hu HA']; subst.
      inversion HBf as [|? ? Hv HB']; subst.
      destruct (@row_zip_Ok f u v) as (w & Hw & Hwl); [lia|].
      destruct (IH B) as (C & HC & HCl & HCf); auto.
      rewrite Hw. simpl. rewrite HC. simpl.
      exists (w :: C). simpl. repeat split; auto. }
  destruct (G A B) as (C & HC & HCl & HCf); auto; [lia|].
  exists C. split; auto. apply has_shape_spec. split; auto. lia.
Qed.

(** *** Entry by entry *)

Lemma nth_map_lt (A B : Type) (f : A -> B) (l : list A) (i : nat) (d : A) (d' : B) :
  (i < length l)%nat -> nth i (map f l) d' = f (nth i l d).
Proof.
  revert i; induction l as [|x l IH]; intros [|i] H; simpl in *; try lia; auto.
  apply IH. lia.
Qed.

Lemma has_shape_row (r c : nat) (m : mat K) (i : nat) :
  has_shape r c m = true -> (i < r)%nat -> length (nth i m []) = c.
Proof.
  intros H Hi. apply has_shape_spec in H. destruct H as [Hl Hf].
  rewrite Forall_forall in Hf. apply Hf. apply nth_In. lia.
Qed.

Lemma dot_acc_sum (u : list K) : forall (acc : K) (v : list K),
  length u = length v ->
  dot_acc acc u v
  = sum_from K acc (map (fun k => mul K (nth k u (of_Z K 0)) (nth k v (of_Z K 0)))
                      (seq 0 (length u))).
Proof.
  induction u as [|x u IH]; intros acc [|y v] H; simpl in H; try lia.
  - reflexivity.
  - cbn [dot_acc length seq map]. unfold sum_from. cbn [fold_left nth].
    rewrite <- seq_shift, map_map. cbn [nth].
    rewrite IH by lia. reflexivity.
Qed.

Lemma transpose_length (m : mat K) : length (transpose m) = ncols m.
Proof. unfold transpose. now rewrite length_map, length_seq. Qed.

Lemma transpose_row (m : mat K) (j : nat) :
  (j < ncols m)%nat ->
  nth j (transpose m) [] = map (fun r => nth j r (of_Z K 0)) m.
Proof.
  intros Hj. unfold transpose.
  rewrite (@nth_map_lt _ _ _ _ j 0%nat) by now rewrite length_seq.
  now rewrite seq_nth.
Qed.

Lemma transpose_cell (m : mat K) (i j : nat) :
  (i < length m)%nat -> (j < ncols m)%nat ->
  cell (transpose m) j i = cell m i j.
Proof.
  intros Hi Hj. unfold cell. rewrite transpose_row by exact Hj.
  now rewrite (@nth_map_lt _ _ _ _ i []).
Qed.

(** Entry (i, j) of [np.dot(A, B)] is the sum over k of A[i, k] * B[k, j],
    accumulated from zero in the order of k. *)
Lemma np_dot_cell (A B C : mat K) (i j : nat) :
  np_dot A B = Ok C -> (i < length A)%nat -> (j < ncols B)%nat ->
  cell C i j
  = sum_from K (of_Z K 0)
      (map (fun k => mul K (cell A i k) (cell B k j)) (seq 0 (length B))).
Proof.
  unfold np_dot, nrows. intros H Hi Hj.
  destruct (forallb (fun r : list K => Nat.eqb (length r) (length B)) A) eqn:E;
    [|discriminate].
  injection H as <-.
  rewrite forallb_forall in E.
  assert (Hr : length (nth i A []) = length B).
  { apply Nat.eqb_eq. apply E. now apply nth_In. }
  unfold cell at 1.
  rewrite (@nth_map_lt _ _ _ _ i []) by exact Hi.
  rewrite (@nth_map_lt _ _ _ _ j []) by now rewrite transpose_length.
  rewrite transpose_row by exact Hj.
  unfold dot_vec. rewrite dot_acc_sum by now rewrite length_map.
  rewrite Hr. f_equal. apply map_ext_in. intros k Hk. apply in_seq in Hk.
  unfold cell. f_equal.
  apply (@nth_map_lt _ _ (fun r => nth j r (of_Z K 0))). lia.
Qed.

Lemma row_zip_nth (f : K -> K -> K) (u : list K) : forall (v w : list K) (j : nat),
  row_zip f u v = Ok w -> (j < length u)%nat ->
  nth j w (of_Z K 0) = f (nth j u (of_Z K 0)) (nth j v (of_Z K 0)).
Proof.
  induction u as [|x u IH]; intros [|y v] w j H Hj; simpl in *;
    try lia; try discriminate.
  apply bind_Ok_inv in H. destruct H as (r & Hr & H). injection H as <-.
  destruct j as [|j]; [reflexivity|]. simpl. apply (IH v); auto. lia.
Qed.


(** An elementwise operation, entry by entry. *)
Lemma mat_zip_cell (f : K -> K -> K) (A : mat K) : forall (B C : mat K) (i j : nat),
  mat_zip f A B = Ok C -> (i < length A)%nat -> (j < length (nth i A []))%nat ->
  cell C i j = f (cell A i j) (cell B i j).
Proof.
  induction A as [|u A IH]; intros [|v B] C i j H Hi Hj; simpl in *;
    try lia; try discriminate.
  apply bind_Ok_inv in H. destruct H as (t & Ht & H).
  apply bind_Ok_inv in H. destruct H as (C' & HC & H). injection H as <-.
  destruct i as [|i].
  - unfold cell. cbn [nth]. now apply row_zip_nth.
  - unfold cell. cbn [nth]. apply (IH B C' i j HC); [lia|exact Hj].
Qed.




Lemma shapes_ok_lengths (sizes : list nat) : forall (bs ws : list (mat K)),
  shapes_ok sizes bs ws = true ->
  length bs = (length sizes - 1)%nat /\ length ws = (length sizes - 1)%nat.
Proof.
  induction sizes as [|s0 rest IH]; intros bs ws H; simpl in H; [discriminate|].
  destruct rest as [|s1 rest'].
  - destruct bs; [|discriminate]. destruct ws; [|discriminate]. auto.
  - destruct bs as [|b bs]; [discriminate|].
    destruct ws as [|w ws]; [discriminate|].
    apply andb_true_iff in H. destruct H as [_ H].
    destruct (IH bs ws H) as [Hb Hw]. simpl in *. lia.
Qed.

Lemma shapes_ok_nth (sizes : list nat) : forall (bs ws : list (mat K)) i,
  shapes_ok sizes bs ws = true ->
  (forall b, nth_error bs i = Some b ->
     has_shape (nth (S i) sizes 0%nat) 1 b = true) /\
  (forall w, nth_error ws i = Some w ->
     has_shape (nth (S i) sizes 0%nat) (nth i sizes 0%nat) w = true).
Proof.
  induction sizes as [|s0 rest IH]; intros bs ws i H; simpl in H; [discriminate|].
  destruct rest as [|s1 rest'].
  - destruct bs; [|discriminate]. destruct ws; [|discriminate].
    split; intros ? Hn; destruct i; discriminate.
  - destruct bs as [|b bs]; [discriminate|].
    destruct ws as [|w ws]; [discriminate|].
    apply andb_true_iff in H. destruct H as [H H3].
    apply andb_true_iff in H. destruct H as [H1 H2].
    destruct i as [|i].
    + split; intros ? Hn; simpl in Hn; injection Hn as <-; assumption.
    + destruct (IH bs ws i H3) as [Hb Hw]. split; intros ? Hn; simpl in Hn.
      * now apply Hb.
      * now apply Hw.
Qed.

Lemma columns_nth (sizes : list nat) (l : list (mat K)) :
  columns sizes l ->
  length l = length sizes /\
  forall i m, nth_error l i = Some m -> has_shape (nth i sizes 0%nat) 1 m = true.
Proof.
  induction 1 as [|s m sizes l Hsm Hrest [IHl IHn]]; simpl.
  - split; auto. intros [|i] m; discriminate.
  - split; [lia|]. intros [|i] m' Hn; simpl in Hn.
    + now injection Hn as <-.
    + now apply IHn.
Qed.

Lemma positive_nth (sizes : list nat) (i : nat) :
  forallb (Nat.ltb 0) sizes = true -> (i < length sizes)%nat ->
  (0 < nth i sizes 0)%nat.
Proof.
  intros H Hi. rewrite forallb_forall in H.
  apply Nat.ltb_lt. apply H. now apply nth_In.
Qed.

Lemma forward_loop_lengths (f : ActivationFunction K) (bw : list (mat K * mat K)) :
  forall act al zl al' zl',
    forward_loop f bw act al zl = Ok (al', zl') ->
    length al' = (length al + length bw)%nat /\
    length zl' = (length zl + length bw)%nat.
Proof.
  induction bw as [|[b w] bw IH]; intros act al zl al' zl' H; simpl in H.
  - injection H as <- <-. simpl. lia.
  - apply bind_Ok_inv in H. destruct H as (wa & _ & H).
    apply bind_Ok_inv in H. destruct H as (z & _ & H).
    apply IH in H. rewrite !length_app in H. simpl in *. lia.
Qed.

(** The forward pass goes through on well-shaped parameters and input. *)
Lemma forward_loop_shapes (f : ActivationFunction K) (sizes : list nat) :
  keeps_shape (act_call f) ->
  forall bs ws X al zl,
    shapes_ok sizes bs ws = true ->
    forallb (Nat.ltb 0) sizes = true ->
    has_shape (hd 0%nat sizes) 1 X = true ->
    exists acts zs,
      forward_loop f (combine bs ws) X al zl = Ok (al ++ acts, zl ++ zs) /\
      columns (tl sizes) acts /\ columns (tl sizes) zs.
Proof.
  intros Hf.
  induction sizes as [|s0 rest IH]; intros bs ws X al zl H Hpos HX;
    simpl in H; [discriminate|].
  destruct rest as [|s1 rest'].
  - destruct bs; [|discriminate]. destruct ws; [|discriminate].
    exists [], []. simpl. rewrite !app_nil_r. repeat split; constructor.
  - destruct bs as [|b bs]; [discriminate|].
    destruct ws as [|w ws]; [discriminate|].
    apply andb_true_iff in H. destruct H as [H H3].
    apply andb_true_iff in H. destruct H as [H1 H2].
    simpl in Hpos. apply andb_true_iff in Hpos. destruct Hpos as [Hp0 Hpos].
    apply Nat.ltb_lt in Hp0. simpl in HX.
    destruct (@np_dot_shape s1 s0 1%nat w X H2 HX Hp0) as (wa & Hwa & Hwas).
    destruct (@mat_zip_shape (add K) s1 1%nat wa b Hwas H1) as (z & Hz & Hzs).
    pose proof (Hf _ _ _ Hzs) as Hact.
    destruct (IH bs ws (act_call f z) (al ++ [act_call f z]) (zl ++ [z])
                H3 Hpos Hact) as (acts & zs & Hloop & Hca & Hcz).
    exists (act_call f z :: acts), (z :: zs).
    split; [|split].
    + simpl. rewrite Hwa. simpl. unfold mat_add. rewrite Hz. simpl.
      rewrite Hloop. now rewrite <- !app_assoc.
    + constructor; auto.
    + constructor; auto.
Qed.

End Shapes.
End NetShapes.

(** ** network.py: backpropagation *)

Module NetBackprop.
Import Net NetShapes.

Lemma map_map_keeps_shape (K : Scalar) (f : K -> K) :
  keeps_shape (map (map f) : mat K -> mat K).
Proof.
  intros r c m H. apply has_shape_spec in H. destruct H as [Hl Hf].
  apply has_shape_spec. split; [now rewrite length_map|].
  apply Forall_forall. intros row Hrow.
  apply in_map_iff in Hrow. destruct Hrow as (u & <- & Hu).
  rewrite length_map. rewrite Forall_forall in Hf. now apply Hf.
Qed.

Section Backprop.
Variable K : Scalar.

Lemma feedforward_inv (n n1 : Network K) (X out : mat K) :
  feedforward n X = Ok (n1, out) ->
  exists al zl,
    n1 = set_cache n al zl /\
    length al = S (length (combine (biases n) (weights n))) /\
    length zl = length (combine (biases n) (weights n)).
Proof.
  unfold feedforward. intros H.
  apply bind_Ok_inv in H. destruct H as ([al zl] & Hloop & H).
  apply bind_Ok_inv in H. destruct H as (o & _ & H).
  injection H as <- <-.
  apply forward_loop_lengths in Hloop. simpl in Hloop.
  exists al, zl. repeat split; lia.
Qed.

Lemma grads_from_0 (n : Network K) y al zl delta nb nw :
  grads_from n y al zl 0 (delta, nb, nw) -> backprop_spec n y al zl nb nw.
Proof.
  unfold grads_from, backprop_spec.
  intros (H1 & H2 & _ & _ & Hout & Hhid & Hw).
  repeat split; auto.
  - intros l Hl. apply Hhid; auto. lia.
  - intros l Hl. apply Hw; auto. lia.
Qed.

(** *** Packed arrays *)

(** An assignment that goes through is the assignment to a list item. *)
Lemma store_setitem (p : packing) (l l' : list (mat K)) (i : Z) (v : mat K) :
  store p l i v = Ok l' -> setitem l i v = Ok l'.
Proof.
  unfold store, setitem. intros H.
  apply bind_Ok_inv in H. destruct H as (k & Hk & H). rewrite Hk. cbn [bind].
  destruct p; [|exact H].
  destruct (nth_error l k) as [slot|]; [|exact H].
  destruct (same_shape slot v); [exact H|discriminate].
Qed.

Lemma same_shape_of (r c : nat) (A B : mat K) :
  has_shape r c A = true -> has_shape r c B = true -> (0 < r)%nat ->
  same_shape A B = true.
Proof.
  intros HA HB Hr. unfold same_shape, nrows.
  rewrite (@ncols_shape K r c A HA Hr), (@ncols_shape K r c B HB Hr).
  apply has_shape_spec in HA, HB. destruct HA as [-> _], HB as [-> _].
  now rewrite !Nat.eqb_refl.
Qed.

(** It goes through when the slot and the value have one shape. *)
Lemma store_Ok (p : packing) (r c : nat) (l : list (mat K)) (j : nat)
    (v : mat K) :
  (1 <= j <= length l)%nat -> (0 < r)%nat ->
  (forall slot, nth_error l (length l - j) = Some slot ->
     has_shape r c slot = true) ->
  has_shape r c v = true ->
  store p l (- Z.of_nat j) v = Ok (update_nth l (length l - j) v).
Proof.
  intros Hj Hr Hslot Hv. unfold store.
  rewrite py_index_neg by lia. cbn [bind].
  replace (Z.to_nat (Z.of_nat (length l) + - Z.of_nat j))
    with (length l - j)%nat by lia.
  destruct p; [|reflexivity].
  destruct (nth_error l (length l - j)) as [slot|] eqn:E; [|reflexivity].
  now rewrite (@same_shape_of r c slot v (Hslot _ eq_refl) Hv Hr).
Qed.

(** Arrays of one column count always pack: densely when their row counts
    agree as well, as objects otherwise. *)
Lemma pack_one_width (c : nat) (l : list (mat K)) :
  Forall (fun m => ncols m = c) l -> packs l.
Proof.
  intros H. unfold packs, pack. destruct l as [|m0 t]; [eauto|].
  destruct (forallb (same_shape m0) t) eqn:E1; [eauto|].
  destruct (forallb (fun m => Nat.eqb (nrows m) (nrows m0)) t) eqn:E2;
    [|eauto].
  exfalso. inversion H as [|? ? H0 Ht]; subst.
  assert (E : forallb (same_shape m0) t = true).
  { apply forallb_forall. intros m Hm.
    rewrite forallb_forall in E2. specialize (E2 m Hm).
    apply Nat.eqb_eq in E2. rewrite Forall_forall in Ht.
    unfold same_shape. rewrite E2, (Ht m Hm). now rewrite !Nat.eqb_refl. }
  congruence.
Qed.

(** How arrays pack depends on their shapes only. *)
Lemma pack_same_shapes (l l' : list (mat K)) :
  Forall2 (fun A B => nrows A = nrows B /\ ncols A = ncols B) l l' ->
  pack l' = pack l.
Proof.
  intros H. destruct H as [|m0 m0' t t' [Hr Hc] Ht]; [reflexivity|].
  cbn [pack].
  assert (E1 : forallb (same_shape m0') t' = forallb (same_shape m0) t).
  { induction Ht as [|A B t t' [HA HB] Ht IH]; [reflexivity|].
    cbn [forallb]. rewrite IH. unfold same_shape.
    now rewrite Hr, Hc, HA, HB. }
  assert (E2 : forallb (fun m => Nat.eqb (nrows m) (nrows m0')) t'
               = forallb (fun m => Nat.eqb (nrows m) (nrows m0)) t).
  { clear E1. induction Ht as [|A B t t' [HA HB] Ht IH]; [reflexivity|].
    cbn [forallb]. rewrite IH. now rewrite Hr, HA. }
  now rewrite E1, E2.
Qed.

Lemma update_nth_all (A : Type) (P : nat -> A -> Prop) (l : list A) (k : nat)
    (v : A) :
  (forall i m, nth_error l i = Some m -> P i m) -> P k v ->
  forall i m, nth_error (update_nth l k v) i = Some m -> P i m.
Proof.
  intros Hl Hv i m H. destruct (Nat.eq_dec i k) as [->|Hne].
  - destruct (Nat.lt_ge_cases k (length l)) as [Hk|Hk].
    + rewrite nth_error_update_nth_eq in H by exact Hk. now injection H as <-.
    + assert (E : nth_error (update_nth l k v) k = None)
        by (apply nth_error_None; rewrite update_nth_length; lia).
      congruence.
  - rewrite nth_error_update_nth_neq in H by exact Hne. eauto.
Qed.

Section Loop.
Variable n : Network K.
Variable pb pw : packing.
Variable y : label K.
Let L := length (weights n).
Hypothesis Hz : length (z n) = L.
Hypothesis Ha : length (a n) = S L.

(** One round of the loop, read backwards: what a successful round did. *)
Lemma backprop_step_inv (j : nat) delta nb nw delta' nb' nw' :
  (2 <= j)%nat ->
  backprop_step n pb pw (Z.of_nat j) (delta, nb, nw) = Ok (delta', nb', nw') ->
  exists W wd zl al g,
    (j <= S L)%nat /\ nth_error (weights n) (S L - j) = Some W /\
    np_dot (transpose W) delta = Ok wd /\
    (j <= L)%nat /\ nth_error (z n) (L - j) = Some zl /\
    mat_mul wd (act_derivative (activation n) zl) = Ok delta' /\
    (j <= length nb)%nat /\ nb' = update_nth nb (length nb - j) delta' /\
    nth_error (a n) (L - j) = Some al /\
    np_dot delta' (transpose al) = Ok g /\
    (j <= length nw)%nat /\ nw' = update_nth nw (length nw - j) g.
Proof.
  intros Hj H. unfold backprop_step in H.
  replace (- Z.of_nat j + 1) with (- Z.of_nat (j - 1)) in H by lia.
  replace (- Z.of_nat j - 1) with (- Z.of_nat (S j)) in H by lia.
  apply bind_Ok_inv in H. destruct H as (W & HW & H).
  apply bind_Ok_inv in H. destruct H as (wd & Hwd & H).
  apply bind_Ok_inv in H. destruct H as (zl & Hzl & H).
  apply bind_Ok_inv in H. destruct H as (d' & Hd' & H).
  apply bind_Ok_inv in H. destruct H as (nb1 & Hnb & H).
  apply bind_Ok_inv in H. destruct H as (al & Hal & H).
  apply bind_Ok_inv in H. destruct H as (g & Hg & H).
  apply bind_Ok_inv in H. destruct H as (nw1 & Hnw & H).
  injection H as <- <- <-.
  apply store_setitem in Hnb, Hnw.
  apply getitem_neg in HW; [|lia]. destruct HW as [HWb HW].
  apply getitem_neg in Hzl; [|lia]. destruct Hzl as [Hzb Hzl].
  apply getitem_neg in Hal; [|lia]. destruct Hal as [Hab Hal].
  apply setitem_neg in Hnb; [|lia]. destruct Hnb as [Hnbb ->].
  apply setitem_neg in Hnw; [|lia]. destruct Hnw as [Hnwb ->].
  fold L in HWb, HW. rewrite Hz in Hzb, Hzl. rewrite Ha in Hab, Hal.
  exists W, wd, zl, al, g.
  replace (S L - j)%nat with (L - (j - 1))%nat by lia.
  replace (S L - S j)%nat with (L - j)%nat in Hal by lia.
  repeat split; auto; lia.
Qed.

Lemma backprop_step_grads (j : nat) st st' :
  (2 <= j)%nat ->
  grads_from n y (a n) (z n) (S L - j) st ->
  backprop_step n pb pw (Z.of_nat j) st = Ok st' ->
  (j <= L)%nat /\ grads_from n y (a n) (z n) (L - j) st'.
Proof.
  intros Hj Hinv Hstep.
  destruct st as [[delta nb] nw]. destruct st' as [[delta' nb'] nw'].
  destruct (@backprop_step_inv j delta nb nw delta' nb' nw' Hj Hstep)
    as (W & wd & zl & al & g & _ & HW & Hwd & HjL & Hzl & Hd' & Hjb & -> &
        Hal & Hg & Hjw & ->).
  destruct Hinv as (Hlb & Hlw & Hfrom & Hdelta & Hout & Hhid & Hwg).
  fold L in Hlb, Hlw, Hfrom, Hout, Hhid, Hwg.
  rewrite Hlb, Hlw.
  split; [exact HjL|].
  unfold grads_from. fold L.
  rewrite !update_nth_length.
  split; [exact Hlb|]. split; [exact Hlw|]. split; [lia|].
  split; [apply nth_error_update_nth_eq; lia|].
  split; [|split].
  - destruct Hout as (a_last & z_last & dL & H1 & H2 & H3 & H4).
    exists a_last, z_last, dL. repeat split; auto.
    rewrite nth_error_update_nth_neq; auto. lia.
  - intros l Hl HlL.
    destruct (Nat.eq_dec l (L - j)) as [->|Hne].
    + exists W, delta, zl, delta'.
      replace (S (L - j)) with (S L - j)%nat by lia.
      repeat split; auto.
      * rewrite nth_error_update_nth_neq; auto. lia.
      * apply nth_error_update_nth_eq. lia.
      * exists wd. auto.
    + destruct (Hhid l) as (W' & dn & z' & dl & G1 & G2 & G3 & G4 & G5);
        [lia|lia|].
      exists W', dn, z', dl. repeat split; auto.
      * rewrite nth_error_update_nth_neq; auto. lia.
      * rewrite nth_error_update_nth_neq; auto.
  - intros l Hl HlL.
    destruct (Nat.eq_dec l (L - j)) as [->|Hne].
    + exists delta', al, g. repeat split; auto.
      * apply nth_error_update_nth_eq. lia.
      * apply nth_error_update_nth_eq. lia.
    + destruct (Hwg l) as (dl & ap & g' & G1 & G2 & G3 & G4); [lia|lia|].
      exists dl, ap, g'. repeat split; auto.
      * rewrite nth_error_update_nth_neq; auto.
      * rewrite nth_error_update_nth_neq; auto.
Qed.

Lemma backprop_loop_grads (cnt : nat) : forall j st st',
  (2 <= j <= S L)%nat ->
  grads_from n y (a n) (z n) (S L - j) st ->
  backprop_loop n pb pw (seq j cnt) st = Ok st' ->
  (j + cnt <= S L)%nat /\ grads_from n y (a n) (z n) (S L - (j + cnt)) st'.
Proof.
  induction cnt as [|cnt IH]; intros j st st' Hj Hinv Hloop; simpl in Hloop.
  - injection Hloop as <-. rewrite Nat.add_0_r. split; [lia|auto].
  - apply bind_Ok_inv in Hloop. destruct Hloop as (st1 & Hstep & Hloop).
    destruct (@backprop_step_grads j st st1 ltac:(lia) Hinv Hstep)
      as [HjL Hinv1].
    replace (L - j)%nat with (S L - S j)%nat in Hinv1 by lia.
    destruct (IH (S j) st1 st' ltac:(lia) Hinv1 Hloop) as [Hb Hinv'].
    split; [lia|].
    now replace (j + S cnt)%nat with (S j + cnt)%nat by lia.
Qed.

End Loop.

Lemma zeros_like_length (l : list (mat K)) : length (zeros_like l) = length l.
Proof. unfold zeros_like. apply length_map. Qed.

(** Whenever [backpropagation] returns, numpy could pack the parameters,
    and the gradients are those of the backward pass on the cache of a
    forward pass. *)
Lemma backpropagation_sound (n n1 : Network K) (X : mat K) (y : label K)
    (nb nw : list (mat K)) :
  n_layers n = S (length (weights n)) ->
  length (biases n) = length (weights n) ->
  backpropagation n X y = Ok (n1, (nb, nw)) ->
  (exists out, feedforward n X = Ok (n1, out)) /\
  weights n1 = weights n /\ biases n1 = biases n /\
  backprop_spec n y (a n1) (z n1) nb nw.
Proof.
  intros Hnl Hbw H. unfold backpropagation in H.
  apply bind_Ok_inv in H. destruct H as (pb & _ & H). cbv zeta in H.
  apply bind_Ok_inv in H. destruct H as (pw & _ & H).
  apply bind_Ok_inv in H. destruct H as ([n1' out] & Hff & H).
  apply bind_Ok_inv in H. destruct H as (a_last & Hal & H).
  apply bind_Ok_inv in H. destruct H as (delta & Hdelta & H).
  apply bind_Ok_inv in H. destruct H as (nb1 & Hnb1 & H).
  apply bind_Ok_inv in H. destruct H as (a_prev & Hap & H).
  apply bind_Ok_inv in H. destruct H as (g & Hg & H).
  apply bind_Ok_inv in H. destruct H as (nw1 & Hnw1 & H).
  apply bind_Ok_inv in H. destruct H as ([[d2 nb2] nw2] & Hloop & H).
  injection H as <- <- <-.
  apply store_setitem in Hnb1, Hnw1.
  destruct (@feedforward_inv n n1' X out Hff) as (al & zl & -> & Hla & Hlz).
  rewrite length_combine, Hbw, Nat.min_id in Hla, Hlz.
  set (L := length (weights n)) in *.
  cbn [a z cost activation set_cache n_layers weights biases] in *.
  change (-1) with (- Z.of_nat 1) in Hal, Hnb1, Hnw1, Hdelta.
  change (-2) with (- Z.of_nat 2) in Hap.
  apply getitem_neg in Hal; [|lia]. destruct Hal as [_ Hal].
  apply getitem_neg in Hap; [|lia]. destruct Hap as [_ Hap].
  apply setitem_neg in Hnb1; [|lia]. destruct Hnb1 as [HL ->].
  apply setitem_neg in Hnw1; [|lia]. destruct Hnw1 as [_ ->].
  rewrite zeros_like_length in *. rewrite Hbw in *. fold L in HL.
  rewrite Hla in Hal, Hap. fold L.
  replace (S L - 1)%nat with L in Hal by lia.
  replace (S L - 2)%nat with (L - 1)%nat in Hap by lia.
  assert (Hzl : exists z_last, nth_error zl (L - 1) = Some z_last).
  { destruct (nth_error zl (L - 1)) eqn:E; [eauto|].
    apply nth_error_None in E. lia. }
  destruct Hzl as (z_last & Hzl).
  split; [eauto|]. split; [reflexivity|]. split; [reflexivity|].
  assert (Hinit : grads_from (set_cache n al zl) y al zl (S L - 2)
                    (delta, update_nth (zeros_like (biases n)) (L - 1) delta,
                     update_nth (zeros_like (weights n)) (L - 1) g)).
  { unfold grads_from. cbn [weights set_cache]. fold L.
    rewrite !update_nth_length, !zeros_like_length, Hbw. fold L.
    replace (S L - 2)%nat with (L - 1)%nat by lia.
    split; [reflexivity|]. split; [reflexivity|]. split; [lia|].
    split; [apply nth_error_update_nth_eq; rewrite zeros_like_length; lia|].
    split; [|split].
    - exists a_last, z_last, delta. repeat split; auto.
      + apply nth_error_update_nth_eq. rewrite zeros_like_length. lia.
      + unfold output_delta. cbn [cost activation set_cache].
        destruct (String.eqb (cost_type (cost n)) "cross-entropy").
        * now injection Hdelta as <-.
        * apply bind_Ok_inv in Hdelta. destruct Hdelta as (z' & Hz' & Hd).
          apply getitem_neg in Hz'; [|lia]. destruct Hz' as [_ Hz'].
          rewrite Hlz in Hz'. rewrite Hzl in Hz'. injection Hz' as <-. exact Hd.
    - intros l Hl1 Hl2. lia.
    - intros l Hl1 Hl2. assert (l = (L - 1)%nat) as -> by lia.
      exists delta, a_prev, g. repeat split; auto.
      + apply nth_error_update_nth_eq. rewrite zeros_like_length. lia.
      + apply nth_error_update_nth_eq. rewrite zeros_like_length. lia. }
  rewrite Hnl in Hloop. rewrite ?zeros_like_length in Hloop. fold L in Hloop.
  assert (Hj : (2 <= 2 <= S (length (weights (set_cache n al zl))))%nat)
    by (cbn [weights set_cache]; fold L; lia).
  destruct (@backprop_loop_grads (set_cache n al zl) pb pw y Hlz Hla (S L - 2) 2
              _ _ Hj Hinit Hloop) as [_ Hfin].
  replace (S (length (weights (set_cache n al zl))) - (2 + (S L - 2)))%nat
    with 0%nat in Hfin by (cbn [weights set_cache]; fold L; lia).
  apply grads_from_0 in Hfin. exact Hfin.
Qed.


(** *** The backward pass goes through on well-shaped data *)

Lemma nth_error_in_range (A : Type) (l : list A) (i : nat) :
  (i < length l)%nat -> exists v, nth_error l i = Some v.
Proof.
  intros H. destruct (nth_error l i) eqn:E; [eauto|].
  apply nth_error_None in E. lia.
Qed.

Lemma outer_product_Ok (r c : nat) (delta al : mat K) :
  has_shape r 1 delta = true -> has_shape c 1 al = true -> (0 < c)%nat ->
  exists g, np_dot delta (transpose al) = Ok g /\ has_shape r c g = true.
Proof.
  intros Hd Ha Hc.
  apply (@np_dot_shape K r 1%nat c delta (transpose al)); auto.
  apply (@transpose_shape K c 1%nat al); auto.
Qed.

Section Success.
Variable n : Network K.
Variable pb pw : packing.
Variable sizes : list nat.
Let L := length (weights n).
Hypothesis Hpos : forallb (Nat.ltb 0) sizes = true.
Hypothesis Hsizes : length sizes = S L.
Hypothesis Hws : forall i w, nth_error (weights n) i = Some w ->
  has_shape (nth (S i) sizes 0%nat) (nth i sizes 0%nat) w = true.
Hypothesis Hzl : length (z n) = L.
Hypothesis Hzs : forall i m, nth_error (z n) i = Some m ->
  has_shape (nth (S i) sizes 0%nat) 1 m = true.
Hypothesis Hal : length (a n) = S L.
Hypothesis Has : forall i m, nth_error (a n) i = Some m ->
  has_shape (nth i sizes 0%nat) 1 m = true.
Hypothesis Hact' : keeps_shape (act_derivative (activation n)).

Lemma backprop_step_Ok (j : nat) (delta : mat K) (nb nw : list (mat K)) :
  (2 <= j <= L)%nat ->
  length nb = L -> length nw = L ->
  (forall i m, nth_error nb i = Some m ->
     has_shape (nth (S i) sizes 0%nat) 1 m = true) ->
  (forall i m, nth_error nw i = Some m ->
     has_shape (nth (S i) sizes 0%nat) (nth i sizes 0%nat) m = true) ->
  has_shape (nth (S (S L - j)) sizes 0%nat) 1 delta = true ->
  exists delta' nb' nw',
    backprop_step n pb pw (Z.of_nat j) (delta, nb, nw) = Ok (delta', nb', nw') /\
    length nb' = L /\ length nw' = L /\
    (forall i m, nth_error nb' i = Some m ->
       has_shape (nth (S i) sizes 0%nat) 1 m = true) /\
    (forall i m, nth_error nw' i = Some m ->
       has_shape (nth (S i) sizes 0%nat) (nth i sizes 0%nat) m = true) /\
    has_shape (nth (S (L - j)) sizes 0%nat) 1 delta' = true.
Proof.
  intros Hj Hnb Hnw Hnbs Hnws Hd.
  destruct (@nth_error_in_range _ (weights n) (S L - j)) as (W & HW);
    [fold L; lia|].
  destruct (@nth_error_in_range _ (z n) (L - j)) as (zl & Hz); [lia|].
  destruct (@nth_error_in_range _ (a n) (L - j)) as (al & Ha); [lia|].
  pose proof (Hws _ HW) as HWs.
  pose proof (Hzs _ Hz) as Hzls.
  pose proof (Has _ Ha) as Hals.
  replace (S (L - j)) with (S L - j)%nat in Hzls by lia.
  assert (P0 : (0 < nth (S L - j) sizes 0)%nat)
    by (apply (@positive_nth sizes); auto; lia).
  assert (P1 : (0 < nth (S (S L - j)) sizes 0)%nat)
    by (apply (@positive_nth sizes); auto; lia).
  assert (P2 : (0 < nth (L - j) sizes 0)%nat)
    by (apply (@positive_nth sizes); auto; lia).
  pose proof (@transpose_shape K _ _ _ HWs P1) as HWt.
  destruct (@np_dot_shape K _ _ _ _ _ HWt Hd P1) as (wd & Hwd & Hwds).
  destruct (@mat_zip_shape K (mul K) _ _ wd
              (act_derivative (activation n) zl) Hwds (Hact' _ _ _ Hzls))
    as (delta' & Hd' & Hd's).
  destruct (@outer_product_Ok _ _ delta' al Hd's Hals P2) as (g & Hg & Hgs).
  replace (S L - j)%nat with (S (L - j)) in Hd's, Hgs, P0 by lia.
  exists delta', (update_nth nb (L - j) delta'), (update_nth nw (L - j) g).
  split; [|split; [|split; [|split; [|split]]]].
  - unfold backprop_step.
    replace (- Z.of_nat j + 1) with (- Z.of_nat (j - 1)) by lia.
    replace (- Z.of_nat j - 1) with (- Z.of_nat (S j)) by lia.
    assert (G1 : getitem (weights n) (- Z.of_nat (j - 1)) = Ok W).
    { apply getitem_neg; [lia|]. fold L. split; [lia|].
      now replace (L - (j - 1))%nat with (S L - j)%nat by lia. }
    assert (G2 : getitem (z n) (- Z.of_nat j) = Ok zl).
    { apply getitem_neg; [lia|]. rewrite Hzl. split; [lia|auto]. }
    assert (G3 : getitem (a n) (- Z.of_nat (S j)) = Ok al).
    { apply getitem_neg; [lia|]. rewrite Hal. split; [lia|].
      now replace (S L - S j)%nat with (L - j)%nat by lia. }
    assert (G4 : store pb nb (- Z.of_nat j) delta'
                 = Ok (update_nth nb (L - j) delta')).
    { rewrite <- Hnb.
      apply (@store_Ok pb (nth (S (L - j)) sizes 0%nat) 1%nat);
        auto; [lia|]. rewrite Hnb. intros slot Hslot. now apply Hnbs. }
    assert (G5 : store pw nw (- Z.of_nat j) g = Ok (update_nth nw (L - j) g)).
    { rewrite <- Hnw.
      apply (@store_Ok pw (nth (S (L - j)) sizes 0%nat)
               (nth (L - j) sizes 0%nat));
        auto; [lia|]. rewrite Hnw. intros slot Hslot. now apply Hnws. }
    rewrite G1. cbn [bind]. rewrite Hwd. cbn [bind]. rewrite G2. cbn [bind].
    unfold mat_mul. rewrite Hd'. cbn [bind]. rewrite G4. cbn [bind].
    rewrite G3. cbn [bind]. rewrite Hg. cbn [bind]. rewrite G5. reflexivity.
  - now rewrite update_nth_length.
  - now rewrite update_nth_length.
  - apply update_nth_all; assumption.
  - apply update_nth_all; assumption.
  - exact Hd's.
Qed.

Lemma backprop_loop_Ok (cnt : nat) : forall j delta nb nw,
  (2 <= j)%nat -> (j + cnt <= S L)%nat ->
  length nb = L -> length nw = L ->
  (forall i m, nth_error nb i = Some m ->
     has_shape (nth (S i) sizes 0%nat) 1 m = true) ->
  (forall i m, nth_error nw i = Some m ->
     has_shape (nth (S i) sizes 0%nat) (nth i sizes 0%nat) m = true) ->
  has_shape (nth (S (S L - j)) sizes 0%nat) 1 delta = true ->
  exists st', backprop_loop n pb pw (seq j cnt) (delta, nb, nw) = Ok st'.
Proof.
  induction cnt as [|cnt IH]; intros j delta nb nw Hj Hjc Hnb Hnw Hnbs Hnws Hd;
    cbn [backprop_loop seq].
  - eauto.
  - destruct (@backprop_step_Ok j delta nb nw ltac:(lia) Hnb Hnw Hnbs Hnws Hd)
      as (delta' & nb' & nw' & Hstep & Hnb' & Hnw' & Hnbs' & Hnws' & Hd').
    rewrite Hstep. cbn [bind].
    apply IH; auto; lia.
Qed.

End Success.


Lemma feedforward_Ok (n : Network K) (X : mat K) :
  initialized n ->
  has_shape (hd 0%nat (struct n)) 1 X = true ->
  keeps_shape (act_call (activation n)) ->
  exists acts zs out,
    feedforward n X = Ok (set_cache n (X :: acts) zs, out) /\
    columns (struct n) (X :: acts) /\ columns (tl (struct n)) zs.
Proof.
  intros (Hnl & Hlen & Hpos & Hshapes) HX Hf.
  destruct (@forward_loop_shapes K (activation n) (struct n) Hf
              (biases n) (weights n) X [X] [] Hshapes Hpos HX)
    as (acts & zs & Hloop & Hca & Hcz).
  simpl in Hloop.
  destruct (@nth_error_in_range _ (X :: acts) (length (X :: acts) - 1))
    as (out & Hout); [simpl; lia|].
  exists acts, zs, out. split; [|split].
  - unfold feedforward. rewrite Hloop. cbn [bind a set_cache].
    change (-1) with (- Z.of_nat 1).
    assert (G : getitem (X :: acts) (- Z.of_nat 1) = Ok out).
    { apply getitem_neg; [lia|]. split; [simpl; lia|exact Hout]. }
    rewrite G. reflexivity.
  - destruct (struct n) as [|s0 rest]; [simpl in Hlen; lia|].
    constructor; auto.
  - exact Hcz.
Qed.

(** The bias arrays of an initialized network always pack. *)
Lemma biases_pack (n : Network K) : initialized n -> packs (biases n).
Proof.
  intros (Hnl & Hlen & Hpos & Hshapes).
  apply (@pack_one_width 1%nat). apply Forall_forall. intros b Hb.
  apply In_nth_error in Hb. destruct Hb as [i Hi].
  pose proof (proj1 (@shapes_ok_nth K _ _ _ i Hshapes) b Hi) as Hs.
  destruct (@shapes_ok_lengths K _ _ _ Hshapes) as [Hlb _].
  assert (Hil : (i < length (biases n))%nat)
    by (apply nth_error_Some; congruence).
  apply (@ncols_shape K _ _ _ Hs).
  apply (@positive_nth (struct n)); auto. lia.
Qed.

(** On an initialized network whose weight arrays pack, for an input
    column of the input size and strategies that keep shapes,
    [backpropagation] returns, with the cache of the forward pass. *)
Lemma backpropagation_returns (n : Network K) (X : mat K) (y : label K) :
  initialized n ->
  packs (weights n) ->
  has_shape (hd 0%nat (struct n)) 1 X = true ->
  keeps_shape (act_call (activation n)) ->
  keeps_shape (act_derivative (activation n)) ->
  (forall r a_last, has_shape r 1 a_last = true ->
     has_shape r 1 (cost_derivative (cost n) a_last y) = true) ->
  exists acts zs out nb nw,
    feedforward n X = Ok (set_cache n (X :: acts) zs, out) /\
    columns (struct n) (X :: acts) /\ columns (tl (struct n)) zs /\
    backpropagation n X y = Ok (set_cache n (X :: acts) zs, (nb, nw)) /\
    backprop_spec n y (X :: acts) zs nb nw.
Proof.
  intros Hinit [pw Hpw] HX Hf Hf' Hc.
  destruct (@biases_pack n Hinit) as [pb Hpb].
  destruct (@feedforward_Ok n X Hinit HX Hf)
    as (acts & zs & out & Hff & Hca & Hcz).
  destruct Hinit as (Hnl & Hlen & Hpos & Hshapes).
  destruct (@shapes_ok_lengths K _ _ _ Hshapes) as [Hlb Hlw].
  destruct (@columns_nth K _ _ Hca) as [Hal Has].
  destruct (@columns_nth K _ _ Hcz) as [Hzl Hzs].
  set (L := length (weights n)) in *.
  assert (Hsz : length (struct n) = S L) by lia.
  assert (Hzl' : length zs = L).
  { rewrite Hzl. destruct (struct n); simpl in *; lia. }
  assert (Hzs' : forall i m, nth_error zs i = Some m ->
                   has_shape (nth (S i) (struct n) 0%nat) 1 m = true).
  { intros i m Hm. apply Hzs in Hm.
    destruct (struct n); simpl in *; [lia|exact Hm]. }
  assert (Hws : forall i w, nth_error (weights n) i = Some w ->
                  has_shape (nth (S i) (struct n) 0%nat)
                    (nth i (struct n) 0%nat) w = true).
  { intros i w Hw.
    now apply (proj2 (@shapes_ok_nth K _ _ _ i Hshapes)). }
  assert (Hbs : forall i b, nth_error (biases n) i = Some b ->
                  has_shape (nth (S i) (struct n) 0%nat) 1 b = true).
  { intros i b Hb.
    now apply (proj1 (@shapes_ok_nth K _ _ _ i Hshapes)). }
  assert (Hzb : forall i m, nth_error (zeros_like (biases n)) i = Some m ->
                  has_shape (nth (S i) (struct n) 0%nat) 1 m = true).
  { intros i m Hm. unfold zeros_like in Hm. rewrite nth_error_map in Hm.
    revert Hm. destruct (nth_error _ i) as [b|] eqn:E; simpl;
      [|discriminate].
    intros Hm. injection Hm as <-.
    apply (@map_map_keeps_shape K (fun x => mul K x (of_Z K 0))).
    now apply Hbs. }
  assert (Hzw : forall i m, nth_error (zeros_like (weights n)) i = Some m ->
                  has_shape (nth (S i) (struct n) 0%nat)
                    (nth i (struct n) 0%nat) m = true).
  { intros i m Hm. unfold zeros_like in Hm. rewrite nth_error_map in Hm.
    revert Hm. destruct (nth_error _ i) as [w|] eqn:E; simpl;
      [|discriminate].
    intros Hm. injection Hm as <-.
    apply (@map_map_keeps_shape K (fun x => mul K x (of_Z K 0))).
    now apply Hws. }
  assert (G : exists nb nw,
             backpropagation n X y
             = Ok (set_cache n (X :: acts) zs, (nb, nw))).
  { unfold backpropagation. rewrite Hpb. cbn [bind]. cbv zeta.
    rewrite Hpw. cbn [bind].
    rewrite Hff. cbn [bind a z cost activation set_cache].
    destruct (@nth_error_in_range _ (X :: acts) L) as (a_last & Hlast); [lia|].
    destruct (@nth_error_in_range _ (X :: acts) (L - 1)) as (a_prev & Hprev);
      [lia|].
    destruct (@nth_error_in_range _ zs (L - 1)) as (z_last & Hzlast); [lia|].
    change (-1) with (- Z.of_nat 1). change (-2) with (- Z.of_nat 2).
    assert (G1 : getitem (X :: acts) (- Z.of_nat 1) = Ok a_last).
    { apply getitem_neg; [lia|]. rewrite Hal, Hsz. split; [lia|].
      now replace (S L - 1)%nat with L by lia. }
    assert (G2 : getitem zs (- Z.of_nat 1) = Ok z_last).
    { apply getitem_neg; [lia|]. rewrite Hzl'. split; [lia|exact Hzlast]. }
    assert (G3 : getitem (X :: acts) (- Z.of_nat 2) = Ok a_prev).
    { apply getitem_neg; [lia|]. rewrite Hal, Hsz. split; [lia|].
      now replace (S L - 2)%nat with (L - 1)%nat by lia. }
    pose proof (Has _ _ Hlast) as Hlasts.
    pose proof (Has _ _ Hprev) as Hprevs.
    pose proof (Hzs' _ _ Hzlast) as Hzlasts.
    replace (S (L - 1)) with L in Hzlasts by lia.
    assert (D : exists delta,
               (if String.eqb (cost_type (cost n)) "cross-entropy"
                then Ok (cost_derivative (cost n) a_last y)
                else
                  z_last <- getitem zs (- Z.of_nat 1) ;;
                  mat_mul (cost_derivative (cost n) a_last y)
                    (act_derivative (activation n) z_last)) = Ok delta /\
               has_shape (nth L (struct n) 0%nat) 1 delta = true).
    { destruct (String.eqb (cost_type (cost n)) "cross-entropy").
      - eexists. split; [reflexivity|]. now apply Hc.
      - rewrite G2. cbn [bind].
        apply (@mat_zip_shape K (mul K)); [now apply Hc | now apply Hf']. }
    destruct D as (delta & Hdelta & Hds).
    rewrite G1. cbn [bind]. rewrite Hdelta. cbn [bind].
    assert (PL : (0 < nth L (struct n) 0)%nat)
      by (apply (@positive_nth (struct n)); auto; lia).
    assert (P : (0 < nth (L - 1) (struct n) 0)%nat)
      by (apply (@positive_nth (struct n)); auto; lia).
    destruct (@outer_product_Ok _ _ delta a_prev Hds Hprevs P) as (g & Hg & Hgs).
    assert (G4 : store pb (zeros_like (biases n)) (- Z.of_nat 1) delta
                 = Ok (update_nth (zeros_like (biases n)) (L - 1) delta)).
    { replace (L - 1)%nat with (length (zeros_like (biases n)) - 1)%nat
        by (rewrite zeros_like_length; lia).
      apply (@store_Ok pb (nth L (struct n) 0%nat) 1%nat); auto.
      - rewrite zeros_like_length. lia.
      - rewrite zeros_like_length, Hlb. intros slot Hslot.
        apply Hzb in Hslot.
        now replace (S (length (struct n) - 1 - 1)) with L in Hslot by lia. }
    assert (G5 : store pw (zeros_like (weights n)) (- Z.of_nat 1) g
                 = Ok (update_nth (zeros_like (weights n)) (L - 1) g)).
    { replace (L - 1)%nat with (length (zeros_like (weights n)) - 1)%nat
        by (rewrite zeros_like_length; reflexivity).
      apply (@store_Ok pw (nth L (struct n) 0%nat)
               (nth (L - 1) (struct n) 0%nat)); auto.
      - rewrite zeros_like_length. fold L. lia.
      - rewrite zeros_like_length. fold L. intros slot Hslot.
        apply Hzw in Hslot.
        now replace (S (L - 1)) with L in Hslot by lia. }
    rewrite G4. cbn [bind]. rewrite G3. cbn [bind].
    rewrite Hg. cbn [bind]. rewrite G5. cbn [bind].
    cbn [n_layers set_cache]. rewrite Hnl, Hsz.
    assert (Hloop : exists st',
               backprop_loop (set_cache n (X :: acts) zs) pb pw
                 (seq 2 (S L - 2))
                 (delta, update_nth (zeros_like (biases n)) (L - 1) delta,
                  update_nth (zeros_like (weights n)) (L - 1) g) = Ok st').
    { apply (@backprop_loop_Ok (set_cache n (X :: acts) zs) pb pw (struct n));
        cbn [weights a z activation set_cache]; fold L;
        rewrite ?update_nth_length, ?zeros_like_length;
        auto; try lia.
      - apply update_nth_all; [exact Hzb|].
        now replace (S (L - 1)) with L by lia.
      - apply update_nth_all; [exact Hzw|].
        now replace (S (L - 1)) with L by lia.
      - replace (S (S L - 2)) with L by lia. exact Hds. }
    destruct Hloop as ([[d2 nb2] nw2] & Hloop).
    rewrite Hloop. cbn [bind]. eauto. }
  destruct G as (nb & nw & Hbp).
  exists acts, zs, out, nb, nw.
  split; [exact Hff|]. split; [exact Hca|]. split; [exact Hcz|].
  split; [exact Hbp|].
  assert (Hs : backprop_spec n y (a (set_cache n (X :: acts) zs))
                 (z (set_cache n (X :: acts) zs)) nb nw)
    by (apply (@backpropagation_sound n _ X y nb nw); auto; lia).
  exact Hs.
Qed.

(** The gradients of the backward pass, entry by entry. *)
Lemma backprop_spec_stated (n : Network K) (y : label K)
    (al zl nb nw : list (mat K)) :
  (2 <= length (struct n))%nat ->
  forallb (Nat.ltb 0) (struct n) = true ->
  shapes_ok (struct n) (biases n) (weights n) = true ->
  columns (struct n) al -> columns (tl (struct n)) zl ->
  keeps_shape (act_derivative (activation n)) ->
  (forall r a_last, has_shape r 1 a_last = true ->
     has_shape r 1 (cost_derivative (cost n) a_last y) = true) ->
  backprop_spec n y al zl nb nw ->
  gradients_as_stated n y al zl nb nw.
Proof.
  intros Hlen Hpos Hshapes Hca Hcz Hf' Hc (Hlnb & Hlnw & Hout & Hhid & Hwg).
  destruct (@shapes_ok_lengths K _ _ _ Hshapes) as [Hlb Hlw].
  destruct (@columns_nth K _ _ Hca) as [Hal Has].
  destruct (@columns_nth K _ _ Hcz) as [Hzl Hzs].
  set (L := length (weights n)) in *.
  assert (Hsz : length (struct n) = S L) by lia.
  assert (Hzs' : forall i m, nth_error zl i = Some m ->
                   has_shape (nth (S i) (struct n) 0%nat) 1 m = true).
  { intros i m Hm. apply Hzs in Hm.
    destruct (struct n); simpl in *; [lia|exact Hm]. }
  assert (Hws : forall i w, nth_error (weights n) i = Some w ->
                  has_shape (nth (S i) (struct n) 0%nat)
                    (nth i (struct n) 0%nat) w = true).
  { intros i w Hw.
    now apply (proj2 (@shapes_ok_nth K _ _ _ i Hshapes)). }
  assert (Hp : forall i, (i <= L)%nat -> (0 < nth i (struct n) 0)%nat).
  { intros i Hi. apply (@positive_nth (struct n)); auto. lia. }
  (* the shapes of the errors, from the last layer down *)
  assert (Hdelta : forall k l, (l + S k = L)%nat ->
            has_shape (nth (S l) (struct n) 0%nat) 1 (nth l nb []) = true).
  { induction k as [|k IH]; intros l Hl.
    - destruct Hout as (a_last & z_last & dL & G1 & G2 & G3 & G4).
      replace (L - 1)%nat with l in G2, G3 by lia.
      rewrite (nth_error_nth _ _ _ G3).
      pose proof (Has _ _ G1) as Hlast.
      pose proof (Hzs' _ _ G2) as Hzlast.
      replace (S l) with L by lia. replace (S l) with L in Hzlast by lia.
      unfold output_delta in G4.
      destruct (String.eqb (cost_type (cost n)) "cross-entropy").
      + subst dL. now apply Hc.
      + destruct (@mat_zip_shape K (mul K) _ _ _ _
                    (Hc _ _ Hlast) (Hf' _ _ _ Hzlast)) as (C & HC & HCs).
        unfold mat_mul in G4. rewrite G4 in HC. now injection HC as <-.
    - destruct (Hhid l ltac:(lia))
        as (W & dn & z_l & d & G1 & G2 & G3 & G4 & wd & G5 & G6).
      rewrite (nth_error_nth _ _ _ G4).
      pose proof (IH (S l) ltac:(lia)) as Hdn.
      rewrite (nth_error_nth _ _ _ G2) in Hdn.
      pose proof (Hws _ _ G1) as HW.
      assert (P2 : (0 < nth (S (S l)) (struct n) 0)%nat) by (apply Hp; lia).
      pose proof (@transpose_shape K _ _ _ HW P2) as HWt.
      destruct (@np_dot_shape K _ _ _ _ _ HWt Hdn P2) as (wd' & E & Hwds).
      rewrite G5 in E. injection E as <-.
      destruct (@mat_zip_shape K (mul K) _ _ _ _
                  Hwds (Hf' _ _ _ (Hzs' _ _ G3))) as (C & HC & HCs).
      unfold mat_mul in G6. rewrite G6 in HC. now injection HC as <-. }
  assert (Hd : forall l, (l < L)%nat ->
            has_shape (nth (S l) (struct n) 0%nat) 1 (nth l nb []) = true).
  { intros l Hl. apply (Hdelta (L - S l)%nat). lia. }
  unfold gradients_as_stated. cbv zeta. fold L.
  split; [exact Hlnb|]. split; [exact Hlnw|].
  split; [|split; [|split]].
  - intros l Hl. split; [now apply Hd|].
    destruct (Hwg l Hl) as (delta & a_prev & g & G1 & G2 & G3 & G4).
    rewrite (nth_error_nth _ _ _ G3).
    pose proof (Hd l Hl) as Hdl. rewrite (nth_error_nth _ _ _ G1) in Hdl.
    destruct (@outer_product_Ok _ _ delta a_prev Hdl (Has _ _ G2)
                (Hp l ltac:(lia))) as (g' & E & Hgs).
    unfold weight_gradient in G4. rewrite G4 in E. now injection E as <-.
  - intros i Hi.
    destruct Hout as (a_last & z_last & dL & G1 & G2 & G3 & G4).
    rewrite (nth_error_nth _ _ _ G1), (nth_error_nth _ _ _ G2),
      (nth_error_nth _ _ _ G3).
    pose proof (Hc _ _ (Has _ _ G1)) as Hcd.
    unfold output_delta in G4.
    destruct (String.eqb (cost_type (cost n)) "cross-entropy").
    + now subst dL.
    + apply (mat_zip_cell _ _ _ G4).
      * apply has_shape_spec in Hcd. lia.
      * rewrite (has_shape_row _ _ Hcd Hi). lia.
  - intros l i Hl Hi.
    destruct (Hhid l Hl)
      as (W & dn & z_l & d & G1 & G2 & G3 & G4 & wd & G5 & G6).
    rewrite (nth_error_nth _ _ _ G1), (nth_error_nth _ _ _ G2),
      (nth_error_nth _ _ _ G3), (nth_error_nth _ _ _ G4).
    pose proof (Hd (S l) Hl) as Hdn. rewrite (nth_error_nth _ _ _ G2) in Hdn.
    pose proof (Hws _ _ G1) as HW.
    assert (P2 : (0 < nth (S (S l)) (struct n) 0)%nat) by (apply Hp; lia).
    pose proof (@transpose_shape K _ _ _ HW P2) as HWt.
    destruct (@np_dot_shape K _ _ _ _ _ HWt Hdn P2) as (wd' & E & Hwds).
    rewrite G5 in E. injection E as <-.
    rewrite (mat_zip_cell _ _ _ G6).
    + f_equal. rewrite (np_dot_cell _ _ G5).
      * assert (Hldn : length dn = nth (S (S l)) (struct n) 0%nat)
          by (apply has_shape_spec in Hdn; tauto).
        rewrite Hldn. f_equal. apply map_ext_in. intros k Hk.
        apply in_seq in Hk. f_equal. apply transpose_cell.
        -- apply has_shape_spec in HW. lia.
        -- rewrite (@ncols_shape K _ _ _ HW P2). exact Hi.
      * apply has_shape_spec in HWt. lia.
      * rewrite (@ncols_shape K _ _ _ Hdn P2). lia.
    + apply has_shape_spec in Hwds. lia.
    + rewrite (has_shape_row _ _ Hwds Hi). lia.
  - intros l i j Hl Hi Hj.
    destruct (Hwg l Hl) as (delta & a_prev & g & G1 & G2 & G3 & G4).
    rewrite (nth_error_nth _ _ _ G1), (nth_error_nth _ _ _ G2),
      (nth_error_nth _ _ _ G3).
    pose proof (Hd l Hl) as Hdl. rewrite (nth_error_nth _ _ _ G1) in Hdl.
    pose proof (Has _ _ G2) as Hap.
    assert (P0 : (0 < nth l (struct n) 0)%nat) by (apply Hp; lia).
    pose proof (@transpose_shape K _ _ _ Hap P0) as Hat.
    unfold weight_gradient in G4.
    rewrite (np_dot_cell _ _ G4).
    + assert (E : length (transpose a_prev) = 1%nat)
        by (apply has_shape_spec in Hat; tauto).
      rewrite E. cbn [seq map]. do 3 f_equal. apply transpose_cell.
      * apply has_shape_spec in Hap. lia.
      * rewrite (@ncols_shape K _ _ _ Hap P0). lia.
    + apply has_shape_spec in Hdl. lia.
    + rewrite (@ncols_shape K _ _ _ Hat Nat.lt_0_1). exact Hj.
Qed.


End Backprop.



End NetBackprop.

(** ** network.py: a fresh network is ready, a fresh LVQ model is not *)

Module Fresh.
Import NetShapes NetBackprop.

Section FreshNetwork.
Variable K : Scalar.
Variable new_ActivationFunction : string -> result (Net.ActivationFunction K).
Variable new_CostFunction : string -> result (Net.CostFunction K).
Variable new_RegularizationFunction : string -> result (Net.RegularizationFunction K).
Variable np_rng : Type.
Variable randn : np_rng -> nat -> nat -> Net.mat K * np_rng.

(** [randn(r, c)] draws an array of shape (r, c). *)
Hypothesis randn_shape :
  forall g r c, Net.has_shape r c (fst (randn g r c)) = true.

Lemma div_sqrt_shape (r c : nat) (m : Net.mat K) (x : nat) :
  Net.has_shape r c m = true -> Net.has_shape r c (Net.div_sqrt m x) = true.
Proof. apply map_map_keeps_shape. Qed.

Lemma random_parameters_shapes (st : list nat) : forall g g',
  st <> [] ->
  Net.shapes_ok st
    (fst (Net.randn_list randn g (map (fun y => (y, 1%nat)) (tl st))))
    (fst (Net.randn_weights randn g' (combine (removelast st) (tl st))))
  = true.
Proof.
  induction st as [|s0 rest IH]; intros g g' Hne; [congruence|].
  destruct rest as [|s1 rest']; [reflexivity|].
  cbn [tl map Net.randn_list].
  change (removelast (s0 :: s1 :: rest')) with (s0 :: removelast (s1 :: rest')).
  cbn [combine Net.randn_weights].
  pose proof (randn_shape g s1 1) as Hb.
  pose proof (randn_shape g' s1 s0) as Hw.
  destruct (randn g s1 1) as [b g1].
  destruct (randn g' s1 s0) as [w g1'].
  specialize (IH g1 g1' ltac:(discriminate)).
  cbn [tl] in IH.
  destruct (Net.randn_list randn g1 (map (fun y => (y, 1%nat)) rest'))
    as [bs g2].
  destruct (Net.randn_weights randn g1' (combine (removelast (s1 :: rest')) rest'))
    as [ws g2'].
  cbn [fst snd Net.shapes_ok] in *.
  rewrite Hb, (div_sqrt_shape _ _ _ _ Hw), IH. reflexivity.
Qed.

(** What [__init__] builds is an initialized network. *)
Lemma Network_init_initialized (st : list nat) (an cn rn : string)
    (lr mom lam : K) (g g' : np_rng) (n : Net.Network K) :
  Net.Network_init new_ActivationFunction new_CostFunction
    new_RegularizationFunction randn st an cn rn lr mom lam g = Ok (n, g') ->
  (2 <= length st)%nat -> forallb (Nat.ltb 0) st = true ->
  Net.initialized n /\ Net.struct n = st.
Proof.
  intros H Hlen Hpos. unfold Net.Network_init in H.
  destruct (String.eqb cn "cross-entropy" && negb (String.eqb an "sigmoid"))%bool;
    [discriminate|].
  apply bind_Ok_inv in H. destruct H as (reg & _ & H).
  apply bind_Ok_inv in H. destruct H as (act & _ & H).
  apply bind_Ok_inv in H. destruct H as (c & _ & H).
  destruct (Net.randn_list randn g (map (fun l => (l, 1%nat)) st)) as [a0 g1].
  destruct (Net.randn_list randn g1 (map (fun l => (l, 1%nat)) st)) as [z0 g2].
  pose proof (@random_parameters_shapes st g2) as Hsh.
  destruct (Net.randn_list randn g2 (map (fun y => (y, 1%nat)) (tl st)))
    as [bs g3].
  specialize (Hsh g3).
  destruct (Net.randn_weights randn g3 (combine (removelast st) (tl st)))
    as [ws g4].
  injection H as <- <-.
  unfold Net.initialized. cbn [Net.n_layers Net.struct Net.biases Net.weights].
  repeat split; auto.
  apply Hsh. destruct st; [simpl in Hlen; lia|discriminate].
Qed.

End FreshNetwork.

(** C7 as stated fails for the network: a network that was only constructed
    (on binary64 floats, architecture 2-3-1) answers [feedforward] with an
    output instead of an error. *)
Lemma fresh_network_feedforward_returns :
  ~ (forall n g,
       Lib.Network_init Float64 [2; 3; 1]%nat "sigmoid" "quadratic" "none"
         3%float 0%float 1%float 0 = Ok (n, g) ->
       exists e, Net.feedforward n [[1]; [0]]%float = Raise e).
Proof.
  intros H.
  destruct (Lib.Network_init Float64 [2; 3; 1]%nat "sigmoid" "quadratic" "none"
              3%float 0%float 1%float 0) as [[n g]|e] eqn:E;
    [|vm_compute in E; discriminate].
  destruct (H n g eq_refl) as (e & He).
  vm_compute in E. injection E as <- _.
  vm_compute in He. discriminate.
Qed.

(** C7, amended: an LVQ model that was only constructed has no prototypes,
    and [feedforward] on it raises (a [TypeError], from iterating over
    [None]); a network is given random parameters by its constructor, so on
    a network that was only constructed, with at least two non-empty layers,
    [feedforward] returns an output for every input column of the input
    size. *)
Theorem feedforward_before_training :
  (forall (K : Scalar) new_D new_W input_size output_size ppc df wf verbose
          (m : Lvq.LVQ K) (x : Lvq.vec K),
     Lvq.LVQ_init new_D new_W input_size output_size ppc df wf verbose = Ok m ->
     Lvq.feedforward m x = Raise TypeError) /\
  (forall (K : Scalar) new_A new_C new_R (np_rng : Type)
          (randn : np_rng -> nat -> nat -> Net.mat K * np_rng)
          st an cn rn lr mom lam g g' (n : Net.Network K) (X : Net.mat K),
     (forall g r c, Net.has_shape r c (fst (randn g r c)) = true) ->
     Net.Network_init new_A new_C new_R randn st an cn rn lr mom lam g
     = Ok (n, g') ->
     (2 <= length st)%nat -> forallb (Nat.ltb 0) st = true ->
     Net.keeps_shape (Net.act_call (Net.activation n)) ->
     Net.has_shape (hd 0%nat st) 1 X = true ->
     exists n' out, Net.feedforward n X = Ok (n', out)).
Proof.
  split.
  - intros K new_D new_W input_size output_size ppc df wf verbose m x H.
    unfold Lvq.LVQ_init in H.
    apply bind_Ok_inv in H. destruct H as (d & _ & H).
    apply bind_Ok_inv in H. destruct H as (w & _ & H).
    injection H as <-. reflexivity.
  - intros K new_A new_C new_R np_rng randn st an cn rn lr mom lam g g' n X
           Hrandn Hinit Hlen Hpos Hact HX.
    destruct (@Network_init_initialized K new_A new_C new_R np_rng randn
                Hrandn st an cn rn lr mom lam g g' n Hinit Hlen Hpos)
      as [Hok Hst].
    rewrite <- Hst in HX.
    destruct (@feedforward_Ok K n X Hok HX Hact) as (acts & zs & out & Hff & _).
    eauto.
Qed.


Lemma Lib_randn_shape (K : Scalar) (g : Z) (r c : nat) :
  Net.has_shape r c (fst (Lib.randn K g r c)) = true.
Proof.
  apply has_shape_spec. unfold Lib.randn. cbn [fst]. split.
  - now rewrite length_map, length_seq.
  - apply Forall_forall. intros row Hrow.
    apply in_map_iff in Hrow. destruct Hrow as (i & <- & _).
    now rewrite length_map, length_seq.
Qed.

(** C7 amended, at a concrete input: a fresh LVQ model with two classes and
    a fresh 2-3-1 network, both on binary64 floats. *)
Lemma feedforward_before_training_witness :
  (exists m, Lib.LVQ_init Float64 2 2 1 "euclidean" "average" 3 = Ok m /\
             Lvq.feedforward m [0.1; 0.1]%float = Raise TypeError) /\
  (exists n' out,
     Net.feedforward (Lib.net231 Float64) [[1]; [0]]%float = Ok (n', out)).
Proof.
  split.
  - eexists. split; [reflexivity|].
    eapply (proj1 feedforward_before_training Float64
              (Lib.new_distance Float64) (Lib.new_weight_init Float64)
              2 2 1 "euclidean" "average" 3).
    reflexivity.
  - apply (proj2 feedforward_before_training Float64
             (Lib.new_activation Float64) (Lib.new_cost Float64)
             (Lib.new_regularization Float64) Z (Lib.randn Float64)
             [2; 3; 1]%nat "sigmoid" "quadratic" "none"
             3%float 0%float 1%float 0 10 (Lib.net231 Float64)
             [[1]; [0]]%float).
    + apply Lib_randn_shape.
    + vm_compute. reflexivity.
    + simpl. lia.
    + reflexivity.
    + apply (@map_map_keeps_shape Float64).
    + reflexivity.
Defined.

End Fresh.

(** ** network.py: mini-batches *)

Module NetBatches.
Import Net.

Section Batches.
Variable K : Scalar.

Lemma pull_spec (k : nat) : forall it : list (example K),
  pull k it = if (k <=? length it)%nat
              then Some (firstn k it, skipn k it) else None.
Proof.
  induction k as [|k IH]; intros it; simpl; [reflexivity|].
  destruct it as [|x it]; [reflexivity|].
  rewrite IH. simpl. destruct (k <=? length it)%nat; reflexivity.
Qed.

Lemma firstn_plus (A : Type) (a b : nat) (l : list A) :
  firstn (a + b) l = firstn a l ++ firstn b (skipn a l).
Proof.
  revert l; induction a as [|a IH]; intros l; simpl; [reflexivity|].
  destruct l as [|x l]; simpl.
  - now rewrite firstn_nil.
  - now rewrite IH.
Qed.

(** The tuples of the shared-iterator zip are the consecutive groups of [k]
    items; a trailing remainder shorter than [k] is dropped. *)
Lemma zip_shared_spec (k : nat) (Hk : (0 < k)%nat) (fuel : nat) :
  forall it : list (example K),
    (length it <= fuel)%nat ->
    concat (zip_shared fuel k it) = firstn (k * (length it / k)) it /\
    Forall (fun b => length b = k) (zip_shared fuel k it) /\
    length (zip_shared fuel k it) = (length it / k)%nat.
Proof.
  induction fuel as [|fuel IH]; intros it Hfuel.
  - destruct it; [|simpl in Hfuel; lia]. simpl.
    rewrite Nat.Div0.div_0_l. rewrite Nat.mul_0_r. auto.
  - cbn [zip_shared]. rewrite pull_spec.
    destruct (Nat.leb_spec k (length it)) as [Hle|Hgt].
    + assert (Hlen : length (skipn k it) = (length it - k)%nat)
        by apply length_skipn.
      destruct (IH (skipn k it)) as (Hc & Hf & Hl); [lia|].
      assert (Hdiv : (length it / k = 1 + (length it - k) / k)%nat).
      { replace (length it) with (1 * k + (length it - k))%nat at 1 by lia.
        rewrite Nat.div_add_l by lia. reflexivity. }
      rewrite Hlen in Hc, Hl.
      split; [|split].
      * cbn [concat]. rewrite Hc, Hdiv.
        replace (k * (1 + (length it - k) / k))%nat
          with (k + k * ((length it - k) / k))%nat by lia.
        now rewrite firstn_plus.
      * constructor; auto. rewrite length_firstn. lia.
      * cbn [length]. rewrite Hl, Hdiv. reflexivity.
    + rewrite Nat.div_small by lia. rewrite Nat.mul_0_r. simpl. auto.
Qed.

Lemma mini_batches_spec (tr_d : list (example K)) (batch_size : Z) :
  0 < batch_size ->
  concat (mini_batches tr_d batch_size)
  = firstn (Z.to_nat batch_size * (length tr_d / Z.to_nat batch_size)) tr_d /\
  Forall (fun b => length b = Z.to_nat batch_size) (mini_batches tr_d batch_size) /\
  length (mini_batches tr_d batch_size)
  = (length tr_d / Z.to_nat batch_size)%nat.
Proof.
  intros Hb. unfold mini_batches.
  destruct (batch_size <=? 0) eqn:E; [apply Z.leb_le in E; lia|].
  apply zip_shared_spec; lia.
Qed.

(** A training set shorter than the batch size yields no batch. *)
Lemma mini_batches_short (tr_d : list (example K)) (batch_size : Z) :
  Z.of_nat (length tr_d) < batch_size -> mini_batches tr_d batch_size = [].
Proof.
  intros H.
  destruct (@mini_batches_spec tr_d batch_size ltac:(lia)) as (_ & _ & Hl).
  rewrite Nat.div_small in Hl by lia.
  now apply length_zero_iff_nil.
Qed.


(** *** Evaluation leaves the parameters alone *)

Lemma same_model_refl (n : Network K) : same_model n n.
Proof. destruct n; reflexivity. Qed.

Lemma same_model_trans (n1 n2 n3 : Network K) :
  same_model n1 n2 -> same_model n2 n3 -> same_model n1 n3.
Proof.
  unfold same_model. intros H12 H23. rewrite H23. rewrite H12 at 1. reflexivity.
Qed.

Lemma same_model_params (n n' : Network K) :
  same_model n n' -> weights n' = weights n /\ biases n' = biases n.
Proof. unfold same_model. intros ->. split; reflexivity. Qed.

Lemma feedforward_same_model (n n1 : Network K) (X out : mat K) :
  feedforward n X = Ok (n1, out) -> same_model n n1.
Proof.
  unfold feedforward. intros H.
  apply bind_Ok_inv in H. destruct H as ([al zl] & _ & H).
  apply bind_Ok_inv in H. destruct H as (o & _ & H).
  injection H as <- _. reflexivity.
Qed.

Lemma accuracy_loop_same_model (data : list (example K)) :
  forall n count n' count',
    accuracy_loop n count data = Ok (n', count') -> same_model n n'.
Proof.
  induction data as [|[x y] data IH]; intros n count n' count' H; simpl in H.
  - injection H as <- _. apply same_model_refl.
  - apply bind_Ok_inv in H. destruct H as (y' & _ & H).
    apply bind_Ok_inv in H. destruct H as ([n1 out] & Hff & H).
    apply bind_Ok_inv in H. destruct H as (k & _ & H).
    apply feedforward_same_model in Hff. apply IH in H.
    eapply same_model_trans; eauto.
Qed.

Lemma eval_accuracy_same_model (n n' : Network K) data c :
  eval_accuracy n data = Ok (n', c) -> same_model n n'.
Proof. apply accuracy_loop_same_model. Qed.

Lemma eval_error_rate_same_model (n n' : Network K) data e :
  eval_error_rate n data = Ok (n', e) -> same_model n n'.
Proof.
  unfold eval_error_rate. intros H.
  apply bind_Ok_inv in H. destruct H as ([n1 c] & Hacc & H).
  apply bind_Ok_inv in H. destruct H as (r & _ & H).
  injection H as <- _. eapply eval_accuracy_same_model; eauto.
Qed.

Lemma monitor_accuracy_same_model (n n' : Network K) tr_d va_d h h' :
  monitor_accuracy n tr_d va_d h = Ok (n', h') -> same_model n n'.
Proof.
  unfold monitor_accuracy. intros H.
  apply bind_Ok_inv in H. destruct H as ([n1 c1] & H1 & H).
  apply bind_Ok_inv in H. destruct H as ([n2 c2] & H2 & H).
  apply bind_Ok_inv in H. destruct H as (r & _ & H).
  apply eval_accuracy_same_model in H1, H2.
  pose proof (same_model_trans H1 H2) as H12.
  destruct (truthy va_d) as [va|].
  - apply bind_Ok_inv in H. destruct H as ([n3 c3] & H3 & H).
    apply bind_Ok_inv in H. destruct H as ([n4 c4] & H4 & H).
    apply bind_Ok_inv in H. destruct H as (rv & _ & H).
    injection H as <- _.
    apply eval_accuracy_same_model in H3, H4.
    eapply same_model_trans; [exact H12|].
    eapply same_model_trans; eauto.
  - injection H as <- _. exact H12.
Qed.

Lemma monitor_error_same_model (n n' : Network K) tr_d va_d h h' :
  monitor_error n tr_d va_d h = Ok (n', h') -> same_model n n'.
Proof.
  unfold monitor_error. intros H.
  apply bind_Ok_inv in H. destruct H as ([n1 c1] & H1 & H).
  apply bind_Ok_inv in H. destruct H as ([n2 c2] & H2 & H).
  apply eval_error_rate_same_model in H1, H2.
  pose proof (same_model_trans H1 H2) as H12.
  cbv zeta in H.
  destruct (truthy va_d) as [va|].
  - apply bind_Ok_inv in H. destruct H as ([n3 c3] & H3 & H).
    apply bind_Ok_inv in H. destruct H as ([n4 c4] & H4 & H).
    injection H as <- _.
    apply eval_error_rate_same_model in H3, H4.
    eapply same_model_trans; [exact H12|].
    eapply same_model_trans; eauto.
  - injection H as <- _. exact H12.
Qed.

(** *** One mini-batch *)

Lemma backpropagation_same_model (n n1 : Network K) X y g :
  backpropagation n X y = Ok (n1, g) -> same_model n n1.
Proof.
  unfold backpropagation. intros H.
  apply bind_Ok_inv in H. destruct H as (pb & _ & H). cbv zeta in H.
  apply bind_Ok_inv in H. destruct H as (pw & _ & H).
  apply bind_Ok_inv in H. destruct H as ([n1' out] & Hff & H).
  apply bind_Ok_inv in H. destruct H as (a_last & _ & H).
  apply bind_Ok_inv in H. destruct H as (delta & _ & H).
  apply bind_Ok_inv in H. destruct H as (nb1 & _ & H).
  apply bind_Ok_inv in H. destruct H as (a_prev & _ & H).
  apply bind_Ok_inv in H. destruct H as (g0 & _ & H).
  apply bind_Ok_inv in H. destruct H as (nw1 & _ & H).
  apply bind_Ok_inv in H. destruct H as ([[d2 nb2] nw2] & _ & H).
  injection H as <- _. eapply feedforward_same_model; eauto.
Qed.

(** [backpropagation] does not read the cache. *)
Lemma backpropagation_cache (n n' : Network K) X y :
  same_model n n' -> backpropagation n' X y = backpropagation n X y.
Proof. unfold same_model. intros ->. reflexivity. Qed.

Lemma accumulate_spec (n : Network K) (mb : list (example K)) :
  forall n0 nb0 nw0 n1 nb nw,
    same_model n n0 ->
    accumulate n0 nb0 nw0 mb = Ok (n1, (nb, nw)) ->
    same_model n n1 /\
    exists gs : list (list (mat K) * list (mat K)),
      Forall2 (fun ex g => exists n',
                 backpropagation n (fst ex) (snd ex) = Ok (n', g)) mb gs /\
      sum_gradients nb0 (map fst gs) = Ok nb /\
      sum_gradients nw0 (map snd gs) = Ok nw.
Proof.
  induction mb as [|[x y] mb IH]; intros n0 nb0 nw0 n1 nb nw Hsame H;
    cbn [accumulate] in H.
  - injection H as <- <- <-. split; [exact Hsame|].
    exists []. repeat split; constructor.
  - apply bind_Ok_inv in H. destruct H as ([n2 [gb gw]] & Hbp & H).
    apply bind_Ok_inv in H. destruct H as (nb' & Hnb' & H).
    apply bind_Ok_inv in H. destruct H as (nw' & Hnw' & H).
    pose proof (backpropagation_same_model _ _ _ Hbp) as H02.
    pose proof (same_model_trans Hsame H02) as Hn2.
    rewrite (backpropagation_cache _ _ Hsame) in Hbp.
    destruct (IH _ _ _ _ _ _ Hn2 H) as (Hfin & gs & Hgs & Hsb & Hsw).
    split; [exact Hfin|].
    exists ((gb, gw) :: gs). split; [|split].
    + constructor; eauto.
    + simpl. rewrite Hnb'. exact Hsb.
    + simpl. rewrite Hnw'. exact Hsw.
Qed.

(** *** The update, entry by entry *)











Section Epochs.
Variable py_rng : Type.
Variable shuffle : py_rng -> list (example K) -> list (example K) * py_rng.

(** One epoch, taken apart: the shuffle, the batches of the shuffled set,
    then monitoring, which only touches the cache. *)
Lemma train_epoch_inv (batch_size : Z) va_d monitoring n tr_d g h n' tr_d' g' h' :
  train_epoch shuffle batch_size va_d monitoring (n, tr_d, g, h)
  = Ok (n', tr_d', g', h') ->
  shuffle g tr_d = (tr_d', g') /\
  exists n1,
    train_batches n (length tr_d') (mini_batches tr_d' batch_size) = Ok n1 /\
    same_model n1 n'.
Proof.
  unfold train_epoch. intros H.
  destruct (shuffle g tr_d) as [tr_d1 g1].
  apply bind_Ok_inv in H. destruct H as (n1 & Hb & H).
  apply bind_Ok_inv in H. destruct H as (m_acc & _ & H).
  apply bind_Ok_inv in H. destruct H as ([n2 h2] & Hacc & H).
  apply bind_Ok_inv in H. destruct H as (m_err & _ & H).
  apply bind_Ok_inv in H. destruct H as ([n3 h3] & Herr & H).
  apply bind_Ok_inv in H. destruct H as (m_cost & _ & H).
  injection H as <- <- <- _.
  split; [reflexivity|]. exists n1. split; [exact Hb|].
  assert (H12 : same_model n1 n2).
  { destruct m_acc.
    - eapply monitor_accuracy_same_model; eauto.
    - injection Hacc as <- _. apply same_model_refl. }
  assert (H23 : same_model n2 n3).
  { destruct m_err.
    - eapply monitor_error_same_model; eauto.
    - injection Herr as <- _. apply same_model_refl. }
  eapply same_model_trans; eauto.
Qed.


Hypothesis shuffle_length : forall g l, length (fst (shuffle g l)) = length l.

Lemma train_epochs_no_batches (batch_size : Z) va_d monitoring (epochs : nat) :
  forall n tr_d g h n' tr_d' g' h',
    Z.of_nat (length tr_d) < batch_size ->
    train_epochs shuffle epochs batch_size va_d monitoring (n, tr_d, g, h)
    = Ok (n', tr_d', g', h') ->
    same_model n n'.
Proof.
  induction epochs as [|e IH]; intros n tr_d g h n' tr_d' g' h' Hlt H;
    cbn [train_epochs] in H.
  - injection H as <- _ _ _. apply same_model_refl.
  - apply bind_Ok_inv in H. destruct H as ([[[n1 tr_d1] g1] h1] & Hep & H).
    apply train_epoch_inv in Hep. destruct Hep as (Hsh & n0 & Hb & Hsame).
    assert (Hlen : length tr_d1 = length tr_d).
    { rewrite <- (shuffle_length g tr_d). now rewrite Hsh. }
    rewrite mini_batches_short in Hb by lia.
    simpl in Hb. injection Hb as <-.
    apply IH in H; [|lia].
    eapply same_model_trans; eauto.
Qed.

(** C10: when the training set, non-empty or not, is smaller than the batch
    size, the fixed-size batching of every epoch yields no batch, and when
    [train] returns the weights and the biases are the ones it started
    with. *)
Theorem train_short_set_keeps_parameters (n : Network K)
    (tr_d : list (example K)) (epochs batch_size : Z)
    (va_d : option (list (example K))) (monitoring : dict) (g : py_rng)
    (n' : Network K) (tr_d' : list (example K)) (g' : py_rng) (h : history K) :
  tr_d <> [] ->
  Z.of_nat (length tr_d) < batch_size ->
  train shuffle n tr_d epochs batch_size va_d monitoring g
  = Ok (n', tr_d', g', h) ->
  (forall shuffled : list (example K),
      length shuffled = length tr_d -> mini_batches shuffled batch_size = []) /\
  weights n' = weights n /\ biases n' = biases n.
Proof.
  intros _ Hlt H. split.
  - intros l Hl. apply mini_batches_short. lia.
  - unfold train in H. apply train_epochs_no_batches in H; [|exact Hlt].
    now apply same_model_params.
Qed.

End Epochs.

End Batches.

Lemma Lib_shuffle_length (K : Scalar) (g : unit) (l : list (example K)) :
  length (fst (Lib.shuffle g l)) = length l.
Proof. apply length_rev. Qed.

(** C10, at a concrete input: two examples, batches of five, three epochs,
    on binary64 floats. *)
Lemma train_short_set_keeps_parameters_witness :
  exists n' tr_d' g' h,
    Lib.train (Lib.net231 Float64)
      [([[0]; [0]]%float, LInt 0); ([[1]; [0]]%float, LInt 1)]
      3 5 None default_monitoring tt = Ok (n', tr_d', g', h) /\
    (forall shuffled : list (example Float64),
        length shuffled = 2%nat -> mini_batches shuffled 5 = []) /\
    weights n' = weights (Lib.net231 Float64) /\
    biases n' = biases (Lib.net231 Float64).
Proof.
  do 4 eexists. split; [vm_compute; reflexivity|].
  eapply (@train_short_set_keeps_parameters Float64 unit
            (@Lib.shuffle Float64) (@Lib_shuffle_length Float64)
            (Lib.net231 Float64)
            [([[0]; [0]]%float, LInt 0); ([[1]; [0]]%float, LInt 1)]
            3 5 None default_monitoring tt).
  - discriminate.
  - reflexivity.
  - vm_compute. reflexivity.
Defined.

End NetBatches.

(** ** network.py: the updates go through on well-shaped data *)

Module NetUpdate.
Import Net NetShapes NetBackprop NetBatches.

Section Update.
Variable K : Scalar.

Lemma dims_length (sizes : list nat) :
  length (bias_dims sizes) = (length sizes - 1)%nat /\
  length (weight_dims sizes) = (length sizes - 1)%nat.
Proof.
  induction sizes as [|s0 rest IH]; [auto|].
  destruct rest as [|s1 rest']; [auto|].
  destruct IH as [IHb IHw].
  cbn [bias_dims weight_dims length] in *. lia.
Qed.

Lemma dims_nth (sizes : list nat) : forall i,
  (S i < length sizes)%nat ->
  nth i (bias_dims sizes) (0, 0)%nat = (nth (S i) sizes 0%nat, 1%nat) /\
  nth i (weight_dims sizes) (0, 0)%nat
  = (nth (S i) sizes 0%nat, nth i sizes 0%nat).
Proof.
  induction sizes as [|s0 rest IH]; intros i Hi; [simpl in Hi; lia|].
  destruct rest as [|s1 rest']; [simpl in Hi; lia|].
  destruct i as [|i].
  - split; reflexivity.
  - destruct (IH i) as [Hb Hw]; [simpl in *; lia|].
    cbn [bias_dims weight_dims]. split.
    + exact Hb.
    + exact Hw.
Qed.

Lemma shapes_ok_shaped (sizes : list nat) : forall bs ws : list (mat K),
  shapes_ok sizes bs ws = true <->
  sizes <> [] /\ shaped (bias_dims sizes) bs /\ shaped (weight_dims sizes) ws.
Proof.
  induction sizes as [|s0 rest IH]; intros bs ws.
  - simpl. split; [discriminate|]. intros [H _]. congruence.
  - destruct rest as [|s1 rest'].
    + cbn [shapes_ok bias_dims weight_dims]. split.
      * destruct bs; [|discriminate]. destruct ws; [|discriminate].
        intros _. repeat split; try discriminate; constructor.
      * intros (_ & Hb & Hw). inversion Hb. inversion Hw. reflexivity.
    + cbn [shapes_ok bias_dims weight_dims]. split.
      * destruct bs as [|b bs]; [discriminate|].
        destruct ws as [|w ws]; [discriminate|].
        intros H. apply andb_true_iff in H. destruct H as [H H3].
        apply andb_true_iff in H. destruct H as [H1 H2].
        apply IH in H3. destruct H3 as (_ & Hb & Hw).
        repeat split; try discriminate; constructor; auto.
      * intros (_ & Hb & Hw).
        inversion Hb as [|d b dims bs' Hb1 Hb2]; subst.
        inversion Hw as [|d w dims ws' Hw1 Hw2]; subst.
        cbn [fst snd] in *. rewrite Hb1, Hw1. cbn [andb].
        apply IH. repeat split; auto. discriminate.
Qed.

Lemma shaped_of_nth (dims : list (nat * nat)) : forall l : list (mat K),
  length l = length dims ->
  (forall i m, nth_error l i = Some m ->
     has_shape (fst (nth i dims (0, 0)%nat)) (snd (nth i dims (0, 0)%nat)) m
     = true) ->
  shaped dims l.
Proof.
  induction dims as [|d dims IH]; intros [|m l] Hl H; simpl in Hl; try lia.
  - constructor.
  - constructor.
    + apply (H 0%nat m). reflexivity.
    + apply IH; [lia|]. intros i m' Hm'. apply (H (S i) m'). exact Hm'.
Qed.

(** On an initialized network whose weight arrays pack and a good example,
    [backpropagation] returns gradients shaped like the parameters. *)
Lemma backpropagation_shaped (n : Network K) (X : mat K) (y : label K) :
  initialized n ->
  packs (weights n) ->
  keeps_shape (act_call (activation n)) ->
  keeps_shape (act_derivative (activation n)) ->
  good_example n (X, y) ->
  exists n1 nb nw,
    backpropagation n X y = Ok (n1, (nb, nw)) /\
    shaped (bias_dims (struct n)) nb /\
    shaped (weight_dims (struct n)) nw.
Proof.
  intros Hinit Hpw Hf Hf' [HX Hc]. cbn [fst snd] in HX, Hc.
  destruct (@backpropagation_returns K n X y Hinit Hpw HX Hf Hf' Hc)
    as (acts & zs & out & nb & nw & Hff & Hca & Hcz & Hbp & Hspec).
  destruct Hinit as (Hnl & Hlen & Hpos & Hshapes).
  destruct (@backprop_spec_stated K n y _ _ nb nw Hlen Hpos Hshapes Hca Hcz
              Hf' Hc Hspec) as (Hlnb & Hlnw & Hsh & _).
  destruct (@shapes_ok_lengths K _ _ _ Hshapes) as [Hlb Hlw].
  destruct (dims_length (struct n)) as [Hdb Hdw].
  exists (set_cache n (X :: acts) zs), nb, nw.
  split; [exact Hbp|]. split.
  - apply shaped_of_nth; [lia|].
    intros i m Hm.
    assert (Hi : (i < length (weights n))%nat).
    { assert (Hs : nth_error nb i <> None) by congruence.
      apply nth_error_Some in Hs. lia. }
    destruct (@dims_nth (struct n) i ltac:(lia)) as [-> _].
    cbn [fst snd]. destruct (Hsh i Hi) as [Hd _].
    now rewrite (nth_error_nth _ _ _ Hm) in Hd.
  - apply shaped_of_nth; [lia|].
    intros i m Hm.
    assert (Hi : (i < length (weights n))%nat).
    { assert (Hs : nth_error nw i <> None) by congruence.
      apply nth_error_Some in Hs. lia. }
    destruct (@dims_nth (struct n) i ltac:(lia)) as [_ ->].
    cbn [fst snd]. destruct (Hsh i Hi) as [_ Hg].
    now rewrite (nth_error_nth _ _ _ Hm) in Hg.
Qed.

Lemma has_shape_same (r c : nat) (A B : mat K) :
  has_shape r c A = true -> has_shape r c B = true ->
  nrows A = nrows B /\ ncols A = ncols B.
Proof.
  intros HA HB. apply has_shape_spec in HA, HB.
  destruct HA as [HAl HAf], HB as [HBl HBf]. unfold nrows.
  split; [lia|].
  destruct A as [|u A], B as [|v B]; simpl in *; try lia.
  inversion HAf; inversion HBf; subst. lia.
Qed.

(** Arrays of the same shapes pack in the same way. *)
Lemma shaped_pack (dims : list (nat * nat)) (l l' : list (mat K)) :
  shaped dims l -> shaped dims l' -> pack l' = pack l.
Proof.
  intros H H'. apply pack_same_shapes.
  revert l' H'. induction H as [|d m dims l Hm Hrest IH]; intros l' H';
    inversion H' as [|? m' ? l'' Hm' Hrest']; subst; constructor.
  - eapply has_shape_same; eauto.
  - now apply IH.
Qed.

Lemma zeros_like_shaped (dims : list (nat * nat)) (l : list (mat K)) :
  shaped dims l -> shaped dims (zeros_like l).
Proof.
  induction 1 as [|d m dims l Hdm Hrest IH]; [constructor|].
  constructor; [|exact IH].
  now apply (@map_map_keeps_shape K (fun x => mul K x (of_Z K 0))).
Qed.

Lemma layers_add_shaped (dims : list (nat * nat)) :
  forall l1 l2 : list (mat K),
    shaped dims l1 -> shaped dims l2 ->
    exists r, layers_add l1 l2 = Ok r /\ shaped dims r.
Proof.
  induction dims as [|d dims IH]; intros l1 l2 H1 H2;
    inversion H1 as [|? A ? l1' HA H1']; subst;
    inversion H2 as [|? B ? l2' HB H2']; subst.
  - exists []. split; [reflexivity|constructor].
  - destruct (@mat_zip_shape K (add K) _ _ A B HA HB) as (C & HC & HCs).
    destruct (IH l1' l2' H1' H2') as (r & Hr & Hrs).
    exists (C :: r). split.
    + simpl. unfold mat_add. rewrite HC. simpl. rewrite Hr. reflexivity.
    + constructor; auto.
Qed.

Lemma update_biases_Ok (eta : K) (dims : list (nat * nat)) :
  forall bs nb : list (mat K),
    shaped dims bs -> shaped dims nb ->
    exists bs', update_biases eta (combine bs nb) = Ok bs' /\ shaped dims bs'.
Proof.
  induction dims as [|d dims IH]; intros bs nb H1 H2;
    inversion H1 as [|? b ? bs' Hb H1']; subst;
    inversion H2 as [|? g ? nb' Hg H2']; subst.
  - exists []. split; [reflexivity|constructor].
  - pose proof (@map_map_keeps_shape K (mul K eta) _ _ _ Hg) as Hsg.
    destruct (@mat_zip_shape K (sub K) _ _ b (scale eta g) Hb Hsg)
      as (b' & Hb' & Hb's).
    destruct (IH bs' nb' H1' H2') as (r & Hr & Hrs).
    exists (b' :: r). split.
    + simpl. unfold mat_sub. rewrite Hb'. simpl. rewrite Hr. reflexivity.
    + constructor; auto.
Qed.

Lemma update_weights_Ok (n : Network K) (size : nat) (dims : list (nat * nat)) :
  (forall w r c, has_shape r c w = true ->
     has_shape r c (reg_derivative (regularization n) w (lambda_ n) size)
     = true) ->
  forall ws nw : list (mat K),
    shaped dims ws -> shaped dims nw ->
    exists ws', update_weights n size (combine ws nw) = Ok ws' /\
                shaped dims ws'.
Proof.
  intros Hreg.
  induction dims as [|d dims IH]; intros ws nw H1 H2;
    inversion H1 as [|? w ? ws' Hw H1']; subst;
    inversion H2 as [|? g ? nw' Hg H2']; subst.
  - exists []. split; [reflexivity|constructor].
  - destruct (@mat_zip_shape K (add K) _ _ g
                (reg_derivative (regularization n) w (lambda_ n) size)
                Hg (Hreg _ _ _ Hw)) as (t & Ht & Hts).
    pose proof (@map_map_keeps_shape K (mul K (eta n)) _ _ _ Hts) as Hst.
    destruct (@mat_zip_shape K (sub K) _ _ w (scale (eta n) t) Hw Hst)
      as (w' & Hw' & Hw's).
    destruct (IH ws' nw' H1' H2') as (r & Hr & Hrs).
    exists (w' :: r). split.
    + simpl. unfold mat_add. rewrite Ht. simpl.
      unfold mat_sub. rewrite Hw'. simpl. rewrite Hr. reflexivity.
    + constructor; auto.
Qed.

Section OneNetwork.
Variable n : Network K.
Hypothesis Hinit : initialized n.
Hypothesis Hpw : packs (weights n).
Hypothesis Hf : keeps_shape (act_call (activation n)).
Hypothesis Hf' : keeps_shape (act_derivative (activation n)).

Lemma accumulate_Ok (mb : list (example K)) : forall n0 nb0 nw0,
  Forall (good_example n) mb ->
  same_model n n0 ->
  shaped (bias_dims (struct n)) nb0 -> shaped (weight_dims (struct n)) nw0 ->
  exists n1 nb nw,
    accumulate n0 nb0 nw0 mb = Ok (n1, (nb, nw)) /\
    same_model n n1 /\
    shaped (bias_dims (struct n)) nb /\ shaped (weight_dims (struct n)) nw.
Proof.
  induction mb as [|[x y] mb IH]; intros n0 nb0 nw0 Hgood Hsame Hb Hw.
  - exists n0, nb0, nw0. repeat split; auto.
  - inversion Hgood as [|? ? Hxy Hrest]; subst.
    destruct (@backpropagation_shaped n x y Hinit Hpw Hf Hf' Hxy)
      as (n1 & gb & gw & Hbp & Hgb & Hgw).
    destruct (@layers_add_shaped _ nb0 gb Hb Hgb) as (nb' & Hnb' & Hnb's).
    destruct (@layers_add_shaped _ nw0 gw Hw Hgw) as (nw' & Hnw' & Hnw's).
    pose proof (@backpropagation_same_model K _ _ _ _ _ Hbp) as Hn1.
    destruct (IH n1 nb' nw' Hrest Hn1 Hnb's Hnw's)
      as (n2 & nb & nw & Hacc & Hn2 & Hnbs & Hnws).
    exists n2, nb, nw. split; [|auto].
    cbn [accumulate]. rewrite (@backpropagation_cache K _ _ x y Hsame), Hbp.
    cbn [bind]. rewrite Hnb'. cbn [bind]. rewrite Hnw'. cbn [bind].
    exact Hacc.
Qed.

(** The body of the mini-batch loop returns, and what it returns is again
    an initialized network whose weight arrays pack, with the same
    architecture and strategies. *)
Lemma train_batch_Ok (size : nat) (mb : list (example K)) :
  (forall w r c, has_shape r c w = true ->
     has_shape r c (reg_derivative (regularization n) w (lambda_ n) size)
     = true) ->
  Forall (good_example n) mb ->
  exists n',
    train_batch n size mb = Ok n' /\
    initialized n' /\ packs (weights n') /\
    struct n' = struct n /\ activation n' = activation n /\
    cost n' = cost n /\ regularization n' = regularization n /\
    lambda_ n' = lambda_ n.
Proof.
  intros Hreg Hgood.
  destruct (biases_pack Hinit) as [pb Hpb].
  destruct Hpw as [pw Hpw'].
  destruct Hinit as (Hnl & Hlen & Hpos & Hshapes).
  apply shapes_ok_shaped in Hshapes. destruct Hshapes as (Hne & Hbs & Hws).
  destruct (@accumulate_Ok mb n (zeros_like (biases n)) (zeros_like (weights n))
              Hgood (@same_model_refl K n)
              (zeros_like_shaped Hbs) (zeros_like_shaped Hws))
    as (n1 & nb & nw & Hacc & Hsame & Hnb & Hnw).
  unfold same_model in Hsame.
  destruct (@update_biases_Ok (eta n) _ (biases n) nb Hbs Hnb)
    as (bs' & Hbs' & Hbs's).
  destruct (@update_weights_Ok n size _ Hreg (weights n) nw Hws Hnw)
    as (ws' & Hws' & Hws's).
  exists (set_params (set_params n1 bs' (weights n1)) bs' ws').
  split.
  - unfold train_batch. rewrite Hpb. cbn [bind]. cbv zeta.
    rewrite Hpw'. cbn [bind]. rewrite Hacc. cbn [bind].
    rewrite Hsame. cbn [eta biases weights set_cache set_params].
    rewrite Hbs'. cbn [bind].
    assert (E : update_weights
                  (set_params (set_cache n (a n1) (z n1)) bs' (weights n))
                  size (combine (weights n) nw)
                = update_weights n size (combine (weights n) nw)).
    { clear. generalize (combine (weights n) nw) as l.
      induction l as [|[w g] l IH]; [reflexivity|].
      cbn [update_weights regularization lambda_ eta set_params set_cache].
      cbn [update_weights regularization lambda_ eta set_params set_cache] in IH.
      rewrite IH. reflexivity. }
    rewrite E, Hws'. reflexivity.
  - rewrite Hsame. cbn [struct activation cost regularization lambda_
                         set_params set_cache].
    split; [|split; [|repeat split; reflexivity]].
    + repeat split; auto.
      cbn [biases weights n_layers struct set_params set_cache].
      apply shapes_ok_shaped. auto.
    + cbn [weights set_params set_cache]. exists pw.
      now rewrite (shaped_pack Hws Hws's).
Qed.

End OneNetwork.

Lemma train_batches_Ok (size : nat) (bl : list (list (example K))) :
  forall n : Network K,
    initialized n ->
    packs (weights n) ->
    keeps_shape (act_call (activation n)) ->
    keeps_shape (act_derivative (activation n)) ->
    (forall w r c, has_shape r c w = true ->
       has_shape r c (reg_derivative (regularization n) w (lambda_ n) size)
       = true) ->
    Forall (Forall (good_example n)) bl ->
    exists n', train_batches n size bl = Ok n' /\ initialized n' /\
               packs (weights n').
Proof.
  induction bl as [|mb bl IH]; intros n Hinit Hpw Hf Hf' Hreg Hgood.
  - exists n. split; [reflexivity|split; assumption].
  - inversion Hgood as [|? ? Hmb Hrest]; subst.
    destruct (@train_batch_Ok n Hinit Hpw Hf Hf' size mb Hreg Hmb)
      as (n1 & H1 & Hinit1 & Hpw1 & Hst & Hact & Hcost & Hr & Hlam).
    destruct (IH n1) as (n' & H' & Hinit' & Hpw'); auto.
    + now rewrite Hact.
    + now rewrite Hact.
    + rewrite Hr, Hlam. exact Hreg.
    + eapply Forall_impl; [|exact Hrest].
      intros b Hb. eapply Forall_impl; [|exact Hb].
      intros ex. unfold good_example. now rewrite Hst, Hcost.
    + exists n'. split; [|split; assumption].
      cbn [train_batches]. rewrite H1. exact H'.
Qed.

End Update.
End NetUpdate.

(** ** network.py: one epoch of mini-batch gradient descent *)

Module NetTrain.
Import Net NetShapes NetBackprop NetBatches NetUpdate.

Lemma mini_batches_Forall (K : Scalar) (P : example K -> Prop)
    (l : list (example K)) (batch_size : Z) :
  Forall P l -> Forall (Forall P) (mini_batches l batch_size).
Proof.
  intros H. destruct (Z.leb_spec batch_size 0) as [Hle|Hgt].
  - unfold mini_batches. apply Z.leb_le in Hle. rewrite Hle. constructor.
  - destruct (@mini_batches_spec K l batch_size Hgt) as (Hc & _ & _).
    apply Forall_concat. rewrite Hc.
    rewrite <- (firstn_skipn
                  (Z.to_nat batch_size * (length l / Z.to_nat batch_size)) l)
      in H.
    apply Forall_app in H. apply H.
Qed.


Lemma Lib_good_example (K : Scalar) (n : Network K) (X : mat K) (c : Z) :
  cost_derivative (cost n) = Lib.a_minus_y (K := K) ->
  has_shape (hd 0%nat (struct n)) 1 X = true ->
  good_example n (X, LInt c).
Proof.
  intros Hc HX. split; [exact HX|].
  intros r a_last Ha. cbn [snd]. rewrite Hc.
  now apply (@map_map_keeps_shape K (fun v => sub K v (of_Z K c))).
Qed.


End NetTrain.

(** ** lvq.py: what training keeps *)

Module LvqTraining.
Import Lvq LvqTerms.

Section Training.
Variable K : Scalar.

Lemma zip_with_length (f : K -> K -> K) (u : vec K) : forall v r,
  zip_with f u v = Ok r -> length r = length u /\ length v = length u.
Proof.
  induction u as [|a u IH]; intros [|b v] r H; simpl in H; try discriminate.
  - injection H as <-. auto.
  - apply bind_Ok_inv in H. destruct H as (r' & Hr' & H).
    injection H as <-. apply IH in Hr'. simpl. lia.
Qed.

Lemma same_layout_refl (ws : list (vec K)) : same_layout ws ws.
Proof. induction ws; constructor; auto. Qed.

Lemma same_layout_trans (ws1 ws2 ws3 : list (vec K)) :
  same_layout ws1 ws2 -> same_layout ws2 ws3 -> same_layout ws1 ws3.
Proof.
  intros H12. revert ws3. induction H12 as [|w1 w2 l1 l2 H _ IH];
    intros ws3 H23; inversion H23; subst; constructor.
  - congruence.
  - now apply IH.
Qed.

Lemma same_layout_update (ws : list (vec K)) : forall k w w',
  nth_error ws k = Some w -> length w' = length w ->
  same_layout ws (update_nth ws k w').
Proof.
  induction ws as [|w0 ws IH]; intros [|k] w w' Hk Hl; simpl in *;
    try discriminate.
  - injection Hk as ->. constructor; [exact Hl | apply same_layout_refl].
  - constructor; [reflexivity | eapply IH; eauto].
Qed.

Lemma same_layout_length (ws ws' : list (vec K)) :
  same_layout ws ws' -> length ws' = length ws.
Proof. intros H. symmetry. eapply Forall2_length; eauto. Qed.

Lemma same_settings_refl (m : LVQ K) : same_settings m m.
Proof. repeat split. Qed.

Lemma same_settings_trans (m1 m2 m3 : LVQ K) :
  same_settings m1 m2 -> same_settings m2 m3 -> same_settings m1 m3.
Proof.
  unfold same_settings.
  intros (A1 & A2 & A3 & A4 & A5 & A6) (B1 & B2 & B3 & B4 & B5 & B6).
  repeat split; congruence.
Qed.

(** One example moves one prototype and keeps its dimension. *)
Lemma train_example_layout (m m' : LVQ K) (eta : K) (ex : example K) (s : Z)
    (ws : list (vec K)) :
  weights m = Some ws ->
  train_example m eta ex = Ok (m', s) ->
  exists ws', weights m' = Some ws' /\ same_layout ws ws' /\
    init m' = init m /\ same_settings m m'.
Proof.
  intros Hw H. destruct ex as [x y]. unfold train_example, iter_weights in H.
  rewrite Hw in H. cbn [bind] in H.
  apply bind_Ok_inv in H. destruct H as (bmu & _ & H).
  destruct (nth_error ws bmu) as [w|] eqn:Ew; [|discriminate].
  apply bind_Ok_inv in H. destruct H as (dx & Hdx & H).
  apply bind_Ok_inv in H. destruct H as (w' & Hw' & H).
  injection H as <- _.
  apply zip_with_length in Hw'. destruct Hw' as [Hl _].
  exists (update_nth ws bmu w'). split; [reflexivity|]. split.
  - eapply same_layout_update; eauto.
  - split; [reflexivity | repeat split].
Qed.

Lemma train_sweep_layout (tr_d : list (example K)) :
  forall (m m' : LVQ K) (eta : K) (s s' : option Z) (ws : list (vec K)),
    weights m = Some ws ->
    train_sweep m eta s tr_d = Ok (m', s') ->
    exists ws', weights m' = Some ws' /\ same_layout ws ws' /\
      init m' = init m /\ same_settings m m'.
Proof.
  induction tr_d as [|ex tr_d IH]; intros m m' eta s s' ws Hw H;
    cbn [train_sweep] in H.
  - injection H as <- _. exists ws. split; [exact Hw|].
    split; [apply same_layout_refl|]. split; [reflexivity|].
    apply same_settings_refl.
  - apply bind_Ok_inv in H. destruct H as ([m1 s1] & H1 & H).
    destruct (@train_example_layout _ _ _ _ _ _ Hw H1) as (ws1 & Hw1 & L1 & I1 & S1).
    destruct (IH _ _ _ _ _ _ Hw1 H) as (ws' & Hw' & L' & I' & S').
    exists ws'. split; [exact Hw'|]. split; [|split].
    + eapply same_layout_trans; eauto.
    + congruence.
    + eapply same_settings_trans; eauto.
Qed.

Lemma train_epochs_layout (n : nat) :
  forall (tr_d : list (example K)) eta_decay va_d estop
         (m : LVQ K) eta s tr_err va_err m' h (ws : list (vec K)),
    weights m = Some ws ->
    train_epochs n tr_d eta_decay va_d estop m eta s tr_err va_err
    = Ok (m', h) ->
    exists ws', weights m' = Some ws' /\ same_layout ws ws' /\
      init m' = init m /\ same_settings m m'.
Proof.
  induction n as [|n IH];
    intros tr_d eta_decay va_d estop m eta s tr_err va_err m' h ws Hw H;
    cbn [train_epochs] in H.
  - injection H as <- _. exists ws. split; [exact Hw|].
    split; [apply same_layout_refl|]. split; [reflexivity|].
    apply same_settings_refl.
  - apply bind_Ok_inv in H. destruct H as ([m1 s1] & H1 & H).
    destruct (@train_sweep_layout _ _ _ _ _ _ _ Hw H1) as (ws1 & Hw1 & L1 & I1 & S1).
    apply bind_Ok_inv in H. destruct H as (eta1 & _ & H).
    apply bind_Ok_inv in H. destruct H as (e & _ & H).
    assert (Hrec : forall te ve,
               train_epochs n tr_d eta_decay va_d estop m1 eta1 s1 te ve
               = Ok (m', h) ->
               exists ws', weights m' = Some ws' /\ same_layout ws ws' /\
                 init m' = init m /\ same_settings m m').
    { intros te ve G.
      destruct (IH _ _ _ _ _ _ _ _ _ _ _ _ Hw1 G) as (ws' & Hw' & L' & I' & S').
      exists ws'. split; [exact Hw'|]. split; [|split].
      - eapply same_layout_trans; eauto.
      - congruence.
      - eapply same_settings_trans; eauto. }
    destruct (truthy va_d) as [va|]; [|eauto].
    apply bind_Ok_inv in H. destruct H as (ev & _ & H).
    cbv zeta in H.
    destruct (estop && ltb K ev (one_percent K))%bool; [|eauto].
    injection H as <- _. exists ws1. auto.
Qed.

(** X1: whenever [train] returns, the model is marked initialized and
    holds as many prototypes as it started from (its own, or the ones the
    initializer handed out on a first call), each of the dimension it had;
    sizes, prototype count per class, distance, initializer and verbosity
    are the ones of the model before.  A model trained from at least one
    prototype then classifies every input. *)
Theorem train_keeps_prototype_layout (m : LVQ K) (tr_d : list (example K))
    (eta : K) (epochs : Z) (eta_decay : bool)
    (va_d : option (list (example K))) (estop : bool)
    (m' : LVQ K) (h : list K * list K) (ws0 : list (vec K)) :
  (init m = true -> weights m = Some ws0) ->
  (init m = false ->
   winit_call (weight_init m) (input_size m) (output_size m) (ppc m) tr_d
   = Ok ws0) ->
  train m tr_d eta epochs eta_decay va_d estop = Ok (m', h) ->
  exists ws',
    weights m' = Some ws' /\ same_layout ws0 ws' /\ init m' = true /\
    same_settings m m' /\
    (ws0 <> [] -> forall x, exists c, feedforward m' x = Ok c).
Proof.
  intros Hready Hfresh H. unfold train in H.
  apply bind_Ok_inv in H. destruct H as (m0 & H0 & H).
  assert (G : weights m0 = Some ws0 /\ init m0 = true /\ same_settings m m0).
  { destruct (init m) eqn:Ei.
    - injection H0 as <-. split; [auto|]. split; [exact Ei|].
      apply same_settings_refl.
    - rewrite (Hfresh eq_refl) in H0. cbn [bind] in H0.
      injection H0 as <-. repeat split. }
  destruct G as (Hw0 & Hi0 & Hs0).
  destruct (@train_epochs_layout _ _ _ _ _ _ _ _ _ _ _ _ _ Hw0 H)
    as (ws' & Hw' & L' & I' & S').
  exists ws'. split; [exact Hw'|]. split; [exact L'|].
  split; [congruence|]. split; [eapply same_settings_trans; eauto|].
  intros Hne x. unfold feedforward, iter_weights. rewrite Hw'. cbn [bind].
  apply same_layout_length in L'.
  destruct ws' as [|w ws']; [destruct ws0; [congruence | discriminate]|].
  destruct (@np_argmin_returns K (distances m' (w :: ws') x)) as [k Hk];
    [unfold distances; cbn [map]; discriminate|].
  rewrite Hk. cbn [bind]. eexists. reflexivity.
Qed.

(** What the epoch loop appends to the two histories. *)
Lemma train_epochs_histories (n : nat) :
  forall (tr_d : list (example K)) eta_decay va_d estop
         (m : LVQ K) eta s tr_err va_err m' tr_err' va_err',
    train_epochs n tr_d eta_decay va_d estop m eta s tr_err va_err
    = Ok (m', (tr_err', va_err')) ->
    exists t v,
      tr_err' = tr_err ++ t /\ va_err' = va_err ++ v /\
      (length t <= n)%nat /\
      (truthy va_d = None -> length t = n /\ v = []) /\
      (truthy va_d <> None -> length v = length t) /\
      (estop = false -> length t = n).
Proof.
  induction n as [|n IH];
    intros tr_d eta_decay va_d estop m eta s tr_err va_err m' tr_err' va_err' H;
    cbn [train_epochs] in H.
  - injection H as _ <- <-. exists [], []. rewrite !app_nil_r.
    repeat split; auto.
  - apply bind_Ok_inv in H. destruct H as ([m1 s1] & _ & H).
    apply bind_Ok_inv in H. destruct H as (eta1 & _ & H).
    apply bind_Ok_inv in H. destruct H as (e & _ & H).
    cbv zeta in H.
    destruct (truthy va_d) as [va|] eqn:Ev.
    + apply bind_Ok_inv in H. destruct H as (ev & _ & H). cbv zeta in H.
      destruct (estop && ltb K ev (one_percent K))%bool eqn:Es.
      * injection H as _ <- <-. exists [e], [ev].
        split; [reflexivity|]. split; [reflexivity|].
        split; [simpl; lia|]. split; [discriminate|].
        split; [reflexivity|].
        intros ->. simpl in Es. discriminate Es.
      * apply IH in H.
        destruct H as (t & v & -> & -> & Hn & Hnone & Hsome & Hstop).
        exists (e :: t), (ev :: v). rewrite <- !app_assoc. simpl.
        split; [reflexivity|]. split; [reflexivity|]. split; [lia|].
        split; [discriminate|]. split.
        -- intros _. f_equal. apply Hsome. rewrite Ev. discriminate.
        -- intros Hst. f_equal. auto.
    + apply IH in H.
      destruct H as (t & v & -> & -> & Hn & Hnone & Hsome & Hstop).
      destruct (Hnone Ev) as [Hlen ->].
      exists (e :: t), []. rewrite <- !app_assoc. simpl.
      split; [reflexivity|]. split; [reflexivity|]. split; [lia|].
      split; [auto|]. split; [congruence|]. intros _. f_equal. exact Hlen.
Qed.

(** X2: the histories [train] returns hold at most one training figure
    per requested epoch.  Without a validation set ([None] or an empty list)
    there is no early stop: the training history has exactly one entry per
    epoch and the validation history is empty.  With a non-empty validation
    set both histories have the same length, and with early stopping
    switched off that length is the number of epochs. *)
Theorem train_history_lengths (m : LVQ K) (tr_d : list (example K))
    (eta : K) (epochs : Z) (eta_decay : bool)
    (va_d : option (list (example K))) (estop : bool)
    (m' : LVQ K) (tr_err va_err : list K) :
  train m tr_d eta epochs eta_decay va_d estop = Ok (m', (tr_err, va_err)) ->
  (length tr_err <= Z.to_nat epochs)%nat /\
  (va_d = None \/ va_d = Some [] ->
   length tr_err = Z.to_nat epochs /\ va_err = []) /\
  (forall v vs, va_d = Some (v :: vs) -> length va_err = length tr_err) /\
  (estop = false -> length tr_err = Z.to_nat epochs).
Proof.
  intros H. unfold train in H.
  apply bind_Ok_inv in H. destruct H as (m0 & _ & H).
  apply train_epochs_histories in H.
  destruct H as (t & v & Ht & Hv & Hn & Hnone & Hsome & Hstop).
  simpl in Ht, Hv. subst t v.
  split; [exact Hn|]. split; [|split].
  - intros [-> | ->]; apply Hnone; reflexivity.
  - intros v vs ->. apply Hsome. discriminate.
  - exact Hstop.
Qed.

(** X3: an empty training set cannot be trained on.  With at least one
    epoch asked for, on a model that is initialized or whose initializer
    accepts the empty set, [train] raises: the sign [s] of the last update
    is unbound when the learning rate is to decay and is below one
    ([UnboundLocalError]), and otherwise the error rate of the empty set
    divides by its length ([ZeroDivisionError]). *)
Theorem train_empty_training_set (m : LVQ K) (eta : K) (epochs : Z)
    (eta_decay : bool) (va_d : option (list (example K))) (estop : bool) :
  0 < epochs ->
  (init m = true \/
   exists ws, winit_call (weight_init m) (input_size m) (output_size m)
                (ppc m) [] = Ok ws) ->
  train m [] eta epochs eta_decay va_d estop
  = Raise (if eta_decay && ltb K eta (of_Z K 1)
           then UnboundLocalError else ZeroDivisionError).
Proof.
  intros He Hm. unfold train.
  destruct (Z.to_nat epochs) as [|n] eqn:En; [lia|].
  assert (G : forall m0 : LVQ K,
             train_epochs (S n) [] eta_decay va_d estop m0 eta None [] []
             = Raise (if eta_decay && ltb K eta (of_Z K 1)
                      then UnboundLocalError else ZeroDivisionError)).
  { intros m0. cbn [train_epochs train_sweep bind].
    destruct eta_decay; cbn [andb].
    - unfold decay. destruct (ltb K eta (of_Z K 1)); reflexivity.
    - reflexivity. }
  destruct (init m) eqn:Ei.
  - cbn [bind]. apply G.
  - destruct Hm as [Hm | (ws & Hws)]; [discriminate|].
    rewrite Hws. cbn [bind]. apply G.
Qed.

End Training.

(** X1, at a concrete input: a fresh model with two prototypes on binary64 floats,
    two epochs over two examples. *)
Lemma train_keeps_prototype_layout_witness :
  exists m' h,
    train (lvq_fresh Float64 2 2 [[0; 0]; [4; 4]]%float)
      [([1; 1]%float, 0); ([3; 3]%float, 1)] 0.5%float 2 false None true = Ok (m', h) /\
    exists ws',
      weights m' = Some ws' /\
      same_layout (K := Float64) [[0; 0]; [4; 4]]%float ws' /\
      init m' = true /\
      same_settings (lvq_fresh Float64 2 2 [[0; 0]; [4; 4]]%float) m' /\
      (([[0; 0]; [4; 4]]%float : list (vec Float64)) <> [] ->
       forall x, exists c, feedforward m' x = Ok c).
Proof.
  do 2 eexists. split; [vm_compute; reflexivity|].
  eapply (@train_keeps_prototype_layout Float64
            (lvq_fresh Float64 2 2 [[0; 0]; [4; 4]]%float)
            [([1; 1]%float, 0); ([3; 3]%float, 1)] 0.5%float 2 false None true).
  - discriminate.
  - reflexivity.
  - vm_compute. reflexivity.
Defined.

(** X2, at a concrete input: three epochs without a validation set. *)
Lemma train_history_lengths_witness :
  exists m' tr_err va_err,
    train (lvq_fresh Float64 2 2 [[0; 0]; [4; 4]]%float)
      [([1; 1]%float, 0); ([3; 3]%float, 1)] 0.5%float 3 false None true
    = Ok (m', (tr_err, va_err)) /\
    (length tr_err <= Z.to_nat 3)%nat /\
    (@None (list (example Float64)) = None \/
     @None (list (example Float64)) = Some [] ->
     length tr_err = Z.to_nat 3 /\ va_err = []) /\
    (forall v vs, @None (list (example Float64)) = Some (v :: vs) ->
       length va_err = length tr_err) /\
    (true = false -> length tr_err = Z.to_nat 3).
Proof.
  do 3 eexists. split; [vm_compute; reflexivity|].
  eapply (@train_history_lengths Float64
            (lvq_fresh Float64 2 2 [[0; 0]; [4; 4]]%float)
            [([1; 1]%float, 0); ([3; 3]%float, 1)] 0.5%float 3 false None true).
  vm_compute. reflexivity.
Defined.

(** X3, at a concrete input: an initialized model, no example, decay on
    with a learning rate below one, on binary64 floats. *)
Lemma train_empty_training_set_witness :
  train (lvq_with Float64 2 2 [[0; 0]; [1; 1]]%float) [] 0.5%float 3
    true None true
  = Raise UnboundLocalError.
Proof.
  apply (@train_empty_training_set Float64
           (lvq_with Float64 2 2 [[0; 0]; [1; 1]]%float) 0.5%float 3
           true None true).
  - reflexivity.
  - left. reflexivity.
Defined.

End LvqTraining.

(** ** lvq.py: labels at and beyond the bounds of the confusion matrix *)

Module LvqLabels.
Import Lvq LvqTerms.

Lemma py_index_out (n : nat) (y : Z) :
  y < - Z.of_nat n \/ Z.of_nat n <= y -> py_index n y = Raise IndexError.
Proof.
  intros Hy. unfold py_index.
  destruct (Z.leb_spec 0 y).
  - destruct (Z.ltb_spec y (Z.of_nat n)); [lia | reflexivity].
  - destruct (Z.leb_spec (- Z.of_nat n) y); [lia | reflexivity].
Qed.

Lemma np_index_wrap (n : nat) (y : Z) :
  - Z.of_nat n <= y ->
  np_index n y = np_index n (if y <? 0 then Z.of_nat n + y else y).
Proof.
  intros Hy. destruct (Z.ltb_spec y 0) as [Hneg|Hpos]; [|reflexivity].
  rewrite (proj2 (np_index_Ok n y (Z.to_nat (Z.of_nat n + y))))
    by (apply py_index_neg; lia).
  symmetry. apply np_index_nonneg. lia.
Qed.

Lemma np_index_out (n : nat) (y : Z) :
  y < - Z.of_nat n \/ Z.of_nat n <= y ->
  np_index n y = Raise (if fits_intp y then IndexError else OverflowError).
Proof.
  intros Hy. rewrite (@np_index_Raise n y _ (@py_index_out n y Hy)).
  destruct (fits_intp y); reflexivity.
Qed.

Lemma incr_cell_length (mat mat' : list (list Z)) (y a : Z) :
  incr_cell mat y a = Ok mat' -> length mat' = length mat.
Proof.
  unfold incr_cell. intros H.
  apply bind_Ok_inv in H. destruct H as (r & _ & H).
  destruct (nth_error mat r) as [row|]; [|discriminate].
  apply bind_Ok_inv in H. destruct H as (c & _ & H).
  destruct (nth_error row c); [|discriminate].
  injection H as <-. apply update_nth_length.
Qed.

Section Labels.
Variable K : Scalar.
Variable m : LVQ K.
Variable ws : list (vec K).
Hypothesis Hws : weights m = Some ws.
Hypothesis Hne : ws <> [].

Lemma feedforward_total (x : vec K) : exists a, feedforward m x = Ok a.
Proof.
  unfold feedforward, iter_weights. rewrite Hws. cbn [bind].
  destruct (@np_argmin_returns K (distances m ws x)) as [k Hk].
  { unfold distances. destruct ws; [congruence | discriminate]. }
  rewrite Hk. cbn [bind]. eexists. reflexivity.
Qed.

Lemma accuracy_loop_count (data : list (example K)) : forall count,
  accuracy_loop m count data = Ok (count + count_correct m data).
Proof.
  induction data as [|[x y] data IH]; intros count.
  - cbn. f_equal. unfold count_correct. cbn. lia.
  - destruct (feedforward_total x) as (a & Ha).
    simpl. rewrite Ha. simpl. rewrite IH. unfold count_correct. simpl.
    rewrite Ha. destruct (a =? y); simpl length; f_equal; lia.
Qed.

Lemma count_correct_app (d1 d2 : list (example K)) :
  count_correct m (d1 ++ d2) = count_correct m d1 + count_correct m d2.
Proof.
  unfold count_correct. rewrite filter_app, length_app.
  apply Nat2Z.inj_add.
Qed.

Lemma count_correct_bounds (data : list (example K)) :
  0 <= count_correct m data <= Z.of_nat (length data).
Proof.
  unfold count_correct. split; [lia|].
  apply inj_le. apply filter_length_le.
Qed.

(** X4: on an initialized model [eval_accuracy] returns for every
    dataset, the empty one included; its count lies between zero and the
    size of the dataset, and the count of a dataset put together from two
    parts is the sum of the counts of the parts. *)
Theorem eval_accuracy_adds_up (d1 d2 : list (example K)) :
  exists c1 c2,
    eval_accuracy m d1 = Ok c1 /\ eval_accuracy m d2 = Ok c2 /\
    eval_accuracy m (d1 ++ d2) = Ok (c1 + c2) /\
    0 <= c1 <= Z.of_nat (length d1) /\
    0 <= c2 <= Z.of_nat (length d2).
Proof.
  exists (count_correct m d1), (count_correct m d2).
  unfold eval_accuracy. rewrite !accuracy_loop_count, count_correct_app.
  repeat split; try apply count_correct_bounds.
Qed.

Hypothesis Hdim : 0 < output_size m.

Lemma confusion_loop_wrap (data : list (example K)) : forall mat,
  length mat = Z.to_nat (output_size m) ->
  Forall (fun ex => - output_size m <= snd ex) data ->
  confusion_loop m mat data
  = confusion_loop m mat (map (wrap_label (output_size m)) data).
Proof.
  induction data as [|[x y] data IH]; intros mat Hlen Hlab; [reflexivity|].
  inversion Hlab as [|? ? Hy Hrest]; subst. cbn [snd] in Hy.
  cbn [map confusion_loop wrap_label fst snd].
  destruct (feedforward m x) as [a|e]; [|reflexivity]. cbn [bind].
  assert (E : incr_cell mat y a
              = incr_cell mat (if y <? 0 then output_size m + y else y) a).
  { unfold incr_cell. rewrite (@np_index_wrap (length mat) y) by lia.
    replace (Z.of_nat (length mat)) with (output_size m) by lia.
    reflexivity. }
  rewrite <- E.
  destruct (incr_cell mat y a) as [mat1|e] eqn:E1; [|reflexivity].
  cbn [bind]. apply IH; [|exact Hrest].
  apply incr_cell_length in E1. lia.
Qed.

Lemma wrap_label_range (data : list (example K)) :
  Forall (fun ex => - output_size m <= snd ex < output_size m) data ->
  Forall (fun ex => 0 <= snd ex < output_size m)
    (map (wrap_label (output_size m)) data).
Proof.
  intros H. apply Forall_map. eapply Forall_impl; [|exact H].
  intros [x y] Hy. cbn [wrap_label fst snd] in *.
  destruct (Z.ltb_spec y 0); lia.
Qed.

Lemma zeros_length (dim : Z) (mat : list (list Z)) :
  np_zeros dim = Ok mat -> length mat = Z.to_nat dim.
Proof.
  unfold np_zeros. destruct (dim <? 0); [discriminate|].
  intros H. injection H as <-. apply repeat_length.
Qed.

(** With labels from minus [output_size] on, the whole dataset is counted. *)
Lemma get_confusion_Ok (data : list (example K)) :
  Forall (fun ex => - output_size m <= snd ex < output_size m) data ->
  exists mat, get_confusion m data = Ok mat /\
              length mat = Z.to_nat (output_size m).
Proof.
  intros Hlab.
  destruct (@LvqEval.confusion_loop_spec K m ws Hws Hne Hdim
              (map (wrap_label (output_size m)) data)
              (repeat (repeat 0 (Z.to_nat (output_size m)))
                 (Z.to_nat (output_size m))))
    as (mat & Hmat & [Hlen _] & _).
  { apply LvqEval.square_zeros. }
  { now apply wrap_label_range. }
  exists mat. split; [|exact Hlen].
  unfold get_confusion, np_zeros.
  destruct (Z.ltb_spec (output_size m) 0); [lia|]. cbn [bind].
  rewrite confusion_loop_wrap.
  - exact Hmat.
  - apply repeat_length.
  - eapply Forall_impl; [|exact Hlab]. intros ex Hex. cbv beta in *. lia.
Qed.

(** X5: [get_confusion] takes labels from minus [output_size] up to, but
    not including, [output_size].  A negative label counts from the last
    row: the matrix is the one of the dataset with every negative label [y]
    replaced by [output_size + y], so row [i] sums to the number of examples
    whose label is [i] or [i - output_size], and the diagonal counts a
    negative label as hit when the predicted class is [output_size + y],
    which [eval_accuracy] never does. *)
Theorem get_confusion_negative_labels (data : list (example K)) :
  Forall (fun ex => - output_size m <= snd ex < output_size m) data ->
  get_confusion m data
  = get_confusion m (map (wrap_label (output_size m)) data) /\
  exists mat,
    get_confusion m data = Ok mat /\
    (forall i, 0 <= i < output_size m ->
       row_sum mat (Z.to_nat i)
       = count_label (map (wrap_label (output_size m)) data) i) /\
    trace mat = count_correct m (map (wrap_label (output_size m)) data) /\
    eval_accuracy m data = Ok (count_correct m data).
Proof.
  intros Hlab.
  assert (E : get_confusion m data
              = get_confusion m (map (wrap_label (output_size m)) data)).
  { unfold get_confusion.
    destruct (np_zeros (output_size m)) as [mat0|e] eqn:E0; [|reflexivity].
    cbn [bind]. apply confusion_loop_wrap.
    - now apply zeros_length.
    - eapply Forall_impl; [|exact Hlab]. intros ex Hex. cbv beta in *. lia. }
  split; [exact E|]. rewrite E.
  destruct (@LvqEval.confusion_loop_spec K m ws Hws Hne Hdim
              (map (wrap_label (output_size m)) data)
              (repeat (repeat 0 (Z.to_nat (output_size m)))
                 (Z.to_nat (output_size m))))
    as (mat & Hmat & _ & Hrow & Htr).
  { apply LvqEval.square_zeros. }
  { now apply wrap_label_range. }
  exists mat. split; [|split; [|split]].
  - unfold get_confusion, np_zeros.
    destruct (Z.ltb_spec (output_size m) 0); [lia|]. exact Hmat.
  - intros i Hi. rewrite (Hrow i Hi), LvqEval.row_sum_zeros. lia.
  - rewrite Htr, LvqEval.trace_zeros. lia.
  - unfold eval_accuracy. now rewrite accuracy_loop_count.
Qed.

Lemma confusion_loop_app (d1 d2 : list (example K)) : forall mat,
  confusion_loop m mat (d1 ++ d2)
  = (mat1 <- confusion_loop m mat d1 ;; confusion_loop m mat1 d2).
Proof.
  induction d1 as [|[x y] d1 IH]; intros mat; [reflexivity|].
  cbn [app confusion_loop].
  destruct (feedforward m x) as [a|e]; [|reflexivity]. cbn [bind].
  destruct (incr_cell mat y a) as [mat1|e]; [|reflexivity]. cbn [bind].
  apply IH.
Qed.

Lemma confusion_loop_length (data : list (example K)) : forall mat mat',
  confusion_loop m mat data = Ok mat' -> length mat' = length mat.
Proof.
  induction data as [|[x y] data IH]; intros mat mat' H;
    cbn [confusion_loop] in H.
  - now injection H as <-.
  - apply bind_Ok_inv in H. destruct H as (a & _ & H).
    apply bind_Ok_inv in H. destruct H as (mat1 & H1 & H).
    apply IH in H. apply incr_cell_length in H1. lia.
Qed.

(** X6: a label below minus [output_size], or at or above [output_size],
    has no row in the confusion matrix: [get_confusion] raises at the first
    such example, whatever follows it.  The exception is [IndexError] when
    the label fits a 64-bit integer, and [OverflowError] when it does
    not. *)
Theorem get_confusion_label_out_of_range (pre post : list (example K))
    (x : vec K) (y : Z) :
  Forall (fun ex => - output_size m <= snd ex < output_size m) pre ->
  y < - output_size m \/ output_size m <= y ->
  get_confusion m (pre ++ (x, y) :: post)
  = Raise (if fits_intp y then IndexError else OverflowError).
Proof.
  intros Hpre Hy.
  destruct (get_confusion_Ok Hpre) as (mat1 & H1 & _).
  unfold get_confusion in *.
  destruct (np_zeros (output_size m)) as [mat0|e] eqn:E0; [|discriminate].
  cbn [bind] in *. rewrite confusion_loop_app, H1. cbn [bind confusion_loop].
  destruct (feedforward_total x) as (a & Ha). rewrite Ha. cbn [bind].
  apply confusion_loop_length in H1. apply zeros_length in E0.
  unfold incr_cell. rewrite np_index_out; [reflexivity|]. lia.
Qed.

End Labels.

(** X4, at a concrete input: two integer prototypes, a dataset of two
    parts. *)
Lemma eval_accuracy_adds_up_witness :
  exists c1 c2,
    eval_accuracy (lvq_with ZScalar 1 2 [[0]; [4]]) [([1], 0); ([3], 0)]
    = Ok c1 /\
    eval_accuracy (lvq_with ZScalar 1 2 [[0]; [4]]) [([5], 1)] = Ok c2 /\
    eval_accuracy (lvq_with ZScalar 1 2 [[0]; [4]])
      ([([1], 0); ([3], 0)] ++ [([5], 1)]) = Ok (c1 + c2) /\
    0 <= c1 <= Z.of_nat (length [([1], 0); ([3], 0)]) /\
    0 <= c2 <= Z.of_nat (length [([5], 1)]).
Proof.
  apply (@eval_accuracy_adds_up ZScalar (lvq_with ZScalar 1 2 [[0]; [4]])
           [[0]; [4]] eq_refl ltac:(discriminate)).
Defined.

(** X5, at a concrete input: the label -1 is counted in the last row. *)
Lemma get_confusion_negative_labels_witness :
  get_confusion (lvq_with ZScalar 1 2 [[0]; [4]]) [([1], 0); ([5], -1)]
  = get_confusion (lvq_with ZScalar 1 2 [[0]; [4]])
      (map (wrap_label (K := ZScalar) 2) [([1], 0); ([5], -1)]) /\
  exists mat,
    get_confusion (lvq_with ZScalar 1 2 [[0]; [4]]) [([1], 0); ([5], -1)]
    = Ok mat /\
    (forall i, 0 <= i < 2 ->
       row_sum mat (Z.to_nat i)
       = count_label (map (wrap_label (K := ZScalar) 2)
                        [([1], 0); ([5], -1)]) i) /\
    trace mat
    = count_correct (lvq_with ZScalar 1 2 [[0]; [4]])
        (map (wrap_label (K := ZScalar) 2) [([1], 0); ([5], -1)]) /\
    eval_accuracy (lvq_with ZScalar 1 2 [[0]; [4]]) [([1], 0); ([5], -1)]
    = Ok (count_correct (lvq_with ZScalar 1 2 [[0]; [4]])
            [([1], 0); ([5], -1)]).
Proof.
  apply (@get_confusion_negative_labels ZScalar
           (lvq_with ZScalar 1 2 [[0]; [4]]) [[0]; [4]] eq_refl
           ltac:(discriminate) ltac:(reflexivity) [([1], 0); ([5], -1)]).
  repeat constructor; cbn; lia.
Defined.

(** X6, at concrete inputs: the labels 2 and 2^63 with two classes. *)
Lemma get_confusion_label_out_of_range_witness :
  get_confusion (lvq_with ZScalar 1 2 [[0]; [4]])
    ([([1], 0)] ++ ([5], 2) :: [([3], 1)])
  = Raise IndexError /\
  get_confusion (lvq_with ZScalar 1 2 [[0]; [4]])
    ([([1], 0)] ++ ([5], 2 ^ 63) :: [([3], 1)])
  = Raise OverflowError.
Proof.
  split.
  - apply (@get_confusion_label_out_of_range ZScalar
             (lvq_with ZScalar 1 2 [[0]; [4]]) [[0]; [4]] eq_refl
             ltac:(discriminate) ltac:(reflexivity) [([1], 0)] [([3], 1)]
             [5] 2).
    + repeat constructor; cbn; lia.
    + right. cbn. lia.
  - apply (@get_confusion_label_out_of_range ZScalar
             (lvq_with ZScalar 1 2 [[0]; [4]]) [[0]; [4]] eq_refl
             ltac:(discriminate) ltac:(reflexivity) [([1], 0)] [([3], 1)]
             [5] (2 ^ 63)).
    + repeat constructor; cbn; lia.
    + right. cbn. lia.
Defined.

End LvqLabels.

(** ** lvq.py: the log, and the learning rate that turns into an integer *)

Module LvqLogFacts.
Import Lvq LvqTerms.

Section LogFacts.
Variable K : Scalar.
Variable format_2d : Z -> string.
Variable format_3g : K -> string.
Variable format_3pct : K -> string.

Let logged_epochs := LvqLog.train_epochs format_2d format_3g format_3pct.
Let logged_train := LvqLog.train format_2d format_3g format_3pct.

Lemma train_example_float (m : LVQ K) (e : K) (ex : example K) :
  LvqLog.train_example m (LvqLog.RFloat e) ex = train_example m e ex.
Proof. destruct ex. reflexivity. Qed.

Lemma train_sweep_float (tr_d : list (example K)) :
  forall (m : LVQ K) (e : K) (s : option Z),
    LvqLog.train_sweep m (LvqLog.RFloat e) s tr_d = train_sweep m e s tr_d.
Proof.
  induction tr_d as [|ex tr_d IH]; intros m e s; [reflexivity|].
  cbn [LvqLog.train_sweep train_sweep]. rewrite train_example_float.
  destruct (train_example m e ex) as [[m1 s1]|err]; [|reflexivity].
  cbn [bind]. apply IH.
Qed.

Lemma decay_float (e : K) (s : option Z) (eta1 : LvqLog.rate K) :
  LvqLog.decay (LvqLog.RFloat e) s = Ok eta1 ->
  decay K e s = Ok (LvqLog.rate_value eta1) /\
  ((exists e', eta1 = LvqLog.RFloat e') \/ eta1 = LvqLog.RInt 1).
Proof.
  unfold LvqLog.decay, decay.
  destruct (ltb K e (of_Z K 1)).
  - destruct s as [s|]; [|discriminate].
    destruct (eqb K (add K (of_Z K 1) (mul K (of_Z K s) e)) (of_Z K 0));
      [discriminate|].
    intros H. injection H as <-. split; [reflexivity|]. left. eauto.
  - intros H. injection H as <-. split; [reflexivity|]. now right.
Qed.

(** An integer rate does not survive the next report of the rate. *)
Lemma integer_rate_stops (n : nat) (i : Z) tr_d va_d estop (m : LVQ K)
    (z : Z) s tr_err va_err out :
  logged_epochs (S n) i tr_d true va_d estop m (LvqLog.RInt z) s
    tr_err va_err out
  = match LvqLog.train_sweep m (LvqLog.RInt z) s tr_d with
    | Ok _ => Raise ValueError
    | Raise e => Raise e
    end.
Proof.
  unfold logged_epochs. cbn [LvqLog.train_epochs].
  destruct (LvqLog.train_sweep m (LvqLog.RInt z) s tr_d) as [[m1 s1]|e];
    reflexivity.
Qed.

Lemma logged_epochs_erase (tr_d : list (example K)) (eta_decay : bool)
    va_d estop (n : nat) :
  forall (i : Z) (m : LVQ K) (eta : LvqLog.rate K) s tr_err va_err out
         m' h out',
    (exists e, eta = LvqLog.RFloat e) \/
    (eta_decay = true /\ eta = LvqLog.RInt 1) ->
    logged_epochs n i tr_d eta_decay va_d estop m eta s tr_err va_err out
    = Ok (m', h, out') ->
    train_epochs n tr_d eta_decay va_d estop m (LvqLog.rate_value eta) s
      tr_err va_err = Ok (m', h).
Proof.
  induction n as [|n IH];
    intros i m eta s tr_err va_err out m' h out' Hinv H.
  - unfold logged_epochs in H. cbn in H. injection H as <- <- _.
    reflexivity.
  - destruct Hinv as [(e & ->) | (-> & ->)].
    + unfold logged_epochs in H. cbn [LvqLog.train_epochs] in H.
      fold logged_epochs in H.
      rewrite train_sweep_float in H.
      apply bind_Ok_inv in H. destruct H as ([m1 s1] & Hsw & H).
      apply bind_Ok_inv in H. destruct H as ([eta1 out1] & Hd & H).
      apply bind_Ok_inv in H. destruct H as (er & Her & H).
      cbv zeta in H.
      cbn [train_epochs LvqLog.rate_value]. rewrite Hsw. cbn [bind].
      assert (D : (if eta_decay then decay K e s1 else Ok e)
                  = Ok (LvqLog.rate_value eta1) /\
                  ((exists e', eta1 = LvqLog.RFloat e') \/
                   (eta_decay = true /\ eta1 = LvqLog.RInt 1))).
      { destruct eta_decay.
        - cbn [LvqLog.format_rate bind] in Hd.
          apply bind_Ok_inv in Hd. destruct Hd as (eta' & Hdec & Hd).
          injection Hd as <- _.
          apply decay_float in Hdec. destruct Hdec as [Hdec [Hf | Hi]].
          + split; [exact Hdec | now left].
          + split; [exact Hdec | now right].
        - injection Hd as <- _. split; [reflexivity|]. left. eauto. }
      destruct D as [-> Hinv1]. cbn [bind]. rewrite Her. cbn [bind].
      destruct (truthy va_d) as [va|].
      * apply bind_Ok_inv in H. destruct H as (ev & Hev & H).
        cbv zeta in H. rewrite Hev. cbn [bind].
        destruct (estop && ltb K ev (one_percent K))%bool.
        -- injection H as <- <- _. reflexivity.
        -- eapply IH; eauto.
      * eapply IH; eauto.
    + rewrite integer_rate_stops in H.
      destruct (LvqLog.train_sweep m (LvqLog.RInt 1) s tr_d); discriminate.
Qed.

(** X7: the run with its log is the run without.  Whenever [train],
    started with a float learning rate, returns, the model and the two
    histories are the ones the epoch loop gives when nothing is printed:
    formatting the log does not change what is computed, it can only stop
    the run. *)
Theorem logged_run_is_a_run (m : LVQ K) (tr_d : list (example K)) (e : K)
    (epochs : Z) (eta_decay : bool) (va_d : option (list (example K)))
    (estop : bool) (out : list string)
    (m' : LVQ K) (h : list K * list K) (out' : list string) :
  logged_train m tr_d (LvqLog.RFloat e) epochs eta_decay va_d estop out
  = Ok (m', h, out') ->
  train m tr_d e epochs eta_decay va_d estop = Ok (m', h).
Proof.
  unfold logged_train, LvqLog.train, train. intros H.
  apply bind_Ok_inv in H. destruct H as (m0 & -> & H). cbn [bind].
  fold logged_epochs in H.
  apply logged_epochs_erase in H; [exact H|]. left. eauto.
Qed.

Lemma log_grows (m : LVQ K) (lvl : Z) (msg : string) (out : list string) :
  (exists lines, LvqLog.log m lvl msg out = out ++ lines) /\
  (verbose m <= lvl -> LvqLog.log m lvl msg out = out).
Proof.
  unfold LvqLog.log. destruct (Z.ltb_spec lvl (verbose m)).
  - split; [eauto | lia].
  - split; [exists []; now rewrite app_nil_r | reflexivity].
Qed.

Lemma train_example_verbose (m m' : LVQ K) (eta : LvqLog.rate K)
    (ex : example K) (s : Z) :
  LvqLog.train_example m eta ex = Ok (m', s) -> verbose m' = verbose m.
Proof.
  destruct ex as [x y]. unfold LvqLog.train_example. intros H.
  apply bind_Ok_inv in H. destruct H as (ws & _ & H).
  apply bind_Ok_inv in H. destruct H as (bmu & _ & H).
  destruct (nth_error ws bmu); [|discriminate].
  apply bind_Ok_inv in H. destruct H as (dx & _ & H).
  apply bind_Ok_inv in H. destruct H as (w' & _ & H).
  injection H as <- _. reflexivity.
Qed.

Lemma train_sweep_verbose (tr_d : list (example K)) :
  forall (m m' : LVQ K) (eta : LvqLog.rate K) s s',
    LvqLog.train_sweep m eta s tr_d = Ok (m', s') -> verbose m' = verbose m.
Proof.
  induction tr_d as [|ex tr_d IH]; intros m m' eta s s' H;
    cbn [LvqLog.train_sweep] in H.
  - now injection H as <- _.
  - apply bind_Ok_inv in H. destruct H as ([m1 s1] & H1 & H).
    apply train_example_verbose in H1. apply IH in H. congruence.
Qed.

Lemma logged_epochs_output (tr_d : list (example K)) (eta_decay : bool)
    va_d estop (n : nat) :
  forall (i : Z) (m : LVQ K) (eta : LvqLog.rate K) s tr_err va_err out
         m' h out',
    logged_epochs n i tr_d eta_decay va_d estop m eta s tr_err va_err out
    = Ok (m', h, out') ->
    (exists lines, out' = out ++ lines) /\
    (verbose m <= 1 -> out' = out).
Proof.
  induction n as [|n IH];
    intros i m eta s tr_err va_err out m' h out' H;
    unfold logged_epochs in H; cbn [LvqLog.train_epochs] in H;
    fold logged_epochs in H.
  - injection H as _ _ <-. split; [exists []; now rewrite app_nil_r | auto].
  - apply bind_Ok_inv in H. destruct H as ([m1 s1] & Hsw & H).
    apply train_sweep_verbose in Hsw.
    apply bind_Ok_inv in H. destruct H as ([eta1 out1] & Hd & H).
    apply bind_Ok_inv in H. destruct H as (er & _ & H).
    cbv zeta in H.
    set (out0 := LvqLog.log m 1
                   ("Epoch " ++ format_2d i ++ " training done.")%string out)
      in *.
    destruct (log_grows m 1
                ("Epoch " ++ format_2d i ++ " training done.")%string out)
      as [(l0 & E0) Q0].
    fold out0 in E0, Q0.
    assert (D : (exists l1, out1 = out0 ++ l1) /\
                (verbose m <= 1 -> out1 = out0)).
    { destruct eta_decay.
      - apply bind_Ok_inv in Hd. destruct Hd as (line & _ & Hd).
        apply bind_Ok_inv in Hd. destruct Hd as (eta' & _ & Hd).
        injection Hd as _ <-.
        destruct (log_grows m1 1 line out0) as [G Q].
        split; [exact G|]. intros Hq. apply Q. lia.
      - injection Hd as _ <-. split; [exists []; now rewrite app_nil_r | auto]. }
    destruct D as [(l1 & E1) Q1].
    set (out2 := LvqLog.log m1 2
                   (" * Training set error rate   : " ++ format_3pct er)%string
                   out1) in *.
    destruct (log_grows m1 2
                (" * Training set error rate   : " ++ format_3pct er)%string
                out1) as [(l2 & E2) Q2].
    fold out2 in E2, Q2.
    destruct (truthy va_d) as [va|].
    + apply bind_Ok_inv in H. destruct H as (ev & _ & H). cbv zeta in H.
      set (out3 := LvqLog.log m1 2
                     (" * Validation set error rate : "
                      ++ format_3pct ev)%string out2) in *.
      destruct (log_grows m1 2
                  (" * Validation set error rate : "
                   ++ format_3pct ev)%string out2) as [(l3 & E3) Q3].
      fold out3 in E3, Q3.
      assert (G : (exists l, out3 = out ++ l) /\
                  (verbose m <= 1 -> out3 = out)).
      { split.
        - exists (l0 ++ l1 ++ l2 ++ l3).
          rewrite E3, E2, E1, E0, <- !app_assoc. reflexivity.
        - intros Hq. rewrite Q3, Q2, Q1, Q0 by lia. reflexivity. }
      destruct (estop && ltb K ev (one_percent K))%bool.
      * injection H as _ _ <-. exact G.
      * apply IH in H. destruct H as [(l & E) Q]. destruct G as [(l' & E') Q'].
        split.
        -- exists (l' ++ l). rewrite E, E', <- app_assoc. reflexivity.
        -- intros Hq. rewrite Q by lia. now apply Q'.
    + apply IH in H. destruct H as [(l & E) Q].
      split.
      * exists (l0 ++ l1 ++ l2 ++ l).
        rewrite E, E2, E1, E0, <- !app_assoc. reflexivity.
      * intros Hq. rewrite Q, Q2, Q1, Q0 by lia. reflexivity.
Qed.

(** X8: [log] prints a line when its level is below the verbosity, and
    [train] logs at levels 1 and 2 only.  So after [verbose_level] has set
    the verbosity to one or less, [train] prints nothing; at any verbosity
    what it prints is added after what was printed before. *)
Theorem verbosity_gates_the_log (m : LVQ K) (level : Z)
    (tr_d : list (example K)) (eta : LvqLog.rate K)
    (epochs : Z) (eta_decay : bool) (va_d : option (list (example K)))
    (estop : bool) (out : list string)
    (m' : LVQ K) (h : list K * list K) (out' : list string) :
  logged_train (LvqLog.verbose_level m level) tr_d eta epochs eta_decay va_d
    estop out = Ok (m', h, out') ->
  (exists lines, out' = out ++ lines) /\
  (level <= 1 -> out' = out) /\
  (forall lvl msg,
     LvqLog.log (LvqLog.verbose_level m level) lvl msg out
     = if lvl <? level then out ++ [msg] else out).
Proof.
  unfold logged_train, LvqLog.train. intros H.
  apply bind_Ok_inv in H. destruct H as (m0 & H0 & H).
  fold logged_epochs in H.
  assert (Hv : verbose m0 = level).
  { destruct (init (LvqLog.verbose_level m level)).
    - now injection H0 as <-.
    - apply bind_Ok_inv in H0. destruct H0 as (ws & _ & H0).
      now injection H0 as <-. }
  apply logged_epochs_output in H. rewrite Hv in H.
  destruct H as [G Q]. split; [exact G|]. split; [exact Q|].
  intros lvl msg. reflexivity.
Qed.

Section Fitting.
Variable m : LVQ K.
Variable ws : list (vec K).
Variable tr_d : list (example K).
Hypothesis Hinit : init m = true.
Hypothesis Hws : weights m = Some ws.
Hypothesis Hne : ws <> [].
Hypothesis Htr : tr_d <> [].
Hypothesis Hfit :
  Forall (fun ex => Forall (fun w => length w = length (fst ex)) ws) tr_d.

Lemma same_layout_fits (ws1 ws2 : list (vec K)) (k : nat) :
  same_layout ws1 ws2 ->
  Forall (fun w => length w = k) ws1 -> Forall (fun w => length w = k) ws2.
Proof.
  induction 1 as [|w1 w2 l1 l2 Hl _ IH]; intros H; [constructor|].
  inversion H; subst. constructor; [congruence | auto].
Qed.

Lemma fitted_example_Ok (m0 : LVQ K) (ws0 : list (vec K))
    (eta : LvqLog.rate K) (x : vec K) (y : Z) :
  weights m0 = Some ws0 -> ws0 <> [] ->
  Forall (fun w => length w = length x) ws0 ->
  exists m1 s ws1,
    LvqLog.train_example m0 eta (x, y) = Ok (m1, s) /\
    weights m1 = Some ws1 /\ same_layout ws0 ws1.
Proof.
  intros Hw0 Hne0 Hx. unfold LvqLog.train_example, iter_weights.
  rewrite Hw0. cbn [bind].
  destruct (np_argmin K (distances m0 ws0 x)) as [bmu|e] eqn:Eb.
  2:{ destruct (@np_argmin_returns K (distances m0 ws0 x)) as [k Hk];
        [|congruence].
      unfold distances. destruct ws0; [congruence | discriminate]. }
  cbn [bind]. apply np_argmin_bound in Eb.
  unfold distances in Eb. rewrite length_map in Eb.
  destruct (nth_error ws0 bmu) as [w|] eqn:Ew;
    [|apply nth_error_None in Ew; lia].
  assert (Hwl : length w = length x).
  { rewrite Forall_forall in Hx. apply Hx. eapply nth_error_In; eauto. }
  destruct (@LvqFacts.zip_with_Ok K (sub K) x w) as (dx & Hdx & Hdl & _);
    [lia|].
  unfold vsub. rewrite Hdx. cbn [bind].
  set (c := LvqLog.signed
              (if np_mod (Z.of_nat bmu) (output_size m0) =? y then 1 else -1)
              eta).
  destruct (@LvqFacts.zip_with_Ok K (add K) w (vscale c dx))
    as (w' & Hw' & Hl' & _).
  { unfold vscale. rewrite length_map. lia. }
  unfold vadd. rewrite Hw'. cbn [bind].
  do 3 eexists. split; [reflexivity|]. split; [reflexivity|].
  eapply LvqTraining.same_layout_update; eauto.
Qed.

Lemma fitted_sweep_Ok (data : list (example K)) :
  forall (m0 : LVQ K) (ws0 : list (vec K)) (eta : LvqLog.rate K) s,
    weights m0 = Some ws0 -> ws0 <> [] ->
    Forall (fun ex => Forall (fun w => length w = length (fst ex)) ws0) data ->
    exists m1 s1 ws1,
      LvqLog.train_sweep m0 eta s data = Ok (m1, s1) /\
      weights m1 = Some ws1 /\ same_layout ws0 ws1 /\
      (data <> [] -> s1 <> None).
Proof.
  induction data as [|[x y] data IH]; intros m0 ws0 eta s Hw0 Hne0 Hfit0.
  - exists m0, s, ws0. split; [reflexivity|]. split; [exact Hw0|].
    split; [apply LvqTraining.same_layout_refl | congruence].
  - inversion Hfit0 as [|? ? Hx Hrest]; subst. cbn [fst] in Hx.
    destruct (@fitted_example_Ok m0 ws0 eta x y Hw0 Hne0 Hx)
      as (m1 & s1 & ws1 & H1 & Hw1 & L1).
    destruct (IH m1 ws1 eta (Some s1) Hw1) as (m2 & s2 & ws2 & H2 & Hw2 & L2 & Hs2).
    { apply LvqTraining.same_layout_length in L1.
      destruct ws1; [destruct ws0; [congruence | discriminate] | discriminate]. }
    { eapply Forall_impl; [|exact Hrest].
      intros ex Hex. eapply same_layout_fits; eauto. }
    exists m2, s2, ws2. cbn [LvqLog.train_sweep]. rewrite H1. cbn [bind].
    split; [exact H2|]. split; [exact Hw2|]. split.
    + eapply LvqTraining.same_layout_trans; eauto.
    + intros _. destruct data as [|ex data'].
      * cbn in H2. injection H2 as _ <-. discriminate.
      * apply Hs2. discriminate.
Qed.

Lemma error_rate_of_fitted_model (m0 : LVQ K) (ws0 : list (vec K))
    (data : list (example K)) :
  weights m0 = Some ws0 -> ws0 <> [] -> data <> [] ->
  exists e, eval_error_rate m0 data = Ok e.
Proof.
  intros Hw0 Hne0 Hd. unfold eval_error_rate, eval_accuracy.
  rewrite (@LvqLabels.accuracy_loop_count K m0 ws0 Hw0 Hne0). cbn [bind].
  destruct data; [congruence | eauto].
Qed.

(** X9: the learning rate must stay a float for its report.  With the
    decay switched on, a rate that is not below one is replaced by the
    integer 1 at the end of the first epoch, and the report of the rate in
    the second epoch refuses it; a rate passed in as an integer is refused
    in the first epoch.  On an initialized model whose prototypes have the
    dimension of the training examples, without a validation set, [train]
    then raises [ValueError] instead of returning. *)
Theorem decay_needs_a_float_rate (epochs : Z) (estop : bool)
    (out : list string) :
  (forall e, ltb K e (of_Z K 1) = false -> 2 <= epochs ->
     logged_train m tr_d (LvqLog.RFloat e) epochs true None estop out
     = Raise ValueError) /\
  (forall z, 1 <= epochs ->
     logged_train m tr_d (LvqLog.RInt z) epochs true None estop out
     = Raise ValueError).
Proof.
  unfold logged_train, LvqLog.train. rewrite Hinit. cbn [bind].
  fold logged_epochs.
  assert (Hint : forall n i m0 ws0 z s te ve o,
             weights m0 = Some ws0 -> ws0 <> [] ->
             Forall (fun ex => Forall (fun w => length w = length (fst ex)) ws0)
               tr_d ->
             logged_epochs (S n) i tr_d true None estop m0 (LvqLog.RInt z) s
               te ve o = Raise ValueError).
  { intros n i m0 ws0 z s te ve o Hw0 Hne0 Hfit0.
    rewrite integer_rate_stops.
    destruct (@fitted_sweep_Ok tr_d m0 ws0 (LvqLog.RInt z) s Hw0 Hne0 Hfit0)
      as (m1 & s1 & ws1 & -> & _). reflexivity. }
  split.
  - intros e He Hep.
    destruct (Z.to_nat epochs) as [|[|n]] eqn:En; try lia.
    unfold logged_epochs at 1. cbn [LvqLog.train_epochs].
    fold logged_epochs.
    destruct (@fitted_sweep_Ok tr_d m ws (LvqLog.RFloat e) None Hws Hne Hfit)
      as (m1 & s1 & ws1 & -> & Hw1 & L1 & Hs1).
    cbn [bind LvqLog.format_rate LvqLog.decay]. rewrite He. cbn [bind].
    assert (Hne1 : ws1 <> []).
    { apply LvqTraining.same_layout_length in L1.
      destruct ws1; [destruct ws; [congruence | discriminate] | discriminate]. }
    destruct (@error_rate_of_fitted_model m1 ws1 tr_d Hw1 Hne1 Htr) as (er & ->).
    cbn [bind truthy]. eapply Hint; eauto.
    eapply Forall_impl; [|exact Hfit].
    intros ex Hex. eapply same_layout_fits; eauto.
  - intros z Hep.
    destruct (Z.to_nat epochs) as [|n] eqn:En; try lia.
    eapply Hint; eauto.
Qed.

End Fitting.
End LogFacts.

(** X7, at a concrete input: two epochs with decay from a rate below
    one, on binary64 floats. *)
Lemma logged_run_is_a_run_witness :
  exists m' h out',
    @LvqLog.train Float64 (@LvqLog.hash Z) (@LvqLog.hash float) (@LvqLog.hash float)
      (lvq_with Float64 2 2 [[0; 0]; [4; 4]]%float)
      [([1; 1]%float, 0); ([3; 3]%float, 1)] (@LvqLog.RFloat Float64 0.5%float)
      2 true None true [] = Ok (m', h, out') /\
    train (lvq_with Float64 2 2 [[0; 0]; [4; 4]]%float)
      [([1; 1]%float, 0); ([3; 3]%float, 1)] 0.5%float 2 true None true
    = Ok (m', h).
Proof.
  do 3 eexists. split; [vm_compute; reflexivity|].
  eapply (@logged_run_is_a_run Float64 (@LvqLog.hash Z) (@LvqLog.hash float)
            (@LvqLog.hash float)
            (lvq_with Float64 2 2 [[0; 0]; [4; 4]]%float)
            [([1; 1]%float, 0); ([3; 3]%float, 1)] 0.5%float 2 true None
            true []).
  vm_compute. reflexivity.
Defined.

(** X8, at a concrete input: the verbosity set to one. *)
Lemma verbosity_gates_the_log_witness :
  exists m' h out',
    @LvqLog.train Float64 (@LvqLog.hash Z) (@LvqLog.hash float) (@LvqLog.hash float)
      (LvqLog.verbose_level (lvq_with Float64 2 2 [[0; 0]; [4; 4]]%float) 1)
      [([1; 1]%float, 0); ([3; 3]%float, 1)] (@LvqLog.RFloat Float64 0.5%float)
      2 false None true ["ready"] = Ok (m', h, out') /\
    (exists lines, out' = ["ready"] ++ lines) /\
    (1 <= 1 -> out' = ["ready"]) /\
    (forall lvl msg,
       LvqLog.log
         (LvqLog.verbose_level (lvq_with Float64 2 2 [[0; 0]; [4; 4]]%float) 1)
         lvl msg ["ready"]
       = if lvl <? 1 then ["ready"] ++ [msg] else ["ready"]).
Proof.
  do 3 eexists. split; [vm_compute; reflexivity|].
  eapply (@verbosity_gates_the_log Float64 (@LvqLog.hash Z)
            (@LvqLog.hash float) (@LvqLog.hash float)
            (lvq_with Float64 2 2 [[0; 0]; [4; 4]]%float) 1
            [([1; 1]%float, 0); ([3; 3]%float, 1)] (@LvqLog.RFloat Float64 0.5%float)
            2 false None true ["ready"]).
  vm_compute. reflexivity.
Defined.

(** X9, at a concrete input: a learning rate of 1.5 asked to decay over
    three epochs, and the integer rate 1. *)
Lemma decay_needs_a_float_rate_witness :
  (forall e, ltb Float64 e (of_Z Float64 1) = false -> 2 <= 3 ->
     @LvqLog.train Float64 (@LvqLog.hash Z) (@LvqLog.hash float) (@LvqLog.hash float)
       (lvq_with Float64 2 2 [[0; 0]; [4; 4]]%float)
       [([1; 1]%float, 0); ([3; 3]%float, 1)] (@LvqLog.RFloat Float64 e)
       3 true None true [] = Raise ValueError) /\
  (forall z, 1 <= 3 ->
     @LvqLog.train Float64 (@LvqLog.hash Z) (@LvqLog.hash float) (@LvqLog.hash float)
       (lvq_with Float64 2 2 [[0; 0]; [4; 4]]%float)
       [([1; 1]%float, 0); ([3; 3]%float, 1)] (@LvqLog.RInt Float64 z)
       3 true None true [] = Raise ValueError).
Proof.
  apply (@decay_needs_a_float_rate Float64 (@LvqLog.hash Z)
           (@LvqLog.hash float) (@LvqLog.hash float)
           (lvq_with Float64 2 2 [[0; 0]; [4; 4]]%float)
           [[0; 0]; [4; 4]]%float
           [([1; 1]%float, 0); ([3; 3]%float, 1)]).
  - reflexivity.
  - reflexivity.
  - discriminate.
  - discriminate.
  - repeat constructor.
Defined.

End LvqLogFacts.

(** ** network.py: the forward pass at its edges *)

Module NetForward.
Import Net NetTerms.

Lemma nth_pred_last (A : Type) (l : list A) (d : A) :
  nth (length l - 1) l d = last l d.
Proof.
  induction l as [|x l IH]; [reflexivity|].
  destruct l as [|y l]; [reflexivity|].
  cbn [length last] in *. rewrite <- IH.
  replace (S (S (length l)) - 1)%nat with (S (S (length l) - 1)) by lia.
  reflexivity.
Qed.

Section Forward.
Variable K : Scalar.

(** The forward pass on well-shaped data ends in a column of the output
    size. *)
Lemma feedforward_column (n : Network K) (X : mat K) :
  initialized n ->
  has_shape (hd 0%nat (struct n)) 1 X = true ->
  keeps_shape (act_call (activation n)) ->
  exists n1 out,
    feedforward n X = Ok (n1, out) /\
    has_shape (last (struct n) 0%nat) 1 out = true.
Proof.
  intros Hinit HX Hf.
  destruct (@NetBackprop.feedforward_Ok K n X Hinit HX Hf)
    as (acts & zs & out & Hff & Hca & _).
  exists (set_cache n (X :: acts) zs), out. split; [exact Hff|].
  destruct (NetShapes.columns_nth Hca) as [Hal Han].
  unfold feedforward in Hff.
  apply bind_Ok_inv in Hff. destruct Hff as ([al zl] & _ & G).
  apply bind_Ok_inv in G. destruct G as (o & Ho & G).
  injection G as G1 G2 G3. subst al zl o. cbn [a set_cache] in Ho.
  change (-1) with (- Z.of_nat 1) in Ho.
  apply getitem_neg in Ho; [|lia]. destruct Ho as [_ Ho].
  apply Han in Ho. rewrite Hal in Ho. now rewrite nth_pred_last in Ho.
Qed.

(** X10: on an initialized network, for an input column of the input
    size, [feedforward] (and so a call of the network) returns a column of
    the output size.  The cache it leaves holds one activation per layer,
    the input first and the output last, and one pre-activation per layer
    after the input layer, each a column of the size of its layer. *)
Theorem feedforward_output_and_cache (n : Network K) (X : mat K) :
  initialized n ->
  has_shape (hd 0%nat (struct n)) 1 X = true ->
  keeps_shape (act_call (activation n)) ->
  exists n1 out,
    feedforward n X = Ok (n1, out) /\
    call n X = Ok out /\
    has_shape (last (struct n) 0%nat) 1 out = true /\
    length (a n1) = n_layers n /\
    length (z n1) = (n_layers n - 1)%nat /\
    nth_error (a n1) 0 = Some X /\
    nth_error (a n1) (n_layers n - 1) = Some out /\
    columns (struct n) (a n1) /\ columns (tl (struct n)) (z n1).
Proof.
  intros Hinit HX Hf.
  destruct (@NetBackprop.feedforward_Ok K n X Hinit HX Hf)
    as (acts & zs & out & Hff & Hca & Hcz).
  destruct Hinit as (Hnl & Hlen & Hpos & Hshapes).
  exists (set_cache n (X :: acts) zs), out.
  destruct (NetShapes.columns_nth Hca) as [Hal Han].
  destruct (NetShapes.columns_nth Hcz) as [Hzl _].
  assert (Hout : nth_error (X :: acts) (length (X :: acts) - 1) = Some out).
  { pose proof Hff as G. unfold feedforward in G.
    apply bind_Ok_inv in G. destruct G as ([al zl] & _ & G).
    apply bind_Ok_inv in G. destruct G as (o & Ho & G).
    injection G as G1 G2 G3. subst al zl o. cbn [a set_cache] in Ho.
    change (-1) with (- Z.of_nat 1) in Ho.
    apply getitem_neg in Ho; [|lia]. apply Ho. }
  split; [exact Hff|]. split; [unfold call; rewrite Hff; reflexivity|].
  cbn [a z set_cache].
  split; [|split; [|split; [|split; [|split; [|split]]]]].
  - apply Han in Hout. rewrite Hal in Hout.
    now rewrite nth_pred_last in Hout.
  - congruence.
  - rewrite Hzl, Hnl. destruct (struct n); simpl; lia.
  - reflexivity.
  - rewrite Hnl, <- Hal. exact Hout.
  - exact Hca.
  - exact Hcz.
Qed.

(** X11: on an initialized network an input column whose height is not
    the input size is refused: [feedforward] raises [ValueError], from the
    product of the first weight matrix with the input. *)
Theorem feedforward_rejects_wrong_height (n : Network K) (X : mat K) (k : nat) :
  initialized n ->
  has_shape k 1 X = true ->
  k <> hd 0%nat (struct n) ->
  feedforward n X = Raise ValueError.
Proof.
  intros (Hnl & Hlen & Hpos & Hshapes) HX Hk.
  destruct (struct n) as [|s0 [|s1 rest]]; try (simpl in Hlen; lia).
  cbn [shapes_ok] in Hshapes.
  destruct (biases n) as [|b bs] eqn:Eb; [discriminate|].
  destruct (weights n) as [|w ws] eqn:Ew; [discriminate|].
  apply andb_true_iff in Hshapes. destruct Hshapes as [Hshapes _].
  apply andb_true_iff in Hshapes. destruct Hshapes as [_ Hw].
  apply NetShapes.has_shape_spec in Hw. destruct Hw as [Hwl Hwr].
  apply NetShapes.has_shape_spec in HX. destruct HX as [HXl _].
  cbn [forallb] in Hpos.
  apply andb_true_iff in Hpos. destruct Hpos as [_ Hpos].
  apply andb_true_iff in Hpos. destruct Hpos as [Hs1 _].
  apply Nat.ltb_lt in Hs1.
  destruct w as [|r w]; [simpl in Hwl; lia|].
  inversion Hwr as [|? ? Hr _]; subst.
  unfold feedforward. rewrite Eb, Ew.
  cbn [combine forward_loop]. unfold np_dot, nrows. cbn [forallb hd] in *.
  destruct (Nat.eqb_spec (length r) (length X)) as [E1|E1]; [congruence|].
  reflexivity.
Qed.

(** X12: a call leaves nothing behind that a later call reads.  After
    one [feedforward], a second one, or a [backpropagation], behaves on
    every input exactly as it would have on the network before: same output,
    same gradients, same state afterwards. *)
Theorem earlier_call_leaves_no_trace (n n1 : Network K) (X1 out1 : mat K) :
  feedforward n X1 = Ok (n1, out1) ->
  forall (X : mat K) (y : label K),
    feedforward n1 X = feedforward n X /\
    backpropagation n1 X y = backpropagation n X y.
Proof.
  intros H X y. apply NetBatches.feedforward_same_model in H.
  unfold same_model in H. rewrite H. split; reflexivity.
Qed.

(** X13: only training changes a network.  [feedforward],
    [backpropagation], [eval_accuracy] and [eval_error_rate] return the
    network they were given up to the forward cache: same weights and
    biases, same architecture, strategies and learning parameters. *)
Theorem evaluation_keeps_the_model (n : Network K) :
  (forall X n1 out, feedforward n X = Ok (n1, out) ->
     n1 = set_cache n (a n1) (z n1)) /\
  (forall X y n1 g, backpropagation n X y = Ok (n1, g) ->
     n1 = set_cache n (a n1) (z n1)) /\
  (forall data n1 c, eval_accuracy n data = Ok (n1, c) ->
     n1 = set_cache n (a n1) (z n1)) /\
  (forall data n1 e, eval_error_rate n data = Ok (n1, e) ->
     n1 = set_cache n (a n1) (z n1)).
Proof.
  split; [|split; [|split]].
  - intros X n1 out H. eapply NetBatches.feedforward_same_model; eauto.
  - intros X y n1 g H. eapply NetBatches.backpropagation_same_model; eauto.
  - intros data n1 c H. eapply NetBatches.eval_accuracy_same_model; eauto.
  - intros data n1 e H. eapply NetBatches.eval_error_rate_same_model; eauto.
Qed.

End Forward.

(** X10, at a concrete input: the 2-3-1 network on the integers. *)
Lemma feedforward_output_and_cache_witness :
  exists n1 out,
    feedforward (Lib.net231 ZScalar) [[1]; [0]] = Ok (n1, out) /\
    call (Lib.net231 ZScalar) [[1]; [0]] = Ok out /\
    has_shape (last (struct (Lib.net231 ZScalar)) 0%nat) 1 out = true /\
    length (a n1) = n_layers (Lib.net231 ZScalar) /\
    length (z n1) = (n_layers (Lib.net231 ZScalar) - 1)%nat /\
    nth_error (a n1) 0 = Some [[1]; [0]] /\
    nth_error (a n1) (n_layers (Lib.net231 ZScalar) - 1) = Some out /\
    columns (struct (Lib.net231 ZScalar)) (a n1) /\
    columns (tl (struct (Lib.net231 ZScalar))) (z n1).
Proof.
  apply (@feedforward_output_and_cache ZScalar (Lib.net231 ZScalar)
           [[1]; [0]]).
  - repeat split; try reflexivity. vm_compute. lia.
  - reflexivity.
  - apply (@NetBackprop.map_map_keeps_shape ZScalar).
Defined.

(** X11, at a concrete input: three rows for a network of two inputs. *)
Lemma feedforward_rejects_wrong_height_witness :
  feedforward (Lib.net231 ZScalar) [[1]; [0]; [1]] = Raise ValueError.
Proof.
  apply (@feedforward_rejects_wrong_height ZScalar (Lib.net231 ZScalar)
           [[1]; [0]; [1]] 3).
  - repeat split; try reflexivity. vm_compute. lia.
  - reflexivity.
  - vm_compute. lia.
Defined.

(** X12, at a concrete input: the 2-3-1 network on binary64 floats. *)
Lemma earlier_call_leaves_no_trace_witness :
  exists n1 out1,
    feedforward (Lib.net231 Float64) [[1]; [0]]%float = Ok (n1, out1) /\
    forall (X : mat Float64) (y : label Float64),
      feedforward n1 X = feedforward (Lib.net231 Float64) X /\
      backpropagation n1 X y = backpropagation (Lib.net231 Float64) X y.
Proof.
  do 2 eexists. split; [vm_compute; reflexivity|].
  eapply (@earlier_call_leaves_no_trace Float64 (Lib.net231 Float64) _
            [[1]; [0]]%float _).
  vm_compute. reflexivity.
Defined.

End NetForward.

(** ** network.py: gradients, and networks too shallow to have any *)

Module NetGradients.
Import Net NetTerms.

Section Gradients.
Variable K : Scalar.

(** X14: on an initialized network whose weight arrays numpy can pack
    into one array, and an example of the right shapes, [backpropagation]
    returns one bias gradient and one weight gradient per layer transition,
    each of the shape of the parameter it belongs to: (units[l], 1) and
    (units[l], units[l-1]). *)
Theorem gradients_shaped_like_parameters (n : Network K) (X : mat K)
    (y : label K) :
  initialized n ->
  packs (weights n) ->
  keeps_shape (act_call (activation n)) ->
  keeps_shape (act_derivative (activation n)) ->
  good_example n (X, y) ->
  exists n1 nabla_b nabla_w,
    backpropagation n X y = Ok (n1, (nabla_b, nabla_w)) /\
    length nabla_b = length (biases n) /\
    length nabla_w = length (weights n) /\
    shaped (bias_dims (struct n)) nabla_b /\
    shaped (bias_dims (struct n)) (biases n) /\
    shaped (weight_dims (struct n)) nabla_w /\
    shaped (weight_dims (struct n)) (weights n).
Proof.
  intros Hinit Hpw Hf Hf' Hex.
  destruct (@NetUpdate.backpropagation_shaped K n X y Hinit Hpw Hf Hf' Hex)
    as (n1 & nb & nw & Hbp & Hnb & Hnw).
  destruct Hinit as (_ & _ & _ & Hshapes).
  apply NetUpdate.shapes_ok_shaped in Hshapes.
  destruct Hshapes as (_ & Hb & Hw).
  exists n1, nb, nw. repeat split; auto.
  - apply Forall2_length in Hnb, Hb. congruence.
  - apply Forall2_length in Hnw, Hw. congruence.
Qed.

Variable new_ActivationFunction : string -> result (ActivationFunction K).
Variable new_CostFunction : string -> result (CostFunction K).
Variable new_RegularizationFunction : string -> result (RegularizationFunction K).
Variable np_rng : Type.
Variable randn : np_rng -> nat -> nat -> mat K * np_rng.

Lemma shallow_network_has_no_parameters (st : list nat) (an cn rn : string)
    (lr mom lam : K) (g g' : np_rng) (n : Network K) :
  Network_init new_ActivationFunction new_CostFunction
    new_RegularizationFunction randn st an cn rn lr mom lam g = Ok (n, g') ->
  (length st <= 1)%nat ->
  biases n = [] /\ weights n = [].
Proof.
  intros H Hlen. unfold Network_init in H.
  destruct (String.eqb cn "cross-entropy" && negb (String.eqb an "sigmoid"))%bool;
    [discriminate|].
  apply bind_Ok_inv in H. destruct H as (reg & _ & H).
  apply bind_Ok_inv in H. destruct H as (act & _ & H).
  apply bind_Ok_inv in H. destruct H as (c & _ & H).
  destruct (randn_list randn g (map (fun layer => (layer, 1%nat)) st))
    as [a0 g1].
  destruct (randn_list randn g1 (map (fun layer => (layer, 1%nat)) st))
    as [z0 g2].
  destruct st as [|s [|s' st']]; [| |simpl in Hlen; lia];
    cbn [tl removelast combine map randn_list randn_weights] in H;
    injection H as <- _; split; reflexivity.
Qed.

(** X15: a network built from an architecture of fewer than two layers
    has no weights and no biases.  [feedforward] hands its input back
    unchanged, and there is nothing to differentiate: [backpropagation]
    raises [IndexError], and so does the training of any mini-batch that is
    not empty. *)
Theorem shallow_network_cannot_learn (st : list nat) (an cn rn : string)
    (lr mom lam : K) (g g' : np_rng) (n : Network K) :
  Network_init new_ActivationFunction new_CostFunction
    new_RegularizationFunction randn st an cn rn lr mom lam g = Ok (n, g') ->
  (length st <= 1)%nat ->
  forall (X : mat K) (y : label K),
    feedforward n X = Ok (set_cache n [X] [], X) /\
    backpropagation n X y = Raise IndexError /\
    forall size mb, train_batch n size ((X, y) :: mb) = Raise IndexError.
Proof.
  intros H Hlen X y.
  destruct (shallow_network_has_no_parameters _ _ _ _ _ _ _ _ H Hlen)
    as [Hb Hw].
  assert (Hff : feedforward n X = Ok (set_cache n [X] [], X)).
  { unfold feedforward. rewrite Hb, Hw. reflexivity. }
  assert (Hbp : backpropagation n X y = Raise IndexError).
  { unfold backpropagation. rewrite Hb, Hw. cbn [pack bind]. cbv zeta.
    rewrite Hff. cbn [bind a z set_cache cost zeros_like map].
    change (getitem [X] (-1)) with (Ok (A := mat K) X). cbn [bind].
    destruct (String.eqb (cost_type (cost n)) "cross-entropy"); reflexivity. }
  split; [exact Hff|]. split; [exact Hbp|].
  intros size mb. unfold train_batch. rewrite Hb, Hw. cbn [pack bind].
  cbv zeta. cbn [accumulate]. rewrite Hbp. reflexivity.
Qed.

End Gradients.

(** X14, at a concrete input: the 2-3-1 network on the integers. *)
Lemma gradients_shaped_like_parameters_witness :
  exists n1 nabla_b nabla_w,
    backpropagation (Lib.net231 ZScalar) [[1]; [0]] (LInt 1)
    = Ok (n1, (nabla_b, nabla_w)) /\
    length nabla_b = length (biases (Lib.net231 ZScalar)) /\
    length nabla_w = length (weights (Lib.net231 ZScalar)) /\
    shaped (bias_dims (struct (Lib.net231 ZScalar))) nabla_b /\
    shaped (bias_dims (struct (Lib.net231 ZScalar)))
      (biases (Lib.net231 ZScalar)) /\
    shaped (weight_dims (struct (Lib.net231 ZScalar))) nabla_w /\
    shaped (weight_dims (struct (Lib.net231 ZScalar)))
      (weights (Lib.net231 ZScalar)).
Proof.
  apply (@gradients_shaped_like_parameters ZScalar (Lib.net231 ZScalar)
           [[1]; [0]] (LInt 1)).
  - repeat split; try reflexivity. vm_compute. lia.
  - exists Objects. reflexivity.
  - apply (@NetBackprop.map_map_keeps_shape ZScalar).
  - apply (@NetBackprop.map_map_keeps_shape ZScalar).
  - apply NetTrain.Lib_good_example; reflexivity.
Defined.

(** X15, at a concrete input: the architecture [4] on binary64 floats. *)
Lemma shallow_network_cannot_learn_witness :
  exists n g',
    Lib.Network_init Float64 [4%nat] "sigmoid" "quadratic" "none"
      3%float 0.5%float 0.1%float 0 = Ok (n, g') /\
    forall (X : mat Float64) (y : label Float64),
      feedforward n X = Ok (set_cache n [X] [], X) /\
      backpropagation n X y = Raise IndexError /\
      forall size mb, train_batch n size ((X, y) :: mb) = Raise IndexError.
Proof.
  do 2 eexists. split; [vm_compute; reflexivity|].
  eapply (@shallow_network_cannot_learn Float64 (@Lib.new_activation Float64)
            (@Lib.new_cost Float64) (@Lib.new_regularization Float64)
            Z (@Lib.randn Float64) [4%nat] "sigmoid" "quadratic" "none"
            3%float 0.5%float 0.1%float 0).
  - vm_compute. reflexivity.
  - simpl. lia.
Defined.

End NetGradients.

(** ** network.py: how far back the backward pass goes *)

Module NetDepth.
Import Net NetTerms.

Section Depth.
Variable K : Scalar.

Lemma setitem_elsewhere (A : Type) (l l' : list A) (j : nat) (v : A) :
  (1 <= j)%nat ->
  setitem l (- Z.of_nat j) v = Ok l' ->
  length l' = length l /\
  forall i, (i + j < length l)%nat -> nth_error l' i = nth_error l i.
Proof.
  intros Hj H. apply setitem_neg in H; [|exact Hj].
  destruct H as [Hb ->]. split; [apply update_nth_length|].
  intros i Hi. apply nth_error_update_nth_neq. lia.
Qed.

Lemma backprop_step_elsewhere (n : Network K) (pb pw : packing) (l : nat)
    (delta delta' : mat K) (nb nw nb' nw' : list (mat K)) :
  (1 <= l)%nat ->
  backprop_step n pb pw (Z.of_nat l) (delta, nb, nw) = Ok (delta', nb', nw') ->
  length nb' = length nb /\ length nw' = length nw /\
  (forall i, (i + l < length nb)%nat -> nth_error nb' i = nth_error nb i) /\
  (forall i, (i + l < length nw)%nat -> nth_error nw' i = nth_error nw i).
Proof.
  intros Hl H. unfold backprop_step in H.
  apply bind_Ok_inv in H. destruct H as (w & _ & H).
  apply bind_Ok_inv in H. destruct H as (wd & _ & H).
  apply bind_Ok_inv in H. destruct H as (zl & _ & H).
  apply bind_Ok_inv in H. destruct H as (d' & _ & H).
  apply bind_Ok_inv in H. destruct H as (nb1 & Hnb & H).
  apply bind_Ok_inv in H. destruct H as (al & _ & H).
  apply bind_Ok_inv in H. destruct H as (g & _ & H).
  apply bind_Ok_inv in H. destruct H as (nw1 & Hnw & H).
  injection H as _ <- <-.
  apply NetBackprop.store_setitem in Hnb, Hnw.
  apply setitem_elsewhere in Hnb; [|exact Hl].
  apply setitem_elsewhere in Hnw; [|exact Hl].
  destruct Hnb as [Lb Eb], Hnw as [Lw Ew]. auto.
Qed.

Lemma backprop_loop_elsewhere (n : Network K) (pb pw : packing)
    (bound : nat) (ls : list nat) :
  Forall (fun l => (1 <= l <= bound)%nat) ls ->
  forall delta nb nw delta' nb' nw',
    backprop_loop n pb pw ls (delta, nb, nw) = Ok (delta', nb', nw') ->
    length nb' = length nb /\ length nw' = length nw /\
    (forall i, (i + bound < length nb)%nat ->
       nth_error nb' i = nth_error nb i) /\
    (forall i, (i + bound < length nw)%nat ->
       nth_error nw' i = nth_error nw i).
Proof.
  induction 1 as [|l ls [Hl1 Hl2] _ IH];
    intros delta nb nw delta' nb' nw' H; cbn [backprop_loop] in H.
  - injection H as _ <- <-. auto.
  - apply bind_Ok_inv in H. destruct H as ([[d1 nb1] nw1] & H1 & H).
    apply backprop_step_elsewhere in H1; [|exact Hl1].
    destruct H1 as (Lb1 & Lw1 & Eb1 & Ew1).
    apply IH in H. destruct H as (Lb & Lw & Eb & Ew).
    split; [congruence|]. split; [congruence|]. split.
    + intros i Hi. rewrite Eb by lia. apply Eb1. lia.
    + intros i Hi. rewrite Ew by lia. apply Ew1. lia.
Qed.

(** X16: the backward pass walks back by the layer count of the
    network, not by the number of its weight matrices.  Whenever
    [backpropagation] returns, the gradients of the layers that lie more
    than [n_layers - 1] places from the end (more than one place, for a
    layer count below two) are still the zero arrays it started from.  In a
    network whose layer count is in step with its weights there is no such
    layer; in one that [load] has given more layers than it was built with,
    the first layers get no gradient. *)
Theorem backward_pass_stops_at_layer_count (n n1 : Network K) (X : mat K)
    (y : label K) (nabla_b nabla_w : list (mat K)) :
  backpropagation n X y = Ok (n1, (nabla_b, nabla_w)) ->
  length nabla_b = length (biases n) /\
  length nabla_w = length (weights n) /\
  (forall i, (i + Nat.max 1 (n_layers n - 1) < length (biases n))%nat ->
     nth_error nabla_b i = nth_error (zeros_like (biases n)) i) /\
  (forall i, (i + Nat.max 1 (n_layers n - 1) < length (weights n))%nat ->
     nth_error nabla_w i = nth_error (zeros_like (weights n)) i).
Proof.
  unfold backpropagation. intros H.
  apply bind_Ok_inv in H. destruct H as (pb & _ & H). cbv zeta in H.
  apply bind_Ok_inv in H. destruct H as (pw & _ & H).
  apply bind_Ok_inv in H. destruct H as ([n1' out] & Hff & H).
  apply bind_Ok_inv in H. destruct H as (a_last & _ & H).
  apply bind_Ok_inv in H. destruct H as (delta & _ & H).
  apply bind_Ok_inv in H. destruct H as (nb1 & Hnb1 & H).
  apply bind_Ok_inv in H. destruct H as (a_prev & _ & H).
  apply bind_Ok_inv in H. destruct H as (g0 & _ & H).
  apply bind_Ok_inv in H. destruct H as (nw1 & Hnw1 & H).
  apply bind_Ok_inv in H. destruct H as ([[d2 nb2] nw2] & Hloop & H).
  injection H as _ <- <-.
  apply NetBackprop.store_setitem in Hnb1, Hnw1.
  apply NetBatches.feedforward_same_model in Hff.
  assert (Hnl : n_layers n1' = n_layers n)
    by (unfold same_model in Hff; rewrite Hff; reflexivity).
  rewrite Hnl in Hloop.
  change (-1) with (- Z.of_nat 1) in Hnb1, Hnw1.
  apply setitem_elsewhere in Hnb1; [|lia].
  apply setitem_elsewhere in Hnw1; [|lia].
  destruct Hnb1 as [Lb1 Eb1], Hnw1 as [Lw1 Ew1].
  apply (@backprop_loop_elsewhere n1' pb pw (Nat.max 1 (n_layers n - 1)))
    in Hloop.
  - destruct Hloop as (Lb & Lw & Eb & Ew).
    rewrite !NetBackprop.zeros_like_length in *.
    split; [congruence|]. split; [congruence|]. split.
    + intros i Hi. rewrite Eb by lia. apply Eb1. lia.
    + intros i Hi. rewrite Ew by lia. apply Ew1. lia.
  - apply Forall_forall. intros l Hl. apply in_seq in Hl. lia.
Qed.

End Depth.

(** X16, at a concrete input: the saved 2-3-1 network loaded into an
    object built as a 2-1 network, on binary64 floats; the gradients of the
    first layer are zero arrays. *)
Lemma backward_pass_stops_at_layer_count_witness :
  exists n n1 nabla_b nabla_w,
    Lib.load (Lib.network_of
                (Lib.Network_init Float64 [2; 1]%nat "sigmoid" "quadratic"
                   "none" 3%float 0%float 1%float 0))
      "conf.save.gz"
      (save (Lib.net231 Float64) "conf.save.gz" (fun _ => None)) = Ok n /\
    backpropagation n [[1]; [0]]%float (LInt 1)
    = Ok (n1, (nabla_b, nabla_w)) /\
    length nabla_b = length (biases n) /\
    length nabla_w = length (weights n) /\
    (forall i, (i + Nat.max 1 (n_layers n - 1) < length (biases n))%nat ->
       nth_error nabla_b i = nth_error (zeros_like (biases n)) i) /\
    (forall i, (i + Nat.max 1 (n_layers n - 1) < length (weights n))%nat ->
       nth_error nabla_w i = nth_error (zeros_like (weights n)) i).
Proof.
  do 4 eexists. split; [vm_compute; reflexivity|].
  split; [vm_compute; reflexivity|].
  eapply (@backward_pass_stops_at_layer_count Float64 _ _ [[1]; [0]]%float
            (LInt 1)).
  vm_compute. reflexivity.
Defined.

End NetDepth.

(** ** network.py: what [train] returns, and when it cannot *)

Module NetEpochs.
Import Net NetTerms.

Lemma lookup_absent (d : dict) (key : string) :
  (forall v, ~ In (key, v) d) -> lookup d key = Raise (KeyError key).
Proof.
  induction d as [|[k v] d IH]; intros H; [reflexivity|].
  cbn [lookup]. destruct (String.eqb_spec k key) as [->|Hk].
  - exfalso. apply (H v). now left.
  - apply IH. intros v' Hin. apply (H v'). now right.
Qed.

Section Epochs.
Variable K : Scalar.
Variable py_rng : Type.
Variable shuffle : py_rng -> list (example K) -> list (example K) * py_rng.

(** X17: [train] looks up 'accuracy', 'error' and 'cost' in the
    monitoring dictionary at the end of every epoch.  With a dictionary
    that has no 'accuracy' entry, a run of at least one epoch does the
    updates of its first epoch and then raises [KeyError] for that key. *)
Theorem train_missing_monitoring_key (n : Network K)
    (tr_d : list (example K)) (epochs batch_size : Z)
    (va_d : option (list (example K))) (monitoring : dict) (g : py_rng)
    (n1 : Network K) :
  0 < epochs ->
  (forall v, ~ In ("accuracy", v) monitoring) ->
  train_batches n (length (fst (shuffle g tr_d)))
    (mini_batches (fst (shuffle g tr_d)) batch_size) = Ok n1 ->
  train shuffle n tr_d epochs batch_size va_d monitoring g
  = Raise (KeyError "accuracy").
Proof.
  intros He Hkey Hb. unfold train.
  destruct (Z.to_nat epochs) as [|e] eqn:Ee; [lia|].
  cbn [train_epochs]. unfold train_epoch.
  destruct (shuffle g tr_d) as [tr_d1 g1]. cbn [fst] in Hb.
  rewrite Hb. cbn [bind]. rewrite (@lookup_absent monitoring "accuracy" Hkey). reflexivity.
Qed.

Lemma mini_batches_nil (batch_size : Z) :
  mini_batches (@nil (example K)) batch_size = [].
Proof. unfold mini_batches. destruct (batch_size <=? 0); reflexivity. Qed.

(** X18: an empty training set cannot be monitored.  With at least one
    epoch asked for and the accuracy or the error rate switched on, [train]
    on an empty training set raises [ZeroDivisionError]: the count of hits
    is divided by the size of the set. *)
Theorem train_empty_set_divides_by_zero (n : Network K)
    (epochs batch_size : Z) (va_d : option (list (example K)))
    (monitoring : dict) (g : py_rng) :
  fst (shuffle g []) = [] ->
  0 < epochs ->
  (lookup monitoring "accuracy" = Ok true \/
   (lookup monitoring "accuracy" = Ok false /\
    lookup monitoring "error" = Ok true)) ->
  train shuffle n [] epochs batch_size va_d monitoring g
  = Raise ZeroDivisionError.
Proof.
  intros Hsh He Hmon. unfold train.
  destruct (Z.to_nat epochs) as [|e] eqn:Ee; [lia|].
  cbn [train_epochs]. unfold train_epoch.
  destruct (shuffle g []) as [tr_d1 g1]. cbn [fst] in Hsh. subst tr_d1.
  rewrite mini_batches_nil. cbn [train_batches bind].
  destruct Hmon as [Ha | [Ha Herr]]; rewrite Ha; cbn [bind].
  - reflexivity.
  - rewrite Herr. reflexivity.
Qed.

(** What the three monitoring steps append. *)
Lemma monitor_accuracy_appends (n n' : Network K) tr_d va_d (h h' : history K) :
  monitor_accuracy n tr_d va_d h = Ok (n', h') ->
  length (tr_acc h') = S (length (tr_acc h)) /\
  length (va_acc h')
  = (length (va_acc h) + (if validated va_d then 1 else 0))%nat /\
  tr_err h' = tr_err h /\ va_err h' = va_err h /\
  tr_cost h' = tr_cost h /\ va_cost h' = va_cost h.
Proof.
  unfold monitor_accuracy, validated. intros H.
  apply bind_Ok_inv in H. destruct H as ([n1 c1] & _ & H).
  apply bind_Ok_inv in H. destruct H as ([n2 c2] & _ & H).
  apply bind_Ok_inv in H. destruct H as (r & _ & H).
  cbv zeta in H.
  destruct (truthy va_d) as [va|].
  - apply bind_Ok_inv in H. destruct H as ([n3 c3] & _ & H).
    apply bind_Ok_inv in H. destruct H as ([n4 c4] & _ & H).
    apply bind_Ok_inv in H. destruct H as (rv & _ & H).
    injection H as _ <-. cbn. rewrite !length_app. cbn.
    repeat split; lia.
  - injection H as _ <-. cbn. rewrite !length_app. cbn.
    repeat split; lia.
Qed.

Lemma monitor_error_appends (n n' : Network K) tr_d va_d (h h' : history K) :
  monitor_error n tr_d va_d h = Ok (n', h') ->
  length (tr_err h') = S (length (tr_err h)) /\
  length (va_err h')
  = (length (va_err h) + (if validated va_d then 1 else 0))%nat /\
  tr_acc h' = tr_acc h /\ va_acc h' = va_acc h /\
  tr_cost h' = tr_cost h /\ va_cost h' = va_cost h.
Proof.
  unfold monitor_error, validated. intros H.
  apply bind_Ok_inv in H. destruct H as ([n1 c1] & _ & H).
  apply bind_Ok_inv in H. destruct H as ([n2 c2] & _ & H).
  cbv zeta in H.
  destruct (truthy va_d) as [va|].
  - apply bind_Ok_inv in H. destruct H as ([n3 c3] & _ & H).
    apply bind_Ok_inv in H. destruct H as ([n4 c4] & _ & H).
    injection H as _ <-. cbn. rewrite !length_app. cbn.
    repeat split; lia.
  - injection H as _ <-. cbn. rewrite !length_app. cbn.
    repeat split; lia.
Qed.

Lemma monitor_cost_appends (n : Network K) tr_d va_d (h : history K) :
  length (tr_cost (monitor_cost n tr_d va_d h)) = S (length (tr_cost h)) /\
  length (va_cost (monitor_cost n tr_d va_d h))
  = (length (va_cost h) + (if validated va_d then 1 else 0))%nat /\
  tr_acc (monitor_cost n tr_d va_d h) = tr_acc h /\
  va_acc (monitor_cost n tr_d va_d h) = va_acc h /\
  tr_err (monitor_cost n tr_d va_d h) = tr_err h /\
  va_err (monitor_cost n tr_d va_d h) = va_err h /\
  (Forall (fun c => c = of_Z K 0) (tr_cost h) ->
   Forall (fun c => c = of_Z K 0) (tr_cost (monitor_cost n tr_d va_d h))) /\
  (Forall (fun c => c = of_Z K 0) (va_cost h) ->
   Forall (fun c => c = of_Z K 0) (va_cost (monitor_cost n tr_d va_d h))).
Proof.
  unfold monitor_cost, validated, eval_cost.
  destruct (truthy va_d) as [va|]; cbn; rewrite !length_app; cbn;
    repeat split; try lia; auto;
    intros H; apply Forall_app; split; auto.
Qed.

(** the lengths of the six histories *)
Let lengths (h : history K) : list nat :=
  [ length (tr_acc h); length (va_acc h); length (tr_err h);
    length (va_err h); length (tr_cost h); length (va_cost h) ].

(** what an epoch adds to them *)
Let steps (va_d : option (list (example K))) (acc err cst : bool)
    (e : nat) : list nat :=
  [ if acc then e else 0%nat; if acc && validated va_d then e else 0%nat;
    if err then e else 0%nat; if err && validated va_d then e else 0%nat;
    if cst then e else 0%nat; if cst && validated va_d then e else 0%nat ].

Let zero_costs (h : history K) : Prop :=
  Forall (fun c => c = of_Z K 0) (tr_cost h) /\
  Forall (fun c => c = of_Z K 0) (va_cost h).

Lemma train_epoch_history (batch_size : Z) va_d monitoring
    (n : Network K) tr_d g h n' tr_d' g' h' :
  train_epoch shuffle batch_size va_d monitoring (n, tr_d, g, h)
  = Ok (n', tr_d', g', h') ->
  exists acc err cst,
    lookup monitoring "accuracy" = Ok acc /\
    lookup monitoring "error" = Ok err /\
    lookup monitoring "cost" = Ok cst /\
    lengths h' = map (fun p => (fst p + snd p)%nat)
                   (combine (lengths h) (steps va_d acc err cst 1)) /\
    (zero_costs h -> zero_costs h').
Proof.
  unfold train_epoch. intros H.
  destruct (shuffle g tr_d) as [tr_d1 g1].
  apply bind_Ok_inv in H. destruct H as (n1 & _ & H).
  apply bind_Ok_inv in H. destruct H as (acc & Hacc & H).
  apply bind_Ok_inv in H. destruct H as ([n2 h2] & H2 & H).
  apply bind_Ok_inv in H. destruct H as (err & Herr & H).
  apply bind_Ok_inv in H. destruct H as ([n3 h3] & H3 & H).
  apply bind_Ok_inv in H. destruct H as (cst & Hcst & H).
  injection H as _ _ _ <-.
  exists acc, err, cst. split; [exact Hacc|]. split; [exact Herr|].
  split; [exact Hcst|].
  assert (A : length (tr_acc h2)
              = (length (tr_acc h) + (if acc then 1 else 0))%nat /\
              length (va_acc h2)
              = (length (va_acc h)
                 + (if acc && validated va_d then 1 else 0))%nat /\
              tr_err h2 = tr_err h /\ va_err h2 = va_err h /\
              tr_cost h2 = tr_cost h /\ va_cost h2 = va_cost h).
  { destruct acc.
    - apply monitor_accuracy_appends in H2.
      destruct H2 as (A1 & A2 & A3 & A4 & A5 & A6).
      cbn [andb]. repeat split; auto; lia.
    - injection H2 as _ <-. cbn [andb]. repeat split; lia. }
  assert (B : length (tr_err h3)
              = (length (tr_err h2) + (if err then 1 else 0))%nat /\
              length (va_err h3)
              = (length (va_err h2)
                 + (if err && validated va_d then 1 else 0))%nat /\
              tr_acc h3 = tr_acc h2 /\ va_acc h3 = va_acc h2 /\
              tr_cost h3 = tr_cost h2 /\ va_cost h3 = va_cost h2).
  { destruct err.
    - apply monitor_error_appends in H3.
      destruct H3 as (A1 & A2 & A3 & A4 & A5 & A6).
      cbn [andb]. repeat split; auto; lia.
    - injection H3 as _ <-. cbn [andb]. repeat split; lia. }
  destruct A as (A1 & A2 & A3 & A4 & A5 & A6).
  destruct B as (B1 & B2 & B3 & B4 & B5 & B6).
  destruct (monitor_cost_appends n3 tr_d1 va_d h3)
    as (C1 & C2 & C3 & C4 & C5 & C6 & C7 & C8).
  split.
  - unfold lengths, steps. cbn [combine map fst snd].
    destruct cst; cbn [andb].
    + rewrite C1, C2, C3, C4, C5, C6, B1, B2, B3, B4, B5, B6,
        A1, A2, A3, A4, A5, A6.
      repeat (apply (f_equal2 cons); [lia|]); reflexivity.
    + rewrite B1, B2, B3, B4, B5, B6, A1, A2, A3, A4, A5, A6.
      repeat (apply (f_equal2 cons); [lia|]); reflexivity.
  - intros [Z1 Z2]. unfold zero_costs.
    rewrite <- A5, <- B5 in Z1. rewrite <- A6, <- B6 in Z2.
    destruct cst; auto.
Qed.

Lemma train_epochs_history (epochs : nat) (batch_size : Z) va_d monitoring :
  forall (n : Network K) tr_d g h n' tr_d' g' h',
    train_epochs shuffle epochs batch_size va_d monitoring (n, tr_d, g, h)
    = Ok (n', tr_d', g', h') ->
    (zero_costs h -> zero_costs h') /\
    forall acc err cst,
      lookup monitoring "accuracy" = Ok acc ->
      lookup monitoring "error" = Ok err ->
      lookup monitoring "cost" = Ok cst ->
      lengths h' = map (fun p => (fst p + snd p)%nat)
                     (combine (lengths h) (steps va_d acc err cst epochs)).
Proof.
  induction epochs as [|e IH]; intros n tr_d g h n' tr_d' g' h' H;
    cbn [train_epochs] in H.
  - injection H as _ _ _ <-. split; [auto|].
    intros acc err cst _ _ _. unfold lengths, steps. cbn [combine map fst snd].
    destruct acc, err, cst, (validated va_d); cbn [andb];
      repeat (apply (f_equal2 cons); [lia|]); reflexivity.
  - apply bind_Ok_inv in H. destruct H as ([[[n1 tr_d1] g1] h1] & H1 & H).
    apply train_epoch_history in H1.
    destruct H1 as (acc & err & cst & Ha & He & Hc & Hl1 & Hz1).
    apply IH in H. destruct H as [Hz Hl].
    split; [auto|].
    intros acc' err' cst' Ha' He' Hc'.
    assert (acc' = acc) by congruence. assert (err' = err) by congruence.
    assert (cst' = cst) by congruence. subst acc' err' cst'.
    rewrite (Hl acc err cst Ha He Hc), Hl1.
    unfold lengths, steps. cbn [combine map fst snd].
    destruct acc, err, cst, (validated va_d); cbn [andb];
      repeat (apply (f_equal2 cons); [lia|]); reflexivity.
Qed.

(** X19: when [train] returns after at least one epoch, every figure
    switched on in the monitoring dictionary has one entry per epoch in its
    training history, and one per epoch in its validation history if there
    is a non-empty validation set; the histories of the figures switched
    off, and all validation histories without a validation set, are
    empty. *)
Theorem network_history_lengths (n : Network K) (tr_d : list (example K))
    (epochs batch_size : Z) (va_d : option (list (example K)))
    (monitoring : dict) (g : py_rng)
    (n' : Network K) (tr_d' : list (example K)) (g' : py_rng) (h : history K) :
  train shuffle n tr_d epochs batch_size va_d monitoring g
  = Ok (n', tr_d', g', h) ->
  0 < epochs ->
  exists acc err cst,
    lookup monitoring "accuracy" = Ok acc /\
    lookup monitoring "error" = Ok err /\
    lookup monitoring "cost" = Ok cst /\
    length (tr_acc h) = (if acc then Z.to_nat epochs else 0%nat) /\
    length (va_acc h)
    = (if acc && validated va_d then Z.to_nat epochs else 0%nat) /\
    length (tr_err h) = (if err then Z.to_nat epochs else 0%nat) /\
    length (va_err h)
    = (if err && validated va_d then Z.to_nat epochs else 0%nat) /\
    length (tr_cost h) = (if cst then Z.to_nat epochs else 0%nat) /\
    length (va_cost h)
    = (if cst && validated va_d then Z.to_nat epochs else 0%nat).
Proof.
  intros H He. unfold train in H.
  destruct (Z.to_nat epochs) as [|e] eqn:Ee; [lia|].
  pose proof H as H0. cbn [train_epochs] in H0.
  apply bind_Ok_inv in H0. destruct H0 as ([[[n1 tr_d1] g1] h1] & H1 & _).
  apply train_epoch_history in H1.
  destruct H1 as (acc & err & cst & Ha & Herr & Hc & _).
  apply train_epochs_history in H. destruct H as [_ Hl].
  specialize (Hl acc err cst Ha Herr Hc).
  exists acc, err, cst. split; [exact Ha|]. split; [exact Herr|].
  split; [exact Hc|].
  unfold lengths, steps in Hl. cbn in Hl.
  injection Hl as L1 L2 L3 L4 L5 L6. auto 10.
Qed.

(** X20: the cost is not computed.  [eval_cost] is a stub that returns
    zero, so every entry of the two cost histories that [train] returns is
    zero, whatever the network, the data and the number of epochs. *)
Theorem cost_history_is_all_zero (n : Network K) (tr_d : list (example K))
    (epochs batch_size : Z) (va_d : option (list (example K)))
    (monitoring : dict) (g : py_rng)
    (n' : Network K) (tr_d' : list (example K)) (g' : py_rng) (h : history K) :
  train shuffle n tr_d epochs batch_size va_d monitoring g
  = Ok (n', tr_d', g', h) ->
  Forall (fun c => c = eval_cost n' tr_d') (tr_cost h) /\
  Forall (fun c => c = of_Z K 0) (tr_cost h) /\
  Forall (fun c => c = of_Z K 0) (va_cost h).
Proof.
  intros H. unfold train in H. apply train_epochs_history in H.
  destruct H as [Hz _].
  destruct Hz as [Z1 Z2]; [split; constructor|].
  split; [exact Z1|]. split; [exact Z1 | exact Z2].
Qed.

Lemma train_epochs_never_batching (batch_size : Z) va_d monitoring
    (epochs : nat) :
  batch_size <= 0 ->
  forall (n : Network K) tr_d g h n' tr_d' g' h',
    train_epochs shuffle epochs batch_size va_d monitoring (n, tr_d, g, h)
    = Ok (n', tr_d', g', h') ->
    same_model n n'.
Proof.
  intros Hb.
  induction epochs as [|e IH]; intros n tr_d g h n' tr_d' g' h' H;
    cbn [train_epochs] in H.
  - injection H as <- _ _ _. apply NetBatches.same_model_refl.
  - apply bind_Ok_inv in H. destruct H as ([[[n1 tr_d1] g1] h1] & Hep & H).
    apply NetBatches.train_epoch_inv in Hep.
    destruct Hep as (_ & n0 & Hn0 & Hsame).
    unfold mini_batches in Hn0.
    destruct (Z.leb_spec batch_size 0); [|lia].
    cbn [train_batches] in Hn0. injection Hn0 as <-.
    apply IH in H. eapply NetBatches.same_model_trans; eauto.
Qed.

(** X21: a batch size of zero or below is accepted and trains nothing.
    The list of shared iterators is then empty and so is the zip over it:
    no epoch forms a mini-batch, and when [train] returns, the network is
    the one it was given up to the forward cache, weights and biases
    included. *)
Theorem nonpositive_batch_size_trains_nothing (n : Network K)
    (tr_d : list (example K)) (epochs batch_size : Z)
    (va_d : option (list (example K))) (monitoring : dict) (g : py_rng)
    (n' : Network K) (tr_d' : list (example K)) (g' : py_rng) (h : history K) :
  batch_size <= 0 ->
  train shuffle n tr_d epochs batch_size va_d monitoring g
  = Ok (n', tr_d', g', h) ->
  (forall l : list (example K), mini_batches l batch_size = []) /\
  weights n' = weights n /\ biases n' = biases n /\
  n' = set_cache n (a n') (z n').
Proof.
  intros Hb H. split.
  - intros l. unfold mini_batches. destruct (Z.leb_spec batch_size 0); [|lia].
    reflexivity.
  - unfold train in H. apply (@train_epochs_never_batching batch_size va_d monitoring _ Hb) in H.
    destruct (NetBatches.same_model_params H) as [Hw Hbs]. auto.
Qed.

Lemma train_epochs_permutes (batch_size : Z) va_d monitoring (epochs : nat) :
  (forall g l, Permutation l (fst (shuffle g l))) ->
  forall (n : Network K) tr_d g h n' tr_d' g' h',
    train_epochs shuffle epochs batch_size va_d monitoring (n, tr_d, g, h)
    = Ok (n', tr_d', g', h') ->
    Permutation tr_d tr_d'.
Proof.
  intros Hperm.
  induction epochs as [|e IH]; intros n tr_d g h n' tr_d' g' h' H;
    cbn [train_epochs] in H.
  - injection H as _ <- _ _. apply Permutation_refl.
  - apply bind_Ok_inv in H. destruct H as ([[[n1 tr_d1] g1] h1] & Hep & H).
    apply NetBatches.train_epoch_inv in Hep. destruct Hep as (Hsh & _).
    apply IH in H. eapply Permutation_trans; [|exact H].
    pose proof (Hperm g tr_d) as P. now rewrite Hsh in P.
Qed.

(** X22: [train] shuffles the training list in place, once per epoch,
    and hands the reordered list on to the next epoch.  What the caller
    holds afterwards is a rearrangement of what was passed in: provided the
    shuffle rearranges, no example is lost or doubled, whatever the batch
    size. *)
Theorem train_rearranges_training_set (n : Network K)
    (tr_d : list (example K)) (epochs batch_size : Z)
    (va_d : option (list (example K))) (monitoring : dict) (g : py_rng)
    (n' : Network K) (tr_d' : list (example K)) (g' : py_rng) (h : history K) :
  (forall g l, Permutation l (fst (shuffle g l))) ->
  train shuffle n tr_d epochs batch_size va_d monitoring g
  = Ok (n', tr_d', g', h) ->
  Permutation tr_d tr_d' /\ length tr_d' = length tr_d /\
  (epochs <= 0 -> tr_d' = tr_d).
Proof.
  intros Hperm H. unfold train in H.
  pose proof (@train_epochs_permutes batch_size va_d monitoring _ Hperm
                _ _ _ _ _ _ _ _ H) as P.
  split; [exact P|]. split.
  - symmetry. now apply Permutation_length.
  - intros He. destruct (Z.to_nat epochs) eqn:Ee; [|lia].
    cbn [train_epochs] in H. now injection H as _ <- _ _.
Qed.

(** [n'] is [n] with other weights, biases and cache *)
Let trained (n n' : Network K) : Prop :=
  n' = set_cache (set_params n (biases n') (weights n')) (a n') (z n').

Lemma trained_refl (n : Network K) : trained n n.
Proof. destruct n; reflexivity. Qed.

Lemma trained_trans (n1 n2 n3 : Network K) :
  trained n1 n2 -> trained n2 n3 -> trained n1 n3.
Proof.
  unfold trained. intros H12 H23. rewrite H23. rewrite H12 at 1. reflexivity.
Qed.

Lemma same_model_trained (n n' : Network K) : same_model n n' -> trained n n'.
Proof.
  unfold same_model, trained. intros H. rewrite H at 1.
  rewrite H. destruct n; reflexivity.
Qed.

Lemma train_batch_trained (n n' : Network K) (size : nat)
    (mb : list (example K)) :
  train_batch n size mb = Ok n' -> trained n n'.
Proof.
  unfold train_batch. intros H.
  apply bind_Ok_inv in H. destruct H as (pb & _ & H). cbv zeta in H.
  apply bind_Ok_inv in H. destruct H as (pw & _ & H).
  apply bind_Ok_inv in H. destruct H as ([n1 [nb nw]] & Hacc & H).
  apply bind_Ok_inv in H. destruct H as (bs & _ & H).
  apply bind_Ok_inv in H. destruct H as (ws & _ & H).
  injection H as <-.
  destruct (@NetBatches.accumulate_spec K n mb n _ _ _ _ _
              (NetBatches.same_model_refl n) Hacc) as (Hsame & _).
  unfold same_model in Hsame. unfold trained.
  cbn [biases weights a z set_params set_cache].
  rewrite Hsame at 1. reflexivity.
Qed.

Lemma train_batches_trained (size : nat) (bl : list (list (example K))) :
  forall n n' : Network K,
    train_batches n size bl = Ok n' -> trained n n'.
Proof.
  induction bl as [|mb bl IH]; intros n n' H; cbn [train_batches] in H.
  - injection H as <-. apply trained_refl.
  - apply bind_Ok_inv in H. destruct H as (n1 & H1 & H).
    apply train_batch_trained in H1. apply IH in H.
    eapply trained_trans; eauto.
Qed.

Lemma train_epochs_trained (batch_size : Z) va_d monitoring (epochs : nat) :
  forall (n : Network K) tr_d g h n' tr_d' g' h',
    train_epochs shuffle epochs batch_size va_d monitoring (n, tr_d, g, h)
    = Ok (n', tr_d', g', h') ->
    trained n n'.
Proof.
  induction epochs as [|e IH]; intros n tr_d g h n' tr_d' g' h' H;
    cbn [train_epochs] in H.
  - injection H as <- _ _ _. apply trained_refl.
  - apply bind_Ok_inv in H. destruct H as ([[[n1 tr_d1] g1] h1] & Hep & H).
    apply NetBatches.train_epoch_inv in Hep.
    destruct Hep as (_ & n0 & Hn0 & Hsame).
    apply train_batches_trained in Hn0. apply same_model_trained in Hsame.
    apply IH in H.
    eapply trained_trans; [exact Hn0|]. eapply trained_trans; eauto.
Qed.

(** X23: [train] leaves the settings of the network alone.  The network
    it returns has the architecture, the layer count, the activation, cost
    and regularization, the learning rate, the momentum and the
    regularization parameter of the network it was given: what [train]
    assigns is the weights, the biases, the forward cache and the running
    time [learn_time], which no method reads. *)
Theorem train_keeps_settings (n : Network K)
    (tr_d : list (example K)) (epochs batch_size : Z)
    (va_d : option (list (example K))) (monitoring : dict) (g : py_rng)
    (n' : Network K) (tr_d' : list (example K)) (g' : py_rng) (h : history K) :
  train shuffle n tr_d epochs batch_size va_d monitoring g
  = Ok (n', tr_d', g', h) ->
  struct n' = struct n /\ n_layers n' = n_layers n /\
  activation n' = activation n /\ cost n' = cost n /\
  regularization n' = regularization n /\
  eta n' = eta n /\ alpha n' = alpha n /\ lambda_ n' = lambda_ n.
Proof.
  intros H. unfold train in H. apply train_epochs_trained in H.
  unfold trained in H. rewrite H. repeat split.
Qed.

End Epochs.

(** X17, at a concrete input: the dictionary with 'error' and 'cost'
    only. *)
Lemma train_missing_monitoring_key_witness :
  Lib.train (Lib.net231 Float64) (Lib.xor Float64) 20 2 None
    [("error", true); ("cost", true)] tt
  = Raise (KeyError "accuracy").
Proof.
  eapply (@train_missing_monitoring_key Float64 unit (@Lib.shuffle Float64)
            (Lib.net231 Float64) (Lib.xor Float64) 20 2 None
            [("error", true); ("cost", true)] tt).
  - reflexivity.
  - intros v [H|[H|[]]]; discriminate.
  - vm_compute. reflexivity.
Defined.

(** X18, at a concrete input: no example, the default monitoring. *)
Lemma train_empty_set_divides_by_zero_witness :
  Lib.train (Lib.net231 Float64) [] 3 10 None default_monitoring tt
  = Raise ZeroDivisionError.
Proof.
  apply (@train_empty_set_divides_by_zero Float64 unit (@Lib.shuffle Float64)
           (Lib.net231 Float64) 3 10 None default_monitoring tt).
  - reflexivity.
  - reflexivity.
  - left. reflexivity.
Defined.

(** X19, at a concrete input: three epochs, error and cost monitored, one
    validation example. *)
Lemma network_history_lengths_witness :
  exists n' tr_d' g' h,
    Lib.train (Lib.net231 Float64) (Lib.xor Float64) 3 2
      (Some [([[0]; [0]]%float, LInt 0)])
      [("accuracy", false); ("error", true); ("cost", true)] tt
    = Ok (n', tr_d', g', h) /\
    exists acc err cst,
      lookup [("accuracy", false); ("error", true); ("cost", true)] "accuracy"
      = Ok acc /\
      lookup [("accuracy", false); ("error", true); ("cost", true)] "error"
      = Ok err /\
      lookup [("accuracy", false); ("error", true); ("cost", true)] "cost"
      = Ok cst /\
      length (tr_acc h) = (if acc then Z.to_nat 3 else 0%nat) /\
      length (va_acc h)
      = (if acc && validated (K := Float64) (Some [([[0]; [0]]%float, LInt 0)])
         then Z.to_nat 3 else 0%nat) /\
      length (tr_err h) = (if err then Z.to_nat 3 else 0%nat) /\
      length (va_err h)
      = (if err && validated (K := Float64) (Some [([[0]; [0]]%float, LInt 0)])
         then Z.to_nat 3 else 0%nat) /\
      length (tr_cost h) = (if cst then Z.to_nat 3 else 0%nat) /\
      length (va_cost h)
      = (if cst && validated (K := Float64) (Some [([[0]; [0]]%float, LInt 0)])
         then Z.to_nat 3 else 0%nat).
Proof.
  do 4 eexists. split; [vm_compute; reflexivity|].
  eapply (@network_history_lengths Float64 unit (@Lib.shuffle Float64)
            (Lib.net231 Float64) (Lib.xor Float64) 3 2
            (Some [([[0]; [0]]%float, LInt 0)])
            [("accuracy", false); ("error", true); ("cost", true)] tt).
  - vm_compute. reflexivity.
  - reflexivity.
Defined.

(** X20, at a concrete input: two epochs with the default monitoring. *)
Lemma cost_history_is_all_zero_witness :
  exists n' tr_d' g' h,
    Lib.train (Lib.net231 Float64) (Lib.xor Float64) 2 2
      (Some [([[0]; [0]]%float, LInt 0)]) default_monitoring tt
    = Ok (n', tr_d', g', h) /\
    Forall (fun c => c = eval_cost n' tr_d') (tr_cost h) /\
    Forall (fun c => c = of_Z Float64 0) (tr_cost h) /\
    Forall (fun c => c = of_Z Float64 0) (va_cost h).
Proof.
  do 4 eexists. split; [vm_compute; reflexivity|].
  eapply (@cost_history_is_all_zero Float64 unit (@Lib.shuffle Float64)
            (Lib.net231 Float64) (Lib.xor Float64) 2 2
            (Some [([[0]; [0]]%float, LInt 0)]) default_monitoring tt).
  vm_compute. reflexivity.
Defined.

(** X21, at a concrete input: batches of size zero. *)
Lemma nonpositive_batch_size_trains_nothing_witness :
  exists n' tr_d' g' h,
    Lib.train (Lib.net231 Float64) (Lib.xor Float64) 2 0 None
      default_monitoring tt = Ok (n', tr_d', g', h) /\
    (forall l : list (example Float64), mini_batches l 0 = []) /\
    weights n' = weights (Lib.net231 Float64) /\
    biases n' = biases (Lib.net231 Float64) /\
    n' = set_cache (Lib.net231 Float64) (a n') (z n').
Proof.
  do 4 eexists. split; [vm_compute; reflexivity|].
  eapply (@nonpositive_batch_size_trains_nothing Float64 unit
            (@Lib.shuffle Float64) (Lib.net231 Float64) (Lib.xor Float64)
            2 0 None default_monitoring tt).
  - lia.
  - vm_compute. reflexivity.
Defined.

Lemma Lib_shuffle_permutes (K : Scalar) (g : unit) (l : list (example K)) :
  Permutation l (fst (Lib.shuffle g l)).
Proof. apply Permutation_rev. Qed.

(** X22, at a concrete input: three epochs over four examples. *)
Lemma train_rearranges_training_set_witness :
  exists n' tr_d' g' h,
    Lib.train (Lib.net231 Float64) (Lib.xor Float64) 3 2 None
      default_monitoring tt = Ok (n', tr_d', g', h) /\
    Permutation (Lib.xor Float64) tr_d' /\
    length tr_d' = length (Lib.xor Float64) /\
    (3 <= 0 -> tr_d' = Lib.xor Float64).
Proof.
  do 4 eexists. split; [vm_compute; reflexivity|].
  eapply (@train_rearranges_training_set Float64 unit (@Lib.shuffle Float64)
            (Lib.net231 Float64) (Lib.xor Float64) 3 2 None
            default_monitoring tt).
  - apply Lib_shuffle_permutes.
  - vm_compute. reflexivity.
Defined.

(** X23, at a concrete input: two epochs over four examples. *)
Lemma train_keeps_settings_witness :
  exists n' tr_d' g' h,
    Lib.train (Lib.net231 Float64) (Lib.xor Float64) 2 2 None
      default_monitoring tt = Ok (n', tr_d', g', h) /\
    struct n' = struct (Lib.net231 Float64) /\
    n_layers n' = n_layers (Lib.net231 Float64) /\
    activation n' = activation (Lib.net231 Float64) /\
    cost n' = cost (Lib.net231 Float64) /\
    regularization n' = regularization (Lib.net231 Float64) /\
    eta n' = eta (Lib.net231 Float64) /\
    alpha n' = alpha (Lib.net231 Float64) /\
    lambda_ n' = lambda_ (Lib.net231 Float64).
Proof.
  do 4 eexists. split; [vm_compute; reflexivity|].
  eapply (@train_keeps_settings Float64 unit (@Lib.shuffle Float64)
            (Lib.net231 Float64) (Lib.xor Float64) 2 2 None
            default_monitoring tt).
  vm_compute. reflexivity.
Defined.

End NetEpochs.

(** ** network.py: what a saved file does not carry *)

Module NetPersist.
Import Net NetTerms.

Section Persist.
Variable K : Scalar.
Variable new_ActivationFunction : string -> result (ActivationFunction K).
Variable new_CostFunction : string -> result (CostFunction K).

Let load := @load K new_ActivationFunction new_CostFunction.

(** X24: [load] assigns the architecture, the activation, the cost, the
    learning rate, the biases and the weights, and nothing else.  The layer
    count, the regularization, its parameter, the momentum and the cache
    stay those of the receiving network, whatever the file holds; so a file
    whose architecture has another number of layers than the receiver was
    built with leaves a network whose layer count is out of step with its
    architecture. *)
Theorem load_keeps_receiver_fields (n n' : Network K) (filename : string)
    (fs : filesystem K) :
  load n filename fs = Ok n' ->
  n_layers n' = n_layers n /\
  regularization n' = regularization n /\
  lambda_ n' = lambda_ n /\ alpha n' = alpha n /\
  a n' = a n /\ z n' = z n /\
  exists d st,
    fs filename = Some d /\ field d "struct" = Ok (YInts K st) /\
    struct n' = st /\
    (length st <> n_layers n -> ~ initialized n').
Proof.
  unfold load, Net.load. intros H.
  destruct (fs filename) as [d|]; [|discriminate].
  apply bind_Ok_inv in H. destruct H as (v1 & Hv1 & H).
  apply bind_Ok_inv in H. destruct H as (st & Hst & H).
  apply bind_Ok_inv in H. destruct H as (v2 & _ & H).
  apply bind_Ok_inv in H. destruct H as (an & _ & H).
  apply bind_Ok_inv in H. destruct H as (act & _ & H).
  apply bind_Ok_inv in H. destruct H as (v3 & _ & H).
  apply bind_Ok_inv in H. destruct H as (cn & _ & H).
  apply bind_Ok_inv in H. destruct H as (c & _ & H).
  apply bind_Ok_inv in H. destruct H as (v4 & _ & H).
  apply bind_Ok_inv in H. destruct H as (e & _ & H).
  apply bind_Ok_inv in H. destruct H as (v5 & _ & H).
  apply bind_Ok_inv in H. destruct H as (b & _ & H).
  apply bind_Ok_inv in H. destruct H as (v6 & _ & H).
  apply bind_Ok_inv in H. destruct H as (w & _ & H).
  injection H as <-. cbn.
  repeat (split; [reflexivity|]).
  exists d, st. split; [reflexivity|].
  destruct v1; try discriminate. injection Hst as ->.
  split; [exact Hv1|]. split; [reflexivity|].
  intros Hne (Hnl & _). cbn in Hnl. congruence.
Qed.

End Persist.

(** X24, at a concrete input: a 2-1 network saved, then loaded into an
    object built as a 2-3-1 network, on binary64 floats. *)
Lemma load_keeps_receiver_fields_witness :
  exists n',
    Lib.load (Lib.net231 Float64) "conf.save.gz"
      (save (Lib.network_of
               (Lib.Network_init Float64 [2; 1]%nat "sigmoid" "quadratic"
                  "none" 3%float 0%float 1%float 0))
         "conf.save.gz" (fun _ => None)) = Ok n' /\
    n_layers n' = n_layers (Lib.net231 Float64) /\
    regularization n' = regularization (Lib.net231 Float64) /\
    lambda_ n' = lambda_ (Lib.net231 Float64) /\
    alpha n' = alpha (Lib.net231 Float64) /\
    a n' = a (Lib.net231 Float64) /\ z n' = z (Lib.net231 Float64) /\
    exists d st,
      save (Lib.network_of
              (Lib.Network_init Float64 [2; 1]%nat "sigmoid" "quadratic"
                 "none" 3%float 0%float 1%float 0))
        "conf.save.gz" (fun _ => None) "conf.save.gz" = Some d /\
      field d "struct" = Ok (YInts Float64 st) /\
      struct n' = st /\
      (length st <> n_layers (Lib.net231 Float64) -> ~ initialized n').
Proof.
  eexists. split; [vm_compute; reflexivity|].
  eapply (@load_keeps_receiver_fields Float64 (@Lib.new_activation Float64)
            (@Lib.new_cost Float64) (Lib.net231 Float64) _ "conf.save.gz").
  vm_compute. reflexivity.
Defined.

End NetPersist.

(** ** network.py: scoring *)

Module NetScore.
Import Net NetTerms.

Section Score.
Variable K : Scalar.

Let zero : K := of_Z K 0.
Let one : K := of_Z K 1.

Hypothesis H00 : leb K zero zero = true.
Hypothesis H01 : leb K zero one = true.
Hypothesis H10 : leb K one zero = false.
Hypothesis H11 : leb K one one = true.
Hypothesis N0 : eqb K zero zero = true.
Hypothesis N1 : eqb K one one = true.

Let mark (k i : nat) : K := if Nat.eqb i k then one else zero.

Lemma argmax_scan_found (k len : nat) : forall s best_i,
  argmax_scan K best_i one s (map (mark k) (seq s len)) = best_i.
Proof.
  induction len as [|len IH]; intros s best_i; [reflexivity|].
  cbn [seq map].
  assert (E : mark k s = one \/ mark k s = zero)
    by (unfold mark; destruct (Nat.eqb s k); auto).
  destruct E as [-> | ->]; cbn [argmax_scan];
    [rewrite H11 | rewrite H01]; apply IH.
Qed.

Lemma argmax_scan_finds (k len : nat) : forall s best_i,
  (s <= k < s + len)%nat ->
  argmax_scan K best_i zero s (map (mark k) (seq s len)) = k.
Proof.
  induction len as [|len IH]; intros s best_i Hk; [lia|].
  cbn [seq map].
  destruct (Nat.eqb_spec s k) as [->|Hne].
  - replace (mark k k) with one by (unfold mark; now rewrite Nat.eqb_refl).
    cbn [argmax_scan]. unfold is_nan. rewrite H10, N1. cbn [negb].
    apply argmax_scan_found.
  - replace (mark k s) with zero
      by (unfold mark; destruct (Nat.eqb_spec s k); congruence).
    cbn [argmax_scan]. rewrite H00. apply IH. lia.
Qed.

Lemma concat_one_hot (cnt k : nat) :
  concat (one_hot K cnt k) = map (mark k) (seq 0 cnt).
Proof.
  unfold one_hot. generalize 0%nat.
  induction cnt as [|cnt IH]; intros s; [reflexivity|].
  cbn [seq map concat app]. now rewrite IH.
Qed.

Lemma np_argmax_one_hot (cnt k : nat) :
  (k < cnt)%nat -> np_argmax (one_hot K cnt k) = Ok (Z.of_nat k).
Proof.
  intros Hk. unfold np_argmax. rewrite concat_one_hot.
  destruct cnt as [|cnt]; [lia|]. cbn [seq map].
  destruct (Nat.eqb_spec 0 k) as [<-|Hne].
  - replace (mark 0 0) with one by reflexivity.
    unfold is_nan. rewrite N1. cbn [negb].
    now rewrite argmax_scan_found.
  - replace (mark k 0) with zero
      by (unfold mark; destruct (Nat.eqb_spec 0 k); congruence).
    unfold is_nan. rewrite N0. cbn [negb].
    rewrite argmax_scan_finds; [reflexivity | lia].
Qed.

Lemma accuracy_loop_one_hot (cnt : nat) (data : list (example K)) :
  Forall (fun ex => match snd ex with
                    | LInt c => 0 <= c < Z.of_nat cnt
                    | LVec _ => True
                    end) data ->
  forall (n : Network K) (count : Z),
    accuracy_loop n count (map (as_one_hot cnt) data)
    = accuracy_loop n count data.
Proof.
  induction 1 as [|[x y] data Hy _ IH]; intros n count; [reflexivity|].
  cbn [map]. destruct y as [c|v]; unfold as_one_hot at 1; cbn [fst snd].
  - cbn [snd] in Hy. cbn [accuracy_loop].
    rewrite np_argmax_one_hot by lia. rewrite Z2Nat.id by lia.
    cbn [bind].
    destruct (feedforward n x) as [[n1 out]|e]; [|reflexivity]. cbn [bind].
    destruct (np_argmax out) as [k|e]; [|reflexivity]. cbn [bind].
    apply IH.
  - cbn [accuracy_loop].
    destruct (np_argmax v) as [y'|e]; [|reflexivity]. cbn [bind].
    destruct (feedforward n x) as [[n1 out]|e]; [|reflexivity]. cbn [bind].
    destruct (np_argmax out) as [k|e]; [|reflexivity]. cbn [bind].
    apply IH.
Qed.

(** X25: [eval_accuracy] takes a label as a class index or as an array,
    of which it takes the position of the largest entry.  Writing every
    class index [c] of a dataset as the one-hot column with its one in row
    [c] changes nothing: the count, the errors and the state afterwards are
    the same.  (The comparisons of the scalars are asked for zero and one
    only, so this holds on binary64.) *)
Theorem one_hot_labels_score_like_indices (cnt : nat) (n : Network K)
    (data : list (example K)) :
  Forall (fun ex => match snd ex with
                    | LInt c => 0 <= c < Z.of_nat cnt
                    | LVec _ => True
                    end) data ->
  eval_accuracy n (map (as_one_hot cnt) data) = eval_accuracy n data /\
  forall k, (k < cnt)%nat -> np_argmax (one_hot K cnt k) = Ok (Z.of_nat k).
Proof.
  intros H. split.
  - unfold eval_accuracy. now apply accuracy_loop_one_hot.
  - intros k. apply np_argmax_one_hot.
Qed.

End Score.

Section Bounds.
Variable K : Scalar.

Lemma accuracy_loop_bounds (data : list (example K)) :
  forall (n n' : Network K) (count c : Z),
    accuracy_loop n count data = Ok (n', c) ->
    count <= c <= count + Z.of_nat (length data).
Proof.
  induction data as [|[x y] data IH]; intros n n' count c H;
    cbn [accuracy_loop] in H.
  - injection H as _ <-. cbn. lia.
  - apply bind_Ok_inv in H. destruct H as (y' & _ & H).
    apply bind_Ok_inv in H. destruct H as ([n1 out] & _ & H).
    apply bind_Ok_inv in H. destruct H as (k & _ & H).
    apply IH in H. cbn [length]. destruct (k =? y'); lia.
Qed.

(** X26: the count [eval_accuracy] returns lies between zero and the
    size of the dataset, so the accuracy is a fraction of the dataset.  On
    the empty dataset the count is zero and [eval_error_rate] divides by the
    size of the dataset: it raises [ZeroDivisionError], whatever the
    network. *)
Theorem eval_accuracy_within_dataset (n : Network K) :
  (forall data n' c, eval_accuracy n data = Ok (n', c) ->
     0 <= c <= Z.of_nat (length data)) /\
  eval_accuracy n [] = Ok (n, 0) /\
  eval_error_rate n [] = Raise ZeroDivisionError.
Proof.
  split; [|split; reflexivity].
  intros data n' c H. unfold eval_accuracy in H.
  apply accuracy_loop_bounds in H. lia.
Qed.

End Bounds.

(** X25, at a concrete input: binary64 floats, two classes. *)
Lemma one_hot_labels_score_like_indices_witness :
  eval_accuracy (Lib.net231 Float64)
    (map (as_one_hot (K := Float64) 2) (Lib.xor Float64))
  = eval_accuracy (Lib.net231 Float64) (Lib.xor Float64) /\
  forall k, (k < 2)%nat ->
    np_argmax (one_hot Float64 2 k) = Ok (Z.of_nat k).
Proof.
  apply (@one_hot_labels_score_like_indices Float64 eq_refl eq_refl eq_refl
           eq_refl eq_refl eq_refl 2 (Lib.net231 Float64) (Lib.xor Float64)).
  repeat constructor; cbn; lia.
Defined.

End NetScore.

(** ** network.py: training goes through on well-formed input *)

Module NetTotal.
Import Net NetTerms.

Section Total.
Variable K : Scalar.

Lemma np_argmax_column (r : nat) (out : mat K) :
  has_shape r 1 out = true -> (0 < r)%nat -> exists k, np_argmax out = Ok k.
Proof.
  intros H Hr. apply NetShapes.has_shape_spec in H. destruct H as [Hl Hrows].
  destruct out as [|row out]; [simpl in Hl; lia|].
  inversion Hrows as [|? ? Hrow _]; subst.
  destruct row as [|v row]; [discriminate|].
  unfold np_argmax. cbn [concat app]. destruct (is_nan K v); eauto.
Qed.

Lemma last_positive (sizes : list nat) :
  sizes <> [] -> forallb (Nat.ltb 0) sizes = true -> (0 < last sizes 0)%nat.
Proof.
  induction sizes as [|s rest IH]; intros Hne H; [congruence|].
  cbn [forallb] in H. apply andb_true_iff in H. destruct H as [Hs Hrest].
  destruct rest as [|s' rest'].
  - cbn. now apply Nat.ltb_lt.
  - change (last (s :: s' :: rest') 0%nat) with (last (s' :: rest') 0%nat).
    apply IH; [discriminate | exact Hrest].
Qed.

Lemma feedforward_cache (n n0 : Network K) (X : mat K) :
  same_model n n0 -> feedforward n0 X = feedforward n X.
Proof. unfold same_model. intros ->. reflexivity. Qed.

(** the parts of a network that shapes and strategies are read from *)
Let same_setup (n n' : Network K) : Prop :=
  struct n' = struct n /\ activation n' = activation n /\
  cost n' = cost n /\ regularization n' = regularization n /\
  lambda_ n' = lambda_ n.

Lemma same_model_setup (n n' : Network K) :
  same_model n n' -> same_setup n n' /\ (initialized n -> initialized n').
Proof.
  unfold same_model. intros ->. split; [repeat split|].
  intros H. exact H.
Qed.

Section OneNetwork.
Variable n : Network K.
Hypothesis Hinit : initialized n.
Hypothesis Hf : keeps_shape (act_call (activation n)).

Lemma feedforward_scores (x : mat K) :
  has_shape (hd 0%nat (struct n)) 1 x = true ->
  exists n1 out k, feedforward n x = Ok (n1, out) /\ np_argmax out = Ok k.
Proof.
  intros Hx.
  destruct (@NetForward.feedforward_column K n x Hinit Hx Hf)
    as (n1 & out & Hff & Hout).
  destruct Hinit as (_ & Hlen & Hpos & _).
  destruct (@np_argmax_column _ out Hout) as (k & Hk).
  { apply last_positive; [|exact Hpos].
    destruct (struct n); [simpl in Hlen; lia | discriminate]. }
  eauto.
Qed.

Lemma accuracy_loop_Ok (data : list (example K)) :
  Forall (scorable n) data ->
  forall (n0 : Network K) (count : Z),
    same_model n n0 ->
    exists n1 c, accuracy_loop n0 count data = Ok (n1, c) /\ same_model n n1.
Proof.
  induction 1 as [|[x y] data [Hx Hy] _ IH]; intros n0 count Hsame.
  - exists n0, count. split; [reflexivity | exact Hsame].
  - cbn [fst snd] in Hx, Hy. cbn [accuracy_loop].
    assert (Hl : exists y', match y with
                            | LVec v => np_argmax v
                            | LInt c => Ok c
                            end = Ok y').
    { destruct y as [c|v]; [eauto|].
      unfold np_argmax. destruct (concat v) as [|d0 t]; [congruence|].
      destruct (is_nan K d0); eauto. }
    destruct Hl as (y' & ->). cbn [bind].
    rewrite (@feedforward_cache n n0 x Hsame).
    destruct (@feedforward_scores x Hx) as (n1 & out & k & Hff & Hk).
    rewrite Hff. cbn [bind]. rewrite Hk. cbn [bind].
    apply IH. eapply NetBatches.feedforward_same_model; eauto.
Qed.

Lemma eval_accuracy_Ok (data : list (example K)) (n0 : Network K) :
  Forall (scorable n) data -> same_model n n0 ->
  exists n1 c, eval_accuracy n0 data = Ok (n1, c) /\ same_model n n1.
Proof. intros H Hs. now apply accuracy_loop_Ok. Qed.

Lemma eval_error_rate_Ok (data : list (example K)) (n0 : Network K) :
  data <> [] -> Forall (scorable n) data -> same_model n n0 ->
  exists n1 e, eval_error_rate n0 data = Ok (n1, e) /\ same_model n n1.
Proof.
  intros Hne H Hs. unfold eval_error_rate.
  destruct (@eval_accuracy_Ok _ _ H Hs) as (n1 & c & Hacc & Hs1).
  rewrite Hacc. cbn [bind]. unfold ratio.
  destruct data; [congruence|]. cbn [bind]. eauto.
Qed.

Lemma truthy_inv (va_d : option (list (example K))) va :
  truthy va_d = Some va -> va_d = Some va /\ va <> [].
Proof.
  destruct va_d as [[|v vs]|]; cbn; try discriminate.
  intros H. injection H as <-. split; [reflexivity | discriminate].
Qed.

Lemma monitor_accuracy_Ok (tr_d : list (example K)) va_d (h : history K)
    (n0 : Network K) :
  tr_d <> [] -> Forall (scorable n) tr_d ->
  (forall va, va_d = Some va -> Forall (scorable n) va) ->
  same_model n n0 ->
  exists n1 h1, monitor_accuracy n0 tr_d va_d h = Ok (n1, h1) /\
                same_model n n1.
Proof.
  intros Hne Htr Hva Hs. unfold monitor_accuracy.
  destruct (@eval_accuracy_Ok _ _ Htr Hs) as (n1 & c1 & H1 & Hs1).
  rewrite H1. cbn [bind].
  destruct (@eval_accuracy_Ok _ _ Htr Hs1) as (n2 & c2 & H2 & Hs2).
  rewrite H2. cbn [bind]. unfold ratio at 1.
  destruct tr_d as [|ex tr_d']; [congruence|]. cbn [bind].
  destruct (truthy va_d) as [va|] eqn:Ev; [|eauto].
  apply truthy_inv in Ev. destruct Ev as [Ev Hvne].
  specialize (Hva va Ev).
  destruct (@eval_accuracy_Ok _ _ Hva Hs2) as (n3 & c3 & H3 & Hs3).
  rewrite H3. cbn [bind].
  destruct (@eval_accuracy_Ok _ _ Hva Hs3) as (n4 & c4 & H4 & Hs4).
  rewrite H4. cbn [bind]. unfold ratio.
  destruct va; [congruence|]. cbn [bind]. eauto.
Qed.

Lemma monitor_error_Ok (tr_d : list (example K)) va_d (h : history K)
    (n0 : Network K) :
  tr_d <> [] -> Forall (scorable n) tr_d ->
  (forall va, va_d = Some va -> Forall (scorable n) va) ->
  same_model n n0 ->
  exists n1 h1, monitor_error n0 tr_d va_d h = Ok (n1, h1) /\
                same_model n n1.
Proof.
  intros Hne Htr Hva Hs. unfold monitor_error.
  destruct (@eval_error_rate_Ok _ _ Hne Htr Hs) as (n1 & c1 & H1 & Hs1).
  rewrite H1. cbn [bind].
  destruct (@eval_error_rate_Ok _ _ Hne Htr Hs1) as (n2 & c2 & H2 & Hs2).
  rewrite H2. cbn [bind].
  destruct (truthy va_d) as [va|] eqn:Ev; [|eauto].
  apply truthy_inv in Ev. destruct Ev as [Ev Hvne].
  specialize (Hva va Ev).
  destruct (@eval_error_rate_Ok _ _ Hvne Hva Hs2) as (n3 & c3 & H3 & Hs3).
  rewrite H3. cbn [bind].
  destruct (@eval_error_rate_Ok _ _ Hvne Hva Hs3) as (n4 & c4 & H4 & Hs4).
  rewrite H4. cbn [bind]. eauto.
Qed.

End OneNetwork.

Variable py_rng : Type.
Variable shuffle : py_rng -> list (example K) -> list (example K) * py_rng.
Hypothesis shuffle_permutes : forall g l, Permutation l (fst (shuffle g l)).

Variable va_d : option (list (example K)).
Variable monitoring : dict.
Hypothesis Hkeys :
  exists acc err cst,
    lookup monitoring "accuracy" = Ok acc /\
    lookup monitoring "error" = Ok err /\
    lookup monitoring "cost" = Ok cst.

(** everything an epoch needs of the network and the training set *)
Let ready (n : Network K) (tr_d : list (example K)) : Prop :=
  initialized n /\ packs (weights n) /\
  keeps_shape (act_call (activation n)) /\
  keeps_shape (act_derivative (activation n)) /\
  (forall w r c size, has_shape r c w = true ->
     has_shape r c (reg_derivative (regularization n) w (lambda_ n) size)
     = true) /\
  tr_d <> [] /\
  Forall (good_example n) tr_d /\ Forall (scorable n) tr_d /\
  (forall va, va_d = Some va -> Forall (scorable n) va).

Lemma ready_moves (n n' : Network K) (tr_d tr_d' : list (example K)) :
  ready n tr_d -> same_setup n n' -> initialized n' -> packs (weights n') ->
  Permutation tr_d tr_d' -> ready n' tr_d'.
Proof.
  intros (_ & _ & Hf & Hf' & Hreg & Hne & Hgood & Hsc & Hva)
         (Es & Ea & Ec & Er & El) Hinit' Hpw' P.
  unfold ready. rewrite Ea, Er, El.
  split; [exact Hinit'|]. split; [exact Hpw'|].
  split; [exact Hf|]. split; [exact Hf'|].
  split; [exact Hreg|]. split; [|split; [|split]].
  - intros ->. apply Permutation_sym, Permutation_nil in P. congruence.
  - eapply Permutation_Forall; [exact P|].
    eapply Forall_impl; [|exact Hgood].
    intros ex. unfold good_example. now rewrite Es, Ec.
  - eapply Permutation_Forall; [exact P|].
    eapply Forall_impl; [|exact Hsc].
    intros ex. unfold scorable. now rewrite Es.
  - intros va Hv. eapply Forall_impl; [|exact (Hva va Hv)].
    intros ex. unfold scorable. now rewrite Es.
Qed.

Lemma train_epoch_Ok (batch_size : Z) (n : Network K)
    (tr_d : list (example K)) (g : py_rng) (h : history K) :
  ready n tr_d ->
  exists n' tr_d' g' h',
    train_epoch shuffle batch_size va_d monitoring (n, tr_d, g, h)
    = Ok (n', tr_d', g', h') /\
    ready n' tr_d'.
Proof.
  intros Hready. unfold train_epoch.
  pose proof (shuffle_permutes g tr_d) as P.
  destruct (shuffle g tr_d) as [tr_d1 g1]. cbn [fst] in P.
  pose proof Hready
    as (Hinit & Hpw & Hf & Hf' & Hreg & Hne & Hgood & Hsc & Hva).
  destruct (@NetUpdate.train_batches_Ok K (length tr_d1)
              (mini_batches tr_d1 batch_size) n Hinit Hpw Hf Hf')
    as (n1 & Hn1 & Hinit1 & Hpw1).
  { intros w r c. apply Hreg. }
  { apply NetTrain.mini_batches_Forall.
    eapply Permutation_Forall; eauto. }
  rewrite Hn1. cbn [bind].
  pose proof (@NetEpochs.train_batches_trained K _ _ _ _ Hn1) as Ht.
  assert (Hset1 : same_setup n n1).
  { rewrite Ht. repeat split. }
  pose proof (@ready_moves n n1 tr_d tr_d1 Hready Hset1 Hinit1 Hpw1 P)
    as (_ & _ & Hf1 & _ & _ & Hne1 & _ & Hsc1 & Hva1).
  destruct Hkeys as (acc & err & cst & Hacc & Herr & Hcst).
  rewrite Hacc. cbn [bind].
  assert (A : exists n2 h2,
             (if acc then monitor_accuracy n1 tr_d1 va_d h else Ok (n1, h))
             = Ok (n2, h2) /\ same_model n1 n2).
  { destruct acc.
    - apply monitor_accuracy_Ok; auto. apply NetBatches.same_model_refl.
    - exists n1, h. split; [reflexivity | apply NetBatches.same_model_refl]. }
  destruct A as (n2 & h2 & -> & Hs2). cbn [bind].
  rewrite Herr. cbn [bind].
  assert (B : exists n3 h3,
             (if err then monitor_error n2 tr_d1 va_d h2 else Ok (n2, h2))
             = Ok (n3, h3) /\ same_model n1 n3).
  { destruct err.
    - apply monitor_error_Ok; auto.
    - exists n2, h2. split; [reflexivity | exact Hs2]. }
  destruct B as (n3 & h3 & -> & Hs3). cbn [bind].
  rewrite Hcst. cbn [bind].
  do 4 eexists. split; [reflexivity|].
  destruct (@same_model_setup n1 n3 Hs3) as [Hset3 Hinit3].
  eapply (@ready_moves n1 n3 tr_d1 tr_d1).
  - eapply ready_moves; eauto.
  - exact Hset3.
  - auto.
  - now rewrite (proj1 (NetBatches.same_model_params Hs3)).
  - apply Permutation_refl.
Qed.

Lemma train_epochs_Ok (batch_size : Z) (epochs : nat) :
  forall (n : Network K) (tr_d : list (example K)) (g : py_rng)
         (h : history K),
    ready n tr_d ->
    exists n' tr_d' g' h',
      train_epochs shuffle epochs batch_size va_d monitoring (n, tr_d, g, h)
      = Ok (n', tr_d', g', h') /\
      ready n' tr_d'.
Proof.
  induction epochs as [|e IH]; intros n tr_d g h Hready.
  - do 4 eexists. split; [reflexivity | exact Hready].
  - cbn [train_epochs].
    destruct (@train_epoch_Ok batch_size n tr_d g h Hready)
      as (n1 & tr_d1 & g1 & h1 & H1 & Hready1).
    rewrite H1. cbn [bind]. now apply IH.
Qed.

(** X27: [train] goes through on well-formed input.  On an initialized
    network whose weight arrays numpy can pack into one array, with
    strategies that keep shapes, a training set that is not empty and whose
    examples have the shape of the input and labels the cost and the
    scoring accept, a validation set (if any) of such examples, and a
    monitoring dictionary holding the three keys, [train] returns for every
    number of epochs and every batch size, and the network it returns is
    initialized again. *)
Theorem train_returns_on_well_formed_input (n : Network K)
    (tr_d : list (example K)) (epochs batch_size : Z) (g : py_rng) :
  initialized n ->
  packs (weights n) ->
  keeps_shape (act_call (activation n)) ->
  keeps_shape (act_derivative (activation n)) ->
  (forall w r c size, has_shape r c w = true ->
     has_shape r c (reg_derivative (regularization n) w (lambda_ n) size)
     = true) ->
  tr_d <> [] ->
  Forall (good_example n) tr_d -> Forall (scorable n) tr_d ->
  (forall va, va_d = Some va -> Forall (scorable n) va) ->
  exists n' tr_d' g' h,
    train shuffle n tr_d epochs batch_size va_d monitoring g
    = Ok (n', tr_d', g', h) /\
    initialized n'.
Proof.
  intros H1 Hp H2 H3 H4 H5 H6 H7 H8. unfold train.
  destruct (@train_epochs_Ok batch_size (Z.to_nat epochs) n tr_d g
              (empty_history K))
    as (n' & tr_d' & g' & h & H & Hr).
  { split; [exact H1|]. split; [exact Hp|]. split; [exact H2|].
    split; [exact H3|].
    split; [exact H4|]. split; [exact H5|]. split; [exact H6|].
    split; [exact H7 | exact H8]. }
  exists n', tr_d', g', h. split; [exact H | apply Hr].
Qed.

End Total.

(** X27, at a concrete input: the 2-3-1 network on binary64 floats, four
    examples, three epochs in batches of two, no validation set. *)
Lemma train_returns_on_well_formed_input_witness :
  exists n' tr_d' g' h,
    Lib.train (Lib.net231 Float64) (Lib.xor Float64) 3 2 None
      default_monitoring tt = Ok (n', tr_d', g', h) /\
    initialized n'.
Proof.
  apply (@train_returns_on_well_formed_input Float64 unit
           (@Lib.shuffle Float64) (@NetEpochs.Lib_shuffle_permutes Float64)
           None default_monitoring).
  - exists true, true, true. repeat split.
  - repeat split; try reflexivity. vm_compute. lia.
  - exists Objects. reflexivity.
  - apply (@NetBackprop.map_map_keeps_shape Float64).
  - apply (@NetBackprop.map_map_keeps_shape Float64).
  - intros w r c size Hw.
    now apply (@NetBackprop.map_map_keeps_shape Float64
                 (fun _ => of_Z Float64 0)).
  - discriminate.
  - repeat constructor; apply NetTrain.Lib_good_example; reflexivity.
  - repeat constructor.
  - intros va Hva. discriminate.
Defined.

End NetTotal.

(** ** network.py: training in stretches, and the momentum *)

Module NetResume.
Import Net NetTerms.

Section Resume.
Variable K : Scalar.
Variable py_rng : Type.
Variable shuffle : py_rng -> list (example K) -> list (example K) * py_rng.

(** a run, with [h0] put in front of the histories it returns *)
Let after (h0 : history K)
    (r : result (Network K * list (example K) * py_rng * history K))
  : result (Network K * list (example K) * py_rng * history K) :=
  match r with
  | Ok (n, tr_d, g, h) => Ok (n, tr_d, g, history_app h0 h)
  | Raise e => Raise e
  end.

Lemma history_app_assoc (h1 h2 h3 : history K) :
  history_app (history_app h1 h2) h3 = history_app h1 (history_app h2 h3).
Proof. unfold history_app. cbn. now rewrite <- !app_assoc. Qed.

Lemma history_app_empty_r (h : history K) :
  history_app h (empty_history K) = h.
Proof. destruct h. unfold history_app. cbn. now rewrite !app_nil_r. Qed.

Lemma history_app_empty_l (h : history K) :
  history_app (empty_history K) h = h.
Proof. destruct h. reflexivity. Qed.

Lemma monitor_accuracy_after (n : Network K) tr_d va_d (h0 d : history K) :
  monitor_accuracy n tr_d va_d (history_app h0 d)
  = match monitor_accuracy n tr_d va_d d with
    | Ok (n', d') => Ok (n', history_app h0 d')
    | Raise e => Raise e
    end.
Proof.
  unfold monitor_accuracy.
  destruct (eval_accuracy n tr_d) as [[n1 c1]|e]; [|reflexivity]. cbn [bind].
  destruct (eval_accuracy n1 tr_d) as [[n2 c2]|e]; [|reflexivity]. cbn [bind].
  destruct (ratio c2 tr_d) as [r|e]; [|reflexivity]. cbn [bind]. cbv zeta.
  destruct (truthy va_d) as [va|].
  - destruct (eval_accuracy n2 va) as [[n3 c3]|e]; [|reflexivity]. cbn [bind].
    destruct (eval_accuracy n3 va) as [[n4 c4]|e]; [|reflexivity]. cbn [bind].
    destruct (ratio c4 va) as [rv|e]; [|reflexivity]. cbn [bind].
    unfold history_app. cbn. now rewrite <- !app_assoc.
  - unfold history_app. cbn. now rewrite <- !app_assoc.
Qed.

Lemma monitor_error_after (n : Network K) tr_d va_d (h0 d : history K) :
  monitor_error n tr_d va_d (history_app h0 d)
  = match monitor_error n tr_d va_d d with
    | Ok (n', d') => Ok (n', history_app h0 d')
    | Raise e => Raise e
    end.
Proof.
  unfold monitor_error.
  destruct (eval_error_rate n tr_d) as [[n1 c1]|e]; [|reflexivity].
  cbn [bind].
  destruct (eval_error_rate n1 tr_d) as [[n2 c2]|e]; [|reflexivity].
  cbn [bind]. cbv zeta.
  destruct (truthy va_d) as [va|].
  - destruct (eval_error_rate n2 va) as [[n3 c3]|e]; [|reflexivity].
    cbn [bind].
    destruct (eval_error_rate n3 va) as [[n4 c4]|e]; [|reflexivity].
    cbn [bind].
    unfold history_app. cbn. now rewrite <- !app_assoc.
  - unfold history_app. cbn. now rewrite <- !app_assoc.
Qed.

Lemma monitor_cost_after (n : Network K) tr_d va_d (h0 d : history K) :
  monitor_cost n tr_d va_d (history_app h0 d)
  = history_app h0 (monitor_cost n tr_d va_d d).
Proof.
  unfold monitor_cost. destruct (truthy va_d) as [va|];
    unfold history_app; cbn; now rewrite <- !app_assoc.
Qed.

Lemma train_epoch_after (batch_size : Z) va_d monitoring
    (n : Network K) tr_d g (h0 d : history K) :
  train_epoch shuffle batch_size va_d monitoring (n, tr_d, g, history_app h0 d)
  = after h0 (train_epoch shuffle batch_size va_d monitoring (n, tr_d, g, d)).
Proof.
  unfold train_epoch.
  destruct (shuffle g tr_d) as [tr_d1 g1].
  destruct (train_batches n (length tr_d1) (mini_batches tr_d1 batch_size))
    as [n1|e]; [|reflexivity]. cbn [bind].
  destruct (lookup monitoring "accuracy") as [acc|e]; [|reflexivity].
  cbn [bind].
  assert (A : (if acc then monitor_accuracy n1 tr_d1 va_d (history_app h0 d)
               else Ok (n1, history_app h0 d))
              = match (if acc then monitor_accuracy n1 tr_d1 va_d d
                       else Ok (n1, d)) with
                | Ok (n', d') => Ok (n', history_app h0 d')
                | Raise e => Raise e
                end).
  { destruct acc; [apply monitor_accuracy_after | reflexivity]. }
  rewrite A.
  destruct (if acc then monitor_accuracy n1 tr_d1 va_d d else Ok (n1, d))
    as [[n2 h2]|e]; [|reflexivity]. cbn [bind].
  destruct (lookup monitoring "error") as [err|e]; [|reflexivity].
  cbn [bind].
  assert (B : (if err then monitor_error n2 tr_d1 va_d (history_app h0 h2)
               else Ok (n2, history_app h0 h2))
              = match (if err then monitor_error n2 tr_d1 va_d h2
                       else Ok (n2, h2)) with
                | Ok (n', d') => Ok (n', history_app h0 d')
                | Raise e => Raise e
                end).
  { destruct err; [apply monitor_error_after | reflexivity]. }
  rewrite B.
  destruct (if err then monitor_error n2 tr_d1 va_d h2 else Ok (n2, h2))
    as [[n3 h3]|e]; [|reflexivity]. cbn [bind].
  destruct (lookup monitoring "cost") as [cst|e]; [|reflexivity].
  cbn [bind after].
  destruct cst; [now rewrite monitor_cost_after | reflexivity].
Qed.

Lemma train_epochs_after (batch_size : Z) va_d monitoring (epochs : nat) :
  forall (n : Network K) tr_d g (h0 d : history K),
    train_epochs shuffle epochs batch_size va_d monitoring
      (n, tr_d, g, history_app h0 d)
    = after h0 (train_epochs shuffle epochs batch_size va_d monitoring
                  (n, tr_d, g, d)).
Proof.
  induction epochs as [|e IH]; intros n tr_d g h0 d; [reflexivity|].
  cbn [train_epochs]. rewrite train_epoch_after.
  destruct (train_epoch shuffle batch_size va_d monitoring (n, tr_d, g, d))
    as [[[[n1 tr_d1] g1] h1]|err]; [|reflexivity].
  cbn [after bind]. apply IH.
Qed.

Lemma train_epochs_plus (batch_size : Z) va_d monitoring (e1 e2 : nat) :
  forall st,
    train_epochs shuffle (e1 + e2) batch_size va_d monitoring st
    = (st' <- train_epochs shuffle e1 batch_size va_d monitoring st ;;
       train_epochs shuffle e2 batch_size va_d monitoring st').
Proof.
  induction e1 as [|e1 IH]; intros st; [reflexivity|].
  cbn [Nat.add train_epochs].
  destruct (train_epoch shuffle batch_size va_d monitoring st) as [st1|err];
    [|reflexivity].
  cbn [bind]. apply IH.
Qed.

(** X28: training can be taken up where it stopped.  After a run of
    [e1] epochs, a second run of [e2] epochs on the network, the reordered
    training list and the generator the first run left does exactly what
    one run of [e1 + e2] epochs does from the start: the same network, list
    and generator, or the same error, and the histories of the long run are
    those of the two runs one after the other.  Nothing outside the network
    carries over from epoch to epoch. *)
Theorem training_can_be_resumed (n : Network K) (tr_d : list (example K))
    (e1 e2 batch_size : Z) (va_d : option (list (example K)))
    (monitoring : dict) (g : py_rng)
    (n1 : Network K) (tr_d1 : list (example K)) (g1 : py_rng)
    (h1 : history K) :
  0 <= e1 -> 0 <= e2 ->
  train shuffle n tr_d e1 batch_size va_d monitoring g
  = Ok (n1, tr_d1, g1, h1) ->
  train shuffle n tr_d (e1 + e2) batch_size va_d monitoring g
  = match train shuffle n1 tr_d1 e2 batch_size va_d monitoring g1 with
    | Ok (n2, tr_d2, g2, h2) => Ok (n2, tr_d2, g2, history_app h1 h2)
    | Raise e => Raise e
    end.
Proof.
  intros H1 H2 H. unfold train in *.
  rewrite Z2Nat.inj_add by lia. rewrite train_epochs_plus, H. cbn [bind].
  rewrite <- (history_app_empty_r h1) at 1.
  apply train_epochs_after.
Qed.

End Resume.

Section Momentum.
Variable K : Scalar.
Variable py_rng : Type.
Variable shuffle : py_rng -> list (example K) -> list (example K) * py_rng.
Variable v : K.

Lemma feedforward_alpha (n : Network K) (X : mat K) :
  feedforward (set_alpha n v) X
  = match feedforward n X with
    | Ok (n1, out) => Ok (set_alpha n1 v, out)
    | Raise e => Raise e
    end.
Proof.
  unfold feedforward. cbn [activation biases weights set_alpha].
  destruct (forward_loop (activation n) (combine (biases n) (weights n))
              X [X] []) as [[al zl]|e]; [|reflexivity].
  cbn [bind a set_cache set_alpha].
  destruct (getitem al (-1)); reflexivity.
Qed.

Lemma backprop_loop_alpha (n : Network K) (pb pw : packing) (ls : list nat) :
  forall st,
    backprop_loop (set_alpha n v) pb pw ls st = backprop_loop n pb pw ls st.
Proof.
  induction ls as [|l ls IH]; intros st; [reflexivity|].
  cbn [backprop_loop].
  change (backprop_step (set_alpha n v) pb pw (Z.of_nat l) st)
    with (backprop_step n pb pw (Z.of_nat l) st).
  destruct (backprop_step n pb pw (Z.of_nat l) st); [|reflexivity].
  cbn [bind]. apply IH.
Qed.

Lemma backpropagation_alpha (n : Network K) (X : mat K) (y : label K) :
  backpropagation (set_alpha n v) X y
  = match backpropagation n X y with
    | Ok (n1, g) => Ok (set_alpha n1 v, g)
    | Raise e => Raise e
    end.
Proof.
  unfold backpropagation. rewrite feedforward_alpha.
  cbn [biases weights set_alpha].
  destruct (pack (biases n)) as [pb|e]; [|reflexivity]. cbn [bind]. cbv zeta.
  destruct (pack (weights n)) as [pw|e]; [|reflexivity]. cbn [bind].
  destruct (feedforward n X) as [[n1 out]|e]; [|reflexivity].
  cbn [bind a z cost activation n_layers set_alpha].
  destruct (getitem (a n1) (-1)) as [a_last|e]; [|reflexivity]. cbn [bind].
  destruct (if String.eqb (cost_type (cost n1)) "cross-entropy"
            then Ok (cost_derivative (cost n1) a_last y)
            else z_last <- getitem (z n1) (-1) ;;
                 mat_mul (cost_derivative (cost n1) a_last y)
                   (act_derivative (activation n1) z_last))
    as [delta|e]; [|reflexivity].
  cbn [bind].
  destruct (store pb (zeros_like (biases n)) (-1) delta) as [nb1|e];
    [|reflexivity].
  cbn [bind].
  destruct (getitem (a n1) (-2)) as [a_prev|e]; [|reflexivity]. cbn [bind].
  destruct (np_dot delta (transpose a_prev)) as [g0|e]; [|reflexivity].
  cbn [bind].
  destruct (store pw (zeros_like (weights n)) (-1) g0) as [nw1|e];
    [|reflexivity].
  cbn [bind]. rewrite backprop_loop_alpha.
  destruct (backprop_loop n1 pb pw (seq 2 (n_layers n1 - 2))
              (delta, nb1, nw1))
    as [[[d2 nb2] nw2]|e]; reflexivity.
Qed.

Lemma accumulate_alpha (mb : list (example K)) :
  forall (n : Network K) nb nw,
    accumulate (set_alpha n v) nb nw mb
    = match accumulate n nb nw mb with
      | Ok (n1, g) => Ok (set_alpha n1 v, g)
      | Raise e => Raise e
      end.
Proof.
  induction mb as [|[x y] mb IH]; intros n nb nw; [reflexivity|].
  cbn [accumulate]. rewrite backpropagation_alpha.
  destruct (backpropagation n x y) as [[n1 [gb gw]]|e]; [|reflexivity].
  cbn [bind].
  destruct (layers_add nb gb) as [nb'|e]; [|reflexivity]. cbn [bind].
  destruct (layers_add nw gw) as [nw'|e]; [|reflexivity]. cbn [bind].
  apply IH.
Qed.

Lemma update_weights_alpha (n : Network K) (size : nat)
    (wnw : list (mat K * mat K)) :
  update_weights (set_alpha n v) size wnw = update_weights n size wnw.
Proof.
  induction wnw as [|[w nw] wnw IH]; [reflexivity|].
  cbn [update_weights regularization lambda_ eta set_alpha].
  now rewrite IH.
Qed.

Lemma train_batch_alpha (n : Network K) (size : nat) (mb : list (example K)) :
  train_batch (set_alpha n v) size mb
  = match train_batch n size mb with
    | Ok n1 => Ok (set_alpha n1 v)
    | Raise e => Raise e
    end.
Proof.
  unfold train_batch. cbn [biases weights set_alpha].
  destruct (pack (biases n)) as [pb|e]; [|reflexivity]. cbn [bind]. cbv zeta.
  destruct (pack (weights n)) as [pw|e]; [|reflexivity]. cbn [bind].
  rewrite accumulate_alpha.
  destruct (accumulate n (zeros_like (biases n)) (zeros_like (weights n)) mb)
    as [[n1 [nb nw]]|e]; [|reflexivity].
  cbn [bind eta biases weights set_alpha].
  destruct (update_biases (eta n1) (combine (biases n1) nb)) as [bs|e];
    [|reflexivity].
  cbn [bind].
  change (set_params (set_alpha n1 v) bs (weights n1))
    with (set_alpha (set_params n1 bs (weights n1)) v).
  rewrite update_weights_alpha.
  cbn [weights biases set_params set_alpha].
  destruct (update_weights (set_params n1 bs (weights n1)) size
              (combine (weights n1) nw)); reflexivity.
Qed.

Lemma train_batches_alpha (size : nat) (bl : list (list (example K))) :
  forall n : Network K,
    train_batches (set_alpha n v) size bl
    = match train_batches n size bl with
      | Ok n1 => Ok (set_alpha n1 v)
      | Raise e => Raise e
      end.
Proof.
  induction bl as [|mb bl IH]; intros n; [reflexivity|].
  cbn [train_batches]. rewrite train_batch_alpha.
  destruct (train_batch n size mb) as [n1|e]; [|reflexivity].
  cbn [bind]. apply IH.
Qed.

Lemma accuracy_loop_alpha (data : list (example K)) :
  forall (n : Network K) (count : Z),
    accuracy_loop (set_alpha n v) count data
    = match accuracy_loop n count data with
      | Ok (n1, c) => Ok (set_alpha n1 v, c)
      | Raise e => Raise e
      end.
Proof.
  induction data as [|[x y] data IH]; intros n count; [reflexivity|].
  cbn [accuracy_loop].
  destruct (match y with LVec u => np_argmax u | LInt c => Ok c end)
    as [y'|e]; [|reflexivity].
  cbn [bind]. rewrite feedforward_alpha.
  destruct (feedforward n x) as [[n1 out]|e]; [|reflexivity]. cbn [bind].
  destruct (np_argmax out) as [k|e]; [|reflexivity]. cbn [bind].
  apply IH.
Qed.

Lemma eval_accuracy_alpha (n : Network K) (data : list (example K)) :
  eval_accuracy (set_alpha n v) data
  = match eval_accuracy n data with
    | Ok (n1, c) => Ok (set_alpha n1 v, c)
    | Raise e => Raise e
    end.
Proof. apply accuracy_loop_alpha. Qed.

Lemma eval_error_rate_alpha (n : Network K) (data : list (example K)) :
  eval_error_rate (set_alpha n v) data
  = match eval_error_rate n data with
    | Ok (n1, e) => Ok (set_alpha n1 v, e)
    | Raise e => Raise e
    end.
Proof.
  unfold eval_error_rate. rewrite eval_accuracy_alpha.
  destruct (eval_accuracy n data) as [[n1 c]|e]; [|reflexivity]. cbn [bind].
  destruct (ratio c data); reflexivity.
Qed.

Lemma monitor_accuracy_alpha (n : Network K) tr_d va_d (h : history K) :
  monitor_accuracy (set_alpha n v) tr_d va_d h
  = match monitor_accuracy n tr_d va_d h with
    | Ok (n1, h1) => Ok (set_alpha n1 v, h1)
    | Raise e => Raise e
    end.
Proof.
  unfold monitor_accuracy. rewrite eval_accuracy_alpha.
  destruct (eval_accuracy n tr_d) as [[n1 c1]|e]; [|reflexivity]. cbn [bind].
  rewrite eval_accuracy_alpha.
  destruct (eval_accuracy n1 tr_d) as [[n2 c2]|e]; [|reflexivity]. cbn [bind].
  destruct (ratio c2 tr_d) as [r|e]; [|reflexivity]. cbn [bind]. cbv zeta.
  destruct (truthy va_d) as [va|]; [|reflexivity].
  rewrite eval_accuracy_alpha.
  destruct (eval_accuracy n2 va) as [[n3 c3]|e]; [|reflexivity]. cbn [bind].
  rewrite eval_accuracy_alpha.
  destruct (eval_accuracy n3 va) as [[n4 c4]|e]; [|reflexivity]. cbn [bind].
  destruct (ratio c4 va); reflexivity.
Qed.

Lemma monitor_error_alpha (n : Network K) tr_d va_d (h : history K) :
  monitor_error (set_alpha n v) tr_d va_d h
  = match monitor_error n tr_d va_d h with
    | Ok (n1, h1) => Ok (set_alpha n1 v, h1)
    | Raise e => Raise e
    end.
Proof.
  unfold monitor_error. rewrite eval_error_rate_alpha.
  destruct (eval_error_rate n tr_d) as [[n1 c1]|e]; [|reflexivity].
  cbn [bind]. rewrite eval_error_rate_alpha.
  destruct (eval_error_rate n1 tr_d) as [[n2 c2]|e]; [|reflexivity].
  cbn [bind]. cbv zeta.
  destruct (truthy va_d) as [va|]; [|reflexivity].
  rewrite eval_error_rate_alpha.
  destruct (eval_error_rate n2 va) as [[n3 c3]|e]; [|reflexivity].
  cbn [bind]. rewrite eval_error_rate_alpha.
  destruct (eval_error_rate n3 va) as [[n4 c4]|e]; reflexivity.
Qed.

(** a run, with the momentum [v] written into the network it returns *)
Let with_alpha
    (r : result (Network K * list (example K) * py_rng * history K))
  : result (Network K * list (example K) * py_rng * history K) :=
  match r with
  | Ok (n, tr_d, g, h) => Ok (set_alpha n v, tr_d, g, h)
  | Raise e => Raise e
  end.

Lemma train_epoch_alpha (batch_size : Z) va_d monitoring
    (n : Network K) tr_d g (h : history K) :
  train_epoch shuffle batch_size va_d monitoring (set_alpha n v, tr_d, g, h)
  = with_alpha (train_epoch shuffle batch_size va_d monitoring (n, tr_d, g, h)).
Proof.
  unfold train_epoch.
  destruct (shuffle g tr_d) as [tr_d1 g1].
  rewrite train_batches_alpha.
  destruct (train_batches n (length tr_d1) (mini_batches tr_d1 batch_size))
    as [n1|e]; [|reflexivity]. cbn [bind].
  destruct (lookup monitoring "accuracy") as [acc|e]; [|reflexivity].
  cbn [bind].
  assert (A : (if acc then monitor_accuracy (set_alpha n1 v) tr_d1 va_d h
               else Ok (set_alpha n1 v, h))
              = match (if acc then monitor_accuracy n1 tr_d1 va_d h
                       else Ok (n1, h)) with
                | Ok (n', h') => Ok (set_alpha n' v, h')
                | Raise e => Raise e
                end).
  { destruct acc; [apply monitor_accuracy_alpha | reflexivity]. }
  rewrite A.
  destruct (if acc then monitor_accuracy n1 tr_d1 va_d h else Ok (n1, h))
    as [[n2 h2]|e]; [|reflexivity]. cbn [bind].
  destruct (lookup monitoring "error") as [err|e]; [|reflexivity].
  cbn [bind].
  assert (B : (if err then monitor_error (set_alpha n2 v) tr_d1 va_d h2
               else Ok (set_alpha n2 v, h2))
              = match (if err then monitor_error n2 tr_d1 va_d h2
                       else Ok (n2, h2)) with
                | Ok (n', h') => Ok (set_alpha n' v, h')
                | Raise e => Raise e
                end).
  { destruct err; [apply monitor_error_alpha | reflexivity]. }
  rewrite B.
  destruct (if err then monitor_error n2 tr_d1 va_d h2 else Ok (n2, h2))
    as [[n3 h3]|e]; [|reflexivity]. cbn [bind].
  destruct (lookup monitoring "cost") as [cst|e]; reflexivity.
Qed.

Lemma train_epochs_alpha (batch_size : Z) va_d monitoring (epochs : nat) :
  forall (n : Network K) tr_d g (h : history K),
    train_epochs shuffle epochs batch_size va_d monitoring
      (set_alpha n v, tr_d, g, h)
    = with_alpha (train_epochs shuffle epochs batch_size va_d monitoring
                    (n, tr_d, g, h)).
Proof.
  induction epochs as [|e IH]; intros n tr_d g h; [reflexivity|].
  cbn [train_epochs]. rewrite train_epoch_alpha.
  destruct (train_epoch shuffle batch_size va_d monitoring (n, tr_d, g, h))
    as [[[[n1 tr_d1] g1] h1]|err]; [|reflexivity].
  cbn [with_alpha bind]. apply IH.
Qed.

(** X29: the momentum is stored and never read.  A network built with
    another momentum computes the same outputs and gradients, and [train]
    on it takes the same steps: it returns the same weights, biases, cache,
    training list, generator and histories, or fails with the same error. *)
Theorem momentum_is_never_read (n : Network K) :
  (forall X,
     feedforward (set_alpha n v) X
     = match feedforward n X with
       | Ok (n1, out) => Ok (set_alpha n1 v, out)
       | Raise e => Raise e
       end) /\
  (forall X y,
     backpropagation (set_alpha n v) X y
     = match backpropagation n X y with
       | Ok (n1, g) => Ok (set_alpha n1 v, g)
       | Raise e => Raise e
       end) /\
  (forall tr_d epochs batch_size va_d monitoring g,
     train shuffle (set_alpha n v) tr_d epochs batch_size va_d monitoring g
     = match train shuffle n tr_d epochs batch_size va_d monitoring g with
       | Ok (n', tr_d', g', h) => Ok (set_alpha n' v, tr_d', g', h)
       | Raise e => Raise e
       end).
Proof.
  split; [|split].
  - apply feedforward_alpha.
  - apply backpropagation_alpha.
  - intros. unfold train. apply train_epochs_alpha.
Qed.

End Momentum.

(** X28, at a concrete input: one epoch, then two more, on binary64
    floats. *)
Lemma training_can_be_resumed_witness :
  exists n1 tr_d1 g1 h1,
    Lib.train (Lib.net231 Float64) (Lib.xor Float64) 1 2 None
      default_monitoring tt = Ok (n1, tr_d1, g1, h1) /\
    Lib.train (Lib.net231 Float64) (Lib.xor Float64) (1 + 2) 2 None
      default_monitoring tt
    = match Lib.train n1 tr_d1 2 2 None default_monitoring g1 with
      | Ok (n2, tr_d2, g2, h2) => Ok (n2, tr_d2, g2, history_app h1 h2)
      | Raise e => Raise e
      end.
Proof.
  do 4 eexists. split; [vm_compute; reflexivity|].
  eapply (@training_can_be_resumed Float64 unit (@Lib.shuffle Float64)
            (Lib.net231 Float64) (Lib.xor Float64) 1 2 2 None
            default_monitoring tt).
  - lia.
  - lia.
  - vm_compute. reflexivity.
Defined.

End NetResume.
